(** * FrameworkController: the reconciliation engine

    A shallow embedding of [pkg/controller/controller.go] and a verification
    of properties of its scale, completion, retry and deletion logic and of
    the persistence of the status.

    Conventions of the embedding.
    - Go [int32] and [int64] values are [Z]; where the source converts or
      increments an [int32] the wrap-around is written out with [int32].
    - A Go pointer that may be nil is an [option]; slices of pointers are
      lists, indexed with stdpp's lookup, and an out-of-range index or a nil
      dereference is a panic.
    - The controller mutates the Framework it reconciles in place and talks to
      the cluster through clients, listers and a work queue.  Both are
      threaded through a state monad [M] whose result [None] is a Go panic;
      a Go [error] is an ordinary returned value ([option Error]).
    - The cluster (API server, informer caches, wall clock) is abstract: the
      [FrameworkController] record carries its operations over a world state
      of an arbitrary type, so every theorem holds whatever the cluster
      answers.
    - Logging ([klog]) has no effect on the state and is left out.
    - The packages [ci] (pkg/apis/frameworkcontroller/v1), [common] and
      [internal] are not part of the verified file.  What the controller
      needs from them is either modelled from the specification (marked so)
      or kept abstract in the classes [CI], [Common] and [Persistence]. *)

From Stdlib Require Import ZArith Lia Bool.
From stdpp Require Import base option list sets strings numbers sorting pretty gmap.

Local Open Scope Z_scope.

(** ** Data model *)

(** [meta.Time]: an instant on the wall clock, in seconds. *)
Definition Time := Z.
Definition UID := string.

(** Conversion to [int32] with wrap-around. *)
Definition int32 (z : Z) : Z := (z + 2147483648) `mod` 4294967296 - 2147483648.

(** [Before] on [meta.Time] pointers: nil on either side is never before. *)
Definition Before (t u : option Time) : bool :=
  match t, u with
  | Some a, Some b => bool_decide (a < b)
  | _, _ => false
  end.

Inductive ExecutionType := ExecutionStart | ExecutionStop.

Inductive FrameworkState :=
| FrameworkAttemptCreationPending
| FrameworkAttemptCreationRequested
| FrameworkAttemptPreparing
| FrameworkAttemptRunning
| FrameworkAttemptDeletionPending
| FrameworkAttemptDeletionRequested
| FrameworkAttemptDeleting
| FrameworkAttemptCompleted
| FrameworkCompleted.

Inductive TaskState :=
| TaskAttemptCreationPending
| TaskAttemptCreationRequested
| TaskAttemptPreparing
| TaskAttemptRunning
| TaskAttemptDeletionPending
| TaskAttemptDeletionRequested
| TaskAttemptDeleting
| TaskAttemptCompleted
| TaskCompleted.

(** The enumerated completion codes; [CompletionCodePodFailed] stands for the
    codes the podFailureSpec table maps Pod termination signatures to. *)
Inductive CompletionCode :=
| CompletionCodeSucceeded
| CompletionCodePodCreationTimeout
| CompletionCodeConfigMapCreationTimeout
| CompletionCodePodExternalDeleted
| CompletionCodeConfigMapExternalDeleted
| CompletionCodeStopFrameworkRequested
| CompletionCodeDeleteTaskRequested
| CompletionCodeFrameworkAttemptCompletion
| CompletionCodePodSpecPermanentError
| CompletionCodePodFailed (code : Z).

Inductive CompletionType :=
| CompletionTypeTransientConflict
| CompletionTypeTransient
| CompletionTypeNonTransient
| CompletionTypeUnknown.

Inductive PodPhase :=
| PodPending | PodRunning | PodSucceeded | PodFailed | PodUnknown
| PodPhaseOther (phase : string).

#[global] Instance ExecutionType_eq_dec : EqDecision ExecutionType.
Proof. solve_decision. Defined.
#[global] Instance FrameworkState_eq_dec : EqDecision FrameworkState.
Proof. solve_decision. Defined.
#[global] Instance TaskState_eq_dec : EqDecision TaskState.
Proof. solve_decision. Defined.
#[global] Instance CompletionCode_eq_dec : EqDecision CompletionCode.
Proof. solve_decision. Defined.
#[global] Instance CompletionType_eq_dec : EqDecision CompletionType.
Proof. solve_decision. Defined.
#[global] Instance PodPhase_eq_dec : EqDecision PodPhase.
Proof. solve_decision. Defined.

Record CompletionStatus := {
  csCode : CompletionCode;
  csPhrase : string;
  csType : CompletionType;
  csDiagnostics : string;
}.

(** What of a terminated Pod is captured into a completion status. *)
Record PodCompletionStatus := {
  pcsReason : string;
  pcsMessage : string;
}.

Record TaskAttemptCompletionStatus := {
  tacsCompletionStatus : CompletionStatus;
  tacsPod : option PodCompletionStatus;
}.

Record CompletionPolicyTriggerStatus := {
  trigMessage : string;
  trigTaskRoleName : string;
  trigTaskIndex : Z;
}.

Record FrameworkAttemptCompletionStatus := {
  facsCompletionStatus : CompletionStatus;
  facsTrigger : option CompletionPolicyTriggerStatus;
}.

Record RetryPolicySpec := {
  rpFancyRetryPolicy : bool;
  rpMaxRetryCount : Z;
}.

Record RetryPolicyStatus := {
  TotalRetriedCount : Z;
  AccountableRetriedCount : Z;
  RetryDelaySec : option Z;
}.

Record RetryDecision := {
  ShouldRetry : bool;
  IsAccountable : bool;
  DelaySec : Z;
  Reason : string;
}.

Record CompletionPolicySpec := {
  MinFailedTaskCount : Z;
  MinSucceededTaskCount : Z;
}.

Record TaskSpec := {
  tkRetryPolicy : RetryPolicySpec;
  tkPodGracefulDeletionTimeoutSec : option Z;
  tkPod : string;
}.

Record TaskRoleSpec := {
  rsName : string;
  rsTaskNumber : Z;
  rsFrameworkAttemptCompletionPolicy : CompletionPolicySpec;
  rsTask : TaskSpec;
}.

Record FrameworkSpec := {
  spDescription : string;
  spExecutionType : ExecutionType;
  spRetryPolicy : RetryPolicySpec;
  spTaskRoles : list TaskRoleSpec;
}.

Record TaskAttemptStatus := {
  taID : Z;
  taPodUID : option UID;
  taInstanceUID : option (Z * UID);
  taPodNodeName : option string;
  taPodIP : option string;
  taPodHostIP : option string;
  taCompletionStatus : option TaskAttemptCompletionStatus;
}.

Record TaskStatus := {
  tsIndex : Z;
  tsState : TaskState;
  tsTransitionTime : Time;
  tsCompletionTime : option Time;
  tsDeletionPending : bool;
  tsRetryPolicyStatus : RetryPolicyStatus;
  tsAttemptStatus : TaskAttemptStatus;
}.

Record TaskRoleStatus := {
  trName : string;
  trPodGracefulDeletionTimeoutSec : option Z;
  trTaskStatuses : list TaskStatus;
}.

Record FrameworkAttemptStatus := {
  faID : Z;
  faConfigMapUID : option UID;
  faInstanceUID : option (Z * UID);
  faCompletionStatus : option FrameworkAttemptCompletionStatus;
  faTaskRoleStatuses : list TaskRoleStatus;
}.

Record FrameworkStatus := {
  fsState : FrameworkState;
  fsTransitionTime : Time;
  fsRetryPolicyStatus : RetryPolicyStatus;
  fsAttemptStatus : FrameworkAttemptStatus;
}.

Record Framework := {
  fNamespace : string;
  fName : string;
  fUID : UID;
  fDeletionTimestamp : option Time;
  fSpec : FrameworkSpec;
  fStatus : option FrameworkStatus;
}.

#[global] Instance RetryPolicySpec_eq_dec : EqDecision RetryPolicySpec.
Proof. solve_decision. Defined.
#[global] Instance CompletionPolicySpec_eq_dec : EqDecision CompletionPolicySpec.
Proof. solve_decision. Defined.
#[global] Instance TaskSpec_eq_dec : EqDecision TaskSpec.
Proof. solve_decision. Defined.
#[global] Instance TaskRoleSpec_eq_dec : EqDecision TaskRoleSpec.
Proof. solve_decision. Defined.
#[global] Instance FrameworkSpec_eq_dec : EqDecision FrameworkSpec.
Proof. solve_decision. Defined.

(** Objects of the cluster, as far as the controller reads them. *)
Record ConfigMap := {
  cmName : string;
  cmUID : UID;
  cmDeletionTimestamp : option Time;
  cmControllerUID : option UID;
}.

Record Pod := {
  podName : string;
  podUID : UID;
  podDeletionTimestamp : option Time;
  podControllerUID : option UID;
  podNodeName : string;
  podIP : string;
  podHostIP : string;
  podPhase : PodPhase;
}.

(** [meta.DeleteOptions]: the UID precondition, the grace period (zero for a
    forced deletion, absent for the default) and whether the propagation
    policy is Foreground. *)
Record DeleteOptions := {
  doPreconditionUID : UID;
  doGracePeriodSeconds : option Z;
  doForeground : bool;
}.

(** Errors of the API machinery; [apiErrors.IsNotFound] and
    [apiErrors.IsAlreadyExists] look at the status reason. *)
Inductive StatusReason :=
| StatusReasonNotFound | StatusReasonAlreadyExists | StatusReasonOther.

Record ApiError := {
  aeReason : StatusReason;
  aeMessage : string;
}.

Definition IsNotFound (e : ApiError) : bool :=
  match aeReason e with StatusReasonNotFound => true | _ => false end.
Definition IsAlreadyExists (e : ApiError) : bool :=
  match aeReason e with StatusReasonAlreadyExists => true | _ => false end.

(** The errors the controller returns ([fmt.Errorf] and [errorWrap.Wrapf]):
    the place that failed and the error of the API machinery it wraps. *)
Inductive ErrorCause :=
| ErrDelete (cause : ApiError)
| ErrDeleteConfirmGet (cause : ApiError)
| ErrDeleteStillExists (deletionTimestamp : option Time)
| ErrGet (cause : ApiError)
| ErrCreate (cause : ApiError)
| ErrCreateNamingConflict (cause : ApiError) (existing : UID)
| ErrUnrecognizedPodPhase (phase : PodPhase).

(** A Go [error]: one failure, or the aggregate [errorAgg.NewAggregate]
    builds from the failures of the tasks of one sync. *)
Inductive Error :=
| Err (e : ErrorCause)
| ErrAggregate (errs : list ErrorCause).

(** Operations the controller issues on the work queue [fQueue]. *)
Inductive QueueOp :=
| QueueAdd (key : string)
| QueueAddAfter (key : string) (leftDuration : Z).

(** ** The state-and-panic monad

    [M S A] is a computation over a state [S] that returns an [A] or
    panics ([None]). *)

Definition M (S A : Type) : Type := S -> option (A * S).

Definition ret {S A} (a : A) : M S A := fun s => Some (a, s).
Definition bind {S A B} (m : M S A) (k : A -> M S B) : M S B :=
  fun s => match m s with Some (a, s') => k a s' | None => None end.
Definition panic {S A} : M S A := fun _ => None.
Definition gets {S A} (g : S -> A) : M S A := fun s => Some (g s, s).
Definition modify {S} (g : S -> S) : M S unit := fun s => Some (tt, g s).
(** Dereference of a pointer: nil panics. *)
Definition deref {S A} (o : option A) : M S A :=
  match o with Some a => ret a | None => panic end.

Declare Scope ctl_scope.
Delimit Scope ctl_scope with ctl.
Notation "x <- m ;; k" := (bind m (fun x => k))
  (at level 100, m at next level, right associativity) : ctl_scope.
Notation "m ;; k" := (bind m (fun _ => k))
  (at level 100, right associativity) : ctl_scope.
Local Open Scope ctl_scope.

(** A [for] loop over a slice that threads an accumulator. *)
Fixpoint foldM {S A B} (body : B -> A -> M S B) (l : list A) (acc : B) : M S B :=
  match l with
  | [] => ret acc
  | x :: l' => acc' <- body acc x ;; foldM body l' acc'
  end.

(** A [for] loop over a slice, for its effects. *)
Fixpoint forM_ {S A} (body : A -> M S unit) (l : list A) : M S unit :=
  match l with
  | [] => ret tt
  | x :: l' => body x ;; forM_ body l'
  end.

(** The world outside the Framework under reconciliation: the cluster (of
    an abstract type [R]) and the operations issued on the work queue, the
    latest first. *)
Record World (R : Type) := {
  wCluster : R;
  wQueue : list QueueOp;
}.
Arguments wCluster {R} _.
Arguments wQueue {R} _.

(** The state of a sync: the working copy of the Framework and the world. *)
Record St (R : Type) := {
  stF : Framework;
  stW : World R;
}.
Arguments stF {R} _.
Arguments stW {R} _.

Definition liftW {R A} (m : M (World R) A) : M (St R) A :=
  fun s => match m (stW s) with
           | Some (a, w) => Some (a, {| stF := stF s; stW := w |})
           | None => None
           end.

(** A call into the cluster. *)
Definition call {R A} (op : R -> A * R) : M (World R) A :=
  fun w => let (a, r) := op (wCluster w) in
           Some (a, {| wCluster := r; wQueue := wQueue w |}).

Definition queueAdd {R} (key : string) : M (World R) unit :=
  modify (fun w => {| wCluster := wCluster w; wQueue := QueueAdd key :: wQueue w |}).
Definition queueAddAfter {R} (key : string) (leftDuration : Z) : M (World R) unit :=
  modify (fun w => {| wCluster := wCluster w;
                      wQueue := QueueAddAfter key leftDuration :: wQueue w |}).

(** ** Package ci: the helpers of the Framework types

    The controller calls these methods of [ci.Framework], [ci.TaskRoleStatus]
    and [ci.TaskStatus]; their source is not part of the verified file. *)

(** Functions of the packages [ci], [common] and [internal] of which the
    specification fixes no more than the signature. *)
Class CI := {
  (** The phrase and the type the code table records for a code. *)
  CompletionCodeInfo : CompletionCode -> string * CompletionType;
  (** The row of podFailureSpec a failed Pod matches. *)
  MatchCompletionCodeInfos : Pod -> CompletionStatus;
  ExtractPodCompletionStatus : Pod -> option PodCompletionStatus;
  IsPodSpecPermanentError : ApiError -> bool;
  GetPodDeletionStartTime : Pod -> option Time;
  GetConfigMapName : string -> string;
  (** The completion statuses of a FrameworkAttempt a completion policy
      triggers, built from the triggering task, its role and the counts. *)
  NewFailedTaskTriggeredCompletionStatus :
    TaskStatus -> string -> Z -> Z -> FrameworkAttemptCompletionStatus;
  NewSucceededTaskTriggeredCompletionStatus :
    TaskStatus -> string -> Z -> Z -> FrameworkAttemptCompletionStatus;
  NewCompletedTaskTriggeredCompletionStatus :
    option TaskStatus -> string -> Z -> Z -> FrameworkAttemptCompletionStatus;
  (** The task roles a freshly minted FrameworkAttempt starts with. *)
  NewTaskRoleStatuses : FrameworkSpec -> Time -> list TaskRoleStatus;
  (** Rendering of values into diagnostics. *)
  SecToDuration : option Z -> string;
  ToJson : ApiError -> string;
}.

(** Modelled from the spec: the key of a Framework is its namespace and its
    name. *)
Definition Key (f : Framework) : string := fNamespace f +:+ "/" +:+ fName f.

(** Modelled from the spec: a Pod is named
    {FrameworkName}-{TaskRoleName}-{TaskIndex}. *)
Definition GetPodName (frameworkName taskRoleName : string) (taskIndex : Z) : string :=
  frameworkName +:+ "-" +:+ taskRoleName +:+ "-" +:+ pretty taskIndex.

(** Modelled from the spec: "is completing" is being in one of
    AttemptDeletionPending, AttemptDeletionRequested, AttemptDeleting,
    AttemptCompleted. *)
Definition IsCompletingState (s : FrameworkState) : bool :=
  match s with
  | FrameworkAttemptDeletionPending
  | FrameworkAttemptDeletionRequested
  | FrameworkAttemptDeleting
  | FrameworkAttemptCompleted => true
  | _ => false
  end.

(** Modelled from the spec: a completion status of a code carries the code,
    the phrase and type of the code, and the diagnostics. *)
Definition NewCompletionStatus `{CI} (code : CompletionCode) (diag : string) : CompletionStatus :=
  {| csCode := code;
     csPhrase := fst (CompletionCodeInfo code);
     csType := snd (CompletionCodeInfo code);
     csDiagnostics := diag |}.

Definition NewTaskAttemptCompletionStatus `{CI} (code : CompletionCode) (diag : string)
    (pod : option PodCompletionStatus) : TaskAttemptCompletionStatus :=
  {| tacsCompletionStatus := NewCompletionStatus code diag; tacsPod := pod |}.

Definition NewFrameworkAttemptCompletionStatus `{CI} (code : CompletionCode) (diag : string)
    (trigger : option CompletionPolicyTriggerStatus) : FrameworkAttemptCompletionStatus :=
  {| facsCompletionStatus := NewCompletionStatus code diag; facsTrigger := trigger |}.

(** *** Field updates *)

Definition withStatus (f : Framework) (st : FrameworkStatus) : Framework :=
  {| fNamespace := fNamespace f; fName := fName f; fUID := fUID f;
     fDeletionTimestamp := fDeletionTimestamp f; fSpec := fSpec f;
     fStatus := Some st |}.

Definition fsWithState (state : FrameworkState) (now : Time) (st : FrameworkStatus) : FrameworkStatus :=
  {| fsState := state; fsTransitionTime := now;
     fsRetryPolicyStatus := fsRetryPolicyStatus st;
     fsAttemptStatus := fsAttemptStatus st |}.

Definition fsWithRetryPolicyStatus (rps : RetryPolicyStatus) (st : FrameworkStatus) : FrameworkStatus :=
  {| fsState := fsState st; fsTransitionTime := fsTransitionTime st;
     fsRetryPolicyStatus := rps;
     fsAttemptStatus := fsAttemptStatus st |}.

Definition fsWithAttemptStatus (fa : FrameworkAttemptStatus) (st : FrameworkStatus) : FrameworkStatus :=
  {| fsState := fsState st; fsTransitionTime := fsTransitionTime st;
     fsRetryPolicyStatus := fsRetryPolicyStatus st;
     fsAttemptStatus := fa |}.

Definition faWithCompletionStatus (cs : option FrameworkAttemptCompletionStatus)
    (fa : FrameworkAttemptStatus) : FrameworkAttemptStatus :=
  {| faID := faID fa; faConfigMapUID := faConfigMapUID fa;
     faInstanceUID := faInstanceUID fa; faCompletionStatus := cs;
     faTaskRoleStatuses := faTaskRoleStatuses fa |}.

Definition faWithConfigMap (uid : option UID) (instance : option (Z * UID))
    (fa : FrameworkAttemptStatus) : FrameworkAttemptStatus :=
  {| faID := faID fa; faConfigMapUID := uid;
     faInstanceUID := instance; faCompletionStatus := faCompletionStatus fa;
     faTaskRoleStatuses := faTaskRoleStatuses fa |}.

Definition faWithTaskRoleStatuses (l : list TaskRoleStatus)
    (fa : FrameworkAttemptStatus) : FrameworkAttemptStatus :=
  {| faID := faID fa; faConfigMapUID := faConfigMapUID fa;
     faInstanceUID := faInstanceUID fa; faCompletionStatus := faCompletionStatus fa;
     faTaskRoleStatuses := l |}.

Definition trWithTaskStatuses (l : list TaskStatus) (trs : TaskRoleStatus) : TaskRoleStatus :=
  {| trName := trName trs;
     trPodGracefulDeletionTimeoutSec := trPodGracefulDeletionTimeoutSec trs;
     trTaskStatuses := l |}.

Definition tsWithState (state : TaskState) (now : Time) (completion : option Time)
    (ts : TaskStatus) : TaskStatus :=
  {| tsIndex := tsIndex ts; tsState := state; tsTransitionTime := now;
     tsCompletionTime := completion;
     tsDeletionPending := tsDeletionPending ts;
     tsRetryPolicyStatus := tsRetryPolicyStatus ts;
     tsAttemptStatus := tsAttemptStatus ts |}.

Definition tsWithDeletionPending (b : bool) (ts : TaskStatus) : TaskStatus :=
  {| tsIndex := tsIndex ts; tsState := tsState ts;
     tsTransitionTime := tsTransitionTime ts;
     tsCompletionTime := tsCompletionTime ts;
     tsDeletionPending := b;
     tsRetryPolicyStatus := tsRetryPolicyStatus ts;
     tsAttemptStatus := tsAttemptStatus ts |}.

Definition tsWithRetryPolicyStatus (rps : RetryPolicyStatus) (ts : TaskStatus) : TaskStatus :=
  {| tsIndex := tsIndex ts; tsState := tsState ts;
     tsTransitionTime := tsTransitionTime ts;
     tsCompletionTime := tsCompletionTime ts;
     tsDeletionPending := tsDeletionPending ts;
     tsRetryPolicyStatus := rps;
     tsAttemptStatus := tsAttemptStatus ts |}.

Definition tsWithAttemptStatus (ta : TaskAttemptStatus) (ts : TaskStatus) : TaskStatus :=
  {| tsIndex := tsIndex ts; tsState := tsState ts;
     tsTransitionTime := tsTransitionTime ts;
     tsCompletionTime := tsCompletionTime ts;
     tsDeletionPending := tsDeletionPending ts;
     tsRetryPolicyStatus := tsRetryPolicyStatus ts;
     tsAttemptStatus := ta |}.

Definition taWithCompletionStatus (cs : option TaskAttemptCompletionStatus)
    (ta : TaskAttemptStatus) : TaskAttemptStatus :=
  {| taID := taID ta; taPodUID := taPodUID ta; taInstanceUID := taInstanceUID ta;
     taPodNodeName := taPodNodeName ta; taPodIP := taPodIP ta;
     taPodHostIP := taPodHostIP ta; taCompletionStatus := cs |}.

Definition taWithPod (uid : option UID) (instance : option (Z * UID))
    (ta : TaskAttemptStatus) : TaskAttemptStatus :=
  {| taID := taID ta; taPodUID := uid; taInstanceUID := instance;
     taPodNodeName := taPodNodeName ta; taPodIP := taPodIP ta;
     taPodHostIP := taPodHostIP ta; taCompletionStatus := taCompletionStatus ta |}.

Definition taWithPodInfo (node ip hostIP : option string)
    (ta : TaskAttemptStatus) : TaskAttemptStatus :=
  {| taID := taID ta; taPodUID := taPodUID ta; taInstanceUID := taInstanceUID ta;
     taPodNodeName := node; taPodIP := ip;
     taPodHostIP := hostIP; taCompletionStatus := taCompletionStatus ta |}.

Definition rpsWithRetryDelaySec (d : option Z) (rps : RetryPolicyStatus) : RetryPolicyStatus :=
  {| TotalRetriedCount := TotalRetriedCount rps;
     AccountableRetriedCount := AccountableRetriedCount rps;
     RetryDelaySec := d |}.

(** The task's own completion status, [taskStatus.AttemptStatus.CompletionStatus]. *)
Definition tsCompletionStatus (ts : TaskStatus) : option TaskAttemptCompletionStatus :=
  taCompletionStatus (tsAttemptStatus ts).

Definition tsSetCompletionStatus (cs : option TaskAttemptCompletionStatus)
    (ts : TaskStatus) : TaskStatus :=
  tsWithAttemptStatus (taWithCompletionStatus cs (tsAttemptStatus ts)) ts.

(** *** Lookups *)

Definition TaskRoleStatuses (st : FrameworkStatus) : list TaskRoleStatus :=
  faTaskRoleStatuses (fsAttemptStatus st).

Definition fsWithTaskRoleStatuses (l : list TaskRoleStatus) (st : FrameworkStatus) : FrameworkStatus :=
  fsWithAttemptStatus (faWithTaskRoleStatuses l (fsAttemptStatus st)) st.

(** Modelled from the spec: the status of a role is looked up by the name of
    the role; the first entry of that name is the one found. *)
Definition findTaskRoleStatus (taskRoleName : string) (l : list TaskRoleStatus)
    : option (nat * TaskRoleStatus) :=
  list_find (fun trs => trName trs = taskRoleName) l.

Definition GetTaskRoleStatus (st : FrameworkStatus) (taskRoleName : string) : option TaskRoleStatus :=
  snd <$> findTaskRoleStatus taskRoleName (TaskRoleStatuses st).

(** Modelled from the spec: the spec of a role is looked up by its name. *)
Definition GetTaskRoleSpec (spec : FrameworkSpec) (taskRoleName : string) : option TaskRoleSpec :=
  snd <$> list_find (fun rs => rsName rs = taskRoleName) (spTaskRoles spec).

(** Indexing of a slice of tasks by an [int32]: out of range there is none. *)
Definition taskAt (l : list TaskStatus) (taskIndex : Z) : option TaskStatus :=
  if bool_decide (0 ≤ taskIndex) then l !! Z.to_nat taskIndex else None.

(** Modelled from the spec: [f.TaskStatus(taskRoleName, taskIndex)] is the
    task at that index of the role of that name. *)
Definition GetTaskStatus (st : FrameworkStatus) (taskRoleName : string) (taskIndex : Z)
    : option TaskStatus :=
  trs ← GetTaskRoleStatus st taskRoleName; taskAt (trTaskStatuses trs) taskIndex.

(** The update of the role a pointer got by name points to. *)
Definition alterTaskRoleStatus (taskRoleName : string) (g : TaskRoleStatus -> TaskRoleStatus)
    (l : list TaskRoleStatus) : list TaskRoleStatus :=
  match findTaskRoleStatus taskRoleName l with
  | Some (i, _) => alter g i l
  | None => l
  end.

Definition alterTaskAt (taskIndex : Z) (g : TaskStatus -> TaskStatus)
    (l : list TaskStatus) : list TaskStatus :=
  if bool_decide (0 ≤ taskIndex) then alter g (Z.to_nat taskIndex) l else l.

(** The update of the task a pointer got by role name and index points to. *)
Definition alterTaskStatus (taskRoleName : string) (taskIndex : Z) (g : TaskStatus -> TaskStatus)
    (st : FrameworkStatus) : FrameworkStatus :=
  fsWithTaskRoleStatuses
    (alterTaskRoleStatus taskRoleName
       (fun trs => trWithTaskStatuses (alterTaskAt taskIndex g (trTaskStatuses trs)) trs)
       (TaskRoleStatuses st))
    st.

(** The update of the task at position [j] of the role at position [i], as a
    [range] loop over the roles and their tasks reaches it. *)
Definition alterTaskPos (i j : nat) (g : TaskStatus -> TaskStatus)
    (st : FrameworkStatus) : FrameworkStatus :=
  fsWithTaskRoleStatuses
    (alter (fun trs => trWithTaskStatuses (alter g j (trTaskStatuses trs)) trs) i
       (TaskRoleStatuses st))
    st.

(** *** Construction and transitions *)

(** Modelled from the spec: a fresh task attempt carries its id and nothing
    else. *)
Definition NewTaskAttemptStatus (taskAttemptID : Z) : TaskAttemptStatus :=
  {| taID := taskAttemptID; taPodUID := None; taInstanceUID := None;
     taPodNodeName := None; taPodIP := None; taPodHostIP := None;
     taCompletionStatus := None |}.

(** Modelled from the spec: a new task slot is a [TaskAttemptCreationPending]
    task of that index, not deletion pending, never retried. *)
Definition NewTaskStatus (taskIndex : Z) (now : Time) : TaskStatus :=
  {| tsIndex := taskIndex; tsState := TaskAttemptCreationPending;
     tsTransitionTime := now; tsCompletionTime := None;
     tsDeletionPending := false;
     tsRetryPolicyStatus :=
       {| TotalRetriedCount := 0; AccountableRetriedCount := 0; RetryDelaySec := None |};
     tsAttemptStatus := NewTaskAttemptStatus 0 |}.

(** Modelled from the spec: a fresh FrameworkAttempt carries its id, no
    ConfigMap and no completion status. *)
Definition NewFrameworkAttemptStatus `{CI} (spec : FrameworkSpec) (frameworkAttemptID : Z)
    (now : Time) : FrameworkAttemptStatus :=
  {| faID := frameworkAttemptID; faConfigMapUID := None; faInstanceUID := None;
     faCompletionStatus := None;
     faTaskRoleStatuses := NewTaskRoleStatuses spec now |}.

(** Modelled from the spec: [MarkAsDeletionPending] sets the flag and tells
    whether the flag is new. *)
Definition MarkAsDeletionPending (ts : TaskStatus) : TaskStatus * bool :=
  if tsDeletionPending ts then (ts, false) else (tsWithDeletionPending true ts, true).

(** Modelled from the spec: a transition sets the state and the transition
    time. *)
Definition TransitionFrameworkState (dstState : FrameworkState) (now : Time)
    (st : FrameworkStatus) : FrameworkStatus :=
  fsWithState dstState now st.

(** Modelled from the spec: a transition of a task sets the state and the
    transition time; the completion time of a task is the instant it becomes
    [TaskCompleted]. *)
Definition TransitionTaskState (dstState : TaskState) (now : Time) (ts : TaskStatus) : TaskStatus :=
  tsWithState dstState now
    (if bool_decide (dstState = TaskCompleted) then Some now else tsCompletionTime ts) ts.

(** *** Selectors and counts *)

(** Modelled from the spec and the comments of the source: with
    [ignoreDeletionPending] a deletion-pending task counts as not completed,
    so that a scaled-down task never triggers a completion. *)
Definition IsCompleted (ts : TaskStatus) (ignoreDeletionPending : bool) : bool :=
  if tsDeletionPending ts && ignoreDeletionPending then false
  else bool_decide (tsState ts = TaskCompleted).

Definition IsSucceeded (ts : TaskStatus) (ignoreDeletionPending : bool) : bool :=
  IsCompleted ts ignoreDeletionPending &&
  match tsCompletionStatus ts with
  | Some cs => bool_decide (csCode (tacsCompletionStatus cs) = CompletionCodeSucceeded)
  | None => false
  end.

Definition IsFailed (ts : TaskStatus) (ignoreDeletionPending : bool) : bool :=
  IsCompleted ts ignoreDeletionPending &&
  match tsCompletionStatus ts with
  | Some cs => negb (bool_decide (csCode (tacsCompletionStatus cs) = CompletionCodeSucceeded))
  | None => false
  end.

Definition TaskStatusSelector := TaskStatus -> bool.

Definition BindIDP (selector : TaskStatus -> bool -> bool) (ignoreDeletionPending : bool)
    : TaskStatusSelector :=
  fun ts => selector ts ignoreDeletionPending.

Definition GetTaskStatuses (trs : TaskRoleStatus) (selector : TaskStatusSelector) : list TaskStatus :=
  List.filter selector (trTaskStatuses trs).

(** Modelled from the spec: the count of the selected tasks of a role. *)
Definition GetTaskCountStatus (trs : TaskRoleStatus) (selector : TaskStatusSelector) : Z :=
  int32 (Z.of_nat (length (GetTaskStatuses trs selector))).

(** Modelled from the spec: the count of the selected tasks of all roles of
    the status. *)
Definition GetFrameworkTaskCountStatus (st : FrameworkStatus) (selector : TaskStatusSelector) : Z :=
  int32 (foldr Z.add 0
    ((fun trs => Z.of_nat (length (GetTaskStatuses trs selector))) <$> TaskRoleStatuses st)).

(** Modelled from the spec: the total task count declared in the spec. *)
Definition GetTotalTaskCountSpec (spec : FrameworkSpec) : Z :=
  int32 (foldr Z.add 0 (rsTaskNumber <$> spTaskRoles spec)).

(** The order of completion: a task without completion time comes first. *)
Definition CompletionTimeLe (a b : TaskStatus) : Prop :=
  match tsCompletionTime a, tsCompletionTime b with
  | None, _ => True
  | Some _, None => False
  | Some x, Some y => x ≤ y
  end.

#[global] Instance CompletionTimeLe_dec : RelDecision CompletionTimeLe.
Proof.
  intros a b. unfold CompletionTimeLe.
  destruct (tsCompletionTime a), (tsCompletionTime b); apply _.
Defined.

(** Modelled from the spec: the selected tasks of the role in the order of
    their completion, earliest first; [index] picks the ([index]+1)-th. *)
Definition CompletionTimeOrderedTaskStatus (trs : TaskRoleStatus)
    (selector : TaskStatusSelector) (index : Z) : option TaskStatus :=
  taskAt (merge_sort CompletionTimeLe (GetTaskStatuses trs selector)) index.

(** *** Timeouts *)

(** Modelled from the spec: left = (startTime + timeoutSec) − now. *)
Definition CurrentLeftDuration (startTime : Time) (timeoutSec : Z) (now : Time) : Z :=
  (startTime + timeoutSec) - now.

(** Modelled from the spec: timed out when left ≤ 0. *)
Definition IsTimeout (leftDuration : Z) : bool := bool_decide (leftDuration ≤ 0).

(** [meta.IsControlledBy]: the controller reference of the object names the
    UID of the owner. *)
Definition IsControlledBy (controllerUID : option UID) (ownerUID : UID) : bool :=
  match controllerUID with
  | Some uid => bool_decide (uid = ownerUID)
  | None => false
  end.

(** Functions of the packages [ci] and [common] that the first sync of a
    status and the update of the graceful deletion timeouts call; the
    specification fixes no more than their signature. *)
Class Common := {
  (** [f.NewFrameworkStatus()]: the status a Framework starts with, as of
      the given time. *)
  NewFrameworkStatus : Framework -> Time -> FrameworkStatus;
  (** [common.EqualsPtrInt64] and [common.DeepCopyInt64], on pointers to an
      [int64]. *)
  EqualsPtrInt64 : option Z -> option Z -> bool;
  DeepCopyInt64 : option Z -> option Z;
}.

(** Modelled from the spec: compaction replaces within the in-spec index
    range, [common.MinInt32] of the two counts. *)
Definition MinInt32 (a b : Z) : Z := Z.min a b.

Definition trWithPodGracefulDeletionTimeoutSec (sec : option Z) (trs : TaskRoleStatus)
    : TaskRoleStatus :=
  {| trName := trName trs;
     trPodGracefulDeletionTimeoutSec := sec;
     trTaskStatuses := trTaskStatuses trs |}.

(** ** The expected status and its persistence *)

(** [ExpectedFrameworkStatusInfo]: the status the remote and the local cache
    are expected to hold, the UID of the Framework it belongs to, and
    whether the remote is known to hold it. *)
Record ExpectedFrameworkStatusInfo := {
  esStatus : option FrameworkStatus;
  esUID : UID;
  esRemoteSynced : bool;
}.

(** The failures of [updateRemoteFrameworkStatus]: the error the remote
    answered to the Update, and the failures to resolve a conflict on the
    object of the local cache. *)
Inductive UpdateFailure :=
| UpdRemote (cause : ApiError)
| UpdNotFoundInCache (cause : ApiError)
| UpdGetFromCache (cause : ApiError)
| UpdUIDMismatch (current cached : UID).

(** The failures [syncFramework] returns: the Framework cannot be got from
    the local cache, the expected status cannot be written to the remote,
    the status cannot be decompressed, the sync of the status failed. *)
Inductive SyncFailure :=
| FailGet (cause : ApiError)
| FailUpdate (e : UpdateFailure)
| FailDecompress (cause : string)
| FailSync (e : Error).

(** A Go [error] of [syncFramework]: one failure, or the aggregate of the
    failures of the sync and of the update that follows it. *)
Inductive SyncError :=
| SyncErr (e : SyncFailure)
| SyncErrAggregate (errs : list SyncFailure).

(** Functions of the package [ci] and of the API machinery that the
    persistence of the status calls; the specification fixes no more than
    their signature.  [Compress] and [Decompress] work on the Framework
    they are called on and return an error or nil. *)
Class Persistence := {
  SplitFrameworkKey : string -> string * string;
  Compress : Framework -> Framework * option string;
  Decompress : Framework -> Framework * option string;
  (** [apiErrors.IsConflict]. *)
  IsConflict : ApiError -> bool;
}.

(** What [syncFramework] needs of the controller beyond the clients of the
    state machines: the lister of the Frameworks, the Update of the
    Framework client, the number of steps of [retry.DefaultRetry], and the
    configuration [largeFrameworkCompression], a pointer. *)
Record PersistenceClients (R : Type) := {
  fLister_Get : string -> string -> R -> (ApiError + Framework) * R;
  fClient_Frameworks_Update : string -> Framework -> R -> option ApiError * R;
  DefaultRetrySteps : nat;
  LargeFrameworkCompression : option bool;
}.
Arguments fLister_Get {R} _ _ _ _.
Arguments fClient_Frameworks_Update {R} _ _ _ _.
Arguments DefaultRetrySteps {R} _.
Arguments LargeFrameworkCompression {R} _.

(** What a worker works on: the world and the store [fExpectedStatusInfos],
    from the key of a Framework to its expected status. *)
Record Ctl (R : Type) := {
  ctlW : World R;
  fExpectedStatusInfos : gmap string ExpectedFrameworkStatusInfo;
}.
Arguments ctlW {R} _.
Arguments fExpectedStatusInfos {R} _.

(** [f.Status = status], for a pointer. *)
Definition withStatusPtr (f : Framework) (st : option FrameworkStatus) : Framework :=
  {| fNamespace := fNamespace f; fName := fName f; fUID := fUID f;
     fDeletionTimestamp := fDeletionTimestamp f; fSpec := fSpec f;
     fStatus := st |}.

#[global] Instance CompletionStatus_eq_dec : EqDecision CompletionStatus.
Proof. solve_decision. Defined.
#[global] Instance PodCompletionStatus_eq_dec : EqDecision PodCompletionStatus.
Proof. solve_decision. Defined.
#[global] Instance TaskAttemptCompletionStatus_eq_dec :
  EqDecision TaskAttemptCompletionStatus.
Proof. solve_decision. Defined.
#[global] Instance CompletionPolicyTriggerStatus_eq_dec :
  EqDecision CompletionPolicyTriggerStatus.
Proof. solve_decision. Defined.
#[global] Instance FrameworkAttemptCompletionStatus_eq_dec :
  EqDecision FrameworkAttemptCompletionStatus.
Proof. solve_decision. Defined.
#[global] Instance RetryPolicyStatus_eq_dec : EqDecision RetryPolicyStatus.
Proof. solve_decision. Defined.
#[global] Instance TaskAttemptStatus_eq_dec : EqDecision TaskAttemptStatus.
Proof. solve_decision. Defined.
#[global] Instance TaskStatus_eq_dec : EqDecision TaskStatus.
Proof. solve_decision. Defined.
#[global] Instance TaskRoleStatus_eq_dec : EqDecision TaskRoleStatus.
Proof. solve_decision. Defined.
#[global] Instance FrameworkAttemptStatus_eq_dec : EqDecision FrameworkAttemptStatus.
Proof. solve_decision. Defined.
#[global] Instance FrameworkStatus_eq_dec : EqDecision FrameworkStatus.
Proof. solve_decision. Defined.

(** ** The controller *)

(** The options of [ci.Config] the controller reads; all are pointers. *)
Record Config := {
  FrameworkCompletedRetainSec : option Z;
  ObjectLocalCacheCreationTimeoutSec : option Z;
  FrameworkMinRetryDelaySecForTransientConflictFailed : option Z;
  FrameworkMaxRetryDelaySecForTransientConflictFailed : option Z;
}.

(** [FrameworkController]: the configuration, and the clients ([kClient],
    [fClient]: the remote API server) and listers ([podLister], [cmLister]:
    the local cache of the informers) as operations on the cluster.  The
    cluster also holds the wall clock and the randomness the retry policy
    draws its delay from.  The Framework key queue [fQueue] is the log
    [wQueue] of the world. *)
Record FrameworkController (R : Type) := {
  cConfig : Config;
  clockNow : R -> Time;
  kClient_Pods_Create : string -> Pod -> R -> (ApiError + Pod) * R;
  kClient_Pods_Get : string -> string -> R -> (ApiError + Pod) * R;
  kClient_Pods_Delete : string -> string -> DeleteOptions -> R -> option ApiError * R;
  kClient_ConfigMaps_Create : string -> ConfigMap -> R -> (ApiError + ConfigMap) * R;
  kClient_ConfigMaps_Get : string -> string -> R -> (ApiError + ConfigMap) * R;
  kClient_ConfigMaps_Delete : string -> string -> DeleteOptions -> R -> option ApiError * R;
  fClient_Frameworks_Get : string -> string -> R -> (ApiError + Framework) * R;
  fClient_Frameworks_Delete : string -> string -> DeleteOptions -> R -> option ApiError * R;
  podLister_Get : string -> string -> R -> (ApiError + Pod) * R;
  cmLister_Get : string -> string -> R -> (ApiError + ConfigMap) * R;
  (** [RetryPolicySpec.ShouldRetry] of package ci. *)
  RetryPolicy_ShouldRetry :
    RetryPolicySpec -> RetryPolicyStatus -> CompletionStatus -> Z -> Z -> R -> RetryDecision * R;
}.
Arguments cConfig {R} _.
Arguments clockNow {R} _ _.
Arguments kClient_Pods_Create {R} _ _ _ _.
Arguments kClient_Pods_Get {R} _ _ _ _.
Arguments kClient_Pods_Delete {R} _ _ _ _ _.
Arguments kClient_ConfigMaps_Create {R} _ _ _ _.
Arguments kClient_ConfigMaps_Get {R} _ _ _ _.
Arguments kClient_ConfigMaps_Delete {R} _ _ _ _ _.
Arguments fClient_Frameworks_Get {R} _ _ _ _.
Arguments fClient_Frameworks_Delete {R} _ _ _ _ _.
Arguments podLister_Get {R} _ _ _ _.
Arguments cmLister_Get {R} _ _ _ _.
Arguments RetryPolicy_ShouldRetry {R} _ _ _ _ _ _ _.

Section Controller.
Context {HCI : CI} {R : Type}.
Implicit Type c : FrameworkController R.

(** *** Access to the Framework under reconciliation *)

Definition now c : M (St R) Time :=
  gets (fun s => clockNow c (wCluster (stW s))).

(** [f.Status]; nil panics. *)
Definition status : M (St R) FrameworkStatus :=
  f <- gets stF ;; deref (fStatus f).

Definition modifyStatus (g : FrameworkStatus -> FrameworkStatus) : M (St R) unit :=
  st <- status ;;
  modify (fun s => {| stF := withStatus (stF s) (g st); stW := stW s |}).

(** [f.TaskRoleStatus(taskRoleName)]; panics when there is none. *)
Definition TaskRoleStatus_ (taskRoleName : string) : M (St R) TaskRoleStatus :=
  st <- status ;; deref (GetTaskRoleStatus st taskRoleName).

(** [f.TaskStatus(taskRoleName, taskIndex)]; panics when there is none. *)
Definition TaskStatus_ (taskRoleName : string) (taskIndex : Z) : M (St R) TaskStatus :=
  st <- status ;; deref (GetTaskStatus st taskRoleName taskIndex).

(** A write through the pointer [f.TaskStatus(taskRoleName, taskIndex)]. *)
Definition modifyTask (taskRoleName : string) (taskIndex : Z)
    (g : TaskStatus -> TaskStatus) : M (St R) unit :=
  TaskStatus_ taskRoleName taskIndex ;;
  modifyStatus (alterTaskStatus taskRoleName taskIndex g).

(** The task a [range] loop holds at position [j] of the role at position
    [i], and a write through that pointer. *)
Definition taskPos (i j : nat) : M (St R) TaskStatus :=
  st <- status ;;
  trs <- deref (TaskRoleStatuses st !! i) ;;
  deref (trTaskStatuses trs !! j).

Definition modifyTaskPos (i j : nat) (g : TaskStatus -> TaskStatus) : M (St R) unit :=
  taskPos i j ;;
  modifyStatus (alterTaskPos i j g).

(** [for _, taskRoleStatus := range f.TaskRoleStatuses()] with, inside,
    [for _, taskStatus := range taskRoleStatus.TaskStatuses]: the body gets
    the positions of the role and of the task and the name of the role. *)
Definition rangeTasks (body : nat -> nat -> string -> M (St R) unit) : M (St R) unit :=
  st <- status ;;
  forM_ (fun i =>
           st' <- status ;;
           taskRoleStatus <- deref (TaskRoleStatuses st' !! i) ;;
           forM_ (fun j => body i j (trName taskRoleStatus))
                 (seq 0 (length (trTaskStatuses taskRoleStatus))))
        (seq 0 (length (TaskRoleStatuses st))).

Definition IsCompleting : M (St R) bool :=
  st <- status ;; ret (IsCompletingState (fsState st)).

Definition TransitionFrameworkState_ c (dstState : FrameworkState) : M (St R) unit :=
  t <- now c ;;
  modifyStatus (TransitionFrameworkState dstState t).

Definition TransitionTaskState_ c (taskRoleName : string) (taskIndex : Z)
    (dstState : TaskState) : M (St R) unit :=
  t <- now c ;;
  modifyTask taskRoleName taskIndex (TransitionTaskState dstState t).

(** *** Event handlers of the Framework informer *)

Definition enqueueFrameworkObj c (f : Framework) : M (World R) unit :=
  queueAdd (Key f).

Definition addFrameworkObj c (obj : Framework) : M (World R) unit :=
  enqueueFrameworkObj c obj.

Definition deleteFrameworkObj c (obj : Framework) : M (World R) unit :=
  enqueueFrameworkObj c obj.

(** [reflect.DeepEqual] on the specs is their structural equality. *)
Definition updateFrameworkObj c (oldObj newObj : Framework) : M (World R) unit :=
  if negb (bool_decide (fUID oldObj = fUID newObj)) then
    deleteFrameworkObj c oldObj ;;
    addFrameworkObj c newObj
  else if negb (bool_decide (fSpec oldObj = fSpec newObj)) then
    enqueueFrameworkObj c newObj
  else ret tt.

(** *** Timeout checks *)

(** [timeoutSec] is a pointer; [common.CurrentLeftDuration] reads through
    it. *)
Definition enqueueFrameworkTimeoutCheck c (startTime : Time) (timeoutSec : option Z)
    (failIfTimeout : bool) : M (St R) bool :=
  f <- gets stF ;;
  t <- now c ;;
  sec <- deref timeoutSec ;;
  let leftDuration := CurrentLeftDuration startTime sec t in
  if IsTimeout leftDuration && failIfTimeout then ret false
  else
    liftW (queueAddAfter (Key f) leftDuration) ;;
    ret true.

Definition enqueueFrameworkCompletedRetainTimeoutCheck c (failIfTimeout : bool) : M (St R) bool :=
  st <- status ;;
  if negb (bool_decide (fsState st = FrameworkCompleted)) then ret false
  else enqueueFrameworkTimeoutCheck c (fsTransitionTime st)
         (FrameworkCompletedRetainSec (cConfig c)) failIfTimeout.

Definition enqueueFrameworkAttemptCreationTimeoutCheck c (failIfTimeout : bool) : M (St R) bool :=
  st <- status ;;
  if negb (bool_decide (fsState st = FrameworkAttemptCreationRequested)) then ret false
  else enqueueFrameworkTimeoutCheck c (fsTransitionTime st)
         (ObjectLocalCacheCreationTimeoutSec (cConfig c)) failIfTimeout.

Definition enqueueTaskAttemptCreationTimeoutCheck c (taskRoleName : string) (taskIndex : Z)
    (failIfTimeout : bool) : M (St R) bool :=
  taskStatus <- TaskStatus_ taskRoleName taskIndex ;;
  if negb (bool_decide (tsState taskStatus = TaskAttemptCreationRequested)) then ret false
  else enqueueFrameworkTimeoutCheck c (tsTransitionTime taskStatus)
         (ObjectLocalCacheCreationTimeoutSec (cConfig c)) failIfTimeout.

Definition enqueueFrameworkRetryDelayTimeoutCheck c (failIfTimeout : bool) : M (St R) bool :=
  st <- status ;;
  if negb (bool_decide (fsState st = FrameworkAttemptCompleted)) then ret false
  else enqueueFrameworkTimeoutCheck c (fsTransitionTime st)
         (RetryDelaySec (fsRetryPolicyStatus st)) failIfTimeout.

Definition enqueueTaskRetryDelayTimeoutCheck c (taskRoleName : string) (taskIndex : Z)
    (failIfTimeout : bool) : M (St R) bool :=
  taskStatus <- TaskStatus_ taskRoleName taskIndex ;;
  if negb (bool_decide (tsState taskStatus = TaskAttemptCompleted)) then ret false
  else enqueueFrameworkTimeoutCheck c (tsTransitionTime taskStatus)
         (RetryDelaySec (tsRetryPolicyStatus taskStatus)) failIfTimeout.

Definition enqueuePodGracefulDeletionTimeoutCheck c (timeoutSec : option Z)
    (failIfTimeout : bool) (pod : Pod) : M (St R) bool :=
  match podDeletionTimestamp pod with
  | None => ret false
  | Some _ =>
      startTime <- deref (GetPodDeletionStartTime pod) ;;
      enqueueFrameworkTimeoutCheck c startTime timeoutSec failIfTimeout
  end.

Definition enqueueFrameworkSync c : M (St R) unit :=
  f <- gets stF ;;
  liftW (queueAdd (Key f)).

(** *** syncFrameworkScale *)

(** ScaleUp: [for taskIndex := from; taskIndex < taskCountSpec; taskIndex++]
    appends a new task and sets the flag. *)
Definition scaleUpTasks (from taskCountSpec : Z) (t : Time)
    (tasks : list TaskStatus) (produced : bool) : list TaskStatus * bool :=
  foldl (fun acc taskIndex => (acc.1 ++ [NewTaskStatus taskIndex t], true))
        (tasks, produced) (seqZ from (taskCountSpec - from)).

(** ScaleDown: [for taskIndex := taskCountStatus - 1; taskIndex >= lowest;
    taskIndex--] marks the task at [taskIndex] as deletion pending; an index
    outside of the slice panics. *)
Definition markDeletionPendingStep (acc : option (list TaskStatus * bool)) (taskIndex : Z)
    : option (list TaskStatus * bool) :=
  a ← acc;
  taskStatus ← taskAt a.1 taskIndex;
  let r := MarkAsDeletionPending taskStatus in
  Some (alterTaskAt taskIndex (fun _ => r.1) a.1, if r.2 then true else a.2).

Definition scaleDownTasks (taskCountStatus lowest : Z)
    (tasks : list TaskStatus) (produced : bool) : option (list TaskStatus * bool) :=
  foldl markDeletionPendingStep (Some (tasks, produced))
        (reverse (seqZ lowest (taskCountStatus - lowest))).

(** The body of the loop over [f.Spec.TaskRoles]. *)
Definition syncTaskRoleSpecScale c (producedNewPendingTask : bool)
    (taskRoleSpec : TaskRoleSpec) : M (St R) bool :=
  let taskRoleName := rsName taskRoleSpec in
  let taskCountSpec := rsTaskNumber taskRoleSpec in
  st <- status ;;
  t <- now c ;;
  match GetTaskRoleStatus st taskRoleName with
  | None =>
      let r := scaleUpTasks 0 taskCountSpec t [] producedNewPendingTask in
      let trs := {| trName := taskRoleName;
                    trPodGracefulDeletionTimeoutSec := None;
                    trTaskStatuses := r.1 |} in
      modifyStatus (fsWithTaskRoleStatuses (TaskRoleStatuses st ++ [trs])) ;;
      ret r.2
  | Some taskRoleStatus =>
      let taskCountStatus := int32 (Z.of_nat (length (trTaskStatuses taskRoleStatus))) in
      if bool_decide (taskCountStatus < taskCountSpec) then
        let r := scaleUpTasks taskCountStatus taskCountSpec t
                   (trTaskStatuses taskRoleStatus) producedNewPendingTask in
        modifyStatus (fsWithTaskRoleStatuses
          (alterTaskRoleStatus taskRoleName (trWithTaskStatuses r.1) (TaskRoleStatuses st))) ;;
        ret r.2
      else if bool_decide (taskCountStatus > taskCountSpec) then
        r <- deref (scaleDownTasks taskCountStatus taskCountSpec
                      (trTaskStatuses taskRoleStatus) producedNewPendingTask) ;;
        modifyStatus (fsWithTaskRoleStatuses
          (alterTaskRoleStatus taskRoleName (trWithTaskStatuses r.1) (TaskRoleStatuses st))) ;;
        ret r.2
      else ret producedNewPendingTask
  end.

(** The body of the loop over [f.TaskRoleStatuses()], at position [i]. *)
Definition syncTaskRoleStatusScale c (spec : FrameworkSpec) (producedNewPendingTask : bool)
    (i : nat) : M (St R) bool :=
  st <- status ;;
  taskRoleStatus <- deref (TaskRoleStatuses st !! i) ;;
  let taskRoleName := trName taskRoleStatus in
  let taskCountStatus := int32 (Z.of_nat (length (trTaskStatuses taskRoleStatus))) in
  match GetTaskRoleSpec spec taskRoleName with
  | None =>
      r <- deref (scaleDownTasks taskCountStatus 0
                    (trTaskStatuses taskRoleStatus) producedNewPendingTask) ;;
      modifyStatus (fsWithTaskRoleStatuses
        (alter (trWithTaskStatuses r.1) i (TaskRoleStatuses st))) ;;
      ret r.2
  | Some _ => ret producedNewPendingTask
  end.

Definition syncFrameworkScale c : M (St R) bool :=
  f <- gets stF ;;
  st <- status ;;
  if IsCompletingState (fsState st)
     || bool_decide (fsState st = FrameworkAttemptCompleted)
     || bool_decide (fsState st = FrameworkCompleted)
  then ret false
  else
    produced <- foldM (syncTaskRoleSpecScale c) (spTaskRoles (fSpec f)) false ;;
    st' <- status ;;
    foldM (syncTaskRoleStatusScale c (fSpec f))
          (seq 0 (length (TaskRoleStatuses st'))) produced.

(** *** completeTaskAttempt and completeFrameworkAttempt *)

Definition completeTaskAttempt c (taskRoleName : string) (taskIndex : Z) (force : bool)
    (completionStatus : option TaskAttemptCompletionStatus) : M (St R) unit :=
  taskStatus <- TaskStatus_ taskRoleName taskIndex ;;
  (* CompletionStatus should be immutable after set. *)
  match tsCompletionStatus taskStatus with
  | None => modifyTask taskRoleName taskIndex (tsSetCompletionStatus completionStatus)
  | Some _ => ret tt
  end ;;
  if force then
    TransitionTaskState_ c taskRoleName taskIndex TaskAttemptCompleted ;;
    enqueueFrameworkSync c
  else
    TransitionTaskState_ c taskRoleName taskIndex TaskAttemptDeletionPending ;;
    enqueueFrameworkSync c.

Definition DefaultTaskAttemptCompletionStatus : TaskAttemptCompletionStatus :=
  NewTaskAttemptCompletionStatus CompletionCodeFrameworkAttemptCompletion
    "Stop to complete current FrameworkAttempt" None.

Definition completeFrameworkAttempt c (force : bool)
    (completionStatus : option FrameworkAttemptCompletionStatus) : M (St R) unit :=
  st <- status ;;
  (* CompletionStatus should be immutable after set. *)
  match faCompletionStatus (fsAttemptStatus st) with
  | None =>
      modifyStatus (fun st =>
        fsWithAttemptStatus (faWithCompletionStatus completionStatus (fsAttemptStatus st)) st)
  | Some _ => ret tt
  end ;;
  rangeTasks (fun i j _ =>
    taskStatus <- taskPos i j ;;
    match tsCompletionStatus taskStatus with
    | None =>
        modifyTaskPos i j (tsSetCompletionStatus (Some DefaultTaskAttemptCompletionStatus))
    | Some _ => ret tt
    end) ;;
  if force then
    rangeTasks (fun i j taskRoleName =>
      taskStatus <- taskPos i j ;;
      let taskIndex := tsIndex taskStatus in
      if negb (bool_decide (tsState taskStatus = TaskCompleted)) then
        (if negb (bool_decide (tsState taskStatus = TaskAttemptCompleted)) then
           completeTaskAttempt c taskRoleName taskIndex true None
         else ret tt) ;;
        modifyTaskPos i j (fun ts =>
          tsWithRetryPolicyStatus (rpsWithRetryDelaySec None (tsRetryPolicyStatus ts)) ts) ;;
        TransitionTaskState_ c taskRoleName taskIndex TaskCompleted
      else ret tt) ;;
    TransitionFrameworkState_ c FrameworkAttemptCompleted ;;
    enqueueFrameworkSync c
  else
    TransitionFrameworkState_ c FrameworkAttemptDeletionPending ;;
    enqueueFrameworkSync c.

(** *** syncFrameworkAttemptCompletionPolicy *)

Definition failedTaskSelector : TaskStatusSelector := BindIDP IsFailed true.
Definition succeededTaskSelector : TaskStatusSelector := BindIDP IsSucceeded true.
Definition completedTaskSelector : TaskStatusSelector := BindIDP IsCompleted true.

(** The pair [firstTriggerTime], [firstTriggerCompletionStatus]. *)
Definition FirstTrigger : Type := option Time * option FrameworkAttemptCompletionStatus.

(** One threshold of one role: the task count of [selector] against
    [minTaskCount]. *)
Definition syncTaskRoleTrigger (taskRoleStatus : TaskRoleStatus) (taskRoleName : string)
    (selector : TaskStatusSelector) (minTaskCount : Z)
    (newStatus : TaskStatus -> string -> Z -> Z -> FrameworkAttemptCompletionStatus)
    (first : FirstTrigger) : M (St R) FirstTrigger :=
  if bool_decide (minTaskCount >= 1) then
    let taskCount := GetTaskCountStatus taskRoleStatus selector in
    if bool_decide (taskCount >= minTaskCount) then
      trigger <- deref (CompletionTimeOrderedTaskStatus taskRoleStatus selector
                          (int32 (minTaskCount - 1))) ;;
      if match first.1 with None => true | Some _ => false end
         || Before (tsCompletionTime trigger) first.1
      then ret (tsCompletionTime trigger,
                Some (newStatus trigger taskRoleName taskCount minTaskCount))
      else ret first
    else ret first
  else ret first.

(** The body of the first loop over [f.Spec.TaskRoles]. *)
Definition syncTaskRoleCompletionPolicy (st : FrameworkStatus) (first : FirstTrigger)
    (taskRoleSpec : TaskRoleSpec) : M (St R) FirstTrigger :=
  let taskRoleName := rsName taskRoleSpec in
  match GetTaskRoleStatus st taskRoleName with
  | None => ret first
  | Some taskRoleStatus =>
      let completionPolicy := rsFrameworkAttemptCompletionPolicy taskRoleSpec in
      let minFailedTaskCount := MinFailedTaskCount completionPolicy in
      let minSucceededTaskCount := MinSucceededTaskCount completionPolicy in
      first' <- syncTaskRoleTrigger taskRoleStatus taskRoleName failedTaskSelector
                  minFailedTaskCount NewFailedTaskTriggeredCompletionStatus first ;;
      syncTaskRoleTrigger taskRoleStatus taskRoleName succeededTaskSelector
        minSucceededTaskCount NewSucceededTaskTriggeredCompletionStatus first'
  end.

(** The pair [lastCompletedTaskStatus], [lastCompletedTaskRoleName]. *)
Definition LastCompleted : Type := option TaskStatus * string.

(** The body of the second loop over [f.Spec.TaskRoles]. *)
Definition syncTaskRoleLastCompleted (st : FrameworkStatus) (last : LastCompleted)
    (taskRoleSpec : TaskRoleSpec) : M (St R) LastCompleted :=
  let taskRoleName := rsName taskRoleSpec in
  match GetTaskRoleStatus st taskRoleName with
  | None => ret last
  | Some taskRoleStatus =>
      let roleTotalTaskCount := rsTaskNumber taskRoleSpec in
      if bool_decide (roleTotalTaskCount = 0) then ret last
      else
        roleLastCompletedTask <-
          deref (CompletionTimeOrderedTaskStatus taskRoleStatus completedTaskSelector
                   (int32 (roleTotalTaskCount - 1))) ;;
        match last.1 with
        | None => ret (Some roleLastCompletedTask, taskRoleName)
        | Some lastCompletedTaskStatus =>
            roleTime <- deref (tsCompletionTime roleLastCompletedTask) ;;
            lastTime <- deref (tsCompletionTime lastCompletedTaskStatus) ;;
            if bool_decide (roleTime > lastTime)
            then ret (Some roleLastCompletedTask, taskRoleName)
            else ret last
        end
  end.

Definition syncFrameworkAttemptCompletionPolicy c : M (St R) bool :=
  f <- gets stF ;;
  st <- status ;;
  first <- foldM (syncTaskRoleCompletionPolicy st) (spTaskRoles (fSpec f)) (None, None) ;;
  match first.2 with
  | Some firstTriggerCompletionStatus =>
      completeFrameworkAttempt c false (Some firstTriggerCompletionStatus) ;;
      ret true
  | None =>
      let totalTaskCount := GetTotalTaskCountSpec (fSpec f) in
      let completedTaskCount := GetFrameworkTaskCountStatus st completedTaskSelector in
      if bool_decide (completedTaskCount >= totalTaskCount) then
        last <- foldM (syncTaskRoleLastCompleted st) (spTaskRoles (fSpec f)) (None, "") ;;
        completeFrameworkAttempt c false
          (Some (NewCompletedTaskTriggeredCompletionStatus last.1 last.2
                   completedTaskCount totalTaskCount)) ;;
        ret true
      else ret false
  end.

(** *** Deletion of Frameworks, ConfigMaps and Pods *)

(** The common tail of the delete functions: what becomes of the answer to
    the confirming Get. *)
Definition confirmDeleted {A} (uid : UID) (getUID : A -> UID)
    (getDeletionTimestamp : A -> option Time) (got : ApiError + A) : option Error :=
  match got with
  | inl getErr =>
      if negb (IsNotFound getErr) then Some (Err (ErrDeleteConfirmGet getErr)) else None
  | inr obj =>
      if bool_decide (uid = getUID obj)
      then Some (Err (ErrDeleteStillExists (getDeletionTimestamp obj)))
      else None
  end.

Definition deleteFramework c (confirm : bool) : M (St R) (option Error) :=
  f <- gets stF ;;
  deleteErr <- liftW (call (fClient_Frameworks_Delete c (fNamespace f) (fName f)
                 {| doPreconditionUID := fUID f;
                    doGracePeriodSeconds := None;
                    doForeground := true |})) ;;
  match deleteErr with
  | Some e =>
      if negb (IsNotFound e) then ret (Some (Err (ErrDelete e))) else ret None
  | None =>
      if confirm then
        (* Confirm it is deleted instead of still deleting. *)
        got <- liftW (call (fClient_Frameworks_Get c (fNamespace f) (fName f))) ;;
        ret (confirmDeleted (fUID f) fUID fDeletionTimestamp got)
      else ret None
  end.

Definition ConfigMapName (f : Framework) : string := GetConfigMapName (fName f).

Definition deleteConfigMap c (cmUID_ : UID) (confirm : bool) : M (St R) (option Error) :=
  f <- gets stF ;;
  let cmName_ := ConfigMapName f in
  deleteErr <- liftW (call (kClient_ConfigMaps_Delete c (fNamespace f) cmName_
                 {| doPreconditionUID := cmUID_;
                    doGracePeriodSeconds := None;
                    doForeground := false |})) ;;
  match deleteErr with
  | Some e =>
      if negb (IsNotFound e) then ret (Some (Err (ErrDelete e))) else ret None
  | None =>
      if confirm then
        got <- liftW (call (kClient_ConfigMaps_Get c (fNamespace f) cmName_)) ;;
        ret (confirmDeleted cmUID_ cmUID cmDeletionTimestamp got)
      else ret None
  end.

(** [f.TaskStatus(taskRoleName, taskIndex).PodName()]. *)
Definition PodName_ (taskRoleName : string) (taskIndex : Z) : M (St R) string :=
  f <- gets stF ;;
  taskStatus <- TaskStatus_ taskRoleName taskIndex ;;
  ret (GetPodName (fName f) taskRoleName (tsIndex taskStatus)).

Definition deletePod c (taskRoleName : string) (taskIndex : Z) (podUID_ : UID)
    (confirm force : bool) : M (St R) (option Error) :=
  f <- gets stF ;;
  podName_ <- PodName_ taskRoleName taskIndex ;;
  let deleteOptions :=
    {| doPreconditionUID := podUID_;
       doGracePeriodSeconds := if force then Some 0 else None;
       doForeground := false |} in
  deleteErr <- liftW (call (kClient_Pods_Delete c (fNamespace f) podName_ deleteOptions)) ;;
  match deleteErr with
  | Some e =>
      if negb (IsNotFound e) then ret (Some (Err (ErrDelete e))) else ret None
  | None =>
      if confirm then
        got <- liftW (call (kClient_Pods_Get c (fNamespace f) podName_)) ;;
        ret (confirmDeleted podUID_ podUID podDeletionTimestamp got)
      else ret None
  end.

(** *** ConfigMaps *)

(** [meta.IsControlledBy(obj, owner)] with an owner that may be nil: the
    owner is only read when the object has a controller reference. *)
Definition isControlledBy (controllerUID : option UID) (ownerUID : option UID) : M (St R) bool :=
  match controllerUID with
  | None => ret false
  | Some uid => owner <- deref ownerUID ;; ret (bool_decide (uid = owner))
  end.

Definition getOrCleanupConfigMap c (confirm : bool) : M (St R) (option ConfigMap * option Error) :=
  f <- gets stF ;;
  st <- status ;;
  let cmName_ := ConfigMapName f in
  got <- (if confirm
          then liftW (call (kClient_ConfigMaps_Get c (fNamespace f) cmName_))
          else liftW (call (cmLister_Get c (fNamespace f) cmName_))) ;;
  match got with
  | inl err =>
      if IsNotFound err then ret (None, None)
      else ret (None, Some (Err (ErrGet err)))
  | inr cm =>
      if match faConfigMapUID (fsAttemptStatus st) with
         | None => true
         | Some uid => negb (bool_decide (uid = cmUID cm))
         end
      then
        (* cm is the unmanaged *)
        if IsControlledBy (cmControllerUID cm) (fUID f) then
          err <- deleteConfigMap c (cmUID cm) confirm ;;
          ret (None, err)
        else ret (None, None)
      else
        (* cm is the managed *)
        ret (Some cm, None)
  end.

(** Modelled from the spec: the ConfigMap of an attempt has the name derived
    from the Framework and an owner reference back to the Framework. *)
Definition NewConfigMap (f : Framework) : ConfigMap :=
  {| cmName := ConfigMapName f; cmUID := ""; cmDeletionTimestamp := None;
     cmControllerUID := Some (fUID f) |}.

Definition createConfigMap c : M (St R) (option ConfigMap * option Error) :=
  f <- gets stF ;;
  let cm := NewConfigMap f in
  created <- liftW (call (kClient_ConfigMaps_Create c (fNamespace f) cm)) ;;
  match created with
  | inl createErr =>
      if IsAlreadyExists createErr then
        (* Best effort to judge if conflict with a not controlled object. *)
        got <- liftW (call (cmLister_Get c (fNamespace f) (cmName cm))) ;;
        match got with
        | inr localCM =>
            if negb (IsControlledBy (cmControllerUID localCM) (fUID f))
            then ret (None, Some (Err (ErrCreateNamingConflict createErr (cmUID localCM))))
            else ret (None, Some (Err (ErrCreate createErr)))
        | inl _ => ret (None, Some (Err (ErrCreate createErr)))
        end
      else ret (None, Some (Err (ErrCreate createErr)))
  | inr remoteCM => ret (Some remoteCM, None)
  end.

(** *** Pods *)

Definition handlePodGracefulDeletion c (taskRoleName : string) (taskIndex : Z)
    (pod : Pod) : M (St R) (option Error) :=
  taskRoleStatus <- TaskRoleStatus_ taskRoleName ;;
  let timeoutSec := trPodGracefulDeletionTimeoutSec taskRoleStatus in
  match podDeletionTimestamp pod with
  | None => ret None
  | Some _ =>
      match timeoutSec with
      | None => ret None
      | Some _ =>
          waiting <- enqueuePodGracefulDeletionTimeoutCheck c timeoutSec true pod ;;
          if waiting then ret None
          else
            (* Always confirm the force deletion. *)
            deletePod c taskRoleName taskIndex (podUID pod) true true
      end
  end.

Definition getOrCleanupPod c (cm : option ConfigMap) (taskRoleName : string) (taskIndex : Z)
    (confirm : bool) : M (St R) (option Pod * option Error) :=
  f <- gets stF ;;
  taskStatus <- TaskStatus_ taskRoleName taskIndex ;;
  let podName_ := GetPodName (fName f) taskRoleName (tsIndex taskStatus) in
  got <- (if confirm
          then liftW (call (kClient_Pods_Get c (fNamespace f) podName_))
          else liftW (call (podLister_Get c (fNamespace f) podName_))) ;;
  match got with
  | inl err =>
      if IsNotFound err then ret (None, None)
      else ret (None, Some (Err (ErrGet err)))
  | inr pod =>
      if match taPodUID (tsAttemptStatus taskStatus) with
         | None => true
         | Some uid => negb (bool_decide (uid = podUID pod))
         end
      then
        (* pod is the unmanaged *)
        controlled <- isControlledBy (podControllerUID pod) (cmUID <$> cm) ;;
        if controlled then
          graceErr <- match podDeletionTimestamp pod with
                      | Some _ => handlePodGracefulDeletion c taskRoleName taskIndex pod
                      | None => ret None
                      end ;;
          match graceErr with
          | Some e => ret (None, Some e)
          | None =>
              err <- deletePod c taskRoleName taskIndex (podUID pod) confirm false ;;
              ret (None, err)
          end
        else ret (None, None)
      else
        (* pod is the managed *)
        ret (Some pod, None)
  end.

(** Modelled from the spec: the Pod of a task attempt has the name of the
    task and an owner reference back to the ConfigMap of the attempt. *)
Definition NewPod (f : Framework) (cm : ConfigMap) (taskRoleName : string)
    (taskStatus : TaskStatus) : Pod :=
  {| podName := GetPodName (fName f) taskRoleName (tsIndex taskStatus);
     podUID := ""; podDeletionTimestamp := None;
     podControllerUID := Some (cmUID cm);
     podNodeName := ""; podIP := ""; podHostIP := "";
     podPhase := PodPending |}.

Definition createPod c (cm : option ConfigMap) (taskRoleName : string) (taskIndex : Z)
    : M (St R) (option Pod * option Error) :=
  f <- gets stF ;;
  taskStatus <- TaskStatus_ taskRoleName taskIndex ;;
  owner <- deref cm ;;
  let pod := NewPod f owner taskRoleName taskStatus in
  created <- liftW (call (kClient_Pods_Create c (fNamespace f) pod)) ;;
  match created with
  | inl createErr =>
      if IsAlreadyExists createErr then
        got <- liftW (call (podLister_Get c (fNamespace f) (podName pod))) ;;
        match got with
        | inr localPod =>
            if negb (IsControlledBy (podControllerUID localPod) (cmUID owner))
            then ret (None, Some (Err (ErrCreateNamingConflict createErr (podUID localPod))))
            else ret (None, Some (Err (ErrCreate createErr)))
        | inl _ => ret (None, Some (Err (ErrCreate createErr)))
        end
      else ret (None, Some (Err (ErrCreate createErr)))
  | inr remotePod => ret (Some remotePod, None)
  end.

(** [errorWrap.Cause]: the error of the API machinery under a create error. *)
Definition Cause (e : Error) : option ApiError :=
  match e with
  | Err (ErrCreate cause) | Err (ErrCreateNamingConflict cause _) => Some cause
  | _ => None
  end.

(** *** syncTaskState *)

Definition DiagDeleteTaskRequested : string :=
  "User has requested to delete the Task by Framework ScaleDown".

(** The part of [syncTaskState] on a task whose Pod is not in the local
    cache. *)
Definition syncTaskStatePodAbsent c (taskRoleName : string) (taskIndex : Z)
    (continue : M (St R) (option Error)) : M (St R) (option Error) :=
  taskStatus <- TaskStatus_ taskRoleName taskIndex ;;
  if bool_decide (tsState taskStatus = TaskAttemptCreationRequested) then
    decided <-
      (if tsDeletionPending taskStatus then
         ret (Some (DiagDeleteTaskRequested, CompletionCodeDeleteTaskRequested))
       else
         waiting <- enqueueTaskAttemptCreationTimeoutCheck c taskRoleName taskIndex true ;;
         if waiting then ret None
         else ret (Some
           ("Pod does not appear in the local cache within timeout " +:+
              SecToDuration (ObjectLocalCacheCreationTimeoutSec (cConfig c)) +:+
              ", so consider it was deleted and explicitly delete it",
            CompletionCodePodCreationTimeout))) ;;
    match decided with
    | None => ret None
    | Some (diag, code) =>
        (* Ensure pod is deleted in remote to avoid managed pod leak after
           TaskAttemptCompleted. *)
        uid <- deref (taPodUID (tsAttemptStatus taskStatus)) ;;
        err <- deletePod c taskRoleName taskIndex uid true false ;;
        match err with
        | Some e => ret (Some e)
        | None =>
            completeTaskAttempt c taskRoleName taskIndex true
              (Some (NewTaskAttemptCompletionStatus code diag None)) ;;
            ret None
        end
    end
  else if negb (bool_decide (tsState taskStatus = TaskAttemptCreationPending)) then
    match tsCompletionStatus taskStatus with
    | None =>
        completeTaskAttempt c taskRoleName taskIndex true
          (Some (NewTaskAttemptCompletionStatus CompletionCodePodExternalDeleted
                   "Pod was deleted by others" None)) ;;
        ret None
    | Some _ =>
        completeTaskAttempt c taskRoleName taskIndex true None ;;
        ret None
    end
  else continue.

(** The part of [syncTaskState] on a task whose managed Pod is in the local
    cache. *)
Definition syncTaskStatePodPresent c (taskRoleName : string) (taskIndex : Z) (pod : Pod)
    (continue : M (St R) (option Error)) : M (St R) (option Error) :=
  match podDeletionTimestamp pod with
  | None =>
      taskStatus <- TaskStatus_ taskRoleName taskIndex ;;
      deleteErr <-
        (if bool_decide (tsState taskStatus = TaskAttemptDeletionPending) then
           (* The CompletionStatus has been persisted, so it is safe to delete
              the pod now. *)
           uid <- deref (taPodUID (tsAttemptStatus taskStatus)) ;;
           err <- deletePod c taskRoleName taskIndex uid false false ;;
           match err with
           | Some e => ret (Some e)
           | None =>
               TransitionTaskState_ c taskRoleName taskIndex TaskAttemptDeletionRequested ;;
               ret None
           end
         else ret None) ;;
      match deleteErr with
      | Some e => ret (Some e)
      | None =>
          taskStatus <- TaskStatus_ taskRoleName taskIndex ;;
          if bool_decide (tsState taskStatus = TaskAttemptDeletionRequested) then ret None
          else
            (if bool_decide (tsState taskStatus = TaskAttemptCreationRequested) then
               TransitionTaskState_ c taskRoleName taskIndex TaskAttemptPreparing
             else ret tt) ;;
            modifyTask taskRoleName taskIndex (fun ts =>
              tsWithAttemptStatus
                (taWithPodInfo (Some (podNodeName pod)) (Some (podIP pod))
                   (Some (podHostIP pod)) (tsAttemptStatus ts)) ts) ;;
            match podPhase pod with
            | PodUnknown => continue
            | PodPending =>
                TransitionTaskState_ c taskRoleName taskIndex TaskAttemptPreparing ;;
                continue
            | PodRunning =>
                TransitionTaskState_ c taskRoleName taskIndex TaskAttemptRunning ;;
                continue
            | PodSucceeded =>
                completeTaskAttempt c taskRoleName taskIndex false
                  (Some (NewTaskAttemptCompletionStatus CompletionCodeSucceeded
                           "Pod succeeded" (ExtractPodCompletionStatus pod))) ;;
                ret None
            | PodFailed =>
                let result := MatchCompletionCodeInfos pod in
                let diag := "Pod failed: " +:+ csDiagnostics result in
                completeTaskAttempt c taskRoleName taskIndex false
                  (Some {| tacsCompletionStatus :=
                             {| csCode := csCode result; csPhrase := csPhrase result;
                                csType := csType result; csDiagnostics := diag |};
                           tacsPod := ExtractPodCompletionStatus pod |}) ;;
                ret None
            | PodPhaseOther _ =>
                ret (Some (Err (ErrUnrecognizedPodPhase (podPhase pod))))
            end
      end
  | Some _ =>
      taskStatus <- TaskStatus_ taskRoleName taskIndex ;;
      match tsCompletionStatus taskStatus with
      | None =>
          modifyTask taskRoleName taskIndex
            (tsSetCompletionStatus
               (Some (NewTaskAttemptCompletionStatus CompletionCodePodExternalDeleted
                        "Pod is being deleted by others" None)))
      | Some _ => ret tt
      end ;;
      TransitionTaskState_ c taskRoleName taskIndex TaskAttemptDeleting ;;
      handlePodGracefulDeletion c taskRoleName taskIndex pod
  end.

(** attemptToRetryTask: the part of [syncTaskState] on a task in
    [TaskAttemptCompleted]. *)
Definition syncTaskStateAttemptCompleted c (taskRoleSpec : option TaskRoleSpec)
    (taskRoleName : string) (taskIndex : Z)
    (continue : M (St R) (option Error)) : M (St R) (option Error) :=
  taskStatus <- TaskStatus_ taskRoleName taskIndex ;;
  retryDecision <-
    match taskRoleSpec with
    | None =>
        ret {| ShouldRetry := false; IsAccountable := true; DelaySec := 0;
               Reason := "TaskRoleSpec is already deleted" |}
    | Some rs =>
        cs <- deref (tsCompletionStatus taskStatus) ;;
        liftW (call (RetryPolicy_ShouldRetry c (tkRetryPolicy (rsTask rs))
                       (tsRetryPolicyStatus taskStatus) (tacsCompletionStatus cs) 0 0))
    end ;;
  (match RetryDelaySec (tsRetryPolicyStatus taskStatus) with
   | None =>
       (* RetryTask is not yet scheduled, so need to be decided. *)
       if ShouldRetry retryDecision then
         modifyTask taskRoleName taskIndex (fun ts =>
           tsWithRetryPolicyStatus
             (rpsWithRetryDelaySec (Some (DelaySec retryDecision)) (tsRetryPolicyStatus ts)) ts)
       else
         TransitionTaskState_ c taskRoleName taskIndex TaskCompleted
   | Some _ => ret tt
   end) ;;
  taskStatus <- TaskStatus_ taskRoleName taskIndex ;;
  match RetryDelaySec (tsRetryPolicyStatus taskStatus) with
  | Some _ =>
      (* RetryTask is already scheduled, so just need to check whether it
         should be executed now. *)
      waiting <-
        (if tsDeletionPending taskStatus then ret false
         else enqueueTaskRetryDelayTimeoutCheck c taskRoleName taskIndex true) ;;
      if waiting then ret None
      else
        (* retryTask *)
        modifyTask taskRoleName taskIndex (fun ts =>
          let rps := tsRetryPolicyStatus ts in
          let total := int32 (TotalRetriedCount rps + 1) in
          tsWithAttemptStatus (NewTaskAttemptStatus total)
            (tsWithRetryPolicyStatus
               {| TotalRetriedCount := total;
                  AccountableRetriedCount :=
                    if IsAccountable retryDecision
                    then int32 (AccountableRetriedCount rps + 1)
                    else AccountableRetriedCount rps;
                  RetryDelaySec := None |} ts)) ;;
        TransitionTaskState_ c taskRoleName taskIndex TaskAttemptCreationPending ;;
        enqueueFrameworkSync c ;;
        ret None
  | None => continue
  end.

(** createTaskAttempt: the part of [syncTaskState] on a task in
    [TaskAttemptCreationPending]. *)
Definition syncTaskStateCreationPending c (cm : option ConfigMap)
    (taskRoleSpec : option TaskRoleSpec) (taskRoleName : string) (taskIndex : Z)
    : M (St R) (option Error) :=
  completing <- IsCompleting ;;
  if completing then ret None
  else
    taskStatus <- TaskStatus_ taskRoleName taskIndex ;;
    if tsDeletionPending taskStatus
       || match taskRoleSpec with None => true | Some _ => false end
    then
      (* Ensure pod is deleted in remote to avoid managed pod leak after
         TaskAttemptCompleted. *)
      cleaned <- getOrCleanupPod c cm taskRoleName taskIndex true ;;
      match cleaned.2 with
      | Some e => ret (Some e)
      | None =>
          completeTaskAttempt c taskRoleName taskIndex true
            (Some (NewTaskAttemptCompletionStatus CompletionCodeDeleteTaskRequested
                     DiagDeleteTaskRequested None)) ;;
          ret None
      end
    else
      created <- createPod c cm taskRoleName taskIndex ;;
      match created with
      | (_, Some err) =>
          match Cause err with
          | Some apiErr =>
              if IsPodSpecPermanentError apiErr then
                (* Should be Framework Error instead of Platform Transient
                   Error. *)
                cleaned <- getOrCleanupPod c cm taskRoleName taskIndex true ;;
                match cleaned.2 with
                | Some e => ret (Some e)
                | None =>
                    completeTaskAttempt c taskRoleName taskIndex true
                      (Some (NewTaskAttemptCompletionStatus
                               CompletionCodePodSpecPermanentError
                               ("Failed to create Pod: " +:+ ToJson apiErr) None)) ;;
                    ret None
                end
              else ret (Some err)
          | None => ret (Some err)
          end
      | (pod, None) =>
          pod <- deref pod ;;
          modifyTask taskRoleName taskIndex (fun ts =>
            tsWithAttemptStatus
              (taWithPod (Some (podUID pod)) (Some (taID (tsAttemptStatus ts), podUID pod))
                 (tsAttemptStatus ts)) ts) ;;
          TransitionTaskState_ c taskRoleName taskIndex TaskAttemptCreationRequested ;;
          enqueueTaskAttemptCreationTimeoutCheck c taskRoleName taskIndex false ;;
          ret None
      end.

(** attemptToCompleteFrameworkAttempt: the part of [syncTaskState] on a task
    in [TaskCompleted]. *)
Definition syncTaskStateCompleted c (taskRoleSpec : option TaskRoleSpec)
    (taskRoleName : string) (taskIndex : Z) : M (St R) (option Error) :=
  completing <- IsCompleting ;;
  if completing then ret None
  else
    f <- gets stF ;;
    st <- status ;;
    taskStatus <- TaskStatus_ taskRoleName taskIndex ;;
    taskRoleStatus <- TaskRoleStatus_ taskRoleName ;;
    match taskRoleSpec with
    | None => enqueueFrameworkSync c ;; ret None
    | Some rs =>
        if tsDeletionPending taskStatus then enqueueFrameworkSync c ;; ret None
        else
          let completionPolicy := rsFrameworkAttemptCompletionPolicy rs in
          let minFailedTaskCount := MinFailedTaskCount completionPolicy in
          let minSucceededTaskCount := MinSucceededTaskCount completionPolicy in
          let failedTaskCount := GetTaskCountStatus taskRoleStatus failedTaskSelector in
          let succeededTaskCount := GetTaskCountStatus taskRoleStatus succeededTaskSelector in
          let failedTrigger :=
            if IsFailed taskStatus true && bool_decide (minFailedTaskCount >= 1)
               && bool_decide (failedTaskCount >= minFailedTaskCount)
            then Some (NewFailedTaskTriggeredCompletionStatus
                         taskStatus taskRoleName failedTaskCount minFailedTaskCount)
            else None in
          let triggerCompletionStatus :=
            if IsSucceeded taskStatus true && bool_decide (minSucceededTaskCount >= 1)
               && bool_decide (succeededTaskCount >= minSucceededTaskCount)
            then Some (NewSucceededTaskTriggeredCompletionStatus
                         taskStatus taskRoleName succeededTaskCount minSucceededTaskCount)
            else failedTrigger in
          match triggerCompletionStatus with
          | Some cs => completeFrameworkAttempt c false (Some cs) ;; ret None
          | None =>
              let totalTaskCount := GetTotalTaskCountSpec (fSpec f) in
              let completedTaskCount :=
                GetFrameworkTaskCountStatus st completedTaskSelector in
              if bool_decide (completedTaskCount >= totalTaskCount) then
                completeFrameworkAttempt c false
                  (Some (NewCompletedTaskTriggeredCompletionStatus
                           (Some taskStatus) taskRoleName
                           completedTaskCount totalTaskCount)) ;;
                ret None
              else ret None
          end
    end.

Definition syncTaskState c (cm : option ConfigMap) (taskRoleName : string) (taskIndex : Z)
    : M (St R) (option Error) :=
  f <- gets stF ;;
  let taskRoleSpec := GetTaskRoleSpec (fSpec f) taskRoleName in
  TaskRoleStatus_ taskRoleName ;;
  taskStatus <- TaskStatus_ taskRoleName taskIndex ;;
  if bool_decide (tsState taskStatus = TaskCompleted) then ret None
  else
    (* what follows the sync against the Pod *)
    let afterPod : M (St R) (option Error) :=
      taskStatus <- TaskStatus_ taskRoleName taskIndex ;;
      if bool_decide (tsState taskStatus = TaskAttemptPreparing)
         || bool_decide (tsState taskStatus = TaskAttemptRunning)
      then
        (if tsDeletionPending taskStatus then
           completeTaskAttempt c taskRoleName taskIndex false
             (Some (NewTaskAttemptCompletionStatus CompletionCodeDeleteTaskRequested
                      DiagDeleteTaskRequested None))
         else ret tt) ;;
        ret None
      else
        let afterRetry : M (St R) (option Error) :=
          taskStatus <- TaskStatus_ taskRoleName taskIndex ;;
          if bool_decide (tsState taskStatus = TaskAttemptCreationPending) then
            syncTaskStateCreationPending c cm taskRoleSpec taskRoleName taskIndex
          else if bool_decide (tsState taskStatus = TaskCompleted) then
            syncTaskStateCompleted c taskRoleSpec taskRoleName taskIndex
          else
            (* Unreachable *)
            panic in
        if bool_decide (tsState taskStatus = TaskAttemptCompleted) then
          syncTaskStateAttemptCompleted c taskRoleSpec taskRoleName taskIndex afterRetry
        else afterRetry in
    if negb (bool_decide (tsState taskStatus = TaskAttemptCompleted)) then
      (* Pod may have been creation requested successfully and may exist in
         remote, so need to sync against it. *)
      got <- getOrCleanupPod c cm taskRoleName taskIndex false ;;
      match got with
      | (_, Some err) => ret (Some err)
      | (None, None) => syncTaskStatePodAbsent c taskRoleName taskIndex afterPod
      | (Some pod, None) => syncTaskStatePodPresent c taskRoleName taskIndex pod afterPod
      end
    else afterPod.

(** [errorAgg.NewAggregate]: no error when there is none to aggregate. *)
Definition NewAggregate (errs : list Error) : option Error :=
  match errs with
  | [] => None
  | _ => Some (ErrAggregate
           (flat_map (fun e => match e with Err e' => [e'] | ErrAggregate l => l end) errs))
  end.

Definition syncTaskRoleStatuses c (cm : option ConfigMap) : M (St R) (option Error) :=
  st <- status ;;
  errs <- foldM (fun errs i =>
            st' <- status ;;
            taskRoleStatus <- deref (TaskRoleStatuses st' !! i) ;;
            foldM (fun errs j =>
                     taskStatus <- taskPos i j ;;
                     err <- syncTaskState c cm (trName taskRoleStatus) (tsIndex taskStatus) ;;
                     match err with
                     | Some e => ret (errs ++ [e])
                     | None => ret errs
                     end)
                  (seq 0 (length (trTaskStatuses taskRoleStatus))) errs)
          (seq 0 (length (TaskRoleStatuses st))) [] ;;
  ret (NewAggregate errs).

(** *** syncFrameworkState *)

Definition DiagStopFrameworkRequested : string :=
  "User has requested to stop the Framework".

(** Modelled from the spec: some task reports Running; with
    [ignoreDeletionPending] the deletion-pending tasks are left out. *)
Definition IsAnyTaskRunning (st : FrameworkStatus) (ignoreDeletionPending : bool) : bool :=
  existsb (fun trs =>
      existsb (fun ts =>
          negb (tsDeletionPending ts && ignoreDeletionPending)
          && bool_decide (tsState ts = TaskAttemptRunning))
        (trTaskStatuses trs))
    (TaskRoleStatuses st).

(** The last part of [syncFrameworkState], on a Framework in one of
    [FrameworkAttemptPreparing], [FrameworkAttemptRunning],
    [FrameworkAttemptDeletionRequested], [FrameworkAttemptDeleting]: the stop
    request, the completion policy and the sync of the tasks. *)
Definition syncFrameworkStateStopRequested c : M (St R) unit :=
  f <- gets stF ;;
  completing <- IsCompleting ;;
  if negb completing then
    if bool_decide (spExecutionType (fSpec f) = ExecutionStop) then
      completeFrameworkAttempt c false
        (Some (NewFrameworkAttemptCompletionStatus CompletionCodeStopFrameworkRequested
                 DiagStopFrameworkRequested None))
    else ret tt
  else ret tt.

Definition syncFrameworkStateTasks c (cm : option ConfigMap) : M (St R) (option Error) :=
  st <- status ;;
  if bool_decide (fsState st = FrameworkAttemptPreparing)
     || bool_decide (fsState st = FrameworkAttemptRunning)
     || bool_decide (fsState st = FrameworkAttemptDeletionRequested)
     || bool_decide (fsState st = FrameworkAttemptDeleting)
  then
    syncFrameworkStateStopRequested c ;;
    completing <- IsCompleting ;;
    (if negb completing then syncFrameworkAttemptCompletionPolicy c ;; ret tt
     else ret tt) ;;
    err <- syncTaskRoleStatuses c cm ;;
    st <- status ;;
    (if bool_decide (fsState st = FrameworkAttemptPreparing) then
       if IsAnyTaskRunning st true
       then TransitionFrameworkState_ c FrameworkAttemptRunning
       else ret tt
     else ret tt) ;;
    ret err
  else
    (* Unreachable *)
    panic.

(** createFrameworkAttempt: the part of [syncFrameworkState] on a Framework in
    [FrameworkAttemptCreationPending]. *)
Definition syncFrameworkStateCreationPending c : M (St R) (option Error) :=
  f <- gets stF ;;
  match fDeletionTimestamp f with
  | Some _ => ret None
  | None =>
      if bool_decide (spExecutionType (fSpec f) = ExecutionStop) then
        (* Ensure cm is deleted in remote to avoid managed cm leak after
           FrameworkAttemptCompleted. *)
        cleaned <- getOrCleanupConfigMap c true ;;
        match cleaned.2 with
        | Some e => ret (Some e)
        | None =>
            completeFrameworkAttempt c true
              (Some (NewFrameworkAttemptCompletionStatus
                       CompletionCodeStopFrameworkRequested
                       DiagStopFrameworkRequested None)) ;;
            ret None
        end
      else
        created <- createConfigMap c ;;
        match created with
        | (_, Some err) => ret (Some err)
        | (cm, None) =>
            cm <- deref cm ;;
            modifyStatus (fun st =>
              fsWithAttemptStatus
                (faWithConfigMap (Some (cmUID cm))
                   (Some (faID (fsAttemptStatus st), cmUID cm))
                   (fsAttemptStatus st)) st) ;;
            TransitionFrameworkState_ c FrameworkAttemptCreationRequested ;;
            enqueueFrameworkAttemptCreationTimeoutCheck c false ;;
            ret None
        end
  end.

(** retryFramework: the update of the status when the retry fires. *)
Definition retryFramework c (retryDecision : RetryDecision) : M (St R) unit :=
  f <- gets stF ;;
  t <- now c ;;
  modifyStatus (fun st =>
    let rps := fsRetryPolicyStatus st in
    let total := int32 (TotalRetriedCount rps + 1) in
    fsWithAttemptStatus (NewFrameworkAttemptStatus (fSpec f) total t)
      (fsWithRetryPolicyStatus
         {| TotalRetriedCount := total;
            AccountableRetriedCount :=
              if IsAccountable retryDecision
              then int32 (AccountableRetriedCount rps + 1)
              else AccountableRetriedCount rps;
            RetryDelaySec := None |} st)) ;;
  TransitionFrameworkState_ c FrameworkAttemptCreationPending.

(** attemptToRetryFramework: the part of [syncFrameworkState] on a Framework
    in [FrameworkAttemptCompleted]. *)
Definition syncFrameworkStateAttemptCompleted c
    (continue : M (St R) (option Error)) : M (St R) (option Error) :=
  f <- gets stF ;;
  st <- status ;;
  cs <- deref (faCompletionStatus (fsAttemptStatus st)) ;;
  minDelay <- deref (FrameworkMinRetryDelaySecForTransientConflictFailed (cConfig c)) ;;
  maxDelay <- deref (FrameworkMaxRetryDelaySecForTransientConflictFailed (cConfig c)) ;;
  retryDecision <-
    liftW (call (RetryPolicy_ShouldRetry c (spRetryPolicy (fSpec f))
                   (fsRetryPolicyStatus st) (facsCompletionStatus cs) minDelay maxDelay)) ;;
  decided <-
    match RetryDelaySec (fsRetryPolicyStatus st) with
    | None =>
        (* RetryFramework is not yet scheduled, so need to be decided. *)
        if ShouldRetry retryDecision then
          modifyStatus (fun st =>
            fsWithRetryPolicyStatus
              (rpsWithRetryDelaySec (Some (DelaySec retryDecision))
                 (fsRetryPolicyStatus st)) st) ;;
          ret true
        else
          (* completeFramework *)
          TransitionFrameworkState_ c FrameworkCompleted ;;
          enqueueFrameworkCompletedRetainTimeoutCheck c false ;;
          ret false
    | Some _ => ret true
    end ;;
  if negb decided then ret None
  else
    st <- status ;;
    match RetryDelaySec (fsRetryPolicyStatus st) with
    | Some _ =>
        (* RetryFramework is already scheduled, so just need to check
           whether it should be executed now. *)
        waiting <-
          (if bool_decide (spExecutionType (fSpec f) = ExecutionStop) then ret false
           else enqueueFrameworkRetryDelayTimeoutCheck c true) ;;
        if waiting then ret None
        else
          retryFramework c retryDecision ;;
          enqueueFrameworkSync c ;;
          ret None
    | None => continue
    end.

(** The part of [syncFrameworkState] on a Framework whose ConfigMap is not in
    the local cache. *)
Definition syncFrameworkStateConfigMapAbsent c
    (continue : M (St R) (option Error)) : M (St R) (option Error) :=
  f <- gets stF ;;
  st <- status ;;
  if bool_decide (fsState st = FrameworkAttemptCreationRequested) then
    decided <-
      (if bool_decide (spExecutionType (fSpec f) = ExecutionStop) then
         ret (Some (DiagStopFrameworkRequested, CompletionCodeStopFrameworkRequested))
       else
         waiting <- enqueueFrameworkAttemptCreationTimeoutCheck c true ;;
         if waiting then ret None
         else ret (Some
           ("ConfigMap does not appear in the local cache within timeout " +:+
              SecToDuration (ObjectLocalCacheCreationTimeoutSec (cConfig c)) +:+
              ", so consider it was deleted and explicitly delete it",
            CompletionCodeConfigMapCreationTimeout))) ;;
    match decided with
    | None => ret None
    | Some (diag, code) =>
        uid <- deref (faConfigMapUID (fsAttemptStatus st)) ;;
        err <- deleteConfigMap c uid true ;;
        match err with
        | Some e => ret (Some e)
        | None =>
            completeFrameworkAttempt c true
              (Some (NewFrameworkAttemptCompletionStatus code diag None)) ;;
            ret None
        end
    end
  else if negb (bool_decide (fsState st = FrameworkAttemptCreationPending)) then
    match faCompletionStatus (fsAttemptStatus st) with
    | None =>
        completeFrameworkAttempt c true
          (Some (NewFrameworkAttemptCompletionStatus CompletionCodeConfigMapExternalDeleted
                   "ConfigMap was deleted by others" None)) ;;
        ret None
    | Some _ =>
        completeFrameworkAttempt c true None ;;
        ret None
    end
  else continue.

(** The part of [syncFrameworkState] on a Framework whose managed ConfigMap is
    in the local cache. *)
Definition syncFrameworkStateConfigMapPresent c (cm : ConfigMap)
    (continue : M (St R) (option Error)) : M (St R) (option Error) :=
  match cmDeletionTimestamp cm with
  | None =>
      st <- status ;;
      deleteErr <-
        (if bool_decide (fsState st = FrameworkAttemptDeletionPending) then
           (* The CompletionStatus has been persisted, so it is safe to delete
              the cm now. *)
           uid <- deref (faConfigMapUID (fsAttemptStatus st)) ;;
           err <- deleteConfigMap c uid false ;;
           match err with
           | Some e => ret (Some e)
           | None =>
               TransitionFrameworkState_ c FrameworkAttemptDeletionRequested ;;
               ret None
           end
         else ret None) ;;
      match deleteErr with
      | Some e => ret (Some e)
      | None =>
          st <- status ;;
          (if bool_decide (fsState st = FrameworkAttemptDeletionRequested) then ret tt
           else if bool_decide (fsState st = FrameworkAttemptCreationRequested) then
             TransitionFrameworkState_ c FrameworkAttemptPreparing
           else ret tt) ;;
          continue
      end
  | Some _ =>
      st <- status ;;
      match faCompletionStatus (fsAttemptStatus st) with
      | None =>
          modifyStatus (fun st =>
            fsWithAttemptStatus
              (faWithCompletionStatus
                 (Some (NewFrameworkAttemptCompletionStatus
                          CompletionCodeConfigMapExternalDeleted
                          "ConfigMap is being deleted by others" None))
                 (fsAttemptStatus st)) st)
      | Some _ => ret tt
      end ;;
      TransitionFrameworkState_ c FrameworkAttemptDeleting ;;
      continue
  end.

Definition syncFrameworkState c : M (St R) (option Error) :=
  st <- status ;;
  if bool_decide (fsState st = FrameworkCompleted) then
    waiting <- enqueueFrameworkCompletedRetainTimeoutCheck c true ;;
    if waiting then ret None
    else deleteFramework c true
  else
    (* what follows the sync against the ConfigMap *)
    let afterConfigMap (cm : option ConfigMap) : M (St R) (option Error) :=
      let afterRetry : M (St R) (option Error) :=
        st <- status ;;
        if bool_decide (fsState st = FrameworkAttemptCreationPending)
        then syncFrameworkStateCreationPending c
        else syncFrameworkStateTasks c cm in
      st <- status ;;
      if bool_decide (fsState st = FrameworkAttemptCompleted)
      then syncFrameworkStateAttemptCompleted c afterRetry
      else afterRetry in
    if negb (bool_decide (fsState st = FrameworkAttemptCompleted)) then
      (* ConfigMap may have been creation requested successfully and may exist
         in remote, so need to sync against it. *)
      got <- getOrCleanupConfigMap c false ;;
      match got with
      | (_, Some err) => ret (Some err)
      | (None, None) => syncFrameworkStateConfigMapAbsent c (afterConfigMap None)
      | (Some cm, None) => syncFrameworkStateConfigMapPresent c cm (afterConfigMap (Some cm))
      end
    else afterConfigMap None.

(** *** compactFrameworkScale *)

(** [for taskIndex := taskCountStatus - 1; taskIndex >= taskCountSpec;
    taskIndex--]: a task that is deletion pending and completed lowers
    [taskIndexDeleteStart] to its index, the first other task breaks the
    loop; an index outside of the slice panics.  The accumulator holds
    [taskIndexDeleteStart] and whether the loop has been left. *)
Definition deleteStartStep (tasks : list TaskStatus) (acc : option (Z * bool)) (taskIndex : Z)
    : option (Z * bool) :=
  a ← acc;
  if (a : Z * bool).2 then Some a
  else
    taskStatus ← taskAt tasks taskIndex;
    if tsDeletionPending taskStatus && bool_decide (tsState taskStatus = TaskCompleted)
    then Some (taskIndex, false)
    else Some (a.1, true).

Definition taskIndexDeleteStart (taskCountStatus taskCountSpec : Z) (tasks : list TaskStatus)
    : option Z :=
  fst <$> foldl (deleteStartStep tasks) (Some (taskCountStatus, false))
            (reverse (seqZ taskCountSpec (taskCountStatus - taskCountSpec))).

(** The body of the loop [for taskRoleIndex := len - 1; taskRoleIndex >= 0;
    taskRoleIndex--] over the roles of the status, from the last one: the
    tail of completed deletion-pending tasks beyond the task number of the
    spec is cut off, and a role that the spec does not name and that is
    left without a task is deleted, the last role taking its place.  The
    slots that are cut off are in range, so clearing them before the cut
    does not show. *)
Definition compactTaskRoleStatus (spec : FrameworkSpec)
    (acc : option (list TaskRoleStatus)) (taskRoleIndex : nat)
    : option (list TaskRoleStatus) :=
  taskRoleStatuses ← acc;
  taskRoleStatus ← taskRoleStatuses !! taskRoleIndex;
  let taskRoleName := trName taskRoleStatus in
  let taskCountStatus := int32 (Z.of_nat (length (trTaskStatuses taskRoleStatus))) in
  let taskRoleSpec := GetTaskRoleSpec spec taskRoleName in
  let taskCountSpec :=
    match taskRoleSpec with
    | None => 0
    | Some rs => rsTaskNumber rs
    end in
  start ← taskIndexDeleteStart taskCountStatus taskCountSpec (trTaskStatuses taskRoleStatus);
  let newTaskCountStatus :=
    if bool_decide (start = 0)
       && match taskRoleSpec with None => true | Some _ => false end
    then None      (* Delete the whole Completed DeletionPending TaskRole *)
    else Some start (* Delete tail Completed DeletionPending Tasks *) in
  match newTaskCountStatus with
  | Some n =>
      if bool_decide (n = taskCountStatus) then
        (* Nothing can be deleted *)
        Some taskRoleStatuses
      else
        Some (alter (trWithTaskStatuses (take (Z.to_nat n) (trTaskStatuses taskRoleStatus)))
                taskRoleIndex taskRoleStatuses)
  | None =>
      let taskRoleLastIndex := (length taskRoleStatuses - 1)%nat in
      last ← taskRoleStatuses !! taskRoleLastIndex;
      Some (take taskRoleLastIndex (<[taskRoleIndex := last]> taskRoleStatuses))
  end.

(** [for taskIndex := taskCountStatusAndSpec - 1; taskIndex >= 0;
    taskIndex--]: a task that is deletion pending and completed is replaced
    by a new task of its index. *)
Definition replaceCompletedStep (t : Time) (acc : option (list TaskStatus * bool))
    (taskIndex : Z) : option (list TaskStatus * bool) :=
  a ← acc;
  taskStatus ← taskAt a.1 taskIndex;
  if tsDeletionPending taskStatus && bool_decide (tsState taskStatus = TaskCompleted)
  then Some (alterTaskAt taskIndex (fun _ => NewTaskStatus taskIndex t) a.1, true)
  else Some a.

(** The body of the loop [for _, taskRoleStatus := range
    f.TaskRoleStatuses()], at position [i]. *)
Definition replaceTaskRoleStatus (spec : FrameworkSpec) (t : Time)
    (acc : option (list TaskRoleStatus * bool)) (i : nat)
    : option (list TaskRoleStatus * bool) :=
  a ← acc;
  taskRoleStatus ← a.1 !! i;
  let taskCountStatus := int32 (Z.of_nat (length (trTaskStatuses taskRoleStatus))) in
  match GetTaskRoleSpec spec (trName taskRoleStatus) with
  | None => Some a
  | Some taskRoleSpec =>
      let taskCountSpec := rsTaskNumber taskRoleSpec in
      let taskCountStatusAndSpec := MinInt32 taskCountStatus taskCountSpec in
      r ← foldl (replaceCompletedStep t) (Some (trTaskStatuses taskRoleStatus, a.2))
            (reverse (seqZ 0 taskCountStatusAndSpec));
      Some (alter (trWithTaskStatuses r.1) i a.1, r.2)
  end.

Definition compactFrameworkScale c : M (St R) bool :=
  f <- gets stF ;;
  st <- status ;;
  (* Align with syncFrameworkScale to simplify completing. *)
  if IsCompletingState (fsState st)
     || bool_decide (fsState st = FrameworkAttemptCompleted)
     || bool_decide (fsState st = FrameworkCompleted)
  then ret false
  else
    (* For TaskRoles/Tasks which no longer belong to its current f.Spec, try
       to delete the Completed DeletionPending ones. *)
    deleted <- deref (foldl (compactTaskRoleStatus (fSpec f)) (Some (TaskRoleStatuses st))
                        (reverse (seq 0 (length (TaskRoleStatuses st))))) ;;
    modifyStatus (fsWithTaskRoleStatuses deleted) ;;
    (* For TaskRoles/Tasks which still belong to its current f.Spec, replace
       all Completed DeletionPending ones with new Task instances. *)
    t <- now c ;;
    replaced <- deref (foldl (replaceTaskRoleStatus (fSpec f) t) (Some (deleted, false))
                         (seq 0 (length deleted))) ;;
    modifyStatus (fsWithTaskRoleStatuses replaced.1) ;;
    ret replaced.2.

(** *** updatePodGracefulDeletionTimeoutSec *)

Context {HCommon : Common}.

(** The body of the loop over [f.Spec.TaskRoles]. *)
Definition updateTaskRoleTimeout (acc : list TaskRoleStatus * bool)
    (taskRoleSpec : TaskRoleSpec) : list TaskRoleStatus * bool :=
  let taskRoleName := rsName taskRoleSpec in
  match snd <$> findTaskRoleStatus taskRoleName acc.1 with
  | None =>
      (* Unreachable *)
      acc
  | Some taskRoleStatus =>
      if negb (EqualsPtrInt64 (trPodGracefulDeletionTimeoutSec taskRoleStatus)
                 (tkPodGracefulDeletionTimeoutSec (rsTask taskRoleSpec)))
      then (alterTaskRoleStatus taskRoleName
              (trWithPodGracefulDeletionTimeoutSec
                 (DeepCopyInt64 (tkPodGracefulDeletionTimeoutSec (rsTask taskRoleSpec))))
              acc.1,
            true)
      else acc
  end.

Definition updatePodGracefulDeletionTimeoutSec c : M (St R) bool :=
  f <- gets stF ;;
  st <- status ;;
  if bool_decide (fsState st = FrameworkCompleted) then ret false
  else
    let r := foldl updateTaskRoleTimeout (TaskRoleStatuses st, false)
               (spTaskRoles (fSpec f)) in
    modifyStatus (fsWithTaskRoleStatuses r.1) ;;
    ret r.2.

(** *** syncFrameworkStatus *)

Definition syncFrameworkStatus c : M (St R) (option Error) :=
  f <- gets stF ;;
  match fStatus f with
  | None =>
      t <- now c ;;
      modify (fun s => {| stF := withStatus (stF s) (NewFrameworkStatus f t);
                          stW := stW s |}) ;;
      (* To ensure FrameworkAttemptCreationPending is persisted before
         creating its cm. *)
      enqueueFrameworkSync c ;;
      ret None
  | Some _ =>
      scaled <- syncFrameworkScale c ;;
      changed <- (if scaled then ret true else compactFrameworkScale c) ;;
      if changed then
        enqueueFrameworkSync c ;;
        ret None
      else
        updated <- updatePodGracefulDeletionTimeoutSec c ;;
        if updated then
          enqueueFrameworkSync c ;;
          ret None
        else syncFrameworkState c
  end.

(** *** The expected status store

    The expected info holds the pointer [f.Status] it is updated with, and
    [f.Status = expected.status] makes the working copy share the expected
    status.  Statuses are values here.  Whenever a sync changes the shared
    status, it updates the info with the status of [f] before it returns,
    so that the next sync reads the same store; only a [Decompress] that
    changes a status which the sync then leaves as it is would show in the
    store of the code and not in this one. *)

Context {HPersistence : Persistence}.
Implicit Type k : PersistenceClients R.

Definition liftC {A} (m : M (World R) A) : M (Ctl R) A :=
  fun s => match m (ctlW s) with
           | Some (a, w) =>
               Some (a, {| ctlW := w; fExpectedStatusInfos := fExpectedStatusInfos s |})
           | None => None
           end.

Definition getExpectedFrameworkStatusInfo (key : string)
    : M (Ctl R) (option ExpectedFrameworkStatusInfo) :=
  gets (fun s => fExpectedStatusInfos s !! key).

Definition deleteExpectedFrameworkStatusInfo (key : string) : M (Ctl R) unit :=
  modify (fun s => {| ctlW := ctlW s;
                      fExpectedStatusInfos := delete key (fExpectedStatusInfos s) |}).

Definition updateExpectedFrameworkStatusInfo (key : string)
    (status_ : option FrameworkStatus) (uid : UID) (remoteSynced : bool) : M (Ctl R) unit :=
  modify (fun s =>
    {| ctlW := ctlW s;
       fExpectedStatusInfos :=
         <[key := {| esStatus := status_; esUID := uid; esRemoteSynced := remoteSynced |}]>
           (fExpectedStatusInfos s) |}).

(** *** Compression *)

(** compressFramework: best effort, the error of [f.Compress] is logged
    only.  The configuration is a pointer: nil panics. *)
Definition compressFramework k (f : Framework) : M (Ctl R) Framework :=
  enabled <- deref (LargeFrameworkCompression k) ;;
  if (enabled : bool) then ret (Compress f).1 else ret f.

Definition decompressFramework (f : Framework) : Framework * option SyncFailure :=
  ((Decompress f).1, FailDecompress <$> (Decompress f).2).

(** *** updateRemoteFrameworkStatus *)

(** The function [retry.RetryOnConflict] runs: the first run sends [f]; a
    later run, after a conflict, patches the status of [f] on the object of
    the local cache, if this is the object of the same UID, and sends
    that. *)
Definition updateRemoteFrameworkStatusOnce k (f : Framework) (tried : bool)
    : M (World R) (option UpdateFailure) :=
  if negb tried then
    (* Using f to update optimistically, since f may not conflict with remote. *)
    updateErr <- call (fClient_Frameworks_Update k (fNamespace f) f) ;;
    ret (UpdRemote <$> updateErr)
  else
    got <- call (fLister_Get k (fNamespace f) (fName f)) ;;
    match got with
    | inl getErr =>
        if IsNotFound getErr then ret (Some (UpdNotFoundInCache getErr))
        else ret (Some (UpdGetFromCache getErr))
    | inr localF =>
        (* Only resolve conflict for the same object to avoid updating another
           object of the same name. *)
        if negb (bool_decide (fUID f = fUID localF)) then
          ret (Some (UpdUIDMismatch (fUID f) (fUID localF)))
        else
          let updateF := withStatusPtr localF (fStatus f) in
          updateErr <- call (fClient_Frameworks_Update k (fNamespace updateF) updateF) ;;
          ret (UpdRemote <$> updateErr)
    end.

(** [apiErrors.IsConflict] on the error of a run: only an error of the
    remote can be a conflict. *)
Definition isConflictFailure (e : UpdateFailure) : bool :=
  match e with
  | UpdRemote cause => IsConflict cause
  | _ => false
  end.

(** Modelled from the spec: the remote update retries on conflict.
    [retry.RetryOnConflict], of the client library, runs the function again
    while it fails with a conflict, for the given number of steps at most,
    and returns the error of the last run; [lastConflictErr] is the
    conflict of the run before.  The waits between the runs are left
    out. *)
Fixpoint RetryOnConflict (steps : nat) (fn : bool -> M (World R) (option UpdateFailure))
    (tried : bool) (lastConflictErr : option UpdateFailure)
    : M (World R) (option UpdateFailure) :=
  match steps with
  | O => ret lastConflictErr
  | S steps' =>
      err <- fn tried ;;
      match err with
      | None => ret None
      | Some e =>
          if isConflictFailure e then RetryOnConflict steps' fn true (Some e)
          else ret (Some e)
      end
  end.

Definition updateRemoteFrameworkStatus k (f : Framework)
    : M (World R) (option UpdateFailure) :=
  RetryOnConflict (DefaultRetrySteps k) (updateRemoteFrameworkStatusOnce k f) false None.

(** *** syncFramework *)

(** [updateErr == nil]. *)
Definition isNil {A} (err : option A) : bool :=
  match err with None => true | Some _ => false end.

(** [errorAgg.NewAggregate] on the errors of the sync and of the update:
    the nil ones are dropped, and there is no error when none is left. *)
Definition NewSyncAggregate (errs : list (option SyncFailure)) : option SyncError :=
  match omap id errs with
  | [] => None
  | l => Some (SyncErrAggregate l)
  end.

(** A sync of the state machines on the working copy [f]. *)
Definition onFramework {A} (f : Framework) (m : M (St R) A) : M (Ctl R) (A * Framework) :=
  fun s => match m {| stF := f; stW := ctlW s |} with
           | Some (a, s') =>
               Some ((a, stF s'),
                     {| ctlW := stW s'; fExpectedStatusInfos := fExpectedStatusInfos s |})
           | None => None
           end.

(** The first part of [syncFramework] on the copy [f] of the Framework of
    the local cache: the status to sync is the expected one.  A Framework
    that is seen for the first time, or again under another UID, brings its
    status.  Otherwise the status of [f] is overridden by the expected one,
    which is written to the remote first if the remote is not known to
    hold it; a failure of that update ends the sync. *)
Definition syncFrameworkExpected k (f : Framework) : M (Ctl R) (Framework + SyncFailure) :=
  expected <- getExpectedFrameworkStatusInfo (Key f) ;;
  let firstSeen : M (Ctl R) (Framework + SyncFailure) :=
    (* f.Status must be the same as the remote one, since it is the first
       time we see it. *)
    updateExpectedFrameworkStatusInfo (Key f) (fStatus f) (fUID f) true ;;
    ret (inl f) in
  match expected with
  | None => firstSeen
  | Some expected =>
      if negb (bool_decide (esUID expected = fUID f)) then firstSeen
      else
        (* f.Status may be outdated, so override it with the expected one, to
           ensure the Framework.Status is Monotonically Exposed. *)
        let f := withStatusPtr f (esStatus expected) in
        if negb (esRemoteSynced expected) then
          f <- compressFramework k f ;;
          updateErr <- liftC (updateRemoteFrameworkStatus k f) ;;
          updateExpectedFrameworkStatusInfo (Key f) (fStatus f) (fUID f) (isNil updateErr) ;;
          match updateErr with
          | Some e => ret (inr (FailUpdate e))
          | None => ret (inl f)
          end
        else ret (inl f)
  end.

(** The second part of [syncFramework], on the Framework with the expected
    status: the status is decompressed and synced, and a status that the
    sync changed is compressed, written to the remote and recorded as the
    expected one, whether the sync or the update failed or not. *)
Definition syncFrameworkPersist k c (f : Framework) : M (Ctl R) (option SyncError) :=
  let (f, decompressErr) := decompressFramework f in
  match decompressErr with
  | Some e => ret (Some (SyncErr e))
  | None =>
      let remoteRawF := f in
      synced <- onFramework f (syncFrameworkStatus c) ;;
      let syncErr := (synced : option Error * Framework).1 in
      let f := synced.2 in
      if negb (bool_decide (fStatus remoteRawF = fStatus f)) then
        f <- compressFramework k f ;;
        updateErr <- liftC (updateRemoteFrameworkStatus k f) ;;
        updateExpectedFrameworkStatusInfo (Key f) (fStatus f) (fUID f) (isNil updateErr) ;;
        ret (NewSyncAggregate [FailSync <$> syncErr; FailUpdate <$> updateErr])
      else
        ret (NewSyncAggregate [FailSync <$> syncErr])
  end.

Definition syncFramework k c (key : string) : M (Ctl R) (option SyncError) :=
  let (fNamespace_, fName_) := SplitFrameworkKey key in
  got <- liftC (call (fLister_Get k fNamespace_ fName_)) ;;
  match got with
  | inl err =>
      if IsNotFound err then
        (* GarbageCollectionController will handle the dependent object
           deletion according to the ownerReferences. *)
        deleteExpectedFrameworkStatusInfo key ;;
        ret None
      else ret (Some (SyncErr (FailGet err)))
  | inr localF =>
      prepared <- syncFrameworkExpected k localF ;;
      match prepared with
      | inr e => ret (Some (SyncErr e))
      | inl f => syncFrameworkPersist k c f
      end
  end.

End Controller.

(** ** A small cluster

    The instance the examples run on: no Pod exists, locally or remotely;
    the local cache holds at most one ConfigMap; every deletion gets the
    answer the cluster is set up with; every creation is refused; and the
    cluster keeps the log of the requests it received, the latest first. *)

Inductive Request :=
| ReqFrameworksDelete (namespace name : string) (options : DeleteOptions)
| ReqFrameworksGet (namespace name : string)
| ReqConfigMapsDelete (namespace name : string) (options : DeleteOptions)
| ReqConfigMapsGet (namespace name : string)
| ReqPodsDelete (namespace name : string) (options : DeleteOptions)
| ReqPodsGet (namespace name : string)
| ReqCreate (namespace name : string).

Record ExampleCluster := {
  ecNow : Time;
  ecLog : list Request;
  ecDeleteAnswer : option ApiError;
  ecCachedConfigMap : option ConfigMap;
}.

Definition ecRequest (q : Request) (r : ExampleCluster) : ExampleCluster :=
  {| ecNow := ecNow r; ecLog := q :: ecLog r;
     ecDeleteAnswer := ecDeleteAnswer r;
     ecCachedConfigMap := ecCachedConfigMap r |}.

Definition ecNotFound : ApiError :=
  {| aeReason := StatusReasonNotFound; aeMessage := "not found" |}.
Definition ecRefused : ApiError :=
  {| aeReason := StatusReasonOther; aeMessage := "refused" |}.

Definition ecConfig : Config :=
  {| FrameworkCompletedRetainSec := Some 2592000;
     ObjectLocalCacheCreationTimeoutSec := Some 300;
     FrameworkMinRetryDelaySecForTransientConflictFailed := Some 60;
     FrameworkMaxRetryDelaySecForTransientConflictFailed := Some 900 |}.

(** The retry decision of the example: retry, accountable, without delay,
    while the accountable count is below the maximum. *)
Definition ecShouldRetry (rp : RetryPolicySpec) (rps : RetryPolicyStatus) : RetryDecision :=
  {| ShouldRetry := bool_decide (AccountableRetriedCount rps < rpMaxRetryCount rp);
     IsAccountable := true; DelaySec := 0; Reason := "" |}.

Definition ecController : FrameworkController ExampleCluster :=
  {| cConfig := ecConfig;
     clockNow := ecNow;
     kClient_Pods_Create := fun ns pod r =>
       (inl ecRefused, ecRequest (ReqCreate ns (podName pod)) r);
     kClient_Pods_Get := fun ns name r =>
       (inl ecNotFound, ecRequest (ReqPodsGet ns name) r);
     kClient_Pods_Delete := fun ns name o r =>
       (ecDeleteAnswer r, ecRequest (ReqPodsDelete ns name o) r);
     kClient_ConfigMaps_Create := fun ns cm r =>
       (inl ecRefused, ecRequest (ReqCreate ns (cmName cm)) r);
     kClient_ConfigMaps_Get := fun ns name r =>
       (inl ecNotFound, ecRequest (ReqConfigMapsGet ns name) r);
     kClient_ConfigMaps_Delete := fun ns name o r =>
       (ecDeleteAnswer r, ecRequest (ReqConfigMapsDelete ns name o) r);
     fClient_Frameworks_Get := fun ns name r =>
       (inl ecNotFound, ecRequest (ReqFrameworksGet ns name) r);
     fClient_Frameworks_Delete := fun ns name o r =>
       (ecDeleteAnswer r, ecRequest (ReqFrameworksDelete ns name o) r);
     podLister_Get := fun ns name r => (inl ecNotFound, r);
     cmLister_Get := fun ns name r =>
       (match ecCachedConfigMap r with
        | Some cm => if decide (cmName cm = name) then inr cm else inl ecNotFound
        | None => inl ecNotFound
        end, r);
     RetryPolicy_ShouldRetry := fun rp rps _ _ _ r => (ecShouldRetry rp rps, r) |}.

Definition ecCompletionStatus (ts : option TaskStatus) : FrameworkAttemptCompletionStatus :=
  {| facsCompletionStatus :=
       match ts ≫= tsCompletionStatus with
       | Some cs => tacsCompletionStatus cs
       | None => {| csCode := CompletionCodeSucceeded; csPhrase := "";
                    csType := CompletionTypeUnknown; csDiagnostics := "" |}
       end;
     facsTrigger := None |}.

Definition ecCI : CI :=
  {| CompletionCodeInfo := fun _ => ("", CompletionTypeUnknown);
     MatchCompletionCodeInfos := fun _ =>
       {| csCode := CompletionCodePodFailed 1; csPhrase := "";
          csType := CompletionTypeUnknown; csDiagnostics := "" |};
     ExtractPodCompletionStatus := fun _ => None;
     IsPodSpecPermanentError := fun _ => false;
     GetPodDeletionStartTime := podDeletionTimestamp;
     GetConfigMapName := fun name => name +:+ "-attempt";
     NewFailedTaskTriggeredCompletionStatus := fun ts _ _ _ => ecCompletionStatus (Some ts);
     NewSucceededTaskTriggeredCompletionStatus := fun ts _ _ _ => ecCompletionStatus (Some ts);
     NewCompletedTaskTriggeredCompletionStatus := fun ts _ _ _ => ecCompletionStatus ts;
     NewTaskRoleStatuses := fun _ _ => [];
     SecToDuration := fun _ => "";
     ToJson := aeMessage |}.

(** ** Notions the statements are written with *)

(** The state after a call into the cluster that left it in [r]. *)
Definition afterCall {R} (s : St R) (r : R) : St R :=
  {| stF := stF s; stW := {| wCluster := r; wQueue := wQueue (stW s) |} |}.

(** The task at position [j] of the role at position [i]. *)
Definition cell (st : FrameworkStatus) (i j : nat) : option TaskStatus :=
  trs ← TaskRoleStatuses st !! i; trTaskStatuses trs !! j.

(** The role with [h] applied to every task. *)
Definition mapRole (h : TaskStatus -> TaskStatus) (trs : TaskRoleStatus) : TaskRoleStatus :=
  trWithTaskStatuses (h <$> trTaskStatuses trs) trs.

(** The status with [h] applied to every task of every role. *)
Definition mapTasks (h : TaskStatus -> TaskStatus) (st : FrameworkStatus) : FrameworkStatus :=
  fsWithTaskRoleStatuses
    ((fun trs => trWithTaskStatuses (h <$> trTaskStatuses trs) trs) <$> TaskRoleStatuses st) st.

(** All tasks of the status, role after role. *)
Definition allTasks (st : FrameworkStatus) : list TaskStatus :=
  TaskRoleStatuses st ≫= trTaskStatuses.

(** The status is well indexed: the names of its roles are pairwise distinct
    and every task carries its position in its role as index.  The
    controller only builds such statuses. *)
Definition WellIndexed (st : FrameworkStatus) : Prop :=
  NoDup (trName <$> TaskRoleStatuses st) /\
  Forall (fun trs =>
            tsIndex <$> trTaskStatuses trs = seqZ 0 (Z.of_nat (length (trTaskStatuses trs))))
         (TaskRoleStatuses st).

(** The lookup by name of the role [name] finds the role at position [i]. *)
Definition roleFoundAt (st : FrameworkStatus) (name : string) (i : nat) : Prop :=
  exists trs, findTaskRoleStatus name (TaskRoleStatuses st) = Some (i, trs).

(** The state with the status of the Framework replaced. *)
Definition setStatus {R} (s : St R) (st : FrameworkStatus) : St R :=
  {| stF := withStatus (stF s) st; stW := stW s |}.

(** The state after [enqueueFrameworkSync]. *)
Definition enqueued {R} (s : St R) : St R :=
  {| stF := stF s;
     stW := {| wCluster := wCluster (stW s);
               wQueue := QueueAdd (Key (stF s)) :: wQueue (stW s) |} |}.

(** What [completeTaskAttempt] does to the task it completes, at time [t]. *)
Definition completeTaskAttemptOn (force : bool)
    (completionStatus : option TaskAttemptCompletionStatus) (t : Time)
    (ts : TaskStatus) : TaskStatus :=
  TransitionTaskState
    (if force then TaskAttemptCompleted else TaskAttemptDeletionPending) t
    (match tsCompletionStatus ts with
     | None => tsSetCompletionStatus completionStatus ts
     | Some _ => ts
     end).

(** [h] applied to the elements of [l] from position [k] on. *)
Definition mapFrom {A} (k : nat) (h : A -> A) (l : list A) : list A :=
  take k l ++ (h <$> drop k l).

(** The status with the tasks of the role at position [i] replaced. *)
Definition setRoleTasks (i : nat) (tasks : list TaskStatus) (st : FrameworkStatus)
    : FrameworkStatus :=
  fsWithTaskRoleStatuses (alter (trWithTaskStatuses tasks) i (TaskRoleStatuses st)) st.

(** What the cascade of [completeFrameworkAttempt] does to a task: a task
    without completion status gets the default one. *)
Definition fillDefault `{CI} (ts : TaskStatus) : TaskStatus :=
  match tsCompletionStatus ts with
  | None => tsSetCompletionStatus (Some DefaultTaskAttemptCompletionStatus) ts
  | Some _ => ts
  end.

(** What the forced [completeFrameworkAttempt] does, after the cascade, to a
    task, at time [t], and to the world, for the key [key]. *)
Definition forceCompleteTask (t : Time) (ts : TaskStatus) : TaskStatus :=
  if negb (bool_decide (tsState ts = TaskCompleted)) then
    TransitionTaskState TaskCompleted t
      ((fun ts => tsWithRetryPolicyStatus
                    (rpsWithRetryDelaySec None (tsRetryPolicyStatus ts)) ts)
         (if negb (bool_decide (tsState ts = TaskAttemptCompleted))
          then completeTaskAttemptOn true None t ts
          else ts))
  else ts.

Definition forceCompleteWorld {R} (key : string) (ts : TaskStatus) (w : World R) : World R :=
  if negb (bool_decide (tsState ts = TaskCompleted))
     && negb (bool_decide (tsState ts = TaskAttemptCompleted))
  then {| wCluster := wCluster w; wQueue := QueueAdd key :: wQueue w |}
  else w.

(** What [completeFrameworkAttempt] does to the status, at time [t]. *)
Definition completeFrameworkAttemptOn `{CI} (force : bool)
    (completionStatus : option FrameworkAttemptCompletionStatus) (t : Time)
    (st : FrameworkStatus) : FrameworkStatus :=
  let st1 :=
    match faCompletionStatus (fsAttemptStatus st) with
    | None => fsWithAttemptStatus
                (faWithCompletionStatus completionStatus (fsAttemptStatus st)) st
    | Some _ => st
    end in
  let st2 := mapTasks fillDefault st1 in
  if force
  then TransitionFrameworkState FrameworkAttemptCompleted t
         (mapTasks (forceCompleteTask t) st2)
  else TransitionFrameworkState FrameworkAttemptDeletionPending t st2.

(** The world after [completeFrameworkAttempt] on the status [st]. *)
Definition completeFrameworkAttemptWorld `{CI} {R} (force : bool) (key : string)
    (st : FrameworkStatus) (w : World R) : World R :=
  let w' := if force
            then foldl (fun w ts => forceCompleteWorld key ts w) w
                   (allTasks (mapTasks fillDefault st))
            else w in
  {| wCluster := wCluster w'; wQueue := QueueAdd key :: wQueue w' |}.

(** The delay of the retry that is scheduled once the retry decision is
    taken: the delay already recorded, or else the delay of a decision to
    retry. *)
Definition scheduledRetryDelay (rps : RetryPolicyStatus) (d : RetryDecision) : option Z :=
  match RetryDelaySec rps with
  | Some delay => Some delay
  | None => if ShouldRetry d then Some (DelaySec d) else None
  end.

(** What retryFramework does to the status, at time [t]. *)
Definition retryFrameworkOn `{CI} (spec : FrameworkSpec) (d : RetryDecision) (t : Time)
    (st : FrameworkStatus) : FrameworkStatus :=
  let rps := fsRetryPolicyStatus st in
  let total := int32 (TotalRetriedCount rps + 1) in
  TransitionFrameworkState FrameworkAttemptCreationPending t
    (fsWithAttemptStatus (NewFrameworkAttemptStatus spec total t)
       (fsWithRetryPolicyStatus
          {| TotalRetriedCount := total;
             AccountableRetriedCount :=
               if IsAccountable d
               then int32 (AccountableRetriedCount rps + 1)
               else AccountableRetriedCount rps;
             RetryDelaySec := None |} st)).

(** *** The completion policy *)

(** A candidate trigger: the triggering task and the completion status the
    FrameworkAttempt gets from it. *)
Definition Candidate : Type := TaskStatus * FrameworkAttemptCompletionStatus.

(** The candidate of one threshold of a role, in the words of the
    specification: a threshold below 1 is off; a threshold [min] the count
    of the selected tasks reaches makes the [min]-th earliest completed of
    them a candidate. *)
Definition thresholdCandidate (trs : TaskRoleStatus) (name : string)
    (selector : TaskStatusSelector) (min : Z)
    (newStatus : TaskStatus -> string -> Z -> Z -> FrameworkAttemptCompletionStatus)
    : option Candidate :=
  if bool_decide (1 ≤ min) && bool_decide (min ≤ GetTaskCountStatus trs selector) then
    (fun trigger => (trigger, newStatus trigger name (GetTaskCountStatus trs selector) min))
      <$> merge_sort CompletionTimeLe (GetTaskStatuses trs selector) !! Z.to_nat (min - 1)
  else None.

(** The candidates of a role of the spec: the one of its failed tasks, then
    the one of its succeeded tasks. *)
Definition roleCandidates `{CI} (st : FrameworkStatus) (rs : TaskRoleSpec) : list Candidate :=
  match GetTaskRoleStatus st (rsName rs) with
  | None => []
  | Some trs =>
      let policy := rsFrameworkAttemptCompletionPolicy rs in
      omap id
        [thresholdCandidate trs (rsName rs) failedTaskSelector
           (MinFailedTaskCount policy) NewFailedTaskTriggeredCompletionStatus;
         thresholdCandidate trs (rsName rs) succeededTaskSelector
           (MinSucceededTaskCount policy) NewSucceededTaskTriggeredCompletionStatus]
  end.

(** The candidates of all roles of the spec, in the order of the spec. *)
Definition candidates `{CI} (st : FrameworkStatus) (spec : FrameworkSpec) : list Candidate :=
  spTaskRoles spec ≫= roleCandidates st.

(** A candidate offered to the trigger held so far replaces it when none is
    held or when the candidate completed before it. *)
Definition offer (first : FirstTrigger) (cand : Candidate) : FirstTrigger :=
  if match first.1 with None => true | Some _ => false end
     || Before (tsCompletionTime cand.1) first.1
  then (tsCompletionTime cand.1, Some cand.2)
  else first.

(** Every role holds fewer than 2^31 tasks: its counts are [int32]. *)
Definition Int32Sized (st : FrameworkStatus) : Prop :=
  forall trs, trs ∈ TaskRoleStatuses st ->
    Z.of_nat (length (trTaskStatuses trs)) < 2147483648.

(** Every completed task carries the time of its completion. *)
Definition CompletedHaveTime (st : FrameworkStatus) : Prop :=
  forall trs ts, trs ∈ TaskRoleStatuses st -> ts ∈ trTaskStatuses trs ->
    tsState ts = TaskCompleted -> is_Some (tsCompletionTime ts).

(** [first] holds the earliest of the candidates [l]: nothing when there is
    no candidate, else a candidate of [l] before which no candidate of [l]
    completed. *)
Definition EarliestOf (l : list Candidate) (first : FirstTrigger) : Prop :=
  (l = [] /\ first = (None, None)) \/
  exists trigger cs t,
    (trigger, cs) ∈ l /\ first = (Some t, Some cs)
    /\ tsCompletionTime trigger = Some t
    /\ forall cand, cand ∈ l -> exists t', tsCompletionTime cand.1 = Some t' /\ t ≤ t'.

(** *** The scale of the status against the spec *)

(** The role [rs] of the spec has a status with at least [taskNumber] task
    slots, of which the slots at [taskNumber] and beyond are deletion
    pending. *)
Definition RoleSynced (st : FrameworkStatus) (rs : TaskRoleSpec) : Prop :=
  exists trs,
    GetTaskRoleStatus st (rsName rs) = Some trs
    /\ rsTaskNumber rs ≤ Z.of_nat (length (trTaskStatuses trs))
    /\ forall j ts, trTaskStatuses trs !! j = Some ts ->
         rsTaskNumber rs ≤ Z.of_nat j -> tsDeletionPending ts = true.

(** The status is in sync with the scale of the spec: every role of the
    spec is synced, and every task of a role of the status that the spec
    does not name is deletion pending. *)
Definition ScaleSynced (spec : FrameworkSpec) (st : FrameworkStatus) : Prop :=
  (forall rs, rs ∈ spTaskRoles spec -> RoleSynced st rs)
  /\ (forall trs, trs ∈ TaskRoleStatuses st ->
        GetTaskRoleSpec spec (trName trs) = None ->
        forall ts, ts ∈ trTaskStatuses trs -> tsDeletionPending ts = true).

(** The spec is well formed: the names of its roles are pairwise distinct
    and the task numbers are those of an [int32] that is not negative. *)
Definition SpecWellFormed (spec : FrameworkSpec) : Prop :=
  NoDup (rsName <$> spTaskRoles spec)
  /\ forall rs, rs ∈ spTaskRoles spec -> 0 ≤ rsTaskNumber rs < 2147483648.

(** [last] holds the latest completed task of the roles [roles]: nothing
    when all of them have task number 0, else a completed task of one of
    them, with the name of its role, after which none of their completed
    tasks completed. *)
Definition LatestOf (st : FrameworkStatus) (roles : list TaskRoleSpec)
    (last : LastCompleted) : Prop :=
  ((forall rs, rs ∈ roles -> rsTaskNumber rs = 0) /\ last = (None, EmptyString)) \/
  exists t rs trs tm,
    rs ∈ roles /\ rsTaskNumber rs <> 0 /\ last = (Some t, rsName rs)
    /\ GetTaskRoleStatus st (rsName rs) = Some trs
    /\ t ∈ trTaskStatuses trs /\ completedTaskSelector t = true
    /\ tsCompletionTime t = Some tm
    /\ forall rs' trs' t',
         rs' ∈ roles -> GetTaskRoleStatus st (rsName rs') = Some trs' ->
         t' ∈ trTaskStatuses trs' -> completedTaskSelector t' = true ->
         exists tm', tsCompletionTime t' = Some tm' /\ tm' ≤ tm.

(** *** Deletions and the creation timeout of a Pod *)

(** What a delete function returns, and the cluster it leaves, from the
    answer [deleted] of the cluster to the delete request and, when the
    request was accepted and is to be confirmed, its answer to the Get that
    follows. *)
Definition deleteOutcome {R A} (uid : UID) (getUID : A -> UID)
    (getDeletionTimestamp : A -> option Time) (confirm : bool)
    (deleted : option ApiError * R) (get : R -> (ApiError + A) * R) : option Error * R :=
  match deleted.1 with
  | Some e => (if negb (IsNotFound e) then Some (Err (ErrDelete e)) else None, deleted.2)
  | None =>
      if confirm
      then (confirmDeleted uid getUID getDeletionTimestamp (get deleted.2).1,
            (get deleted.2).2)
      else (None, deleted.2)
  end.

(** The completion status of a task attempt whose Pod did not appear in the
    local cache within the timeout. *)
Definition PodCreationTimeoutStatus `{CI} {R} (c : FrameworkController R)
    : TaskAttemptCompletionStatus :=
  NewTaskAttemptCompletionStatus CompletionCodePodCreationTimeout
    ("Pod does not appear in the local cache within timeout " +:+
       SecToDuration (ObjectLocalCacheCreationTimeoutSec (cConfig c)) +:+
       ", so consider it was deleted and explicitly delete it")
    None.

(** The options of the delete request of a Pod: the UID as precondition,
    and a grace period of zero when, and only when, the deletion is
    forced. *)
Definition podDeleteOptions (uid : UID) (force : bool) : DeleteOptions :=
  {| doPreconditionUID := uid;
     doGracePeriodSeconds := if force then Some 0 else None;
     doForeground := false |}.

#[global] Instance WellIndexed_dec (st : FrameworkStatus) : Decision (WellIndexed st).
Proof. unfold WellIndexed. apply _. Defined.

(** *** The accessors of the children *)

(** Whether the object of UID [uid] is the managed one: the one whose UID
    the status records. *)
Definition managed (recorded : option UID) (uid : UID) : bool :=
  match recorded with
  | None => false
  | Some u => bool_decide (u = uid)
  end.

(** The state after a delayed enqueue of the Framework, [left] seconds
    from now. *)
Definition enqueuedAfter {R} (s : St R) (left : Z) : St R :=
  {| stF := stF s;
     stW := {| wCluster := wCluster (stW s);
               wQueue := QueueAddAfter (Key (stF s)) left :: wQueue (stW s) |} |}.

(** The state whose status is [st] with the task of role [name] at index
    [idx] replaced by [ts]. *)
Definition putTask {R} (s : St R) (st : FrameworkStatus) (name : string) (idx : Z)
    (ts : TaskStatus) : St R :=
  setStatus s (alterTaskStatus name idx (fun _ => ts) st).

(** The task with the node and the addresses of [pod] recorded. *)
Definition recordPodInfo (pod : Pod) (ts : TaskStatus) : TaskStatus :=
  tsWithAttemptStatus
    (taWithPodInfo (Some (podNodeName pod)) (Some (podIP pod)) (Some (podHostIP pod))
       (tsAttemptStatus ts)) ts.

(** The completion status of a task attempt whose Pod succeeded or
    failed. *)
Definition PodSucceededStatus `{CI} (pod : Pod) : TaskAttemptCompletionStatus :=
  NewTaskAttemptCompletionStatus CompletionCodeSucceeded "Pod succeeded"
    (ExtractPodCompletionStatus pod).

Definition PodFailedStatus `{CI} (pod : Pod) : TaskAttemptCompletionStatus :=
  {| tacsCompletionStatus :=
       {| csCode := csCode (MatchCompletionCodeInfos pod);
          csPhrase := csPhrase (MatchCompletionCodeInfos pod);
          csType := csType (MatchCompletionCodeInfos pod);
          csDiagnostics := "Pod failed: " +:+ csDiagnostics (MatchCompletionCodeInfos pod) |};
     tacsPod := ExtractPodCompletionStatus pod |}.

(** The completion status of a task attempt deleted by a ScaleDown. *)
Definition DeleteTaskRequestedStatus `{CI} : TaskAttemptCompletionStatus :=
  NewTaskAttemptCompletionStatus CompletionCodeDeleteTaskRequested
    "User has requested to delete the Task by Framework ScaleDown" None.

(** *** The retry of a task *)

(** What the scheduling of a retry does to the task: the delay of the
    decision is recorded, unless a delay is recorded already. *)
Definition scheduleTaskRetryOn (d : RetryDecision) (ts : TaskStatus) : TaskStatus :=
  match RetryDelaySec (tsRetryPolicyStatus ts) with
  | Some _ => ts
  | None =>
      if ShouldRetry d
      then tsWithRetryPolicyStatus
             (rpsWithRetryDelaySec (Some (DelaySec d)) (tsRetryPolicyStatus ts)) ts
      else ts
  end.

(** What retryTask does to the task, at time [t]. *)
Definition retryTaskOn (d : RetryDecision) (t : Time) (ts : TaskStatus) : TaskStatus :=
  let rps := tsRetryPolicyStatus ts in
  let total := int32 (TotalRetriedCount rps + 1) in
  TransitionTaskState TaskAttemptCreationPending t
    (tsWithAttemptStatus (NewTaskAttemptStatus total)
       (tsWithRetryPolicyStatus
          {| TotalRetriedCount := total;
             AccountableRetriedCount :=
               if IsAccountable d
               then int32 (AccountableRetriedCount rps + 1)
               else AccountableRetriedCount rps;
             RetryDelaySec := None |} ts)).

(** The retry decision on a task whose role is not in the spec any more. *)
Definition roleDeletedDecision : RetryDecision :=
  {| ShouldRetry := false; IsAccountable := true; DelaySec := 0;
     Reason := "TaskRoleSpec is already deleted" |}.

(** *** The creation of the Pod of a task *)

(** The error [createPod] returns when the create request failed with
    [createErr]: a naming conflict when the name is taken and the local
    cache holds a Pod of that name that [owner] does not control. *)
Definition createPodError (createErr : ApiError) (cached : ApiError + Pod) (owner : ConfigMap)
    : Error :=
  match cached with
  | inr localPod =>
      if IsControlledBy (podControllerUID localPod) (cmUID owner)
      then Err (ErrCreate createErr)
      else Err (ErrCreateNamingConflict createErr (podUID localPod))
  | inl _ => Err (ErrCreate createErr)
  end.

(** What the creation of its Pod does to the task, at time [t]. *)
Definition podCreatedOn (uid : UID) (t : Time) (ts : TaskStatus) : TaskStatus :=
  TransitionTaskState TaskAttemptCreationRequested t
    (tsWithAttemptStatus
       (taWithPod (Some uid) (Some (taID (tsAttemptStatus ts), uid)) (tsAttemptStatus ts)) ts).

(** The completion status of a task attempt whose Pod the remote refused
    for good. *)
Definition PodSpecPermanentErrorStatus `{CI} (e : ApiError) : TaskAttemptCompletionStatus :=
  NewTaskAttemptCompletionStatus CompletionCodePodSpecPermanentError
    ("Failed to create Pod: " +:+ ToJson e) None.

(** *** The sync of the Framework against its ConfigMap *)

(** The state after [completeFrameworkAttempt] on the status [st]. *)
Definition completedAttempt `{CI} {R} (c : FrameworkController R) (force : bool)
    (completionStatus : option FrameworkAttemptCompletionStatus)
    (s : St R) (st : FrameworkStatus) : St R :=
  {| stF := withStatus (stF s)
              (completeFrameworkAttemptOn force completionStatus
                 (clockNow c (wCluster (stW s))) st);
     stW := completeFrameworkAttemptWorld force (Key (stF s)) st (stW s) |}.

(** The completion status of a FrameworkAttempt whose ConfigMap did not
    appear in the local cache in time. *)
Definition ConfigMapCreationTimeoutStatus `{CI} {R} (c : FrameworkController R)
    : FrameworkAttemptCompletionStatus :=
  NewFrameworkAttemptCompletionStatus CompletionCodeConfigMapCreationTimeout
    ("ConfigMap does not appear in the local cache within timeout " +:+
       SecToDuration (ObjectLocalCacheCreationTimeoutSec (cConfig c)) +:+
       ", so consider it was deleted and explicitly delete it")
    None.

(** The completion status of a FrameworkAttempt whose ConfigMap others
    deleted. *)
Definition ConfigMapExternalDeletedStatus `{CI} : FrameworkAttemptCompletionStatus :=
  NewFrameworkAttemptCompletionStatus CompletionCodeConfigMapExternalDeleted
    "ConfigMap was deleted by others" None.

(** The completion status of a FrameworkAttempt the user stopped. *)
Definition StopFrameworkRequestedStatus `{CI} : FrameworkAttemptCompletionStatus :=
  NewFrameworkAttemptCompletionStatus CompletionCodeStopFrameworkRequested
    "User has requested to stop the Framework" None.

(** What the creation of its ConfigMap does to the status, at time [t]. *)
Definition configMapCreatedOn (uid : UID) (t : Time) (st : FrameworkStatus) : FrameworkStatus :=
  TransitionFrameworkState FrameworkAttemptCreationRequested t
    (fsWithAttemptStatus
       (faWithConfigMap (Some uid) (Some (faID (fsAttemptStatus st), uid))
          (fsAttemptStatus st)) st).

(** *** The graceful deletion timeouts of the roles *)

(** The role with the graceful deletion timeout of the first of the role
    specs [l] that has its name, when there is one. *)
Definition withSpecTimeout (l : list TaskRoleSpec) (trs : TaskRoleStatus) : TaskRoleStatus :=
  match list_find (fun rs => rsName rs = trName trs) l with
  | Some (_, rs) =>
      trWithPodGracefulDeletionTimeoutSec (tkPodGracefulDeletionTimeoutSec (rsTask rs)) trs
  | None => trs
  end.

(** The timeout of the role is not the one of its spec in [l]. *)
Definition timeoutDiffers (l : list TaskRoleSpec) (trs : TaskRoleStatus) : bool :=
  match list_find (fun rs => rsName rs = trName trs) l with
  | Some (_, rs) =>
      negb (bool_decide (trPodGracefulDeletionTimeoutSec trs
                         = tkPodGracefulDeletionTimeoutSec (rsTask rs)))
  | None => false
  end.

(** [common.EqualsPtrInt64] tells whether the two pointers are both nil or
    point to equal numbers, and [common.DeepCopyInt64] copies the number
    pointed to. *)
Definition PointerHelpers `{Common} : Prop :=
  (forall a b, EqualsPtrInt64 a b = bool_decide (a = b))
  /\ (forall a, DeepCopyInt64 a = a).

(** *** Compaction *)

(** The task is completed and deletion pending: compaction may delete or
    replace it. *)
Definition stale (ts : TaskStatus) : bool :=
  tsDeletionPending ts && bool_decide (tsState ts = TaskCompleted).

(** The number of tasks at the head of [l] that are stale, one after the
    other. *)
Fixpoint stalePrefix (l : list TaskStatus) : nat :=
  match l with
  | ts :: l' => if stale ts then S (stalePrefix l') else 0
  | [] => 0
  end.

(** The number of tasks compaction leaves to a role of task number
    [taskCountSpec] in the spec: the stale tasks at the end of [tasks] go,
    down to the task number. *)
Definition cutPoint (taskCountSpec : Z) (tasks : list TaskStatus) : nat :=
  let count := Z.of_nat (length tasks) in
  Z.to_nat (Z.min count (Z.max (count - Z.of_nat (stalePrefix (reverse tasks))) taskCountSpec)).

(** What the first loop of compaction leaves of a role: the role cut at
    its cut point, or nothing when the spec does not name the role and no
    task is left. *)
Definition compactedRole (spec : FrameworkSpec) (trs : TaskRoleStatus)
    : option TaskRoleStatus :=
  match GetTaskRoleSpec spec (trName trs) with
  | None =>
      if bool_decide (cutPoint 0 (trTaskStatuses trs) = 0%nat) then None
      else Some (trWithTaskStatuses
                   (take (cutPoint 0 (trTaskStatuses trs)) (trTaskStatuses trs)) trs)
  | Some rs =>
      Some (trWithTaskStatuses
              (take (cutPoint (rsTaskNumber rs) (trTaskStatuses trs)) (trTaskStatuses trs)) trs)
  end.

(** What the second loop of compaction makes of a role, at time [t]: in a
    role the spec names, a stale task below the task number is replaced by
    a new task of its index. *)
Definition replacedTask (taskCountSpec : Z) (t : Time) (j : nat) (ts : TaskStatus)
    : TaskStatus :=
  if bool_decide (Z.of_nat j < taskCountSpec) && stale ts
  then NewTaskStatus (Z.of_nat j) t else ts.

Definition replacedRole (spec : FrameworkSpec) (t : Time) (trs : TaskRoleStatus)
    : TaskRoleStatus :=
  match GetTaskRoleSpec spec (trName trs) with
  | None => trs
  | Some rs =>
      trWithTaskStatuses (imap (replacedTask (rsTaskNumber rs) t) (trTaskStatuses trs)) trs
  end.

(** The role has a task the second loop replaces. *)
Definition replaceable (spec : FrameworkSpec) (trs : TaskRoleStatus) : bool :=
  match GetTaskRoleSpec spec (trName trs) with
  | None => false
  | Some rs =>
      existsb id (imap (fun j ts => bool_decide (Z.of_nat j < rsTaskNumber rs) && stale ts)
                    (trTaskStatuses trs))
  end.

(** ** Example Frameworks *)

Definition exRetryPolicy : RetryPolicySpec :=
  {| rpFancyRetryPolicy := false; rpMaxRetryCount := 1 |}.

Definition exTaskRoleSpec (name : string) (taskNumber minFailed minSucceeded : Z) : TaskRoleSpec :=
  {| rsName := name; rsTaskNumber := taskNumber;
     rsFrameworkAttemptCompletionPolicy :=
       {| MinFailedTaskCount := minFailed; MinSucceededTaskCount := minSucceeded |};
     rsTask := {| tkRetryPolicy := exRetryPolicy;
                  tkPodGracefulDeletionTimeoutSec := None; tkPod := "" |} |}.

Definition exSpec (executionType : ExecutionType) (roles : list TaskRoleSpec) : FrameworkSpec :=
  {| spDescription := ""; spExecutionType := executionType;
     spRetryPolicy := exRetryPolicy; spTaskRoles := roles |}.

Definition exTask (index : Z) (state : TaskState) (completion : option Time)
    (deletionPending : bool) (podUID_ : option UID)
    (cs : option TaskAttemptCompletionStatus) : TaskStatus :=
  {| tsIndex := index; tsState := state; tsTransitionTime := 0;
     tsCompletionTime := completion; tsDeletionPending := deletionPending;
     tsRetryPolicyStatus :=
       {| TotalRetriedCount := 0; AccountableRetriedCount := 0; RetryDelaySec := None |};
     tsAttemptStatus :=
       {| taID := 0; taPodUID := podUID_; taInstanceUID := None;
          taPodNodeName := None; taPodIP := None; taPodHostIP := None;
          taCompletionStatus := cs |} |}.

Definition exRole (name : string) (tasks : list TaskStatus) : TaskRoleStatus :=
  {| trName := name; trPodGracefulDeletionTimeoutSec := None; trTaskStatuses := tasks |}.

Definition exStatus (state : FrameworkState) (retryDelaySec : option Z)
    (cs : option FrameworkAttemptCompletionStatus) (roles : list TaskRoleStatus)
    : FrameworkStatus :=
  {| fsState := state; fsTransitionTime := 0;
     fsRetryPolicyStatus :=
       {| TotalRetriedCount := 0; AccountableRetriedCount := 0;
          RetryDelaySec := retryDelaySec |};
     fsAttemptStatus :=
       {| faID := 0; faConfigMapUID := Some "cm-uid"; faInstanceUID := None;
          faCompletionStatus := cs; faTaskRoleStatuses := roles |} |}.

Definition exFramework (spec : FrameworkSpec) (st : option FrameworkStatus) : Framework :=
  {| fNamespace := "default"; fName := "job"; fUID := "f-uid";
     fDeletionTimestamp := None; fSpec := spec; fStatus := st |}.

(** The world at time [t] in which deletions get the answer [answer] and
    the cache holds [cm]. *)
Definition exWorldWith (t : Time) (answer : option ApiError) (cm : option ConfigMap)
    : World ExampleCluster :=
  {| wCluster := {| ecNow := t; ecLog := []; ecDeleteAnswer := answer;
                    ecCachedConfigMap := cm |};
     wQueue := [] |}.

(** The world at time [t] in which deletions are accepted and the cache is
    empty. *)
Definition exWorld (t : Time) : World ExampleCluster := exWorldWith t None None.

Definition exState (spec : FrameworkSpec) (st : FrameworkStatus) (t : Time) : St ExampleCluster :=
  {| stF := exFramework spec (Some st); stW := exWorld t |}.

Definition exCompletionStatus (code : CompletionCode) : TaskAttemptCompletionStatus :=
  {| tacsCompletionStatus :=
       {| csCode := code; csPhrase := ""; csType := CompletionTypeUnknown;
          csDiagnostics := "" |};
     tacsPod := None |}.


(** *** A Framework of two roles

    Two workers and one parameter server; the Framework fails with the
    first failed worker and succeeds with the parameter server. *)

Definition exRoles : list TaskRoleSpec :=
  [exTaskRoleSpec "worker" 2 1 0; exTaskRoleSpec "ps" 1 0 1].

Definition exFailed : option TaskAttemptCompletionStatus :=
  Some (exCompletionStatus (CompletionCodePodFailed 1)).
Definition exSucceeded : option TaskAttemptCompletionStatus :=
  Some (exCompletionStatus CompletionCodeSucceeded).

(** Both workers failed, at the instants 5 and 3, and the parameter server
    succeeded at the instant 2. *)
Definition exPsTask : TaskStatus :=
  exTask 0 TaskCompleted (Some 2) false (Some "pod-ps-0") exSucceeded.

Definition exPolicyStatus : FrameworkStatus :=
  exStatus FrameworkAttemptRunning None None
    [exRole "worker"
       [exTask 0 TaskCompleted (Some 5) false (Some "pod-w-0") exFailed;
        exTask 1 TaskCompleted (Some 3) false (Some "pod-w-1") exFailed];
     exRole "ps" [exPsTask]].

Definition exPolicyState : St ExampleCluster :=
  exState (exSpec ExecutionStart exRoles) exPolicyStatus 10.

(** The same Framework without thresholds, all of its tasks completed: the
    second worker completed last, at the instant 7. *)
Definition exPlainRoles : list TaskRoleSpec :=
  [exTaskRoleSpec "worker" 2 0 0; exTaskRoleSpec "ps" 1 0 0; exTaskRoleSpec "idle" 0 0 0].

Definition exLastTask : TaskStatus :=
  exTask 1 TaskCompleted (Some 7) false (Some "pod-w-1") exSucceeded.

Definition exAllCompletedStatus : FrameworkStatus :=
  exStatus FrameworkAttemptRunning None None
    [exRole "worker"
       [exTask 0 TaskCompleted (Some 5) false (Some "pod-w-0") exFailed;
        exLastTask;
        exTask 2 TaskCompleted (Some 9) true (Some "pod-w-2") exSucceeded];
     exRole "ps" [exPsTask];
     exRole "idle" []].

Definition exAllCompletedState : St ExampleCluster :=
  exState (exSpec ExecutionStart exPlainRoles) exAllCompletedStatus 10.

(** A status out of scale: three workers for the two of the spec, no
    parameter server yet, and a role the spec does not name any more. *)
Definition exUnscaledStatus : FrameworkStatus :=
  exStatus FrameworkAttemptRunning None None
    [exRole "worker"
       [exTask 0 TaskAttemptRunning None false (Some "pod-w-0") None;
        exTask 1 TaskAttemptRunning None false (Some "pod-w-1") None;
        exTask 2 TaskAttemptRunning None false (Some "pod-w-2") None];
     exRole "old" [exTask 0 TaskAttemptRunning None false (Some "pod-o-0") None]].

Definition exUnscaledState : St ExampleCluster :=
  exState (exSpec ExecutionStart exRoles) exUnscaledStatus 10.

(** A worker whose Pod was requested at the instant 0 and is not in the
    local cache at the instant 1000, past the timeout of 300 seconds. *)
Definition exRequestedTask : TaskStatus :=
  exTask 0 TaskAttemptCreationRequested None false (Some "pod-w-0") None.

Definition exRequestedStatus : FrameworkStatus :=
  exStatus FrameworkAttemptRunning None None [exRole "worker" [exRequestedTask]].

(** The state in which the cluster answers a deletion with [answer]. *)
Definition exRequestedState (answer : option ApiError) : St ExampleCluster :=
  {| stF := exFramework (exSpec ExecutionStart exRoles) (Some exRequestedStatus);
     stW := exWorldWith 1000 answer None |}.

(** A Framework whose attempt completed at the instant 0 with a failure. *)
Definition exAttemptCompletion : FrameworkAttemptCompletionStatus :=
  {| facsCompletionStatus := tacsCompletionStatus (exCompletionStatus (CompletionCodePodFailed 1));
     facsTrigger := None |}.

Definition exAttemptCompletedStatus (retryDelaySec : option Z) : FrameworkStatus :=
  exStatus FrameworkAttemptCompleted retryDelaySec (Some exAttemptCompletion) [].

(** A running Framework the user asked to stop, with its ConfigMap in the
    local cache. *)
Definition exConfigMap : ConfigMap :=
  {| cmName := "job-attempt"; cmUID := "cm-uid"; cmDeletionTimestamp := None;
     cmControllerUID := Some "f-uid" |}.

Definition exStopStatus : FrameworkStatus :=
  exStatus FrameworkAttemptRunning None None
    [exRole "worker" [exTask 0 TaskAttemptRunning None false (Some "pod-w-0") None]].

Definition exStopState : St ExampleCluster :=
  {| stF := exFramework (exSpec ExecutionStop exRoles) (Some exStopStatus);
     stW := exWorldWith 10 None (Some exConfigMap) |}.

(** A Framework the user asked to stop while its attempt, which failed, is
    being deleted: the deletion of the ConfigMap is requested and the
    ConfigMap is still in the local cache. *)
Definition exStopDeletingStatus : FrameworkStatus :=
  exStatus FrameworkAttemptDeletionRequested None (Some exAttemptCompletion)
    [exRole "worker" [exTask 0 TaskCompleted (Some 5) false (Some "pod-w-0") exFailed]].

Definition exStopDeletingState : St ExampleCluster :=
  {| stF := exFramework (exSpec ExecutionStop exRoles) (Some exStopDeletingStatus);
     stW := exWorldWith 10 None (Some exConfigMap) |}.

(** ** A scripted cluster

    The instance the examples of the accessors, of the task and Framework
    state machines and of the status sync run on.  The local cache and the
    remote hold at most one Pod and one ConfigMap each; a creation is
    answered with the error, or with the UID, the cluster is set up with;
    every deletion gets the answer the cluster is set up with; the retry
    decision is the one the cluster is set up with; and the cluster keeps
    the log of the requests the remote received, the latest first. *)

Record ScriptedCluster := {
  scNow : Time;
  scLog : list Request;
  scCachedPod : option Pod;
  scRemotePod : option Pod;
  scCreatePod : ApiError + UID;
  scCachedConfigMap : option ConfigMap;
  scRemoteConfigMap : option ConfigMap;
  scCreateConfigMap : ApiError + UID;
  scDeleteAnswer : option ApiError;
  scRetryDecision : RetryDecision;
}.

Definition scRequest (q : Request) (r : ScriptedCluster) : ScriptedCluster :=
  {| scNow := scNow r; scLog := q :: scLog r;
     scCachedPod := scCachedPod r; scRemotePod := scRemotePod r;
     scCreatePod := scCreatePod r;
     scCachedConfigMap := scCachedConfigMap r;
     scRemoteConfigMap := scRemoteConfigMap r;
     scCreateConfigMap := scCreateConfigMap r;
     scDeleteAnswer := scDeleteAnswer r;
     scRetryDecision := scRetryDecision r |}.

(** The object of name [name] among at most one. *)
Definition scLookup {A} (getName : A -> string) (held : option A) (name : string)
    : ApiError + A :=
  match held with
  | Some x => if decide (getName x = name) then inr x else inl ecNotFound
  | None => inl ecNotFound
  end.

Definition scPodWithUID (uid : UID) (pod : Pod) : Pod :=
  {| podName := podName pod; podUID := uid;
     podDeletionTimestamp := podDeletionTimestamp pod;
     podControllerUID := podControllerUID pod;
     podNodeName := podNodeName pod; podIP := podIP pod; podHostIP := podHostIP pod;
     podPhase := podPhase pod |}.

Definition scConfigMapWithUID (uid : UID) (cm : ConfigMap) : ConfigMap :=
  {| cmName := cmName cm; cmUID := uid;
     cmDeletionTimestamp := cmDeletionTimestamp cm;
     cmControllerUID := cmControllerUID cm |}.

Definition scController : FrameworkController ScriptedCluster :=
  {| cConfig := ecConfig;
     clockNow := scNow;
     kClient_Pods_Create := fun ns pod r =>
       (match scCreatePod r with
        | inl e => inl e
        | inr uid => inr (scPodWithUID uid pod)
        end, scRequest (ReqCreate ns (podName pod)) r);
     kClient_Pods_Get := fun ns name r =>
       (scLookup podName (scRemotePod r) name, scRequest (ReqPodsGet ns name) r);
     kClient_Pods_Delete := fun ns name o r =>
       (scDeleteAnswer r, scRequest (ReqPodsDelete ns name o) r);
     kClient_ConfigMaps_Create := fun ns cm r =>
       (match scCreateConfigMap r with
        | inl e => inl e
        | inr uid => inr (scConfigMapWithUID uid cm)
        end, scRequest (ReqCreate ns (cmName cm)) r);
     kClient_ConfigMaps_Get := fun ns name r =>
       (scLookup cmName (scRemoteConfigMap r) name, scRequest (ReqConfigMapsGet ns name) r);
     kClient_ConfigMaps_Delete := fun ns name o r =>
       (scDeleteAnswer r, scRequest (ReqConfigMapsDelete ns name o) r);
     fClient_Frameworks_Get := fun ns name r =>
       (inl ecNotFound, scRequest (ReqFrameworksGet ns name) r);
     fClient_Frameworks_Delete := fun ns name o r =>
       (scDeleteAnswer r, scRequest (ReqFrameworksDelete ns name o) r);
     podLister_Get := fun ns name r => (scLookup podName (scCachedPod r) name, r);
     cmLister_Get := fun ns name r => (scLookup cmName (scCachedConfigMap r) name, r);
     RetryPolicy_ShouldRetry := fun _ _ _ _ _ r => (scRetryDecision r, r) |}.

(** The decisions of the examples: not to retry, and to retry, accountable,
    after [delay] seconds. *)
Definition scNoRetry : RetryDecision :=
  {| ShouldRetry := false; IsAccountable := false; DelaySec := 0; Reason := "" |}.
Definition scRetryAfter (delay : Z) : RetryDecision :=
  {| ShouldRetry := true; IsAccountable := true; DelaySec := delay; Reason := "" |}.

(** The cluster at time [t] whose local cache holds [pod] and [cm]: the
    remote holds nothing, refuses every creation, accepts every deletion
    and decides not to retry. *)
Definition scCluster (t : Time) (pod : option Pod) (cm : option ConfigMap)
    : ScriptedCluster :=
  {| scNow := t; scLog := [];
     scCachedPod := pod; scRemotePod := None; scCreatePod := inl ecRefused;
     scCachedConfigMap := cm; scRemoteConfigMap := None;
     scCreateConfigMap := inl ecRefused;
     scDeleteAnswer := None; scRetryDecision := scNoRetry |}.

(** The same cluster set up with the answers of the creations. *)
Definition scCreating (pod cm : ApiError + UID) (r : ScriptedCluster) : ScriptedCluster :=
  {| scNow := scNow r; scLog := scLog r;
     scCachedPod := scCachedPod r; scRemotePod := scRemotePod r;
     scCreatePod := pod;
     scCachedConfigMap := scCachedConfigMap r;
     scRemoteConfigMap := scRemoteConfigMap r;
     scCreateConfigMap := cm;
     scDeleteAnswer := scDeleteAnswer r;
     scRetryDecision := scRetryDecision r |}.

(** The same cluster set up with the answer of the deletions. *)
Definition scDeleting (answer : option ApiError) (r : ScriptedCluster) : ScriptedCluster :=
  {| scNow := scNow r; scLog := scLog r;
     scCachedPod := scCachedPod r; scRemotePod := scRemotePod r;
     scCreatePod := scCreatePod r;
     scCachedConfigMap := scCachedConfigMap r;
     scRemoteConfigMap := scRemoteConfigMap r;
     scCreateConfigMap := scCreateConfigMap r;
     scDeleteAnswer := answer;
     scRetryDecision := scRetryDecision r |}.

(** The same cluster set up with the retry decision. *)
Definition scRetrying (d : RetryDecision) (r : ScriptedCluster) : ScriptedCluster :=
  {| scNow := scNow r; scLog := scLog r;
     scCachedPod := scCachedPod r; scRemotePod := scRemotePod r;
     scCreatePod := scCreatePod r;
     scCachedConfigMap := scCachedConfigMap r;
     scRemoteConfigMap := scRemoteConfigMap r;
     scCreateConfigMap := scCreateConfigMap r;
     scDeleteAnswer := scDeleteAnswer r;
     scRetryDecision := d |}.

Definition scState (f : Framework) (r : ScriptedCluster) : St ScriptedCluster :=
  {| stF := f; stW := {| wCluster := r; wQueue := [] |} |}.

(** The error of a Pod whose spec the remote rejects for good. *)
Definition scInvalid : ApiError :=
  {| aeReason := StatusReasonOther; aeMessage := "invalid" |}.

(** The functions of package ci of the small cluster, with [scInvalid] as
    the permanent error of a Pod spec. *)
Definition scCI : CI :=
  {| CompletionCodeInfo := fun _ => ("", CompletionTypeUnknown);
     MatchCompletionCodeInfos := fun _ =>
       {| csCode := CompletionCodePodFailed 1; csPhrase := "";
          csType := CompletionTypeUnknown; csDiagnostics := "" |};
     ExtractPodCompletionStatus := fun _ => None;
     IsPodSpecPermanentError := fun e => bool_decide (aeMessage e = "invalid");
     GetPodDeletionStartTime := podDeletionTimestamp;
     GetConfigMapName := fun name => name +:+ "-attempt";
     NewFailedTaskTriggeredCompletionStatus := fun ts _ _ _ => ecCompletionStatus (Some ts);
     NewSucceededTaskTriggeredCompletionStatus := fun ts _ _ _ => ecCompletionStatus (Some ts);
     NewCompletedTaskTriggeredCompletionStatus := fun ts _ _ _ => ecCompletionStatus ts;
     NewTaskRoleStatuses := fun _ _ => [];
     SecToDuration := fun _ => "";
     ToJson := aeMessage |}.

(** The functions of package common of the examples: pointers to an int64
    are equal when both are nil or both point to the same number, and the
    status a Framework starts with is an attempt in creation pending
    without roles. *)
Definition scCommon : Common :=
  {| NewFrameworkStatus := fun f t =>
       {| fsState := FrameworkAttemptCreationPending; fsTransitionTime := t;
          fsRetryPolicyStatus :=
            {| TotalRetriedCount := 0; AccountableRetriedCount := 0;
               RetryDelaySec := None |};
          fsAttemptStatus :=
            {| faID := 0; faConfigMapUID := None; faInstanceUID := None;
               faCompletionStatus := None; faTaskRoleStatuses := [] |} |};
     EqualsPtrInt64 := fun a b => bool_decide (a = b);
     DeepCopyInt64 := fun a => a |}.

(** *** Example Pods and ConfigMaps *)

(** The Pod of the first worker, controlled by the ConfigMap of the
    attempt. *)
Definition exPod (uid : UID) (phase : PodPhase) (deletion : option Time) : Pod :=
  {| podName := "job-worker-0"; podUID := uid; podDeletionTimestamp := deletion;
     podControllerUID := Some "cm-uid";
     podNodeName := "node-1"; podIP := "10.0.0.1"; podHostIP := "10.1.0.1";
     podPhase := phase |}.

(** A ConfigMap of an earlier attempt of the Framework. *)
Definition exStaleConfigMap : ConfigMap :=
  {| cmName := "job-attempt"; cmUID := "cm-old"; cmDeletionTimestamp := None;
     cmControllerUID := Some "f-uid" |}.

(** A Framework running one worker of the two roles. *)
Definition exWorkerStatus (state : FrameworkState) (task : TaskStatus) : FrameworkStatus :=
  exStatus state None None [exRole "worker" [task]].

Definition exWorkerFramework (state : FrameworkState) (task : TaskStatus) : Framework :=
  exFramework (exSpec ExecutionStart exRoles) (Some (exWorkerStatus state task)).

(** ** Example states on the scripted cluster *)

(** *** A worker whose Pod is being deleted *)

Definition exGracefulStatus (task : TaskStatus) : FrameworkStatus :=
  exStatus FrameworkAttemptRunning None None
    [trWithPodGracefulDeletionTimeoutSec (Some 30) (exRole "worker" [task])].

Definition exRunningTask : TaskStatus :=
  exTask 0 TaskAttemptRunning None false (Some "pod-w-0") None.

Definition exGracefulState (t : Time) : St ScriptedCluster :=
  scState (exFramework (exSpec ExecutionStart exRoles)
             (Some (exGracefulStatus exRunningTask)))
    (scCluster t None None).

(** *** The states of the first worker *)

Definition exTaskState (fstate : FrameworkState) (task : TaskStatus) (r : ScriptedCluster)
    : St ScriptedCluster :=
  scState (exWorkerFramework fstate task) r.

(** *** A completed worker and its retry *)

Definition exCompletedTask (deletionPending : bool) : TaskStatus :=
  exTask 0 TaskAttemptCompleted None deletionPending (Some "pod-w-0") exFailed.

Definition exRetryState (delay : Z) : St ScriptedCluster :=
  exTaskState FrameworkAttemptRunning (exCompletedTask false)
    (scRetrying (scRetryAfter delay) (scCluster 10 None None)).

(** *** A worker whose Pod is to be created *)

Definition exPendingTask : TaskStatus :=
  exTask 0 TaskAttemptCreationPending None false None None.

(** *** The states of the Framework *)

Definition exFrameworkState (executionType : ExecutionType) (st : FrameworkStatus)
    (r : ScriptedCluster) : St ScriptedCluster :=
  scState (exFramework (exSpec executionType exRoles) (Some st)) r.

Definition exCompletedStatus : FrameworkStatus :=
  exStatus FrameworkCompleted None (Some exAttemptCompletion) [].

(** *** A Framework whose attempt is to be created *)

Definition exCreationPendingStatus : FrameworkStatus :=
  exWorkerStatus FrameworkAttemptCreationPending exPendingTask.

(** A Framework the user is deleting. *)
Definition exDeletingFramework : Framework :=
  {| fNamespace := "default"; fName := "job"; fUID := "f-uid";
     fDeletionTimestamp := Some 5; fSpec := exSpec ExecutionStart exRoles;
     fStatus := Some exCreationPendingStatus |}.

(** *** The sync of the status *)

(** The workers get 30 seconds for the graceful deletion of their Pods. *)
Definition exGracefulRoles : list TaskRoleSpec :=
  [{| rsName := "worker"; rsTaskNumber := 2;
      rsFrameworkAttemptCompletionPolicy :=
        {| MinFailedTaskCount := 1; MinSucceededTaskCount := 0 |};
      rsTask := {| tkRetryPolicy := exRetryPolicy;
                   tkPodGracefulDeletionTimeoutSec := Some 30; tkPod := "" |} |};
   exTaskRoleSpec "ps" 1 0 1].

Definition exTimeoutState : St ScriptedCluster :=
  scState (exFramework (exSpec ExecutionStart exGracefulRoles) (Some exUnscaledStatus))
    (scCluster 10 None None).

(** A status to compact: of three workers for the two of the spec, the
    first and the third are completed and deletion pending, and so is the
    only task of a role the spec does not name any more. *)
Definition exStaleTask (index : Z) : TaskStatus :=
  exTask index TaskCompleted (Some 5) true (Some "pod-gone") exSucceeded.

Definition exCompactStatus : FrameworkStatus :=
  exStatus FrameworkAttemptRunning None None
    [exRole "worker"
       [exStaleTask 0;
        exTask 1 TaskAttemptRunning None false (Some "pod-w-1") None;
        exStaleTask 2];
     exRole "old" [exStaleTask 0]].

Definition exCompactState : St ScriptedCluster :=
  scState (exFramework (exSpec ExecutionStart exRoles) (Some exCompactStatus))
    (scCluster 10 None None).

(** *** What a sync may touch *)

(** The key an operation on the work queue is for. *)
Definition queueKey (op : QueueOp) : string :=
  match op with
  | QueueAdd key | QueueAddAfter key _ => key
  end.

(** [f'] is [f] up to its status. *)
Definition SameFramework (f f' : Framework) : Prop :=
  withStatusPtr f' None = withStatusPtr f None.

(** From [s] to [s'] nothing of the Framework but its status changed, and
    the operations the queue got are for the key of the Framework. *)
Definition StatusOnly {R} (s s' : St R) : Prop :=
  SameFramework (stF s) (stF s')
  /\ exists ops, wQueue (stW s') = ops ++ wQueue (stW s)
                 /\ Forall (fun op => queueKey op = Key (stF s)) ops.

(** Whenever [m] returns, it has changed of the Framework its status
    only. *)
Definition KeepsFramework {R A} (m : M (St R) A) : Prop :=
  forall s a s', m s = Some (a, s') -> StatusOnly s s'.

(** *** The updates the remote is asked for *)

(** The clients [k] on a cluster that keeps, beside its state, the
    Frameworks the remote was asked to update, the latest first. *)
Definition recording {R} (k : PersistenceClients R) : PersistenceClients (R * list Framework) :=
  {| fLister_Get := fun ns name rl =>
       ((fLister_Get k ns name rl.1).1, ((fLister_Get k ns name rl.1).2, rl.2));
     fClient_Frameworks_Update := fun ns f rl =>
       ((fClient_Frameworks_Update k ns f rl.1).1,
        ((fClient_Frameworks_Update k ns f rl.1).2, f :: rl.2));
     DefaultRetrySteps := DefaultRetrySteps k;
     LargeFrameworkCompression := LargeFrameworkCompression k |}.

(** The world of cluster [r] and queue [q]. *)
Definition worldOf {R} (r : R) (q : list QueueOp) : World R :=
  {| wCluster := r; wQueue := q |}.

(** *** The Framework a sync works on *)

(** The working copy of [syncFramework]: the Framework of the local cache,
    with the expected status in place of its own if the store holds an
    expected info of its UID. *)
Definition workingCopy (store : gmap string ExpectedFrameworkStatusInfo)
    (localF : Framework) : Framework :=
  match store !! Key localF with
  | Some expected =>
      if bool_decide (esUID expected = fUID localF)
      then withStatusPtr localF (esStatus expected)
      else localF
  | None => localF
  end.

(** Whether the store holds an expected info of the UID of the Framework
    that the remote is not known to hold. *)
Definition remoteOutdated (store : gmap string ExpectedFrameworkStatusInfo)
    (localF : Framework) : bool :=
  match store !! Key localF with
  | Some expected => bool_decide (esUID expected = fUID localF) && negb (esRemoteSynced expected)
  | None => false
  end.

(** ** A scripted cluster with the Frameworks

    The scripted cluster together with the Frameworks the local cache is
    going to hold at the reads to come (the last one stays; none means
    the cache is empty), the answers the remote is going to give to the
    updates of the status (it accepts an update when none is left), and
    the Frameworks it was asked to update, the latest first. *)

Record PersistCluster := {
  pcCluster : ScriptedCluster;
  pcCachedFrameworks : list Framework;
  pcUpdateAnswers : list (option ApiError);
  pcUpdated : list Framework;
}.

(** An operation of the scripted cluster, on the cluster with the
    Frameworks. *)
Definition onCluster {A} (op : ScriptedCluster -> A * ScriptedCluster) (r : PersistCluster)
    : A * PersistCluster :=
  ((op (pcCluster r)).1,
   {| pcCluster := (op (pcCluster r)).2;
      pcCachedFrameworks := pcCachedFrameworks r;
      pcUpdateAnswers := pcUpdateAnswers r;
      pcUpdated := pcUpdated r |}).

Definition pcController : FrameworkController PersistCluster :=
  {| cConfig := ecConfig;
     clockNow := fun r => scNow (pcCluster r);
     kClient_Pods_Create := fun ns pod => onCluster (kClient_Pods_Create scController ns pod);
     kClient_Pods_Get := fun ns name => onCluster (kClient_Pods_Get scController ns name);
     kClient_Pods_Delete := fun ns name o =>
       onCluster (kClient_Pods_Delete scController ns name o);
     kClient_ConfigMaps_Create := fun ns cm =>
       onCluster (kClient_ConfigMaps_Create scController ns cm);
     kClient_ConfigMaps_Get := fun ns name =>
       onCluster (kClient_ConfigMaps_Get scController ns name);
     kClient_ConfigMaps_Delete := fun ns name o =>
       onCluster (kClient_ConfigMaps_Delete scController ns name o);
     fClient_Frameworks_Get := fun ns name =>
       onCluster (fClient_Frameworks_Get scController ns name);
     fClient_Frameworks_Delete := fun ns name o =>
       onCluster (fClient_Frameworks_Delete scController ns name o);
     podLister_Get := fun ns name => onCluster (podLister_Get scController ns name);
     cmLister_Get := fun ns name => onCluster (cmLister_Get scController ns name);
     RetryPolicy_ShouldRetry := fun rp rps cs minDelay maxDelay =>
       onCluster (RetryPolicy_ShouldRetry scController rp rps cs minDelay maxDelay) |}.

(** The clients of the persistence: five steps of retry, no compression. *)
Definition pcClients : PersistenceClients PersistCluster :=
  {| fLister_Get := fun ns name r =>
       (scLookup fName (head (pcCachedFrameworks r)) name,
        {| pcCluster := pcCluster r;
           pcCachedFrameworks :=
             match pcCachedFrameworks r with
             | _ :: (_ :: _) as later => later
             | held => held
             end;
           pcUpdateAnswers := pcUpdateAnswers r;
           pcUpdated := pcUpdated r |});
     fClient_Frameworks_Update := fun ns f r =>
       (default None (head (pcUpdateAnswers r)),
        {| pcCluster := pcCluster r;
           pcCachedFrameworks := pcCachedFrameworks r;
           pcUpdateAnswers := tail (pcUpdateAnswers r);
           pcUpdated := f :: pcUpdated r |});
     DefaultRetrySteps := 5;
     LargeFrameworkCompression := Some false |}.

(** The slash, character 47. *)
Definition slash : Ascii.ascii := Ascii.ascii_of_nat 47.

(** The key [namespace/name] split at its first slash. *)
Fixpoint splitKey (key : string) : string * string :=
  match key with
  | EmptyString => (EmptyString, EmptyString)
  | String a key' =>
      if Ascii.eqb a slash then (EmptyString, key')
      else (String a (splitKey key').1, (splitKey key').2)
  end.

Definition pcConflict : ApiError :=
  {| aeReason := StatusReasonOther; aeMessage := "conflict" |}.

(** The functions of the persistence of the examples: nothing is
    compressed. *)
Definition pcPersistence : Persistence :=
  {| SplitFrameworkKey := splitKey;
     Compress := fun f => (f, None);
     Decompress := fun f => (f, None);
     IsConflict := fun e => bool_decide (aeMessage e = "conflict") |}.

(** The worker state at time [t]: the local cache holds the Frameworks
    [held], one after the other, the remote answers the updates with
    [answers], the store is [store] and the queue is empty. *)
Definition pcState (t : Time) (held : list Framework) (answers : list (option ApiError))
    (store : gmap string ExpectedFrameworkStatusInfo) : Ctl PersistCluster :=
  {| ctlW := {| wCluster := {| pcCluster := scCluster t None None;
                               pcCachedFrameworks := held;
                               pcUpdateAnswers := answers;
                               pcUpdated := [] |};
                wQueue := [] |};
     fExpectedStatusInfos := store |}.

(** A Framework the controller sees for the first time, without status. *)
Definition exNewFramework : Framework := exFramework (exSpec ExecutionStart exRoles) None.

(** The expected info of the running Framework, synced with the remote. *)
Definition exExpected (remoteSynced : bool) : ExpectedFrameworkStatusInfo :=
  {| esStatus := Some (exWorkerStatus FrameworkAttemptRunning exRunningTask);
     esUID := "f-uid"; esRemoteSynced := remoteSynced |}.

(** The running Framework as the local cache holds it. *)
Definition exCachedFramework (task : TaskStatus) : Framework :=
  exWorkerFramework FrameworkAttemptRunning task.

(** * Verification *)

Section Proofs.
Context {HCI : CI} {R : Type}.
Implicit Type c : FrameworkController R.
Implicit Type s : St R.

(** ** The update handler of the Framework informer *)

(** C9. For a Framework update event whose old and new objects have the
    same UID and deeply equal specs, the update handler returns without any
    operation on the work queue: status-only and metadata-only updates leave
    the queue, and the whole world, unchanged. *)
Theorem updateFrameworkObj_same_spec_no_enqueue c (oldObj newObj : Framework) (w : World R) :
  fUID oldObj = fUID newObj ->
  fSpec oldObj = fSpec newObj ->
  updateFrameworkObj c oldObj newObj w = Some (tt, w).
Proof.
  intros Huid Hspec. unfold updateFrameworkObj.
  rewrite (bool_decide_eq_true_2 _ Huid), (bool_decide_eq_true_2 _ Hspec).
  reflexivity.
Qed.

(** The handler does enqueue the key once the spec changes. *)
Lemma updateFrameworkObj_spec_changed c (oldObj newObj : Framework) (w : World R) :
  fUID oldObj = fUID newObj ->
  fSpec oldObj <> fSpec newObj ->
  updateFrameworkObj c oldObj newObj w =
    Some (tt, {| wCluster := wCluster w; wQueue := QueueAdd (Key newObj) :: wQueue w |}).
Proof.
  intros Huid Hspec. unfold updateFrameworkObj.
  rewrite (bool_decide_eq_true_2 _ Huid), (bool_decide_eq_false_2 _ Hspec).
  reflexivity.
Qed.

(** ** Deletion is idempotent on absent objects *)

Lemma run_status s st :
  fStatus (stF s) = Some st -> status s = Some (st, s).
Proof. intros Hst. unfold status, bind, gets, deref. by rewrite Hst. Qed.

Lemma run_TaskStatus s st taskRoleName taskIndex ts :
  fStatus (stF s) = Some st ->
  GetTaskStatus st taskRoleName taskIndex = Some ts ->
  TaskStatus_ taskRoleName taskIndex s = Some (ts, s).
Proof.
  intros Hst Hts. unfold TaskStatus_, bind. rewrite (run_status _ _ Hst).
  unfold deref. by rewrite Hts.
Qed.

(** C10. The delete operations are idempotent on objects that are already
    absent.  For each of deleteFramework, deleteConfigMap and deletePod:
    when the remote delete request fails with an error [e], the function
    returns nil if [e] is a not-found error and an error otherwise, with no
    further request; and when the delete request succeeds, an error is only
    returned with [confirm] set, from the confirming Get (the object cannot
    be got, or still exists with the same UID). *)
Theorem delete_not_found_is_success c (confirm : bool) s :
  let f := stF s in
  let r0 := wCluster (stW s) in
  (forall e r,
      fClient_Frameworks_Delete c (fNamespace f) (fName f)
        {| doPreconditionUID := fUID f; doGracePeriodSeconds := None;
           doForeground := true |} r0 = (Some e, r) ->
      deleteFramework c confirm s =
        Some (if IsNotFound e then None else Some (Err (ErrDelete e)), afterCall s r))
  /\ (forall r err s',
      fClient_Frameworks_Delete c (fNamespace f) (fName f)
        {| doPreconditionUID := fUID f; doGracePeriodSeconds := None;
           doForeground := true |} r0 = (None, r) ->
      deleteFramework c confirm s = Some (Some err, s') ->
      confirm = true /\
      confirmDeleted (fUID f) fUID fDeletionTimestamp
        (fClient_Frameworks_Get c (fNamespace f) (fName f) r).1 = Some err)
  /\ (forall uid e r,
      kClient_ConfigMaps_Delete c (fNamespace f) (ConfigMapName f)
        {| doPreconditionUID := uid; doGracePeriodSeconds := None;
           doForeground := false |} r0 = (Some e, r) ->
      deleteConfigMap c uid confirm s =
        Some (if IsNotFound e then None else Some (Err (ErrDelete e)), afterCall s r))
  /\ (forall uid r err s',
      kClient_ConfigMaps_Delete c (fNamespace f) (ConfigMapName f)
        {| doPreconditionUID := uid; doGracePeriodSeconds := None;
           doForeground := false |} r0 = (None, r) ->
      deleteConfigMap c uid confirm s = Some (Some err, s') ->
      confirm = true /\
      confirmDeleted uid cmUID cmDeletionTimestamp
        (kClient_ConfigMaps_Get c (fNamespace f) (ConfigMapName f) r).1 = Some err)
  /\ (forall st taskRoleName taskIndex ts uid (force : bool) e r,
      fStatus f = Some st ->
      GetTaskStatus st taskRoleName taskIndex = Some ts ->
      kClient_Pods_Delete c (fNamespace f) (GetPodName (fName f) taskRoleName (tsIndex ts))
        {| doPreconditionUID := uid;
           doGracePeriodSeconds := if force then Some 0 else None;
           doForeground := false |} r0 = (Some e, r) ->
      deletePod c taskRoleName taskIndex uid confirm force s =
        Some (if IsNotFound e then None else Some (Err (ErrDelete e)), afterCall s r))
  /\ (forall st taskRoleName taskIndex ts uid (force : bool) r err s',
      fStatus f = Some st ->
      GetTaskStatus st taskRoleName taskIndex = Some ts ->
      kClient_Pods_Delete c (fNamespace f) (GetPodName (fName f) taskRoleName (tsIndex ts))
        {| doPreconditionUID := uid;
           doGracePeriodSeconds := if force then Some 0 else None;
           doForeground := false |} r0 = (None, r) ->
      deletePod c taskRoleName taskIndex uid confirm force s = Some (Some err, s') ->
      confirm = true /\
      confirmDeleted uid podUID podDeletionTimestamp
        (kClient_Pods_Get c (fNamespace f)
           (GetPodName (fName f) taskRoleName (tsIndex ts)) r).1 = Some err).
Proof.
  intros f r0. split_and!.
  - intros e r Hdel. unfold deleteFramework, bind, gets, liftW, call. fold f r0.
    rewrite Hdel. by destruct (IsNotFound e).
  - intros r err s' Hdel. unfold deleteFramework, bind, gets, liftW, call. fold f r0.
    rewrite Hdel. destruct confirm; [|by intros [=]]. simpl.
    destruct (fClient_Frameworks_Get c _ _ r) as [got r']. intros [= Herr _]; split; [done|exact Herr].
  - intros uid e r Hdel. unfold deleteConfigMap, bind, gets, liftW, call. fold f r0.
    rewrite Hdel. by destruct (IsNotFound e).
  - intros uid r err s' Hdel. unfold deleteConfigMap, bind, gets, liftW, call. fold f r0.
    rewrite Hdel. destruct confirm; [|by intros [=]]. simpl.
    destruct (kClient_ConfigMaps_Get c _ _ r) as [got r']. intros [= Herr _]; split; [done|exact Herr].
  - intros st role idx ts uid force e r Hst Hts Hdel.
    unfold deletePod, PodName_, bind, gets. rewrite (run_TaskStatus _ _ _ _ _ Hst Hts).
    unfold liftW, call, ret. fold f r0. simpl. rewrite Hdel. by destruct (IsNotFound e).
  - intros st role idx ts uid force r err s' Hst Hts Hdel.
    unfold deletePod, PodName_, bind, gets. rewrite (run_TaskStatus _ _ _ _ _ Hst Hts).
    unfold liftW, call, ret. fold f r0. simpl. rewrite Hdel.
    destruct confirm; [|by intros [=]]. simpl.
    destruct (kClient_Pods_Get c _ _ r) as [got r']. intros [= Herr _]; split; [done|exact Herr].
Qed.


(** ** Roles and tasks: lookups by name and by position *)

Lemma findTaskRoleStatus_Some name (l : list TaskRoleStatus) i trs :
  findTaskRoleStatus name l = Some (i, trs) ->
  l !! i = Some trs /\ trName trs = name.
Proof. intros (? & ? & _)%list_find_Some. done. Qed.

Lemma findTaskRoleStatus_alter name (g : TaskRoleStatus -> TaskRoleStatus)
    (l : list TaskRoleStatus) i :
  (forall x, trName (g x) = trName x) ->
  findTaskRoleStatus name (alter g i l) =
    (fun p => (p.1, if decide (p.1 = i) then g p.2 else p.2)) <$> findTaskRoleStatus name l.
Proof.
  intros Hg. unfold findTaskRoleStatus. revert i.
  induction l as [|x l IH]; intros i; [done|].
  destruct i as [|i]; simpl.
  - rewrite Hg. case_decide; [done|].
    by destruct (list_find _ l) as [[k y]|].
  - case_decide; [done|].
    change (list_alter g i l) with (alter g i l). rewrite IH.
    destruct (list_find _ l) as [[k y]|]; [|done]. simpl.
    destruct (decide (k = i)) as [->|Hne].
    + by rewrite decide_True.
    + by rewrite decide_False by lia.
Qed.

Lemma findTaskRoleStatus_NoDup (l : list TaskRoleStatus) i trs :
  NoDup (trName <$> l) -> l !! i = Some trs ->
  findTaskRoleStatus (trName trs) l = Some (i, trs).
Proof.
  intros Hnd Hi. apply list_find_Some. split_and!; [done..|].
  intros j y Hj Hlt Heq.
  assert (i = j); [|lia].
  eapply NoDup_lookup; [exact Hnd| |].
  - by rewrite list_lookup_fmap, Hi.
  - by rewrite list_lookup_fmap, Hj, <- Heq.
Qed.

Lemma taskAt_Some (l : list TaskStatus) idx ts :
  taskAt l idx = Some ts <-> 0 ≤ idx /\ l !! Z.to_nat idx = Some ts.
Proof. unfold taskAt. case_bool_decide; naive_solver. Qed.

Lemma taskAt_of_nat (l : list TaskStatus) (j : nat) : taskAt l (Z.of_nat j) = l !! j.
Proof. unfold taskAt. rewrite bool_decide_eq_true_2 by lia. by rewrite Nat2Z.id. Qed.

Lemma GetTaskStatus_Some st name idx ts :
  GetTaskStatus st name idx = Some ts <->
  exists i trs, findTaskRoleStatus name (TaskRoleStatuses st) = Some (i, trs)
    /\ 0 ≤ idx /\ trTaskStatuses trs !! Z.to_nat idx = Some ts.
Proof.
  unfold GetTaskStatus, GetTaskRoleStatus.
  destruct (findTaskRoleStatus name (TaskRoleStatuses st)) as [[i trs]|]; simpl.
  - rewrite taskAt_Some. naive_solver.
  - naive_solver.
Qed.

Lemma GetTaskStatus_cell st name idx ts :
  GetTaskStatus st name idx = Some ts ->
  exists i, cell st i (Z.to_nat idx) = Some ts /\ 0 ≤ idx /\
    (exists trs, findTaskRoleStatus name (TaskRoleStatuses st) = Some (i, trs)) /\
    forall g, alterTaskStatus name idx g st = alterTaskPos i (Z.to_nat idx) g st.
Proof.
  intros (i & trs & Hfind & Hidx & Hts)%GetTaskStatus_Some. exists i.
  destruct (findTaskRoleStatus_Some _ _ _ _ Hfind) as [Hi _].
  split_and!; [|done|by eauto|].
  - unfold cell. by rewrite Hi.
  - intros g. unfold alterTaskStatus, alterTaskPos, alterTaskRoleStatus, alterTaskAt.
    rewrite Hfind. by rewrite bool_decide_eq_true_2.
Qed.

Lemma WellIndexed_index st i trs j ts :
  WellIndexed st -> TaskRoleStatuses st !! i = Some trs ->
  trTaskStatuses trs !! j = Some ts -> tsIndex ts = Z.of_nat j.
Proof.
  intros [_ Hidx] Hi Hj.
  eapply Forall_lookup_1 in Hidx; [|exact Hi]. simpl in Hidx.
  assert (Hl : (tsIndex <$> trTaskStatuses trs) !! j = Some (tsIndex ts))
    by (by rewrite list_lookup_fmap, Hj).
  rewrite Hidx in Hl. apply lookup_seqZ in Hl. lia.
Qed.

Lemma WellIndexed_GetTaskStatus st i trs j ts :
  WellIndexed st -> TaskRoleStatuses st !! i = Some trs ->
  trTaskStatuses trs !! j = Some ts ->
  GetTaskStatus st (trName trs) (tsIndex ts) = Some ts /\
  GetTaskRoleStatus st (trName trs) = Some trs /\
  forall g, alterTaskStatus (trName trs) (tsIndex ts) g st = alterTaskPos i j g st.
Proof.
  intros Hwf Hi Hj.
  pose proof (WellIndexed_index _ _ _ _ _ Hwf Hi Hj) as Hidx.
  pose proof (findTaskRoleStatus_NoDup _ _ _ (proj1 Hwf) Hi) as Hfind.
  split_and!.
  - apply GetTaskStatus_Some. exists i, trs. rewrite Hidx, Nat2Z.id. split_and!; [done|lia|done].
  - unfold GetTaskRoleStatus. by rewrite Hfind.
  - intros g. unfold alterTaskStatus, alterTaskPos, alterTaskRoleStatus, alterTaskAt.
    rewrite Hfind, Hidx, Nat2Z.id. by rewrite bool_decide_eq_true_2 by lia.
Qed.

(** *** Updates at a position *)

Lemma TaskRoleStatuses_with l st :
  TaskRoleStatuses (fsWithTaskRoleStatuses l st) = l.
Proof. done. Qed.

Lemma fsWithTaskRoleStatuses_twice l1 l2 st :
  fsWithTaskRoleStatuses l2 (fsWithTaskRoleStatuses l1 st) = fsWithTaskRoleStatuses l2 st.
Proof. done. Qed.

Lemma TaskRoleStatuses_alterTaskPos i j g st :
  TaskRoleStatuses (alterTaskPos i j g st) =
    alter (fun trs => trWithTaskStatuses (alter g j (trTaskStatuses trs)) trs) i
      (TaskRoleStatuses st).
Proof. done. Qed.

Lemma cell_alterTaskPos i j g st i' j' :
  cell (alterTaskPos i j g st) i' j' =
    if decide (i = i' /\ j = j') then g <$> cell st i j else cell st i' j'.
Proof.
  unfold cell. rewrite TaskRoleStatuses_alterTaskPos.
  destruct (decide (i = i')) as [<-|Hne].
  - rewrite list_lookup_alter_eq.
    destruct (TaskRoleStatuses st !! i) as [trs|]; simpl; [|by case_decide].
    destruct (decide (j = j')) as [<-|Hne].
    + rewrite list_lookup_alter_eq. by rewrite decide_True.
    + rewrite list_lookup_alter_ne by done. by rewrite decide_False by naive_solver.
  - rewrite list_lookup_alter_ne by done. by rewrite decide_False by naive_solver.
Qed.

Lemma alterTaskPos_compose i j g1 g2 st :
  alterTaskPos i j g2 (alterTaskPos i j g1 st) = alterTaskPos i j (g2 ∘ g1) st.
Proof.
  unfold alterTaskPos.
  rewrite TaskRoleStatuses_with, fsWithTaskRoleStatuses_twice, list_alter_alter_eq.
  f_equal. apply list_alter_ext; [|done].
  intros trs _. unfold trWithTaskStatuses; simpl. f_equal.
  apply list_alter_alter_eq.
Qed.

Lemma alterTaskPos_ext i j g1 g2 st ts :
  cell st i j = Some ts -> g1 ts = g2 ts ->
  alterTaskPos i j g1 st = alterTaskPos i j g2 st.
Proof.
  intros Hc Hg. unfold alterTaskPos. f_equal.
  apply list_alter_ext; [|done]. intros trs Hi. f_equal.
  apply list_alter_ext; [|done]. intros ts' Hj.
  unfold cell in Hc. rewrite Hi in Hc. simpl in Hc. congruence.
Qed.

Lemma alterTaskPos_id i j g st :
  (forall ts, cell st i j = Some ts -> g ts = ts) -> alterTaskPos i j g st = fsWithTaskRoleStatuses (TaskRoleStatuses st) st.
Proof.
  intros Hg. unfold alterTaskPos. f_equal.
  transitivity (alter id i (TaskRoleStatuses st)); [|by apply list_alter_id].
  apply list_alter_ext; [|done]. intros trs Hi. destruct trs as [n t l]. unfold trWithTaskStatuses; simpl.
  f_equal. transitivity (alter id j l); [|by apply list_alter_id].
  apply list_alter_ext; [|done]. intros ts Hj. apply Hg.
  unfold cell. by rewrite Hi.
Qed.

Lemma WellIndexed_alterTaskPos i j g st :
  (forall ts, cell st i j = Some ts -> tsIndex (g ts) = tsIndex ts) ->
  WellIndexed st -> WellIndexed (alterTaskPos i j g st).
Proof.
  intros Hg [Hnd Hidx]. split.
  - rewrite TaskRoleStatuses_alterTaskPos.
    erewrite list_fmap_alter with (h := id); [by rewrite list_alter_id|].
    by apply Forall_forall.
  - rewrite TaskRoleStatuses_alterTaskPos.
    apply Forall_lookup. intros k trs' Hk.
    destruct (decide (i = k)) as [<-|Hne].
    + rewrite list_lookup_alter_eq in Hk.
      destruct (TaskRoleStatuses st !! i) as [trs|] eqn:Hi; [|done].
      simpl in Hk. injection Hk as <-. simpl.
      eapply Forall_lookup_1 in Hidx; [|exact Hi]. simpl in Hidx.
      rewrite length_alter, <- Hidx.
      apply list_eq. intros k. rewrite !list_lookup_fmap.
      destruct (decide (j = k)) as [<-|Hne].
      * rewrite list_lookup_alter_eq.
        destruct (trTaskStatuses trs !! j) as [ts|] eqn:Hj; [|done]. simpl.
        f_equal. apply Hg. unfold cell. by rewrite Hi.
      * by rewrite list_lookup_alter_ne.
    + rewrite list_lookup_alter_ne in Hk by done.
      by eapply Forall_lookup_1 in Hidx.
Qed.

Lemma roleFoundAt_alterTaskPos st name i i' j' g :
  roleFoundAt st name i -> roleFoundAt (alterTaskPos i' j' g st) name i.
Proof.
  intros [trs Hfind]. unfold roleFoundAt.
  rewrite TaskRoleStatuses_alterTaskPos, findTaskRoleStatus_alter by done.
  rewrite Hfind. simpl. eauto.
Qed.

Lemma roleFoundAt_alterTaskStatus st name i idx g :
  roleFoundAt st name i -> 0 ≤ idx ->
  alterTaskStatus name idx g st = alterTaskPos i (Z.to_nat idx) g st.
Proof.
  intros [trs Hfind] Hidx.
  unfold alterTaskStatus, alterTaskPos, alterTaskRoleStatus, alterTaskAt.
  rewrite Hfind. by rewrite bool_decide_eq_true_2.
Qed.

Lemma roleFoundAt_GetTaskStatus st name i idx :
  roleFoundAt st name i -> 0 ≤ idx ->
  GetTaskStatus st name idx = cell st i (Z.to_nat idx).
Proof.
  intros [trs Hfind] Hidx. unfold GetTaskStatus, GetTaskRoleStatus, cell.
  rewrite Hfind. simpl.
  destruct (findTaskRoleStatus_Some _ _ _ _ Hfind) as [-> _]. simpl.
  unfold taskAt. by rewrite bool_decide_eq_true_2.
Qed.

Lemma GetTaskStatus_locate st name idx ts :
  GetTaskStatus st name idx = Some ts ->
  exists i, roleFoundAt st name i /\ 0 ≤ idx /\ cell st i (Z.to_nat idx) = Some ts.
Proof.
  intros (i & Hc & Hidx & Hf & _)%GetTaskStatus_cell. eauto.
Qed.

Lemma WellIndexed_roleFoundAt st i trs :
  WellIndexed st -> TaskRoleStatuses st !! i = Some trs -> roleFoundAt st (trName trs) i.
Proof. intros [Hnd _] Hi. exists trs. by apply findTaskRoleStatus_NoDup. Qed.

(** ** The runs of the primitives *)

Lemma bind_run {S A B} (m : M S A) (k : A -> M S B) (s s' : S) a :
  m s = Some (a, s') -> bind m k s = k a s'.
Proof. unfold bind. by intros ->. Qed.

Lemma run_modifyStatus s st g :
  fStatus (stF s) = Some st -> modifyStatus g s = Some (tt, setStatus s (g st)).
Proof. intros Hst. unfold modifyStatus. by rewrite (bind_run _ _ _ _ _ (run_status _ _ Hst)). Qed.

Lemma run_modifyTask s st name idx g ts :
  fStatus (stF s) = Some st ->
  GetTaskStatus st name idx = Some ts ->
  modifyTask name idx g s = Some (tt, setStatus s (alterTaskStatus name idx g st)).
Proof.
  intros Hst Hts. unfold modifyTask.
  rewrite (bind_run _ _ _ _ _ (run_TaskStatus _ _ _ _ _ Hst Hts)).
  by apply run_modifyStatus.
Qed.

Lemma run_taskPos s st i j ts :
  fStatus (stF s) = Some st -> cell st i j = Some ts -> taskPos i j s = Some (ts, s).
Proof.
  intros Hst Hc. unfold taskPos. rewrite (bind_run _ _ _ _ _ (run_status _ _ Hst)).
  unfold cell in Hc. destruct (TaskRoleStatuses st !! i) as [trs|]; [|done].
  simpl in *. unfold bind, deref, ret. simpl. by rewrite Hc.
Qed.

Lemma run_modifyTaskPos s st i j g ts :
  fStatus (stF s) = Some st -> cell st i j = Some ts ->
  modifyTaskPos i j g s = Some (tt, setStatus s (alterTaskPos i j g st)).
Proof.
  intros Hst Hc. unfold modifyTaskPos.
  rewrite (bind_run _ _ _ _ _ (run_taskPos _ _ _ _ _ Hst Hc)).
  by apply run_modifyStatus.
Qed.

Lemma run_TransitionTaskState_ c s st name idx dst ts :
  fStatus (stF s) = Some st ->
  GetTaskStatus st name idx = Some ts ->
  TransitionTaskState_ c name idx dst s =
    Some (tt, setStatus s (alterTaskStatus name idx
                             (TransitionTaskState dst (clockNow c (wCluster (stW s)))) st)).
Proof. intros Hst Hts. unfold TransitionTaskState_, now. by apply run_modifyTask with ts. Qed.

Lemma run_TransitionFrameworkState_ c s st dst :
  fStatus (stF s) = Some st ->
  TransitionFrameworkState_ c dst s =
    Some (tt, setStatus s (TransitionFrameworkState dst (clockNow c (wCluster (stW s))) st)).
Proof. intros Hst. unfold TransitionFrameworkState_, now. by apply run_modifyStatus. Qed.

Lemma run_enqueueFrameworkSync c s : enqueueFrameworkSync c s = Some (tt, enqueued s).
Proof. done. Qed.

(** *** completeTaskAttempt *)

Lemma completeTaskAttempt_run c s st name idx force cs ts :
  fStatus (stF s) = Some st ->
  GetTaskStatus st name idx = Some ts ->
  completeTaskAttempt c name idx force cs s =
    Some (tt, enqueued (setStatus s
      (alterTaskStatus name idx
         (completeTaskAttemptOn force cs (clockNow c (wCluster (stW s)))) st))).
Proof.
  intros Hst Hts.
  destruct (GetTaskStatus_locate _ _ _ _ Hts) as (i & Hf & Hidx & Hc).
  unfold completeTaskAttempt.
  rewrite (bind_run _ _ _ _ _ (run_TaskStatus _ _ _ _ _ Hst Hts)).
  set (t := clockNow c (wCluster (stW s))).
  set (dst := if force then TaskAttemptCompleted else TaskAttemptDeletionPending).
  assert (Hgoal : forall s1 st1 ts1,
    fStatus (stF s1) = Some st1 -> stW s1 = stW s -> stF s1 = withStatus (stF s) st1 ->
    roleFoundAt st1 name i -> cell st1 i (Z.to_nat idx) = Some ts1 ->
    alterTaskPos i (Z.to_nat idx) (TransitionTaskState dst t) st1 =
      alterTaskPos i (Z.to_nat idx) (completeTaskAttemptOn force cs t) st ->
    (if force
     then (TransitionTaskState_ c name idx TaskAttemptCompleted;; enqueueFrameworkSync c)
     else (TransitionTaskState_ c name idx TaskAttemptDeletionPending;; enqueueFrameworkSync c)) s1
    = Some (tt, enqueued (setStatus s
         (alterTaskStatus name idx (completeTaskAttemptOn force cs t) st)))).
  { intros s1 st1 ts1 Hst1 HW HF Hf1 Hc1 Heq.
    assert (Hts1 : GetTaskStatus st1 name idx = Some ts1)
      by (by rewrite (roleFoundAt_GetTaskStatus _ _ _ _ Hf1 Hidx)).
    rewrite (roleFoundAt_alterTaskStatus _ _ _ _ _ Hf Hidx), <- Heq.
    rewrite <- (roleFoundAt_alterTaskStatus _ _ _ _ _ Hf1 Hidx).
    destruct force; subst dst;
      rewrite (bind_run _ _ _ _ _ (run_TransitionTaskState_ _ _ _ _ _ _ _ Hst1 Hts1));
      rewrite run_enqueueFrameworkSync; unfold enqueued, setStatus; rewrite HW, HF; done. }
  destruct (tsCompletionStatus ts) as [old|] eqn:Hcs.
  - rewrite (bind_run _ _ s s tt) by done.
    apply (Hgoal s st ts); try done.
    + by destruct s as [[] ?]; simpl in *; subst.
    + eapply alterTaskPos_ext; [exact Hc|].
      unfold completeTaskAttemptOn. by rewrite Hcs.
  - rewrite (bind_run _ _ _ _ _ (run_modifyTask _ _ _ _ _ _ Hst Hts)).
    rewrite (roleFoundAt_alterTaskStatus _ _ _ _ _ Hf Hidx).
    eapply (Hgoal _ _ (tsSetCompletionStatus cs ts)); try done.
    + by apply roleFoundAt_alterTaskPos.
    + rewrite cell_alterTaskPos, decide_True by done. by rewrite Hc.
    + rewrite alterTaskPos_compose. eapply alterTaskPos_ext; [exact Hc|].
      unfold completeTaskAttemptOn. simpl. by rewrite Hcs.
Qed.

(** ** Loops over the tasks of all roles *)

Lemma mapFrom_ge {A} k (h : A -> A) (l : list A) :
  (length l ≤ k)%nat -> mapFrom k h l = l.
Proof. intros. unfold mapFrom. by rewrite take_ge, drop_ge, app_nil_r. Qed.

Lemma mapFrom_S_alter {A} k (h : A -> A) (l : list A) x :
  l !! k = Some x -> mapFrom (S k) h (alter h k l) = mapFrom k h l.
Proof.
  intros Hk. unfold mapFrom.
  rewrite (take_S_r _ _ (h x)) by (by rewrite list_lookup_alter_eq, Hk).
  rewrite take_alter_ge by lia. rewrite drop_alter_lt by lia.
  rewrite (drop_S l x k) by done. rewrite fmap_cons, <- app_assoc. done.
Qed.

Lemma setStatus_same s st : fStatus (stF s) = Some st -> setStatus s st = s.
Proof. destruct s as [[] w]. simpl. by intros ->. Qed.

Lemma fsWithTaskRoleStatuses_same st :
  fsWithTaskRoleStatuses (TaskRoleStatuses st) st = st.
Proof. by destruct st as [? ? ? []]. Qed.

Lemma setRoleTasks_alterTaskPos i k g tasks st :
  setRoleTasks i tasks (alterTaskPos i k g st) = setRoleTasks i tasks st.
Proof.
  unfold setRoleTasks, alterTaskPos.
  rewrite TaskRoleStatuses_with, fsWithTaskRoleStatuses_twice, list_alter_alter_eq.
  f_equal.
Qed.

Lemma setRoleTasks_same i trs st :
  TaskRoleStatuses st !! i = Some trs -> setRoleTasks i (trTaskStatuses trs) st = st.
Proof.
  intros Hi. unfold setRoleTasks.
  rewrite (list_alter_ext _ id _ (TaskRoleStatuses st) i); [|  |done].
  - rewrite list_alter_id by done. apply fsWithTaskRoleStatuses_same.
  - intros x Hx. rewrite Hi in Hx. injection Hx as <-. by destruct trs.
Qed.

Section range.
Variable Inv : FrameworkStatus -> Prop.
Variable h : TaskStatus -> TaskStatus.
Variable wstep : TaskStatus -> World R -> World R.
Variable SInv : St R -> Prop.
Variable body : nat -> nat -> string -> M (St R) unit.

Hypothesis SInv_step : forall s st ts,
  SInv s -> SInv {| stF := withStatus (stF s) st; stW := wstep ts (stW s) |}.
Hypothesis SInv_status : forall s st,
  SInv s -> SInv {| stF := withStatus (stF s) st; stW := stW s |}.

Hypothesis Inv_step : forall st i j ts,
  Inv st -> cell st i j = Some ts -> Inv (alterTaskPos i j (fun _ => h ts) st).

Hypothesis body_run : forall s st i j trs ts,
  fStatus (stF s) = Some st -> Inv st -> SInv s ->
  TaskRoleStatuses st !! i = Some trs -> trTaskStatuses trs !! j = Some ts ->
  body i j (trName trs) s =
    Some (tt, {| stF := withStatus (stF s) (alterTaskPos i j (fun _ => h ts) st);
                 stW := wstep ts (stW s) |}).

Lemma foldl_SInv (l : list TaskStatus) s st :
  SInv s ->
  SInv {| stF := withStatus (stF s) st;
          stW := foldl (fun w ts => wstep ts w) (stW s) l |}.
Proof.
  revert s. induction l as [|ts l IH]; intros s Hs; simpl.
  - by apply SInv_status.
  - apply (IH {| stF := withStatus (stF s) st; stW := wstep ts (stW s) |}).
    by apply SInv_step.
Qed.

Lemma rangeTasks_inner i name m : forall k s st trs,
  fStatus (stF s) = Some st -> Inv st -> SInv s ->
  TaskRoleStatuses st !! i = Some trs -> trName trs = name ->
  (k + m)%nat = length (trTaskStatuses trs) ->
  forM_ (fun j => body i j name) (seq k m) s =
    Some (tt, {| stF := withStatus (stF s)
                          (setRoleTasks i (mapFrom k h (trTaskStatuses trs)) st);
                 stW := foldl (fun w ts => wstep ts w) (stW s) (drop k (trTaskStatuses trs)) |})
  /\ Inv (setRoleTasks i (mapFrom k h (trTaskStatuses trs)) st).
Proof.
  induction m as [|m IH]; intros k s st trs Hst HInv HW Hi Hname Hlen.
  - rewrite mapFrom_ge, drop_ge by lia. rewrite (setRoleTasks_same _ _ _ Hi).
    split; [|done]. simpl. unfold ret. f_equal. f_equal.
    destruct s as [f w]; simpl in *. f_equal.
    destruct f; simpl in *. by subst.
  - destruct (lookup_lt_is_Some_2 (trTaskStatuses trs) k) as [ts Hts]; [lia|].
    assert (Hc : cell st i k = Some ts) by (unfold cell; by rewrite Hi).
    cbn [seq forM_]. subst name.
    rewrite (bind_run _ _ _ _ _ (body_run _ _ _ _ _ _ Hst HInv HW Hi Hts)).
    set (st2 := alterTaskPos i k (fun _ => h ts) st).
    set (trs2 := trWithTaskStatuses (alter (fun _ => h ts) k (trTaskStatuses trs)) trs).
    assert (Hi2 : TaskRoleStatuses st2 !! i = Some trs2).
    { subst st2. rewrite TaskRoleStatuses_alterTaskPos, list_lookup_alter_eq, Hi. done. }
    destruct (IH (S k) {| stF := withStatus (stF s) st2; stW := wstep ts (stW s) |} st2 trs2)
      as [Hrun HInv2]; [done|by apply Inv_step|by apply SInv_step|done|done| |].
    { simpl. rewrite length_alter. lia. }
    assert (Halt : alter (fun _ => h ts) k (trTaskStatuses trs) = alter h k (trTaskStatuses trs)).
    { apply list_alter_ext; [|done]. intros x Hx. congruence. }
    simpl in Hrun, HInv2. rewrite Halt in Hrun, HInv2.
    rewrite (mapFrom_S_alter _ _ _ _ Hts) in Hrun, HInv2.
    subst st2. rewrite setRoleTasks_alterTaskPos in Hrun, HInv2.
    split; [|done]. rewrite Hrun. f_equal. f_equal. f_equal.
    rewrite drop_alter_lt by lia. by rewrite (drop_S _ _ _ Hts).
Qed.

Lemma rangeTasks_outer n : forall i s st,
  fStatus (stF s) = Some st -> Inv st -> SInv s ->
  (i + n)%nat = length (TaskRoleStatuses st) ->
  forM_ (fun i =>
           st' <- status ;;
           taskRoleStatus <- deref (TaskRoleStatuses st' !! i) ;;
           forM_ (fun j => body i j (trName taskRoleStatus))
                 (seq 0 (length (trTaskStatuses taskRoleStatus))))
        (seq i n) s =
    Some (tt, {| stF := withStatus (stF s)
                          (fsWithTaskRoleStatuses (mapFrom i (mapRole h) (TaskRoleStatuses st)) st);
                 stW := foldl (fun w ts => wstep ts w) (stW s)
                          (drop i (TaskRoleStatuses st) ≫= trTaskStatuses) |})
  /\ Inv (fsWithTaskRoleStatuses (mapFrom i (mapRole h) (TaskRoleStatuses st)) st).
Proof.
  induction n as [|n IH]; intros i s st Hst HInv HW Hlen.
  - rewrite mapFrom_ge, drop_ge by lia. rewrite fsWithTaskRoleStatuses_same.
    split; [|done]. simpl. unfold ret. f_equal. f_equal.
    destruct s as [f w]; simpl in *. f_equal.
    destruct f; simpl in *. by subst.
  - destruct (lookup_lt_is_Some_2 (TaskRoleStatuses st) i) as [trs Hi]; [lia|].
    cbn [seq forM_].
    destruct (rangeTasks_inner i (trName trs) (length (trTaskStatuses trs)) 0%nat
                s st trs Hst HInv HW Hi eq_refl eq_refl) as [Hinner HInv2].
    unfold bind at 1. unfold bind at 1. rewrite (run_status _ _ Hst).
    unfold bind at 1. rewrite Hi. simpl deref. unfold ret at 1.
    rewrite Hinner. clear Hinner.
    assert (Hset : setRoleTasks i (mapFrom 0 h (trTaskStatuses trs)) st =
                   fsWithTaskRoleStatuses (alter (mapRole h) i (TaskRoleStatuses st)) st).
    { unfold setRoleTasks. f_equal. apply list_alter_ext; [|done].
      intros x Hx. rewrite Hi in Hx. by injection Hx as <-. }
    rewrite Hset in HInv2 |- *.
    set (st2 := fsWithTaskRoleStatuses (alter (mapRole h) i (TaskRoleStatuses st)) st) in *.
    destruct (IH (S i) {| stF := withStatus (stF s) st2;
                          stW := foldl (fun w ts => wstep ts w) (stW s)
                                   (drop 0 (trTaskStatuses trs)) |} st2)
      as [Hrun HInv3]; [done|done|by apply foldl_SInv| |].
    { subst st2. rewrite TaskRoleStatuses_with, length_alter. lia. }
    subst st2. rewrite TaskRoleStatuses_with, fsWithTaskRoleStatuses_twice in Hrun, HInv3.
    rewrite (mapFrom_S_alter _ _ _ _ Hi) in Hrun, HInv3.
    split; [|done]. rewrite Hrun. simpl. f_equal. f_equal. f_equal.
    rewrite drop_alter_lt by lia. rewrite (drop_S _ _ _ Hi), bind_cons, foldl_app. done.
Qed.

(** A loop over all tasks whose body rewrites the task it visits with [h]
    and steps the world with [wstep] is the map of [h] over the tasks. *)
Lemma rangeTasks_run s st :
  fStatus (stF s) = Some st -> Inv st -> SInv s ->
  rangeTasks body s =
    Some (tt, {| stF := withStatus (stF s) (mapTasks h st);
                 stW := foldl (fun w ts => wstep ts w) (stW s) (allTasks st) |})
  /\ Inv (mapTasks h st).
Proof.
  intros Hst HInv HW. unfold rangeTasks.
  rewrite (bind_run _ _ _ _ _ (run_status _ _ Hst)).
  destruct (rangeTasks_outer (length (TaskRoleStatuses st)) 0%nat s st Hst HInv HW eq_refl)
    as [Hrun HInv2].
  split; [|exact HInv2]. exact Hrun.
Qed.

End range.

(** ** completeFrameworkAttempt *)

Lemma WellIndexed_mapTasks (h : TaskStatus -> TaskStatus) st :
  (forall ts, tsIndex (h ts) = tsIndex ts) -> WellIndexed st -> WellIndexed (mapTasks h st).
Proof.
  intros Hh [Hnd Hidx]. unfold WellIndexed, mapTasks. rewrite TaskRoleStatuses_with. split.
  - rewrite <- list_fmap_compose.
    erewrite list_fmap_ext; [exact Hnd|]. by intros ? [].
  - apply Forall_fmap. eapply Forall_impl; [exact Hidx|].
    intros trs Htrs. simpl. rewrite length_fmap, <- Htrs, <- list_fmap_compose.
    apply list_fmap_ext. intros ? ? _. apply Hh.
Qed.

Lemma WellIndexed_with_attempt st g :
  TaskRoleStatuses (g st) = TaskRoleStatuses st -> WellIndexed st -> WellIndexed (g st).
Proof. unfold WellIndexed. by intros ->. Qed.

Lemma tsIndex_completeTaskAttemptOn force cs t ts :
  tsIndex (completeTaskAttemptOn force cs t ts) = tsIndex ts.
Proof. unfold completeTaskAttemptOn. simpl. by destruct (tsCompletionStatus ts). Qed.

Lemma tsIndex_fillDefault ts : tsIndex (fillDefault ts) = tsIndex ts.
Proof. unfold fillDefault. by destruct (tsCompletionStatus ts). Qed.

Lemma tsIndex_forceCompleteTask t ts : tsIndex (forceCompleteTask t ts) = tsIndex ts.
Proof.
  unfold forceCompleteTask, completeTaskAttemptOn.
  destruct (bool_decide (tsState ts = TaskCompleted)); [done|].
  destruct (bool_decide (tsState ts = TaskAttemptCompleted)); [done|].
  simpl. by destruct (tsCompletionStatus ts).
Qed.

Lemma withStatus_twice f st1 st2 : withStatus (withStatus f st1) st2 = withStatus f st2.
Proof. done. Qed.

Lemma wCluster_foldl_forceCompleteWorld key (l : list TaskStatus) (w : World R) :
  wCluster (foldl (fun w ts => forceCompleteWorld key ts w) w l) = wCluster w.
Proof.
  revert w. induction l as [|ts l IH]; intros w; [done|]. simpl. rewrite IH.
  unfold forceCompleteWorld. by destruct (_ && _).
Qed.

Lemma foldl_const {A B} (l : list B) (a : A) : foldl (fun a _ => a) a l = a.
Proof. by induction l. Qed.

Lemma alterTaskPos_id_state s st i j g :
  fStatus (stF s) = Some st ->
  (forall ts, cell st i j = Some ts -> g ts = ts) ->
  {| stF := withStatus (stF s) (alterTaskPos i j g st); stW := stW s |} = s.
Proof.
  intros Hst Hg. rewrite alterTaskPos_id by done.
  rewrite fsWithTaskRoleStatuses_same. by apply (setStatus_same s st).
Qed.

Lemma cascade_run s st :
  fStatus (stF s) = Some st ->
  rangeTasks (fun i j _ =>
    taskStatus <- taskPos i j ;;
    match tsCompletionStatus taskStatus with
    | None =>
        modifyTaskPos i j (tsSetCompletionStatus (Some DefaultTaskAttemptCompletionStatus))
    | Some _ => ret tt
    end) s = Some (tt, setStatus s (mapTasks fillDefault st)).
Proof.
  intros Hst.
  destruct (rangeTasks_run (fun _ => True) fillDefault (fun _ w => w) (fun _ => True)
              (fun i j _ =>
                 taskStatus <- taskPos i j ;;
                 match tsCompletionStatus taskStatus with
                 | None => modifyTaskPos i j
                             (tsSetCompletionStatus (Some DefaultTaskAttemptCompletionStatus))
                 | Some _ => ret tt
                 end)) with s st as [Hrun _]; try done.
  - intros s1 st1 i j trs ts Hst1 _ _ Hi Hj.
    assert (Hc : cell st1 i j = Some ts) by (unfold cell; by rewrite Hi).
    rewrite (bind_run _ _ _ _ _ (run_taskPos _ _ _ _ _ Hst1 Hc)).
    unfold fillDefault. destruct (tsCompletionStatus ts) eqn:Hcs.
    + unfold ret. f_equal. f_equal. symmetry.
      apply alterTaskPos_id_state; [done|]. intros ? ?; congruence.
    + rewrite (run_modifyTaskPos _ _ _ _ _ _ Hst1 Hc). f_equal. f_equal.
      unfold setStatus. f_equal. f_equal.
      eapply alterTaskPos_ext; [exact Hc|done].
  - rewrite Hrun. by rewrite foldl_const.
Qed.

Lemma force_body_run c (r0 : R) s st i j trs ts :
  fStatus (stF s) = Some st -> WellIndexed st -> wCluster (stW s) = r0 ->
  TaskRoleStatuses st !! i = Some trs -> trTaskStatuses trs !! j = Some ts ->
  (taskStatus <- taskPos i j ;;
   let taskIndex := tsIndex taskStatus in
   if negb (bool_decide (tsState taskStatus = TaskCompleted)) then
     (if negb (bool_decide (tsState taskStatus = TaskAttemptCompleted)) then
        completeTaskAttempt c (trName trs) taskIndex true None
      else ret tt) ;;
     modifyTaskPos i j (fun ts =>
       tsWithRetryPolicyStatus (rpsWithRetryDelaySec None (tsRetryPolicyStatus ts)) ts) ;;
     TransitionTaskState_ c (trName trs) taskIndex TaskCompleted
   else ret tt) s =
  Some (tt, {| stF := withStatus (stF s)
                        (alterTaskPos i j (fun _ => forceCompleteTask (clockNow c r0) ts) st);
               stW := forceCompleteWorld (Key (stF s)) ts (stW s) |}).
Proof.
  intros Hst Hwf <- Hi Hj.
  assert (Hc : cell st i j = Some ts) by (unfold cell; by rewrite Hi).
  rewrite (bind_run _ _ _ _ _ (run_taskPos _ _ _ _ _ Hst Hc)). cbv zeta.
  unfold forceCompleteTask, forceCompleteWorld.
  destruct (bool_decide (tsState ts = TaskCompleted)) eqn:Hdone; simpl.
  { unfold ret. f_equal. f_equal. symmetry.
    apply alterTaskPos_id_state; [done|]. intros ? ?; congruence. }
  destruct (WellIndexed_GetTaskStatus _ _ _ _ _ Hwf Hi Hj) as (Hget & _ & Halt).
  (* the state after the optional completeTaskAttempt *)
  set (g1 := fun ts0 : TaskStatus =>
               if negb (bool_decide (tsState ts = TaskAttemptCompleted))
               then completeTaskAttemptOn true None (clockNow c (wCluster (stW s))) ts0 else ts0).
  set (s1 := {| stF := withStatus (stF s) (alterTaskPos i j g1 st);
                stW := forceCompleteWorld (Key (stF s)) ts (stW s) |}).
  assert (Hstep1 :
    (if negb (bool_decide (tsState ts = TaskAttemptCompleted))
     then completeTaskAttempt c (trName trs) (tsIndex ts) true None else ret tt) s
    = Some (tt, s1)).
  { subst s1 g1. unfold forceCompleteWorld. rewrite Hdone. simpl.
    destruct (bool_decide (tsState ts = TaskAttemptCompleted)); simpl.
    - unfold ret. f_equal. f_equal. symmetry.
      by apply alterTaskPos_id_state.
    - rewrite (completeTaskAttempt_run _ _ _ _ _ _ _ _ Hst Hget).
      rewrite Halt. done. }
  rewrite (bind_run _ _ _ _ _ Hstep1).
  assert (Hst1 : fStatus (stF s1) = Some (alterTaskPos i j g1 st)) by done.
  assert (Hc1 : cell (alterTaskPos i j g1 st) i j = Some (g1 ts)).
  { rewrite cell_alterTaskPos, decide_True by done. by rewrite Hc. }
  rewrite (bind_run _ _ _ _ _ (run_modifyTaskPos _ _ _ _ _ _ Hst1 Hc1)).
  rewrite alterTaskPos_compose.
  set (g2 := (fun ts0 => tsWithRetryPolicyStatus
                (rpsWithRetryDelaySec None (tsRetryPolicyStatus ts0)) ts0) ∘ g1).
  assert (Hidx2 : tsIndex (g2 ts) = tsIndex ts).
  { subst g2 g1. unfold completeTaskAttemptOn.
    destruct (bool_decide (tsState ts = TaskAttemptCompleted)); [done|].
    simpl. by destruct (tsCompletionStatus ts). }
  assert (Hwf2 : WellIndexed (alterTaskPos i j g2 st)).
  { apply WellIndexed_alterTaskPos; [|done]. intros ts' Hts'. congruence. }
  set (trs2 := trWithTaskStatuses (alter g2 j (trTaskStatuses trs)) trs).
  assert (Hi2 : TaskRoleStatuses (alterTaskPos i j g2 st) !! i = Some trs2).
  { rewrite TaskRoleStatuses_alterTaskPos, list_lookup_alter_eq, Hi. done. }
  assert (Hj2 : trTaskStatuses trs2 !! j = Some (g2 ts)).
  { subst trs2. simpl. by rewrite list_lookup_alter_eq, Hj. }
  destruct (WellIndexed_GetTaskStatus _ _ _ _ _ Hwf2 Hi2 Hj2) as (Hget2 & _ & Halt2).
  rewrite Hidx2 in Hget2, Halt2. change (trName trs2) with (trName trs) in Hget2, Halt2.
  erewrite run_TransitionTaskState_; [|done|exact Hget2].
  rewrite Halt2, alterTaskPos_compose. f_equal. f_equal.
  subst s1. unfold setStatus. simpl. rewrite !withStatus_twice. f_equal. f_equal.
  eapply alterTaskPos_ext; [exact Hc|].
  subst g2 g1. simpl.
  assert (wCluster (forceCompleteWorld (Key (stF s)) ts (stW s)) = wCluster (stW s)) as ->.
  { unfold forceCompleteWorld. by destruct (_ && _). }
  done.
  unfold forceCompleteWorld. by rewrite Hdone.
Qed.

Lemma completeFrameworkAttempt_run c s st force cs :
  fStatus (stF s) = Some st ->
  (force = true -> WellIndexed st) ->
  completeFrameworkAttempt c force cs s =
    Some (tt, {| stF := withStatus (stF s)
                   (completeFrameworkAttemptOn force cs (clockNow c (wCluster (stW s))) st);
                 stW := completeFrameworkAttemptWorld force (Key (stF s)) st (stW s) |}).
Proof.
  intros Hst Hwf. unfold completeFrameworkAttempt.
  rewrite (bind_run _ _ _ _ _ (run_status _ _ Hst)).
  set (st1 := match faCompletionStatus (fsAttemptStatus st) with
              | None => fsWithAttemptStatus
                          (faWithCompletionStatus cs (fsAttemptStatus st)) st
              | Some _ => st
              end).
  assert (Hstep1 :
    match faCompletionStatus (fsAttemptStatus st) with
    | None => modifyStatus (fun st =>
        fsWithAttemptStatus (faWithCompletionStatus cs (fsAttemptStatus st)) st)
    | Some _ => ret tt
    end s = Some (tt, setStatus s st1)).
  { subst st1. destruct (faCompletionStatus (fsAttemptStatus st)).
    - by rewrite (setStatus_same _ _ Hst).
    - exact (run_modifyStatus _ _ (fun st =>
        fsWithAttemptStatus (faWithCompletionStatus cs (fsAttemptStatus st)) st) Hst). }
  rewrite (bind_run _ _ _ _ _ Hstep1).
  assert (Hroles1 : TaskRoleStatuses st1 = TaskRoleStatuses st).
  { subst st1. by destruct (faCompletionStatus (fsAttemptStatus st)). }
  assert (HmapEq : mapTasks fillDefault st1 =
                   fsWithTaskRoleStatuses (TaskRoleStatuses (mapTasks fillDefault st)) st1).
  { unfold mapTasks. by rewrite Hroles1. }
  rewrite (bind_run _ _ _ _ _ (cascade_run (setStatus s st1) st1 eq_refl)).
  set (st2 := mapTasks fillDefault st1).
  set (s2 := setStatus (setStatus s st1) st2).
  assert (Hst2 : fStatus (stF s2) = Some st2) by done.
  unfold completeFrameworkAttemptOn, completeFrameworkAttemptWorld. fold st1. fold st2.
  destruct force.
  - assert (Hwf2 : WellIndexed st2).
    { subst st2. apply WellIndexed_mapTasks.
      - apply tsIndex_fillDefault.
      - unfold WellIndexed. rewrite Hroles1. by apply Hwf. }
    destruct (rangeTasks_run WellIndexed (forceCompleteTask (clockNow c (wCluster (stW s))))
                (forceCompleteWorld (Key (stF s)))
                (fun s0 => wCluster (stW s0) = wCluster (stW s) /\ Key (stF s0) = Key (stF s))
                (fun i j taskRoleName =>
                   taskStatus <- taskPos i j ;;
                   let taskIndex := tsIndex taskStatus in
                   if negb (bool_decide (tsState taskStatus = TaskCompleted)) then
                     (if negb (bool_decide (tsState taskStatus = TaskAttemptCompleted)) then
                        completeTaskAttempt c taskRoleName taskIndex true None
                      else ret tt) ;;
                     modifyTaskPos i j (fun ts =>
                       tsWithRetryPolicyStatus
                         (rpsWithRetryDelaySec None (tsRetryPolicyStatus ts)) ts) ;;
                     TransitionTaskState_ c taskRoleName taskIndex TaskCompleted
                   else ret tt)) with s2 st2 as [Hrun _]; try done.
    + intros s0 st0 ts [Hw Hk]. split; [|done]. simpl.
      unfold forceCompleteWorld. by destruct (_ && _).
    + intros st0 i j ts Hwf0 Hc0. apply WellIndexed_alterTaskPos; [|done].
      intros ts' Hts'. rewrite Hc0 in Hts'. injection Hts' as <-.
      apply tsIndex_forceCompleteTask.
    + intros s0 st0 i j trs ts Hst0 Hwf0 [Hw0 Hk0] Hi Hj.
      rewrite (force_body_run c (wCluster (stW s)) s0 st0 i j trs ts); try done.
      by rewrite Hk0.
    + rewrite (bind_run _ _ _ _ _ Hrun).
      erewrite bind_run; [|by apply run_TransitionFrameworkState_].
      rewrite run_enqueueFrameworkSync. unfold enqueued, setStatus. simpl.
      rewrite !withStatus_twice, !wCluster_foldl_forceCompleteWorld.
      assert (HallTasks : allTasks st2 = allTasks (mapTasks fillDefault st)).
      { subst st2. unfold allTasks, mapTasks. by rewrite !TaskRoleStatuses_with, Hroles1. }
      rewrite HallTasks. done.
  - erewrite bind_run; [|by apply run_TransitionFrameworkState_].
    rewrite run_enqueueFrameworkSync. done.
Qed.

Lemma GetTaskStatus_alterTaskStatus_eq st name idx g ts :
  GetTaskStatus st name idx = Some ts ->
  GetTaskStatus (alterTaskStatus name idx g st) name idx = Some (g ts).
Proof.
  intros Hts. destruct (GetTaskStatus_locate _ _ _ _ Hts) as (i & Hf & Hidx & Hc).
  rewrite (roleFoundAt_alterTaskStatus _ _ _ _ _ Hf Hidx).
  rewrite (roleFoundAt_GetTaskStatus _ name i) by (done || by apply roleFoundAt_alterTaskPos).
  rewrite cell_alterTaskPos, decide_True by done. by rewrite Hc.
Qed.

Lemma tsCompletionStatus_completeTaskAttemptOn force cs t ts :
  tsCompletionStatus (completeTaskAttemptOn force cs t ts) =
    match tsCompletionStatus ts with Some old => Some old | None => cs end.
Proof. unfold completeTaskAttemptOn. by destruct (tsCompletionStatus ts) eqn:Hcs. Qed.

Lemma tsCompletionStatus_fillDefault ts :
  tsCompletionStatus (fillDefault ts) =
    match tsCompletionStatus ts with
    | Some old => Some old
    | None => Some DefaultTaskAttemptCompletionStatus
    end.
Proof. unfold fillDefault. by destruct (tsCompletionStatus ts) eqn:Hcs. Qed.

Lemma tsCompletionStatus_forceCompleteTask t ts :
  tsCompletionStatus ts <> None ->
  tsCompletionStatus (forceCompleteTask t ts) = tsCompletionStatus ts.
Proof.
  intros Hcs. unfold forceCompleteTask.
  destruct (bool_decide (tsState ts = TaskCompleted)); [done|].
  destruct (bool_decide (tsState ts = TaskAttemptCompleted)); [done|].
  simpl. change (tsCompletionStatus (completeTaskAttemptOn true None t ts) = tsCompletionStatus ts).
  rewrite tsCompletionStatus_completeTaskAttemptOn. by destruct (tsCompletionStatus ts).
Qed.

Lemma faCompletionStatus_completeFrameworkAttemptOn force cs t st :
  faCompletionStatus (fsAttemptStatus (completeFrameworkAttemptOn force cs t st)) =
    match faCompletionStatus (fsAttemptStatus st) with Some old => Some old | None => cs end.
Proof.
  unfold completeFrameworkAttemptOn.
  destruct force, (faCompletionStatus (fsAttemptStatus st)) eqn:Hcs; simpl; done.
Qed.

Lemma fsState_completeFrameworkAttemptOn force cs t st :
  fsState (completeFrameworkAttemptOn force cs t st) =
    if force then FrameworkAttemptCompleted else FrameworkAttemptDeletionPending.
Proof. unfold completeFrameworkAttemptOn. by destruct force. Qed.

(** ** Completion statuses are written once *)

(** C3. CompletionStatus is write-once per attempt.  A call of
    completeTaskAttempt on an existing task returns, and afterwards the
    CompletionStatus of the attempt of that task is the one it had when it
    had one (the argument is discarded), and the argument when it had none.
    The same holds of completeFrameworkAttempt and the CompletionStatus of
    the attempt of the Framework (a forced call is taken on a well-indexed
    status, where the tasks it completes by name exist). *)
Theorem CompletionStatus_is_write_once c s st :
  fStatus (stF s) = Some st ->
  (forall taskRoleName taskIndex force completionStatus ts,
      GetTaskStatus st taskRoleName taskIndex = Some ts ->
      exists s' st' ts',
        completeTaskAttempt c taskRoleName taskIndex force completionStatus s = Some (tt, s')
        /\ fStatus (stF s') = Some st'
        /\ GetTaskStatus st' taskRoleName taskIndex = Some ts'
        /\ tsCompletionStatus ts' =
             match tsCompletionStatus ts with
             | Some old => Some old
             | None => completionStatus
             end)
  /\ (forall force completionStatus,
      (force = true -> WellIndexed st) ->
      exists s' st',
        completeFrameworkAttempt c force completionStatus s = Some (tt, s')
        /\ fStatus (stF s') = Some st'
        /\ faCompletionStatus (fsAttemptStatus st') =
             match faCompletionStatus (fsAttemptStatus st) with
             | Some old => Some old
             | None => completionStatus
             end).
Proof.
  intros Hst. split.
  - intros name idx force cs ts Hts.
    eexists _, _, _. split; [by apply (completeTaskAttempt_run c s st name idx force cs ts)|].
    split; [done|]. split; [by apply GetTaskStatus_alterTaskStatus_eq|].
    apply tsCompletionStatus_completeTaskAttemptOn.
  - intros force cs Hwf.
    eexists _, _. split; [by apply completeFrameworkAttempt_run|].
    split; [done|]. apply faCompletionStatus_completeFrameworkAttemptOn.
Qed.

(** ** The cascade of completeFrameworkAttempt *)

Lemma Forall2_fmap_diag {A} (h : A -> A) (P : A -> A -> Prop) (l : list A) :
  (forall x, P x (h x)) -> Forall2 P l (h <$> l).
Proof. intros HP. induction l; constructor; auto. Qed.

(** C5. completeFrameworkAttempt, forced or not, returns (a forced call is
    taken on a well-indexed status) and leaves the roles and the tasks in
    place; every task attempt that had no CompletionStatus gets the default
    one, whose code is FrameworkAttemptCompletion, and every task attempt
    that had a CompletionStatus keeps it. *)
Theorem completeFrameworkAttempt_cascades_default c s st force completionStatus :
  fStatus (stF s) = Some st ->
  (force = true -> WellIndexed st) ->
  csCode (tacsCompletionStatus DefaultTaskAttemptCompletionStatus)
    = CompletionCodeFrameworkAttemptCompletion
  /\ exists s' st',
    completeFrameworkAttempt c force completionStatus s = Some (tt, s')
    /\ fStatus (stF s') = Some st'
    /\ Forall2 (fun trs trs' =>
          trName trs' = trName trs /\
          Forall2 (fun ts ts' =>
              tsIndex ts' = tsIndex ts /\
              tsCompletionStatus ts' =
                match tsCompletionStatus ts with
                | Some old => Some old
                | None => Some DefaultTaskAttemptCompletionStatus
                end)
            (trTaskStatuses trs) (trTaskStatuses trs'))
        (TaskRoleStatuses st) (TaskRoleStatuses st').
Proof.
  intros Hst Hwf. split; [done|].
  eexists _, _. split; [by apply completeFrameworkAttempt_run|]. split; [done|].
  unfold completeFrameworkAttemptOn.
  set (st1 := match faCompletionStatus (fsAttemptStatus st) with
              | None => _ | Some _ => st end).
  assert (Hroles1 : TaskRoleStatuses st1 = TaskRoleStatuses st).
  { subst st1. by destruct (faCompletionStatus (fsAttemptStatus st)). }
  destruct force.
  - change (TaskRoleStatuses (TransitionFrameworkState _ _ ?x)) with (TaskRoleStatuses x).
    unfold mapTasks at 1. rewrite TaskRoleStatuses_with.
    unfold mapTasks. rewrite TaskRoleStatuses_with, Hroles1, <- list_fmap_compose.
    apply Forall2_fmap_diag. intros trs. split; [done|]. simpl.
    rewrite <- list_fmap_compose. apply Forall2_fmap_diag. intros ts. simpl.
    rewrite tsIndex_forceCompleteTask, tsIndex_fillDefault. split; [done|].
    rewrite tsCompletionStatus_forceCompleteTask; [apply tsCompletionStatus_fillDefault|].
    rewrite tsCompletionStatus_fillDefault. by destruct (tsCompletionStatus ts).
  - change (TaskRoleStatuses (TransitionFrameworkState _ _ ?x)) with (TaskRoleStatuses x).
    unfold mapTasks. rewrite TaskRoleStatuses_with, Hroles1.
    apply Forall2_fmap_diag. intros trs. split; [done|]. simpl.
    apply Forall2_fmap_diag. intros ts.
    rewrite tsIndex_fillDefault. split; [done|]. apply tsCompletionStatus_fillDefault.
Qed.

(** ** The retry of a Framework *)

Lemma bind_ret {S A B} (a : A) (k : A -> M S B) (s : S) : bind (ret a) k s = k a s.
Proof. done. Qed.

(** Reduction of the tests decided so far. *)
Ltac red_if :=
  repeat first [ progress change (negb true) with false
               | progress change (negb false) with true ];
  cbv iota.

Lemma run_gets {S A} (g : S -> A) (s : S) : gets g s = Some (g s, s).
Proof. done. Qed.

Lemma run_IsCompleting s st :
  fStatus (stF s) = Some st -> IsCompleting s = Some (IsCompletingState (fsState st), s).
Proof. intros Hst. unfold IsCompleting. by rewrite (bind_run _ _ _ _ _ (run_status _ _ Hst)). Qed.

Lemma run_call {A} (op : R -> A * R) s a r :
  op (wCluster (stW s)) = (a, r) -> liftW (call op) s = Some (a, afterCall s r).
Proof. intros Hop. unfold liftW, call. by rewrite Hop. Qed.

Lemma int32_small z : -2147483648 ≤ z < 2147483648 -> int32 z = z.
Proof. intros Hz. unfold int32. rewrite Z.mod_small by lia. lia. Qed.

Lemma run_retryFramework c s st d :
  fStatus (stF s) = Some st ->
  retryFramework c d s =
    Some (tt, setStatus s
      (retryFrameworkOn (fSpec (stF s)) d (clockNow c (wCluster (stW s))) st)).
Proof.
  intros Hst. unfold retryFramework.
  unfold bind at 1. unfold gets at 1. unfold bind at 1. unfold now at 1. unfold gets at 1.
  erewrite bind_run; [|by apply run_modifyStatus].
  erewrite run_TransitionFrameworkState_; [|done]. done.
Qed.

Lemma run_enqueueFrameworkTimeoutCheck_timeout c s startTime sec :
  startTime + sec - clockNow c (wCluster (stW s)) ≤ 0 ->
  enqueueFrameworkTimeoutCheck c startTime (Some sec) true s = Some (false, s).
Proof.
  intros Hle. unfold enqueueFrameworkTimeoutCheck, now, bind, gets, deref, ret.
  cbv zeta. unfold IsTimeout, CurrentLeftDuration. by rewrite bool_decide_eq_true_2 by lia.
Qed.

Lemma syncFrameworkState_retry_run c s st cs minDelay maxDelay d r delay :
  fStatus (stF s) = Some st ->
  fsState st = FrameworkAttemptCompleted ->
  faCompletionStatus (fsAttemptStatus st) = Some cs ->
  FrameworkMinRetryDelaySecForTransientConflictFailed (cConfig c) = Some minDelay ->
  FrameworkMaxRetryDelaySecForTransientConflictFailed (cConfig c) = Some maxDelay ->
  RetryPolicy_ShouldRetry c (spRetryPolicy (fSpec (stF s))) (fsRetryPolicyStatus st)
    (facsCompletionStatus cs) minDelay maxDelay (wCluster (stW s)) = (d, r) ->
  scheduledRetryDelay (fsRetryPolicyStatus st) d = Some delay ->
  spExecutionType (fSpec (stF s)) = ExecutionStop
    \/ fsTransitionTime st + delay - clockNow c r ≤ 0 ->
  syncFrameworkState c s =
    Some (None, enqueued (setStatus (afterCall s r)
                            (retryFrameworkOn (fSpec (stF s)) d (clockNow c r) st))).
Proof.
  intros Hst Hstate Hcs Hmin Hmax Hd Hdelay Hfire.
  unfold syncFrameworkState.
  rewrite (bind_run _ _ _ _ _ (run_status _ _ Hst)). rewrite Hstate. simpl.
  rewrite (bind_run _ _ _ _ _ (run_status _ _ Hst)). rewrite Hstate. simpl.
  unfold syncFrameworkStateAttemptCompleted.
  unfold bind at 1. unfold gets at 1.
  rewrite (bind_run _ _ _ _ _ (run_status _ _ Hst)). rewrite Hcs, Hmin, Hmax.
  simpl deref. rewrite !bind_ret.
  rewrite (bind_run _ _ _ _ _ (run_call _ _ _ _ Hd)).
  set (s1 := afterCall s r).
  assert (Hst1 : fStatus (stF s1) = Some st) by done.
  (* the decision *)
  set (st2 := fsWithRetryPolicyStatus
                (rpsWithRetryDelaySec (Some delay) (fsRetryPolicyStatus st)) st).
  assert (Hdecide :
    match RetryDelaySec (fsRetryPolicyStatus st) with
    | Some _ => ret true
    | None =>
        if ShouldRetry d then
          modifyStatus (fun st0 =>
            fsWithRetryPolicyStatus
              (rpsWithRetryDelaySec (Some (DelaySec d)) (fsRetryPolicyStatus st0)) st0) ;;
          ret true
        else
          TransitionFrameworkState_ c FrameworkCompleted ;;
          enqueueFrameworkCompletedRetainTimeoutCheck c false ;;
          ret false
    end s1 = Some (true, setStatus s1 st2)).
  { unfold scheduledRetryDelay in Hdelay. subst st2.
    destruct (RetryDelaySec (fsRetryPolicyStatus st)) as [d0|] eqn:Hrds.
    - injection Hdelay as ->. unfold ret. f_equal. f_equal.
      rewrite <- (setStatus_same s1 st Hst1) at 1. f_equal.
      destruct st as [? ? [] ?]. simpl in *. by subst.
    - destruct (ShouldRetry d); [|done]. injection Hdelay as <-.
      erewrite bind_run;
        [|exact (run_modifyStatus _ _ (fun st0 =>
            fsWithRetryPolicyStatus
              (rpsWithRetryDelaySec (Some (DelaySec d)) (fsRetryPolicyStatus st0)) st0) Hst1)].
      done. }
  rewrite (bind_run _ _ _ _ _ Hdecide). red_if.
  set (s2 := setStatus s1 st2).
  assert (Hst2 : fStatus (stF s2) = Some st2) by done.
  rewrite (bind_run _ _ _ _ _ (run_status _ _ Hst2)).
  change (RetryDelaySec (fsRetryPolicyStatus st2)) with (Some delay). cbv iota.
  assert (Hwait :
    (if bool_decide (spExecutionType (fSpec (stF s)) = ExecutionStop)
     then ret false
     else enqueueFrameworkRetryDelayTimeoutCheck c true) s2 = Some (false, s2)).
  { destruct Hfire as [Hstop|Hexpired].
    - by rewrite (bool_decide_eq_true_2 _ Hstop).
    - destruct (bool_decide (spExecutionType (fSpec (stF s)) = ExecutionStop)); [done|].
      unfold enqueueFrameworkRetryDelayTimeoutCheck.
      rewrite (bind_run _ _ _ _ _ (run_status _ _ Hst2)).
      change (fsState st2) with (fsState st). rewrite Hstate. simpl.
      by apply run_enqueueFrameworkTimeoutCheck_timeout. }
  rewrite (bind_run _ _ _ _ _ Hwait). cbv iota.
  rewrite (bind_run _ _ _ _ _ (run_retryFramework _ _ _ _ Hst2)).
  rewrite (bind_run _ _ _ _ _ (run_enqueueFrameworkSync _ _)).
  done.
Qed.

(** C6. When a Framework in FrameworkAttemptCompleted is retried, that is
    when a retry is scheduled (retryDelaySec is set, or the retry decision
    says to retry) and fires (a stop is requested, or the delay has
    expired), the sync returns without error and has updated the status
    exactly so: totalRetriedCount is incremented by one (as an int32);
    accountableRetriedCount is incremented by one if the retry decision is
    accountable and unchanged if not; retryDelaySec is nil; the
    attemptStatus is a fresh one whose id is the new totalRetriedCount; the
    state is FrameworkAttemptCreationPending, entered at the current time;
    and one sync of the Framework has been enqueued. *)
Theorem retry_mints_new_attempt c s st cs minDelay maxDelay d r delay :
  fStatus (stF s) = Some st ->
  fsState st = FrameworkAttemptCompleted ->
  faCompletionStatus (fsAttemptStatus st) = Some cs ->
  FrameworkMinRetryDelaySecForTransientConflictFailed (cConfig c) = Some minDelay ->
  FrameworkMaxRetryDelaySecForTransientConflictFailed (cConfig c) = Some maxDelay ->
  RetryPolicy_ShouldRetry c (spRetryPolicy (fSpec (stF s))) (fsRetryPolicyStatus st)
    (facsCompletionStatus cs) minDelay maxDelay (wCluster (stW s)) = (d, r) ->
  scheduledRetryDelay (fsRetryPolicyStatus st) d = Some delay ->
  spExecutionType (fSpec (stF s)) = ExecutionStop
    \/ fsTransitionTime st + delay - clockNow c r ≤ 0 ->
  exists s' st',
    syncFrameworkState c s = Some (None, s')
    /\ fStatus (stF s') = Some st'
    /\ TotalRetriedCount (fsRetryPolicyStatus st')
         = int32 (TotalRetriedCount (fsRetryPolicyStatus st) + 1)
    /\ (-2147483648 ≤ TotalRetriedCount (fsRetryPolicyStatus st) < 2147483647 ->
        TotalRetriedCount (fsRetryPolicyStatus st')
          = TotalRetriedCount (fsRetryPolicyStatus st) + 1)
    /\ AccountableRetriedCount (fsRetryPolicyStatus st')
         = (if IsAccountable d
            then int32 (AccountableRetriedCount (fsRetryPolicyStatus st) + 1)
            else AccountableRetriedCount (fsRetryPolicyStatus st))
    /\ RetryDelaySec (fsRetryPolicyStatus st') = None
    /\ fsAttemptStatus st'
         = NewFrameworkAttemptStatus (fSpec (stF s))
             (TotalRetriedCount (fsRetryPolicyStatus st')) (clockNow c r)
    /\ faID (fsAttemptStatus st') = TotalRetriedCount (fsRetryPolicyStatus st')
    /\ faCompletionStatus (fsAttemptStatus st') = None
    /\ fsState st' = FrameworkAttemptCreationPending
    /\ fsTransitionTime st' = clockNow c r
    /\ stW s' = {| wCluster := r; wQueue := QueueAdd (Key (stF s)) :: wQueue (stW s) |}.
Proof.
  intros Hst Hstate Hcs Hmin Hmax Hd Hdelay Hfire.
  eexists _, _. split; [by eapply syncFrameworkState_retry_run|].
  split; [done|]. split_and!; try done.
  intros Hrange. simpl. apply int32_small. lia.
Qed.

(** ** A stop request *)

(** C7, amended. With spec.executionType = Stop: (1) in the last part of
    syncFrameworkState, on a Framework in Preparing or Running, the two of
    the four states of that part in which the attempt is not completing,
    the attempt is completed, not forced, with the completion status of
    code StopFrameworkRequested: the state becomes
    FrameworkAttemptDeletionPending, the CompletionStatus is that status
    unless one was recorded before, the completion policy is not evaluated
    any more, and the sync goes on with the tasks; (2) syncFrameworkState
    runs this part on a Preparing or Running Framework whose managed
    ConfigMap is in the local cache and is not being deleted; (3) a
    Framework that is completing is left as it is by the stop request, and
    (4) a Framework in DeletionRequested or Deleting is completing: there
    the attempt is not completed again and no StopFrameworkRequested
    status is recorded.  (5) On a Framework in FrameworkAttemptCompleted
    with a retry scheduled (retryDelaySec set), the retry fires at once,
    whatever the delay and the clock: the status is the one of the retry
    and the only operation on the queue is the enqueue of a sync, no
    delayed check is enqueued. *)
Theorem stop_completes_attempt_and_skips_retry_delay c s st :
  fStatus (stF s) = Some st ->
  spExecutionType (fSpec (stF s)) = ExecutionStop ->
  let stop := NewFrameworkAttemptCompletionStatus CompletionCodeStopFrameworkRequested
                DiagStopFrameworkRequested None in
  (fsState st = FrameworkAttemptPreparing \/ fsState st = FrameworkAttemptRunning ->
   csCode (facsCompletionStatus stop) = CompletionCodeStopFrameworkRequested
   /\ exists s1 st1,
     completeFrameworkAttempt c false (Some stop) s = Some (tt, s1)
     /\ syncFrameworkStateStopRequested c s = Some (tt, s1)
     /\ fStatus (stF s1) = Some st1
     /\ fsState st1 = FrameworkAttemptDeletionPending
     /\ faCompletionStatus (fsAttemptStatus st1) =
          match faCompletionStatus (fsAttemptStatus st) with
          | Some old => Some old
          | None => Some stop
          end
     /\ forall cm,
          syncFrameworkStateTasks c cm s =
            (err <- syncTaskRoleStatuses c cm ;;
             st' <- status ;;
             (if bool_decide (fsState st' = FrameworkAttemptPreparing) then
                if IsAnyTaskRunning st' true
                then TransitionFrameworkState_ c FrameworkAttemptRunning
                else ret tt
              else ret tt) ;;
             ret err) s1)
  /\ (forall cm r,
        fsState st = FrameworkAttemptPreparing \/ fsState st = FrameworkAttemptRunning ->
        cmLister_Get c (fNamespace (stF s)) (ConfigMapName (stF s)) (wCluster (stW s))
          = (inr cm, r) ->
        faConfigMapUID (fsAttemptStatus st) = Some (cmUID cm) ->
        cmDeletionTimestamp cm = None ->
        syncFrameworkState c s = syncFrameworkStateTasks c (Some cm) (afterCall s r))
  /\ (IsCompletingState (fsState st) = true ->
        syncFrameworkStateStopRequested c s = Some (tt, s))
  /\ (fsState st = FrameworkAttemptDeletionRequested
        \/ fsState st = FrameworkAttemptDeleting ->
        IsCompletingState (fsState st) = true
        /\ syncFrameworkStateStopRequested c s = Some (tt, s))
  /\ (forall cs minDelay maxDelay d r delay,
        fsState st = FrameworkAttemptCompleted ->
        RetryDelaySec (fsRetryPolicyStatus st) = Some delay ->
        faCompletionStatus (fsAttemptStatus st) = Some cs ->
        FrameworkMinRetryDelaySecForTransientConflictFailed (cConfig c) = Some minDelay ->
        FrameworkMaxRetryDelaySecForTransientConflictFailed (cConfig c) = Some maxDelay ->
        RetryPolicy_ShouldRetry c (spRetryPolicy (fSpec (stF s))) (fsRetryPolicyStatus st)
          (facsCompletionStatus cs) minDelay maxDelay (wCluster (stW s)) = (d, r) ->
        syncFrameworkState c s =
          Some (None,
                {| stF := withStatus (stF s)
                            (retryFrameworkOn (fSpec (stF s)) d (clockNow c r) st);
                   stW := {| wCluster := r;
                             wQueue := QueueAdd (Key (stF s)) :: wQueue (stW s) |} |})).
Proof.
  intros Hst Hstop stop. split_and!.
  - intros Hstate.
    assert (Hnc : IsCompletingState (fsState st) = false)
      by (destruct Hstate as [-> | ->]; done).
    split; [done|].
    pose proof (completeFrameworkAttempt_run c s st false (Some stop) Hst
                  ltac:(discriminate)) as Hrun.
    assert (Hsr : syncFrameworkStateStopRequested c s = completeFrameworkAttempt c false (Some stop) s).
    { unfold syncFrameworkStateStopRequested.
      rewrite (bind_run _ _ _ _ _ (run_gets _ _)).
      rewrite (bind_run _ _ _ _ _ (run_IsCompleting _ _ Hst)).
      rewrite Hnc. red_if.
      by rewrite (bool_decide_eq_true_2 _ Hstop). }
    eexists _, _. split; [exact Hrun|]. split; [by rewrite Hsr, Hrun|].
    split; [done|]. split; [apply fsState_completeFrameworkAttemptOn|].
    split; [apply faCompletionStatus_completeFrameworkAttemptOn|].
    intros cm. unfold syncFrameworkStateTasks.
    rewrite (bind_run _ _ _ _ _ (run_status _ _ Hst)).
    assert (Hin : bool_decide (fsState st = FrameworkAttemptPreparing)
                  || bool_decide (fsState st = FrameworkAttemptRunning)
                  || bool_decide (fsState st = FrameworkAttemptDeletionRequested)
                  || bool_decide (fsState st = FrameworkAttemptDeleting) = true).
    { destruct Hstate as [-> | ->]; done. }
    rewrite Hin. rewrite Hrun in Hsr.
    rewrite (bind_run _ _ _ _ _ Hsr).
    erewrite (bind_run IsCompleting); [|by apply run_IsCompleting].
    rewrite fsState_completeFrameworkAttemptOn. simpl.
    by rewrite bind_ret.
  - intros cm r Hstate Hget Huid Hts.
    unfold syncFrameworkState.
    rewrite (bind_run _ _ _ _ _ (run_status _ _ Hst)).
    assert (Hs1 : bool_decide (fsState st = FrameworkCompleted) = false)
      by (destruct Hstate as [-> | ->]; done).
    assert (Hs2 : bool_decide (fsState st = FrameworkAttemptCompleted) = false)
      by (destruct Hstate as [-> | ->]; done).
    rewrite Hs1, Hs2. red_if.
    unfold getOrCleanupConfigMap at 1.
    rewrite (bind_run (bind (gets stF) _) _ s (afterCall s r) (Some cm, None)); cycle 1.
    { rewrite (bind_run _ _ _ _ _ (run_gets _ _)).
      rewrite (bind_run _ _ _ _ _ (run_status _ _ Hst)). cbv zeta.
      rewrite (bind_run _ _ _ _ _ (run_call _ _ _ _ Hget)).
      by rewrite Huid, (bool_decide_eq_true_2 _ (eq_refl (cmUID cm))). }
    unfold syncFrameworkStateConfigMapPresent. rewrite Hts.
    assert (Hst1 : fStatus (stF (afterCall s r)) = Some st) by done.
    rewrite (bind_run _ _ _ _ _ (run_status _ _ Hst1)).
    assert (Hs3 : bool_decide (fsState st = FrameworkAttemptDeletionPending) = false)
      by (destruct Hstate as [-> | ->]; done).
    rewrite Hs3, bind_ret.
    rewrite (bind_run _ _ _ _ _ (run_status _ _ Hst1)).
    assert (Hs4 : bool_decide (fsState st = FrameworkAttemptDeletionRequested) = false)
      by (destruct Hstate as [-> | ->]; done).
    assert (Hs5 : bool_decide (fsState st = FrameworkAttemptCreationRequested) = false)
      by (destruct Hstate as [-> | ->]; done).
    rewrite Hs4, Hs5, bind_ret.
    rewrite (bind_run _ _ _ _ _ (run_status _ _ Hst1)). rewrite Hs2.
    rewrite (bind_run _ _ _ _ _ (run_status _ _ Hst1)).
    assert (Hs6 : bool_decide (fsState st = FrameworkAttemptCreationPending) = false)
      by (destruct Hstate as [-> | ->]; done).
    by rewrite Hs6.
  - intros Hc. unfold syncFrameworkStateStopRequested.
    rewrite (bind_run _ _ _ _ _ (run_gets _ _)).
    rewrite (bind_run _ _ _ _ _ (run_IsCompleting _ _ Hst)).
    by rewrite Hc.
  - intros Hstate.
    assert (Hc : IsCompletingState (fsState st) = true)
      by (destruct Hstate as [-> | ->]; done).
    split; [done|]. unfold syncFrameworkStateStopRequested.
    rewrite (bind_run _ _ _ _ _ (run_gets _ _)).
    rewrite (bind_run _ _ _ _ _ (run_IsCompleting _ _ Hst)).
    by rewrite Hc.
  - intros cs minDelay maxDelay d r delay Hstate Hdelay Hcs Hmin Hmax Hd.
    erewrite syncFrameworkState_retry_run; [done|done..| |by left].
    unfold scheduledRetryDelay. by rewrite Hdelay.
Qed.

(** ** The completion policy *)

#[local] Instance CompletionTimeLe_total : Total CompletionTimeLe.
Proof.
  intros a b. unfold CompletionTimeLe.
  destruct (tsCompletionTime a), (tsCompletionTime b); try tauto. lia.
Qed.

#[local] Instance CompletionTimeLe_trans : Transitive CompletionTimeLe.
Proof.
  intros a b d. unfold CompletionTimeLe.
  destruct (tsCompletionTime a), (tsCompletionTime b), (tsCompletionTime d); try tauto. lia.
Qed.

Lemma length_GetTaskStatuses trs sel :
  (length (GetTaskStatuses trs sel) ≤ length (trTaskStatuses trs))%nat.
Proof. unfold GetTaskStatuses. apply List.filter_length_le. Qed.

Lemma GetTaskCountStatus_small trs sel :
  Z.of_nat (length (trTaskStatuses trs)) < 2147483648 ->
  GetTaskCountStatus trs sel = Z.of_nat (length (GetTaskStatuses trs sel)).
Proof.
  intros Hlen. unfold GetTaskCountStatus. apply int32_small.
  pose proof (length_GetTaskStatuses trs sel). lia.
Qed.

Lemma length_merge_sort_tasks (l : list TaskStatus) :
  length (merge_sort CompletionTimeLe l) = length l.
Proof. apply Permutation_length, merge_sort_Permutation. Qed.

(** The reading of the task a reached threshold triggers on. *)
Lemma CompletionTimeOrderedTaskStatus_reached trs sel min :
  Z.of_nat (length (trTaskStatuses trs)) < 2147483648 ->
  1 ≤ min -> min ≤ GetTaskCountStatus trs sel ->
  exists trigger,
    merge_sort CompletionTimeLe (GetTaskStatuses trs sel) !! Z.to_nat (min - 1) = Some trigger
    /\ CompletionTimeOrderedTaskStatus trs sel (int32 (min - 1)) = Some trigger.
Proof.
  intros Hlen Hmin Hcount. rewrite GetTaskCountStatus_small in Hcount by done.
  pose proof (length_GetTaskStatuses trs sel) as Hle.
  destruct (lookup_lt_is_Some_2 (merge_sort CompletionTimeLe (GetTaskStatuses trs sel))
              (Z.to_nat (min - 1))) as [trigger Htr].
  { rewrite length_merge_sort_tasks. lia. }
  exists trigger. split; [done|].
  unfold CompletionTimeOrderedTaskStatus, taskAt.
  rewrite int32_small by lia. by rewrite bool_decide_eq_true_2 by lia.
Qed.

Lemma run_syncTaskRoleTrigger trs name sel min new first s :
  Z.of_nat (length (trTaskStatuses trs)) < 2147483648 ->
  syncTaskRoleTrigger trs name sel min new first s =
    Some (from_option (offer first) first (thresholdCandidate trs name sel min new), s).
Proof.
  intros Hlen. unfold syncTaskRoleTrigger, thresholdCandidate.
  destruct (decide (1 ≤ min)) as [Hmin|Hmin]; cycle 1.
  { rewrite (bool_decide_eq_false_2 (min >= 1)) by lia.
    by rewrite (bool_decide_eq_false_2 (1 ≤ min)) by lia. }
  rewrite (bool_decide_eq_true_2 (min >= 1)) by lia.
  rewrite (bool_decide_eq_true_2 (1 ≤ min)) by lia.
  cbv zeta.
  destruct (decide (min ≤ GetTaskCountStatus trs sel)) as [Hc|Hc]; cycle 1.
  { rewrite (bool_decide_eq_false_2 (_ >= min)) by lia.
    by rewrite (bool_decide_eq_false_2 (min ≤ _)) by lia. }
  rewrite (bool_decide_eq_true_2 (_ >= min)) by lia.
  rewrite (bool_decide_eq_true_2 (min ≤ _)) by lia.
  destruct (CompletionTimeOrderedTaskStatus_reached trs sel min Hlen Hmin Hc)
    as (trigger & Hsorted & Hget).
  rewrite Hget, Hsorted. simpl. unfold offer. simpl. rewrite bind_ret.
  by destruct (_ || _).
Qed.

Lemma GetTaskRoleStatus_elem_of st name trs :
  GetTaskRoleStatus st name = Some trs -> trs ∈ TaskRoleStatuses st /\ trName trs = name.
Proof.
  unfold GetTaskRoleStatus. intros Hget.
  destruct (findTaskRoleStatus name (TaskRoleStatuses st)) as [[i x]|] eqn:Hfind; [|done].
  injection Hget as <-. apply findTaskRoleStatus_Some in Hfind as [Hi Hn].
  split; [by eapply list_elem_of_lookup_2|done].
Qed.

Lemma run_syncTaskRoleCompletionPolicy st first rs s :
  Int32Sized st ->
  syncTaskRoleCompletionPolicy st first rs s =
    Some (foldl offer first (roleCandidates st rs), s).
Proof.
  intros Hsz. unfold syncTaskRoleCompletionPolicy, roleCandidates. cbv zeta.
  destruct (GetTaskRoleStatus st (rsName rs)) as [trs|] eqn:Hget; [|done].
  apply GetTaskRoleStatus_elem_of in Hget as [Hin _].
  rewrite (bind_run _ _ _ _ _ (run_syncTaskRoleTrigger _ _ _ _ _ _ _ (Hsz _ Hin))).
  rewrite (run_syncTaskRoleTrigger _ _ _ _ _ _ _ (Hsz _ Hin)).
  simpl. by destruct (thresholdCandidate _ _ failedTaskSelector _ _),
                     (thresholdCandidate _ _ succeededTaskSelector _ _).
Qed.

Lemma run_completionPolicy_loop st roles first s :
  Int32Sized st ->
  foldM (syncTaskRoleCompletionPolicy st) roles first s =
    Some (foldl offer first (roles ≫= roleCandidates st), s).
Proof.
  intros Hsz. revert first. induction roles as [|rs roles IH]; intros first; [done|].
  simpl. rewrite (bind_run _ _ _ _ _ (run_syncTaskRoleCompletionPolicy _ _ _ _ Hsz)).
  rewrite IH. by rewrite foldl_app.
Qed.

Lemma offer_EarliestOf seen first cand :
  EarliestOf seen first -> is_Some (tsCompletionTime cand.1) ->
  EarliestOf (seen ++ [cand]) (offer first cand).
Proof.
  intros Hseen [t0 Ht0]. right. destruct cand as [tr0 cs0]. simpl in *.
  destruct Hseen as [[-> ->]|(trigger & cs & t & Hin & -> & Ht & Hmin)].
  - exists tr0, cs0, t0. unfold offer. simpl. rewrite Ht0. split_and!; try done.
    + set_solver.
    + intros cand ->%list_elem_of_singleton. exists t0. split; [done|lia].
  - unfold offer. simpl. rewrite Ht0. simpl.
    destruct (bool_decide (t0 < t)) eqn:Hlt.
    + apply bool_decide_eq_true in Hlt. exists tr0, cs0, t0. split_and!; try done.
      * set_solver.
      * intros cand [Hc | ->%list_elem_of_singleton]%elem_of_app.
        -- destruct (Hmin _ Hc) as (t' & ? & ?). exists t'. split; [done|lia].
        -- exists t0. split; [done|lia].
    + apply bool_decide_eq_false in Hlt. exists trigger, cs, t. split_and!; try done.
      * set_solver.
      * intros cand [Hc | ->%list_elem_of_singleton]%elem_of_app; [by apply Hmin|].
        exists t0. split; [done|lia].
Qed.

Lemma foldl_offer_EarliestOf l seen first :
  EarliestOf seen first ->
  (forall cand, cand ∈ l -> is_Some (tsCompletionTime cand.1)) ->
  EarliestOf (seen ++ l) (foldl offer first l).
Proof.
  revert seen first. induction l as [|cand l IH]; intros seen first Hseen Hl.
  { by rewrite app_nil_r. }
  simpl. rewrite (assoc_L (++) seen [cand] l : seen ++ cand :: l = (seen ++ [cand]) ++ l).
  apply IH; [|set_solver]. apply offer_EarliestOf; [done|]. apply Hl. set_solver.
Qed.

Lemma selected_completed sel ts :
  sel = failedTaskSelector \/ sel = succeededTaskSelector \/ sel = completedTaskSelector ->
  sel ts = true -> tsState ts = TaskCompleted /\ tsDeletionPending ts = false.
Proof.
  assert (Hc : IsCompleted ts true = true ->
               tsState ts = TaskCompleted /\ tsDeletionPending ts = false).
  { unfold IsCompleted. destruct (tsDeletionPending ts); simpl; [done|].
    by intros ?%bool_decide_eq_true. }
  intros [-> | [-> | ->]];
    unfold failedTaskSelector, succeededTaskSelector, completedTaskSelector,
      BindIDP, IsFailed, IsSucceeded;
    [intros [? _]%andb_true_iff|intros [? _]%andb_true_iff|]; auto.
Qed.

Lemma elem_of_sorted_selected trs sel ts :
  ts ∈ merge_sort CompletionTimeLe (GetTaskStatuses trs sel) ->
  ts ∈ trTaskStatuses trs /\ sel ts = true.
Proof.
  rewrite merge_sort_Permutation. unfold GetTaskStatuses.
  rewrite list_elem_of_In, List.filter_In, <- list_elem_of_In. done.
Qed.

Lemma thresholdCandidate_Some trs name sel min new cand :
  thresholdCandidate trs name sel min new = Some cand ->
  cand.1 ∈ trTaskStatuses trs /\ sel cand.1 = true.
Proof.
  unfold thresholdCandidate. destruct (_ && _); [|done].
  destruct (_ !! _) as [trigger|] eqn:Hl; [|done].
  intros [= <-]. simpl. apply elem_of_sorted_selected.
  by eapply list_elem_of_lookup_2.
Qed.

Lemma candidates_completed st spec cand :
  cand ∈ candidates st spec ->
  exists trs, trs ∈ TaskRoleStatuses st /\ cand.1 ∈ trTaskStatuses trs
              /\ tsState cand.1 = TaskCompleted /\ tsDeletionPending cand.1 = false.
Proof.
  unfold candidates. intros (rs & Hc & _)%list_elem_of_bind.
  unfold roleCandidates in Hc.
  destruct (GetTaskRoleStatus st (rsName rs)) as [trs|] eqn:Hget; [|set_solver].
  apply GetTaskRoleStatus_elem_of in Hget as [Hin _].
  exists trs. split; [done|].
  apply list_elem_of_omap in Hc as (o & Ho & Hsome). simpl in Hsome. subst o.
  apply elem_of_cons in Ho as [Ho|Ho]; [|apply list_elem_of_singleton in Ho];
    symmetry in Ho; apply thresholdCandidate_Some in Ho as [? Hsel];
    (split; [done|]); (eapply selected_completed; [|exact Hsel]); auto.
Qed.

Lemma run_syncFrameworkAttemptCompletionPolicy_first c s st cs t0 :
  fStatus (stF s) = Some st ->
  Int32Sized st ->
  foldl offer (None, None) (candidates st (fSpec (stF s))) = (t0, Some cs) ->
  syncFrameworkAttemptCompletionPolicy c s =
    Some (true,
          {| stF := withStatus (stF s)
                      (completeFrameworkAttemptOn false (Some cs)
                         (clockNow c (wCluster (stW s))) st);
             stW := completeFrameworkAttemptWorld false (Key (stF s)) st (stW s) |}).
Proof.
  intros Hst Hsz Hfirst. unfold syncFrameworkAttemptCompletionPolicy.
  rewrite (bind_run _ _ _ _ _ (run_gets _ _)).
  rewrite (bind_run _ _ _ _ _ (run_status _ _ Hst)).
  rewrite (bind_run _ _ _ _ _ (run_completionPolicy_loop _ _ _ _ Hsz)).
  unfold candidates in Hfirst. rewrite Hfirst. simpl.
  by rewrite (bind_run _ _ _ _ _
                (completeFrameworkAttempt_run c s st false (Some cs) Hst ltac:(discriminate))).
Qed.

(** C1. The completion policy of a FrameworkAttempt that is not
    completing, on a status whose roles hold fewer than 2^31 tasks and whose
    completed tasks carry their completion time.  (1) A threshold below 1
    gives no candidate and leaves the trigger held so far as it is.  (2) A
    threshold of at least 1 that the count of the selected (failed, or
    succeeded) tasks of a role reaches makes a candidate of the task at
    position threshold - 1 of these tasks sorted by completion time, and
    the evaluator offers that candidate to the trigger held so far.  (3) The
    loop over the roles of the spec returns the candidates of all roles
    folded by this offer, and the trigger it ends with is the earliest: with
    no candidate none, else a candidate such that no candidate completed
    before it.  (4) With a candidate, the policy returns true and has
    completed the FrameworkAttempt, not forced, with the completion status
    of that earliest candidate. *)
Theorem completion_policy_picks_earliest_trigger c s st :
  fStatus (stF s) = Some st ->
  IsCompletingState (fsState st) = false ->
  Int32Sized st ->
  CompletedHaveTime st ->
  let spec := fSpec (stF s) in
  let first := foldl offer (None, None) (candidates st spec) in
  (forall trs name sel min new held s0,
     min < 1 ->
     thresholdCandidate trs name sel min new = None
     /\ syncTaskRoleTrigger trs name sel min new held s0 = Some (held, s0))
  /\ (forall trs name sel min new,
        trs ∈ TaskRoleStatuses st ->
        1 ≤ min -> min ≤ GetTaskCountStatus trs sel ->
        exists trigger sorted,
          Sorted CompletionTimeLe sorted
          /\ sorted ≡ₚ GetTaskStatuses trs sel
          /\ sorted !! Z.to_nat (min - 1) = Some trigger
          /\ thresholdCandidate trs name sel min new
             = Some (trigger, new trigger name (GetTaskCountStatus trs sel) min)
          /\ forall held s0,
               syncTaskRoleTrigger trs name sel min new held s0
               = Some (offer held
                         (trigger, new trigger name (GetTaskCountStatus trs sel) min), s0))
  /\ foldM (syncTaskRoleCompletionPolicy st) (spTaskRoles spec) (None, None) s
     = Some (first, s)
  /\ EarliestOf (candidates st spec) first
  /\ (candidates st spec <> [] ->
      exists trigger cs t,
        (trigger, cs) ∈ candidates st spec
        /\ first = (Some t, Some cs)
        /\ tsCompletionTime trigger = Some t
        /\ (forall cand, cand ∈ candidates st spec ->
              exists t', tsCompletionTime cand.1 = Some t' /\ t ≤ t')
        /\ syncFrameworkAttemptCompletionPolicy c s =
             Some (true,
                   {| stF := withStatus (stF s)
                               (completeFrameworkAttemptOn false (Some cs)
                                  (clockNow c (wCluster (stW s))) st);
                      stW := completeFrameworkAttemptWorld false (Key (stF s)) st (stW s) |})
        /\ (faCompletionStatus (fsAttemptStatus st) = None ->
            faCompletionStatus (fsAttemptStatus
              (completeFrameworkAttemptOn false (Some cs)
                 (clockNow c (wCluster (stW s))) st)) = Some cs)).
Proof.
  intros Hst _ Hsz Htime spec first.
  assert (Hear : EarliestOf (candidates st spec) first).
  { apply (foldl_offer_EarliestOf _ [] (None, None)); [by left|].
    intros cand (trs & Hin & Hts & Hdone & _)%candidates_completed.
    by eapply Htime. }
  split_and!.
  - intros trs name sel min new held s0 Hmin.
    unfold thresholdCandidate, syncTaskRoleTrigger.
    rewrite (bool_decide_eq_false_2 (1 ≤ min)) by lia.
    by rewrite (bool_decide_eq_false_2 (min >= 1)) by lia.
  - intros trs name sel min new Hin Hmin Hcount.
    destruct (CompletionTimeOrderedTaskStatus_reached trs sel min (Hsz _ Hin) Hmin Hcount)
      as (trigger & Hsorted & Hget).
    assert (Hcand : thresholdCandidate trs name sel min new
                    = Some (trigger, new trigger name (GetTaskCountStatus trs sel) min)).
    { unfold thresholdCandidate.
      rewrite (bool_decide_eq_true_2 (1 ≤ min)), (bool_decide_eq_true_2 (min ≤ _)) by lia.
      by rewrite Hsorted. }
    exists trigger, (merge_sort CompletionTimeLe (GetTaskStatuses trs sel)).
    split_and!; [apply Sorted_merge_sort, _|apply merge_sort_Permutation|done..|].
    intros held s0. rewrite (run_syncTaskRoleTrigger _ _ _ _ _ _ _ (Hsz _ Hin)).
    by rewrite Hcand.
  - by apply run_completionPolicy_loop.
  - done.
  - intros Hne. destruct Hear as [[Hnil _]|(trigger & cs & t & Hin & Hfirst & Ht & Hmin)];
      [done|].
    exists trigger, cs, t. split_and!; try done.
    + by eapply run_syncFrameworkAttemptCompletionPolicy_first.
    + intros Hnone. by rewrite faCompletionStatus_completeFrameworkAttemptOn, Hnone.
Qed.

(** ** All tasks completed *)

Lemma foldM_invariant {A B} (body : B -> A -> M (St R) B)
    (I : list A -> B -> St R -> Prop) (l0 : list A) :
  (forall done x rest acc s,
     l0 = done ++ x :: rest -> I done acc s ->
     exists acc' s', body acc x s = Some (acc', s') /\ I (done ++ [x]) acc' s') ->
  forall l done acc s,
    l0 = done ++ l -> I done acc s ->
    exists acc' s', foldM body l acc s = Some (acc', s') /\ I l0 acc' s'.
Proof.
  intros Hstep. induction l as [|x l IH]; intros done acc s Hl HI.
  { rewrite app_nil_r in Hl. subst. by exists acc, s. }
  destruct (Hstep done x l acc s Hl HI) as (acc' & s' & Hrun & HI').
  destruct (IH (done ++ [x]) acc' s') as (acc'' & s'' & Hrun' & HI''); [|done|].
  { by rewrite <- (assoc_L (++)). }
  exists acc'', s''. split; [|done]. simpl. by rewrite (bind_run _ _ _ _ _ Hrun).
Qed.

Lemma foldr_Zadd_of_nat {A} (f : A -> nat) (l : list A) :
  foldr Z.add 0 ((fun x => Z.of_nat (f x)) <$> l) = Z.of_nat (sum_list_with f l).
Proof.
  induction l as [|x l IH]; [done|].
  rewrite fmap_cons. simpl foldr. rewrite IH. simpl. lia.
Qed.

Lemma foldr_Zadd_pointwise {A} (f g : A -> Z) (l : list A) :
  (forall x, x ∈ l -> f x ≤ g x) ->
  foldr Z.add 0 (f <$> l) ≤ foldr Z.add 0 (g <$> l)
  /\ (foldr Z.add 0 (g <$> l) ≤ foldr Z.add 0 (f <$> l) -> forall x, x ∈ l -> f x = g x).
Proof.
  induction l as [|a l IH]; intros Hle.
  { split; [done|]. intros _ x Hx. by apply elem_of_nil in Hx. }
  rewrite !fmap_cons. simpl foldr.
  destruct IH as [IH1 IH2]; [intros x Hx; apply Hle; set_solver|].
  pose proof (Hle a ltac:(set_solver)) as Ha.
  split; [lia|]. intros Hsum x [->|Hx]%elem_of_cons; [lia|].
  apply IH2; [lia|done].
Qed.

Lemma foldr_Zadd_nonneg {A} (f : A -> Z) (l : list A) :
  (forall x, x ∈ l -> 0 ≤ f x) -> 0 ≤ foldr Z.add 0 (f <$> l).
Proof.
  induction l as [|a l IH]; intros Hle; [done|].
  rewrite fmap_cons. simpl foldr.
  pose proof (Hle a ltac:(set_solver)). pose proof (IH ltac:(set_solver)). lia.
Qed.

(** The completed tasks of a role, as the completion policy counts them. *)
Lemma completed_all_pending trs :
  (forall ts, ts ∈ trTaskStatuses trs -> tsDeletionPending ts = true) ->
  GetTaskStatuses trs completedTaskSelector = [].
Proof.
  intros Hdp. unfold GetTaskStatuses.
  destruct (List.filter _ _) as [|ts l] eqn:Hf; [done|].
  assert (Hin : In ts (List.filter completedTaskSelector (trTaskStatuses trs)))
    by (rewrite Hf; by left).
  apply List.filter_In in Hin as [Hin%list_elem_of_In Hsel].
  apply (selected_completed completedTaskSelector) in Hsel as [_ Hn]; [|auto].
  by rewrite (Hdp _ Hin) in Hn.
Qed.

Lemma completed_within_scale trs (n : Z) :
  0 ≤ n ->
  (forall j ts, trTaskStatuses trs !! j = Some ts -> n ≤ Z.of_nat j ->
                tsDeletionPending ts = true) ->
  Z.of_nat (length (GetTaskStatuses trs completedTaskSelector)) ≤ n.
Proof.
  intros Hn Hdp. unfold GetTaskStatuses.
  rewrite <- (take_drop (Z.to_nat n) (trTaskStatuses trs)), List.filter_app.
  assert (Hnil : List.filter completedTaskSelector (drop (Z.to_nat n) (trTaskStatuses trs)) = []).
  { apply (completed_all_pending
             {| trName := trName trs; trPodGracefulDeletionTimeoutSec := None;
                trTaskStatuses := drop (Z.to_nat n) (trTaskStatuses trs) |}).
    simpl. intros ts (j & Hj)%list_elem_of_lookup_1. rewrite lookup_drop in Hj.
    apply (Hdp _ _ Hj). lia. }
  rewrite Hnil, app_nil_r.
  pose proof (List.filter_length_le completedTaskSelector
                (take (Z.to_nat n) (trTaskStatuses trs))) as Hle.
  rewrite length_take in Hle. lia.
Qed.

Lemma sum_list_with_zero {A} (f : A -> nat) (l : list A) :
  (forall x, x ∈ l -> f x = 0%nat) -> sum_list_with f l = 0%nat.
Proof.
  induction l as [|a l IH]; intros Hz; [done|]. simpl.
  rewrite (Hz a), IH; [done| |]; set_solver.
Qed.

Lemma sum_list_with_omap {A B} (g : A -> option B) (f : B -> nat) (l : list A) :
  sum_list_with f (omap g l) = sum_list_with (fun a => from_option f 0%nat (g a)) l.
Proof.
  induction l as [|a l IH]; [done|]. simpl. destruct (g a); simpl; by rewrite <- IH.
Qed.

Lemma GetTaskRoleSpec_Some spec name rs :
  GetTaskRoleSpec spec name = Some rs -> rs ∈ spTaskRoles spec /\ rsName rs = name.
Proof.
  unfold GetTaskRoleSpec. destruct (list_find _ _) as [[i x]|] eqn:Hfind; [|done].
  intros [= <-]. apply list_find_Some in Hfind as (Hi & Hn & _).
  split; [by eapply list_elem_of_lookup_2|done].
Qed.

Lemma GetTaskRoleStatus_NoDup st trs :
  NoDup (trName <$> TaskRoleStatuses st) -> trs ∈ TaskRoleStatuses st ->
  GetTaskRoleStatus st (trName trs) = Some trs.
Proof.
  intros Hnd (i & Hi)%list_elem_of_lookup_1. unfold GetTaskRoleStatus.
  by rewrite (findTaskRoleStatus_NoDup _ _ _ Hnd Hi).
Qed.

(** The roles of the status the roles of the spec name. *)
Lemma NoDup_found_roles st (roles : list TaskRoleSpec) :
  NoDup (rsName <$> roles) ->
  NoDup (omap (fun rs => GetTaskRoleStatus st (rsName rs)) roles).
Proof.
  induction roles as [|rs roles IH]; [constructor|].
  rewrite fmap_cons. intros [Hnotin Hnd]%NoDup_cons. simpl.
  destruct (GetTaskRoleStatus st (rsName rs)) as [trs|] eqn:Hget; [|by apply IH].
  apply NoDup_cons. split; [|by apply IH].
  intros (rs' & Hrs' & Hget')%list_elem_of_omap. apply Hnotin.
  apply GetTaskRoleStatus_elem_of in Hget as [_ <-].
  apply GetTaskRoleStatus_elem_of in Hget' as [_ ->].
  by apply list_elem_of_fmap_2.
Qed.

(** The completed tasks of the status are those of the roles of the spec:
    a role the spec does not name has deletion-pending tasks only. *)
Lemma completed_count_by_spec spec st :
  NoDup (rsName <$> spTaskRoles spec) ->
  NoDup (trName <$> TaskRoleStatuses st) ->
  ScaleSynced spec st ->
  sum_list_with (fun trs => length (GetTaskStatuses trs completedTaskSelector))
    (TaskRoleStatuses st)
  = sum_list_with
      (fun rs => from_option
                   (fun trs => length (GetTaskStatuses trs completedTaskSelector))
                   0%nat (GetTaskRoleStatus st (rsName rs)))
      (spTaskRoles spec).
Proof.
  intros Hspec Hstat [_ Hrest]. rewrite <- sum_list_with_omap.
  set (K := omap (fun rs => GetTaskRoleStatus st (rsName rs)) (spTaskRoles spec)).
  assert (HK : NoDup K) by by apply NoDup_found_roles.
  assert (Hsub : K ⊆+ TaskRoleStatuses st).
  { apply NoDup_submseteq; [done|].
    intros x (rs & _ & Hget)%list_elem_of_omap.
    by apply GetTaskRoleStatus_elem_of in Hget as [? _]. }
  apply submseteq_Permutation in Hsub as [rest Hperm].
  rewrite Hperm, sum_list_with_app.
  rewrite (sum_list_with_zero _ rest); [lia|].
  intros x Hx.
  assert (HxL : x ∈ TaskRoleStatuses st) by (rewrite Hperm; set_solver).
  assert (HxK : x ∉ K).
  { apply NoDup_fmap_1 in Hstat. rewrite Hperm in Hstat.
    apply NoDup_app in Hstat as (_ & Hdisj & _). intros HK'. by apply (Hdisj x). }
  rewrite completed_all_pending; [done|].
  apply Hrest; [done|].
  destruct (GetTaskRoleSpec spec (trName x)) as [rs|] eqn:Hrs; [|done].
  exfalso. apply HxK. apply GetTaskRoleSpec_Some in Hrs as [Hin Hname].
  apply list_elem_of_omap. exists rs. split; [done|].
  rewrite Hname. by apply GetTaskRoleStatus_NoDup.
Qed.

(** With as many completed tasks as the spec declares tasks, every role of
    the spec has exactly its [taskNumber] of completed tasks. *)
Lemma all_roles_completed spec st :
  SpecWellFormed spec ->
  NoDup (trName <$> TaskRoleStatuses st) ->
  ScaleSynced spec st ->
  foldr Z.add 0 (rsTaskNumber <$> spTaskRoles spec) < 2147483648 ->
  GetFrameworkTaskCountStatus st completedTaskSelector >= GetTotalTaskCountSpec spec ->
  GetFrameworkTaskCountStatus st completedTaskSelector = GetTotalTaskCountSpec spec
  /\ forall rs, rs ∈ spTaskRoles spec ->
       exists trs,
         GetTaskRoleStatus st (rsName rs) = Some trs
         /\ Z.of_nat (length (GetTaskStatuses trs completedTaskSelector)) = rsTaskNumber rs.
Proof.
  intros [Hnd Hnum] Hstat Hsync Htotal Hge.
  unfold GetFrameworkTaskCountStatus, GetTotalTaskCountSpec in *.
  rewrite foldr_Zadd_of_nat, (completed_count_by_spec spec st Hnd Hstat Hsync) in *.
  rewrite <- foldr_Zadd_of_nat in *.
  set (f := fun rs => Z.of_nat (from_option
              (fun trs => length (GetTaskStatuses trs completedTaskSelector))
              0%nat (GetTaskRoleStatus st (rsName rs)))) in *.
  assert (Hle : forall rs, rs ∈ spTaskRoles spec -> f rs ≤ rsTaskNumber rs).
  { intros rs Hrs. unfold f.
    destruct (proj1 Hsync rs Hrs) as (trs & -> & _ & Hdp). simpl.
    apply completed_within_scale; [apply Hnum, Hrs|done]. }
  destruct (foldr_Zadd_pointwise f rsTaskNumber (spTaskRoles spec) Hle) as [Hsum Heq].
  pose proof (foldr_Zadd_nonneg f (spTaskRoles spec) ltac:(intros; unfold f; lia)) as H0.
  pose proof (foldr_Zadd_nonneg rsTaskNumber (spTaskRoles spec)
                ltac:(intros x Hx; apply Hnum, Hx)) as H1.
  rewrite !int32_small in Hge by lia. rewrite !int32_small by lia.
  split; [lia|].
  intros rs Hrs. specialize (Heq ltac:(lia) rs Hrs). unfold f in Heq.
  destruct (proj1 Hsync rs Hrs) as (trs & Hget & _). exists trs. split; [done|].
  by rewrite Hget in Heq.
Qed.

Lemma StronglySorted_lookup_le {A} (R' : relation A) (l : list A) i j x y :
  StronglySorted R' l -> l !! i = Some x -> l !! j = Some y -> (i < j)%nat -> R' x y.
Proof.
  intros Hs Hi Hj Hlt. rewrite <- (take_drop j l) in Hs.
  eapply StronglySorted_app_1_elem_of; [done| |].
  - apply list_elem_of_lookup_2 with i. by rewrite lookup_take_lt.
  - apply list_elem_of_lookup_2 with 0%nat. by rewrite lookup_drop, Nat.add_0_r.
Qed.

(** The task of a role of the spec read as its last completed one, when all
    its [taskNumber] tasks are completed. *)
Lemma role_last_completed st trs (n : Z) :
  Int32Sized st -> CompletedHaveTime st ->
  trs ∈ TaskRoleStatuses st ->
  Z.of_nat (length (GetTaskStatuses trs completedTaskSelector)) = n -> n <> 0 ->
  exists t tm,
    CompletionTimeOrderedTaskStatus trs completedTaskSelector (int32 (n - 1)) = Some t
    /\ t ∈ trTaskStatuses trs /\ completedTaskSelector t = true
    /\ tsCompletionTime t = Some tm
    /\ forall t', t' ∈ trTaskStatuses trs -> completedTaskSelector t' = true ->
         exists tm', tsCompletionTime t' = Some tm' /\ tm' ≤ tm.
Proof.
  intros Hsz Htime Hin Hn Hn0.
  pose proof (Hsz _ Hin) as Hlen.
  pose proof (length_GetTaskStatuses trs completedTaskSelector) as Hle.
  set (sorted := merge_sort CompletionTimeLe (GetTaskStatuses trs completedTaskSelector)).
  assert (Hls : length sorted = length (GetTaskStatuses trs completedTaskSelector))
    by apply length_merge_sort_tasks.
  destruct (lookup_lt_is_Some_2 sorted (Z.to_nat (n - 1))) as [t Ht]; [lia|].
  assert (Hget : CompletionTimeOrderedTaskStatus trs completedTaskSelector (int32 (n - 1))
                 = Some t).
  { unfold CompletionTimeOrderedTaskStatus, taskAt. rewrite int32_small by lia.
    by rewrite bool_decide_eq_true_2 by lia. }
  assert (Hsome : forall x, x ∈ sorted ->
            x ∈ trTaskStatuses trs /\ completedTaskSelector x = true
            /\ is_Some (tsCompletionTime x)).
  { intros x [Hx Hsel]%elem_of_sorted_selected. split_and!; [done..|].
    eapply Htime; [done..|].
    apply (selected_completed completedTaskSelector); auto. }
  destruct (Hsome t (list_elem_of_lookup_2 _ _ _ Ht)) as (Htin & Htsel & [tm Htm]).
  exists t, tm. split_and!; try done.
  intros t' Ht' Hsel'.
  assert (Hs' : t' ∈ sorted).
  { unfold sorted. rewrite merge_sort_Permutation. unfold GetTaskStatuses.
    rewrite list_elem_of_In, List.filter_In, <- list_elem_of_In. done. }
  destruct (Hsome t' Hs') as (_ & _ & [tm' Htm']). exists tm'. split; [done|].
  apply list_elem_of_lookup_1 in Hs' as [i Hi].
  pose proof (lookup_lt_Some _ _ _ Hi) as Hilt.
  destruct (decide (i = Z.to_nat (n - 1))) as [->|Hne].
  { rewrite Ht in Hi. injection Hi as <-. rewrite Htm in Htm'. injection Htm' as <-. lia. }
  assert (Hle' : CompletionTimeLe t' t).
  { eapply (StronglySorted_lookup_le CompletionTimeLe sorted i (Z.to_nat (n - 1)));
      [apply StronglySorted_merge_sort; apply _|done..|lia]. }
  unfold CompletionTimeLe in Hle'. by rewrite Htm, Htm' in Hle'.
Qed.

Lemma no_completed_of_zero trs t :
  length (GetTaskStatuses trs completedTaskSelector) = 0%nat ->
  t ∈ trTaskStatuses trs -> completedTaskSelector t = true -> False.
Proof.
  intros Hlen Hin Hsel. apply nil_length_inv in Hlen.
  assert (Ht : In t (GetTaskStatuses trs completedTaskSelector)).
  { unfold GetTaskStatuses. apply List.filter_In. by rewrite <- list_elem_of_In. }
  by rewrite Hlen in Ht.
Qed.

Lemma run_syncTaskRoleLastCompleted st seen last rs trs s :
  Int32Sized st -> CompletedHaveTime st ->
  (forall rs' trs', rs' ∈ seen ++ [rs] ->
     GetTaskRoleStatus st (rsName rs') = Some trs' ->
     Z.of_nat (length (GetTaskStatuses trs' completedTaskSelector)) = rsTaskNumber rs') ->
  GetTaskRoleStatus st (rsName rs) = Some trs ->
  LatestOf st seen last ->
  exists last',
    syncTaskRoleLastCompleted st last rs s = Some (last', s)
    /\ LatestOf st (seen ++ [rs]) last'.
Proof.
  intros Hsz Htime Hall Hget Hlast.
  pose proof (Hall rs trs ltac:(set_solver) Hget) as Hn.
  pose proof (GetTaskRoleStatus_elem_of _ _ _ Hget) as [Hin _].
  unfold syncTaskRoleLastCompleted. cbv zeta. rewrite Hget.
  destruct (decide (rsTaskNumber rs = 0)) as [H0|H0].
  { rewrite bool_decide_eq_true_2 by done. exists last. split; [done|].
    destruct Hlast as [[Hz ->]|(t & rs0 & trs0 & tm & Hrs0 & Hn0 & -> & Hget0 & Ht & Hsel & Htm & Hmax)].
    - left. split; [|done]. intros rs' [?| ->%list_elem_of_singleton]%elem_of_app; auto.
    - right. exists t, rs0, trs0, tm. split_and!; try done; [set_solver|].
      intros rs' trs' t' [?| ->%list_elem_of_singleton]%elem_of_app Hget' Ht' Hsel';
        [by eapply Hmax|].
      rewrite Hget in Hget'. injection Hget' as <-.
      exfalso. eapply no_completed_of_zero; [|done..]. lia. }
  rewrite bool_decide_eq_false_2 by done.
  destruct (role_last_completed st trs (rsTaskNumber rs) Hsz Htime Hin Hn H0)
    as (t & tm & Hordered & Htin & Htsel & Htm & Htmax).
  rewrite Hordered. cbn [deref]. rewrite bind_ret.
  assert (Hzero : forall rs' trs' t', rs' ∈ seen -> rsTaskNumber rs' = 0 ->
            GetTaskRoleStatus st (rsName rs') = Some trs' ->
            t' ∈ trTaskStatuses trs' -> completedTaskSelector t' = true -> False).
  { intros rs' trs' t' Hrs' Hz Hget' Ht' Hsel'.
    pose proof (Hall rs' trs' ltac:(set_solver) Hget') as Hn'.
    eapply no_completed_of_zero; [|done..]. lia. }
  destruct Hlast as [[Hz ->]|(t0 & rs0 & trs0 & tm0 & Hrs0 & Hn0 & -> & Hget0 & Ht0 & Hsel0 & Htm0 & Hmax)];
    simpl.
  - exists (Some t, rsName rs). split; [done|]. right.
    exists t, rs, trs, tm. split_and!; try done; [set_solver|].
    intros rs' trs' t' [Hrs'| ->%list_elem_of_singleton]%elem_of_app Hget' Ht' Hsel'.
    + exfalso. by eapply (Hzero rs' trs' t'); [|apply Hz|..].
    + rewrite Hget in Hget'. injection Hget' as <-. by apply Htmax.
  - rewrite Htm, Htm0. cbn [deref]. rewrite !bind_ret.
    destruct (decide (tm > tm0)) as [Hgt|Hgt].
    + rewrite bool_decide_eq_true_2 by done.
      exists (Some t, rsName rs). split; [done|]. right.
      exists t, rs, trs, tm. split_and!; try done; [set_solver|].
      intros rs' trs' t' [Hrs'| ->%list_elem_of_singleton]%elem_of_app Hget' Ht' Hsel'.
      * destruct (Hmax rs' trs' t' Hrs' Hget' Ht' Hsel') as (tm' & ? & ?).
        exists tm'. split; [done|lia].
      * rewrite Hget in Hget'. injection Hget' as <-. by apply Htmax.
    + rewrite bool_decide_eq_false_2 by done.
      exists (Some t0, rsName rs0). split; [done|]. right.
      exists t0, rs0, trs0, tm0. split_and!; try done; [set_solver|].
      intros rs' trs' t' [Hrs'| ->%list_elem_of_singleton]%elem_of_app Hget' Ht' Hsel'.
      * by eapply Hmax.
      * rewrite Hget in Hget'. injection Hget' as <-.
        destruct (Htmax t' Ht' Hsel') as (tm' & ? & ?). exists tm'. split; [done|lia].
Qed.

Lemma run_lastCompleted_loop st spec s :
  SpecWellFormed spec ->
  foldr Z.add 0 (rsTaskNumber <$> spTaskRoles spec) < 2147483648 ->
  NoDup (trName <$> TaskRoleStatuses st) ->
  ScaleSynced spec st ->
  Int32Sized st -> CompletedHaveTime st ->
  GetFrameworkTaskCountStatus st completedTaskSelector >= GetTotalTaskCountSpec spec ->
  exists last,
    foldM (syncTaskRoleLastCompleted st) (spTaskRoles spec) (None, EmptyString) s
      = Some (last, s)
    /\ LatestOf st (spTaskRoles spec) last.
Proof.
  intros Hwf Htotal Hstat Hsync Hsz Htime Hge.
  destruct (all_roles_completed spec st Hwf Hstat Hsync Htotal Hge) as [_ Hroles].
  destruct (foldM_invariant (syncTaskRoleLastCompleted st)
              (fun seen last s' => s' = s /\ LatestOf st seen last) (spTaskRoles spec))
    with (l := spTaskRoles spec) (done := @nil TaskRoleSpec)
         (acc := (@None TaskStatus, EmptyString)) (s := s)
    as (last & s' & Hrun & -> & Hlast); [|done| |by exists last].
  - intros seen rs rest acc s0 Hsplit [-> Hacc].
    assert (Hrs : rs ∈ spTaskRoles spec) by (rewrite Hsplit; set_solver).
    destruct (Hroles rs Hrs) as (trs & Hget & _).
    destruct (run_syncTaskRoleLastCompleted st seen acc rs trs s Hsz Htime) as (acc' & ? & ?);
      [|done..|by exists acc', s].
    intros rs' trs' Hrs' Hget'.
    destruct (Hroles rs') as (trs'' & Hget'' & Heq); [rewrite Hsplit; set_solver|].
    rewrite Hget' in Hget''. by injection Hget'' as <-.
  - split; [done|]. left. split; [|done]. intros rs Hrs. by apply elem_of_nil in Hrs.
Qed.

(** C8. The full completion policy on a status that is in sync with the
    scale of a well-formed spec (the state syncFrameworkScale leaves), whose
    role names are pairwise distinct and whose completed tasks carry their
    completion time.  If no threshold of a role gives a candidate, and the
    count of the completed tasks is at least the total task count the spec
    declares, then the policy returns true and has completed the
    FrameworkAttempt with the CompletedTaskTriggered completion status
    built from the latest completed task of the roles of the spec and the
    name of its role (a role with taskNumber 0 gives no such task; with
    such roles only there is none), not forced: the state is
    FrameworkAttemptDeletionPending, not FrameworkAttemptCompleted, and
    one sync has been enqueued. *)
Theorem all_completed_triggers_latest_task c s st :
  fStatus (stF s) = Some st ->
  let spec := fSpec (stF s) in
  let completedTaskCount := GetFrameworkTaskCountStatus st completedTaskSelector in
  let totalTaskCount := GetTotalTaskCountSpec spec in
  SpecWellFormed spec ->
  foldr Z.add 0 (rsTaskNumber <$> spTaskRoles spec) < 2147483648 ->
  NoDup (trName <$> TaskRoleStatuses st) ->
  ScaleSynced spec st ->
  Int32Sized st ->
  CompletedHaveTime st ->
  candidates st spec = [] ->
  completedTaskCount >= totalTaskCount ->
  exists last s' st',
    foldM (syncTaskRoleLastCompleted st) (spTaskRoles spec) (None, EmptyString) s
      = Some (last, s)
    /\ LatestOf st (spTaskRoles spec) last
    /\ completeFrameworkAttempt c false
         (Some (NewCompletedTaskTriggeredCompletionStatus last.1 last.2
                  completedTaskCount totalTaskCount)) s = Some (tt, s')
    /\ syncFrameworkAttemptCompletionPolicy c s = Some (true, s')
    /\ fStatus (stF s') = Some st'
    /\ fsState st' = FrameworkAttemptDeletionPending
    /\ fsState st' <> FrameworkAttemptCompleted
    /\ faCompletionStatus (fsAttemptStatus st') =
         match faCompletionStatus (fsAttemptStatus st) with
         | Some old => Some old
         | None => Some (NewCompletedTaskTriggeredCompletionStatus last.1 last.2
                           completedTaskCount totalTaskCount)
         end
    /\ stW s' = {| wCluster := wCluster (stW s);
                   wQueue := QueueAdd (Key (stF s)) :: wQueue (stW s) |}.
Proof.
  intros Hst spec completedTaskCount totalTaskCount Hwf Htotal Hstat Hsync Hsz Htime
    Hnone Hge.
  destruct (run_lastCompleted_loop st spec s Hwf Htotal Hstat Hsync Hsz Htime Hge)
    as (last & Hloop & Hlast).
  pose proof (completeFrameworkAttempt_run c s st false
                (Some (NewCompletedTaskTriggeredCompletionStatus last.1 last.2
                         completedTaskCount totalTaskCount)) Hst ltac:(discriminate)) as Hrun.
  eexists last, _, _. split_and!; [done|done|exact Hrun| |done| | | |done].
  - unfold syncFrameworkAttemptCompletionPolicy.
    rewrite (bind_run _ _ _ _ _ (run_gets _ _)).
    rewrite (bind_run _ _ _ _ _ (run_status _ _ Hst)).
    rewrite (bind_run _ _ _ _ _ (run_completionPolicy_loop _ _ _ _ Hsz)).
    fold spec. unfold candidates in Hnone. rewrite Hnone. simpl. cbv zeta.
    fold spec. fold completedTaskCount totalTaskCount.
    rewrite (bool_decide_eq_true_2 _ Hge).
    rewrite (bind_run _ _ _ _ _ Hloop).
    by rewrite (bind_run _ _ _ _ _ Hrun).
  - apply fsState_completeFrameworkAttemptOn.
  - by rewrite fsState_completeFrameworkAttemptOn.
  - apply faCompletionStatus_completeFrameworkAttemptOn.
Qed.

(** ** The scale of a Framework *)

Lemma scaleUpTasks_run from n t tasks p :
  scaleUpTasks from n t tasks p =
    (tasks ++ ((fun i => NewTaskStatus i t) <$> seqZ from (n - from)),
     if bool_decide (from < n) then true else p).
Proof.
  unfold scaleUpTasks.
  assert (Hgen : forall l tasks p,
    foldl (fun acc taskIndex => (acc.1 ++ [NewTaskStatus taskIndex t], true)) (tasks, p) l
    = (tasks ++ ((fun i => NewTaskStatus i t) <$> l),
       match l with [] => p | _ => true end)).
  { clear. induction l as [|i l IH]; intros tasks p; simpl.
    - by rewrite app_nil_r.
    - rewrite IH. rewrite <- (assoc_L (++)). simpl. by destruct l. }
  rewrite Hgen. f_equal.
  destruct (decide (from < n)) as [Hlt|Hge].
  - rewrite bool_decide_eq_true_2 by done. by rewrite seqZ_cons by lia.
  - rewrite bool_decide_eq_false_2 by done. by rewrite seqZ_nil by lia.
Qed.

Lemma MarkAsDeletionPending_pending ts :
  tsDeletionPending (MarkAsDeletionPending ts).1 = true.
Proof. unfold MarkAsDeletionPending. by destruct (tsDeletionPending ts) eqn:Hdp. Qed.

(** ScaleDown from the highest index down to [lowest]: every task at or
    beyond [lowest] ends deletion pending, no task leaves that state, and
    the slots stay. *)
Lemma scaleDownTasks_loop (k : nat) lowest tasks p :
  0 ≤ lowest -> lowest + Z.of_nat k ≤ Z.of_nat (length tasks) ->
  exists tasks' p',
    foldl markDeletionPendingStep (Some (tasks, p)) (reverse (seqZ lowest (Z.of_nat k)))
      = Some (tasks', p')
    /\ length tasks' = length tasks
    /\ forall j ts', tasks' !! j = Some ts' ->
         exists ts, tasks !! j = Some ts
           /\ (tsDeletionPending ts = true -> tsDeletionPending ts' = true)
           /\ (lowest ≤ Z.of_nat j < lowest + Z.of_nat k -> tsDeletionPending ts' = true).
Proof.
  intros Hlow. revert tasks p. induction k as [|k IH]; intros tasks p Hlen.
  { exists tasks, p. split_and!; [done..|]. intros j ts' Hj. exists ts'.
    split_and!; [done..|lia]. }
  rewrite seqZ_S, reverse_app. simpl.
  destruct (lookup_lt_is_Some_2 tasks (Z.to_nat (lowest + Z.of_nat k))) as [ts0 Hts0]; [lia|].
  unfold taskAt.
  rewrite bool_decide_eq_true_2 by lia. rewrite Hts0. simpl.
  set (tasks1 := alterTaskAt _ _ tasks).
  assert (Hlen1 : length tasks1 = length tasks).
  { unfold tasks1, alterTaskAt. destruct (bool_decide _); [apply length_alter|done]. }
  destruct (IH tasks1 (if (MarkAsDeletionPending ts0).2 then true else p))
    as (tasks' & p' & Hrun & Hlen' & Hprop); [lia|].
  exists tasks', p'. split_and!; [done|lia|].
  intros j ts' Hj. destruct (Hprop j ts' Hj) as (ts1 & Hts1 & Hkeep & Hmark).
  unfold tasks1, alterTaskAt in Hts1. rewrite bool_decide_eq_true_2 in Hts1 by lia.
  destruct (decide (j = Z.to_nat (lowest + Z.of_nat k))) as [->|Hne].
  - rewrite list_lookup_alter_eq, Hts0 in Hts1. simpl in Hts1. injection Hts1 as <-.
    exists ts0. split; [done|].
    pose proof (MarkAsDeletionPending_pending ts0). split; auto.
  - rewrite list_lookup_alter_ne in Hts1 by done.
    exists ts1. split_and!; [done..|]. intros Hrange. apply Hmark. lia.
Qed.

Lemma scaleDownTasks_run count lowest tasks p :
  0 ≤ lowest -> count = Z.of_nat (length tasks) ->
  exists tasks' p',
    scaleDownTasks count lowest tasks p = Some (tasks', p')
    /\ length tasks' = length tasks
    /\ forall j ts', tasks' !! j = Some ts' ->
         exists ts, tasks !! j = Some ts
           /\ (tsDeletionPending ts = true -> tsDeletionPending ts' = true)
           /\ (lowest ≤ Z.of_nat j -> tsDeletionPending ts' = true).
Proof.
  intros Hlow ->. unfold scaleDownTasks.
  destruct (decide (lowest ≤ Z.of_nat (length tasks))) as [Hle|Hgt].
  - destruct (scaleDownTasks_loop (Z.to_nat (Z.of_nat (length tasks) - lowest))
                lowest tasks p Hlow) as (tasks' & p' & Hrun & Hlen & Hprop); [lia|].
    rewrite Z2Nat.id in Hrun by lia.
    exists tasks', p'. split_and!; [done..|].
    intros j ts' Hj. destruct (Hprop j ts' Hj) as (ts & Hts & Hkeep & Hmark).
    exists ts. split_and!; [done..|]. intros Hj'. apply Hmark.
    pose proof (lookup_lt_Some _ _ _ Hts). lia.
  - rewrite seqZ_nil by lia. exists tasks, p. split_and!; [done..|].
    intros j ts' Hj. exists ts'. split_and!; [done..|].
    pose proof (lookup_lt_Some _ _ _ Hj). lia.
Qed.

(** *** Lookups by name across the updates of the scale *)

Lemma findTaskRoleStatus_alter_other name (g : TaskRoleStatus -> TaskRoleStatus)
    (l : list TaskRoleStatus) i trs :
  (forall x, trName (g x) = trName x) ->
  l !! i = Some trs -> trName trs <> name ->
  snd <$> findTaskRoleStatus name (alter g i l) = snd <$> findTaskRoleStatus name l.
Proof.
  intros Hg Hi Hne. rewrite findTaskRoleStatus_alter by done.
  destruct (findTaskRoleStatus name l) as [[k x]|] eqn:Hfind; [|done]. simpl.
  destruct (decide (k = i)) as [->|]; [|done].
  apply findTaskRoleStatus_Some in Hfind as [Hk Hname].
  rewrite Hi in Hk. injection Hk as <-. done.
Qed.

Lemma GetTaskRoleStatus_alterTaskRoleStatus st name g name' :
  (forall x, trName (g x) = trName x) ->
  GetTaskRoleStatus
    (fsWithTaskRoleStatuses (alterTaskRoleStatus name g (TaskRoleStatuses st)) st) name'
  = if decide (name' = name) then g <$> GetTaskRoleStatus st name
    else GetTaskRoleStatus st name'.
Proof.
  intros Hg. unfold GetTaskRoleStatus at 1. rewrite TaskRoleStatuses_with.
  unfold alterTaskRoleStatus, GetTaskRoleStatus.
  destruct (findTaskRoleStatus name (TaskRoleStatuses st)) as [[i trs]|] eqn:Hfind.
  - pose proof (findTaskRoleStatus_Some _ _ _ _ Hfind) as [Hi Hname].
    destruct (decide (name' = name)) as [->|Hne].
    + rewrite findTaskRoleStatus_alter, Hfind by done. simpl.
      by rewrite decide_True by done.
    + apply findTaskRoleStatus_alter_other with trs; [done..|congruence].
  - destruct (decide (name' = name)) as [->|Hne]; [by rewrite Hfind|done].
Qed.

Lemma GetTaskRoleStatus_append st new name' :
  GetTaskRoleStatus st (trName new) = None ->
  GetTaskRoleStatus (fsWithTaskRoleStatuses (TaskRoleStatuses st ++ [new]) st) name'
  = if decide (name' = trName new) then Some new else GetTaskRoleStatus st name'.
Proof.
  unfold GetTaskRoleStatus. rewrite TaskRoleStatuses_with. unfold findTaskRoleStatus.
  intros Hnone.
  destruct (list_find (fun trs => trName trs = trName new) (TaskRoleStatuses st))
    as [?|] eqn:Hnew; [done|].
  destruct (decide (name' = trName new)) as [->|Hne].
  - rewrite list_find_app_r by done. simpl. by rewrite decide_True by done.
  - destruct (list_find (fun trs => trName trs = name') (TaskRoleStatuses st))
      as [[k x]|] eqn:Hfind.
    + by rewrite (list_find_app_l _ _ _ _ _ Hfind).
    + rewrite list_find_app_r by done. simpl. by rewrite decide_False by congruence.
Qed.

Lemma Int32Sized_alterTaskRoleStatus st name tasks :
  Int32Sized st -> Z.of_nat (length tasks) < 2147483648 ->
  Int32Sized (fsWithTaskRoleStatuses
                (alterTaskRoleStatus name (trWithTaskStatuses tasks) (TaskRoleStatuses st)) st).
Proof.
  intros Hsz Hlen trs. rewrite TaskRoleStatuses_with. unfold alterTaskRoleStatus.
  destruct (findTaskRoleStatus name (TaskRoleStatuses st)) as [[i x]|]; [|apply Hsz].
  intros (k & Hk)%list_elem_of_lookup_1.
  destruct (decide (k = i)) as [->|Hne].
  - rewrite list_lookup_alter_eq in Hk.
    destruct (TaskRoleStatuses st !! i); [|done]. by injection Hk as <-.
  - rewrite list_lookup_alter_ne in Hk by done. apply Hsz.
    by eapply list_elem_of_lookup_2.
Qed.

Lemma Int32Sized_alter st i tasks :
  Int32Sized st -> Z.of_nat (length tasks) < 2147483648 ->
  Int32Sized (fsWithTaskRoleStatuses
                (alter (trWithTaskStatuses tasks) i (TaskRoleStatuses st)) st).
Proof.
  intros Hsz Hlen trs. rewrite TaskRoleStatuses_with.
  intros (k & Hk)%list_elem_of_lookup_1.
  destruct (decide (k = i)) as [->|Hne].
  - rewrite list_lookup_alter_eq in Hk.
    destruct (TaskRoleStatuses st !! i); [|done]. by injection Hk as <-.
  - rewrite list_lookup_alter_ne in Hk by done. apply Hsz.
    by eapply list_elem_of_lookup_2.
Qed.

(** *** The loop over the roles of the spec *)

Lemma run_syncTaskRoleSpecScale c p rs s st :
  fStatus (stF s) = Some st ->
  Int32Sized st ->
  0 ≤ rsTaskNumber rs < 2147483648 ->
  exists p' st',
    syncTaskRoleSpecScale c p rs s = Some (p', setStatus s st')
    /\ Int32Sized st'
    /\ RoleSynced st' rs
    /\ forall name, name <> rsName rs ->
         GetTaskRoleStatus st' name = GetTaskRoleStatus st name.
Proof.
  intros Hst Hsz Hn. unfold syncTaskRoleSpecScale. cbv zeta.
  rewrite (bind_run _ _ _ _ _ (run_status _ _ Hst)).
  unfold now. rewrite (bind_run _ _ _ _ _ (run_gets _ _)).
  set (t := clockNow c (wCluster (stW s))).
  destruct (GetTaskRoleStatus st (rsName rs)) as [trs|] eqn:Hget.
  - pose proof (GetTaskRoleStatus_elem_of _ _ _ Hget) as [Hin Hname].
    pose proof (Hsz _ Hin) as Hlen.
    rewrite int32_small by lia.
    destruct (decide (Z.of_nat (length (trTaskStatuses trs)) < rsTaskNumber rs)) as [Hlt|Hge].
    + rewrite bool_decide_eq_true_2 by done. rewrite scaleUpTasks_run. simpl.
      set (tasks' := trTaskStatuses trs ++ _).
      assert (Hlen' : Z.of_nat (length tasks') = rsTaskNumber rs).
      { unfold tasks'. rewrite length_app, length_fmap, length_seqZ. lia. }
      erewrite bind_run; [|by apply run_modifyStatus].
      eexists _, _. split; [done|]. split_and!.
      * apply Int32Sized_alterTaskRoleStatus; [done|lia].
      * exists (trWithTaskStatuses tasks' trs). split_and!.
        -- rewrite GetTaskRoleStatus_alterTaskRoleStatus by done.
           by rewrite decide_True, Hget by done.
        -- simpl. lia.
        -- simpl. intros j ts Hj Hle. apply lookup_lt_Some in Hj. lia.
      * intros name Hne. rewrite GetTaskRoleStatus_alterTaskRoleStatus by done.
        by rewrite decide_False by done.
    + rewrite bool_decide_eq_false_2 by done.
      destruct (decide (Z.of_nat (length (trTaskStatuses trs)) > rsTaskNumber rs)) as [Hgt|Hle].
      * rewrite bool_decide_eq_true_2 by done.
        destruct (scaleDownTasks_run (Z.of_nat (length (trTaskStatuses trs)))
                    (rsTaskNumber rs) (trTaskStatuses trs) p) as (tasks' & p' & -> & Hlen' & Hprop);
          [lia|done|].
        cbn [deref]. rewrite bind_ret. simpl.
        erewrite bind_run; [|by apply run_modifyStatus].
        eexists _, _. split; [done|]. split_and!.
        -- apply Int32Sized_alterTaskRoleStatus; [done|lia].
        -- exists (trWithTaskStatuses tasks' trs). split_and!.
           ++ rewrite GetTaskRoleStatus_alterTaskRoleStatus by done.
              by rewrite decide_True, Hget by done.
           ++ simpl. lia.
           ++ simpl. intros j ts Hj Hle. destruct (Hprop j ts Hj) as (_ & _ & _ & Hmark).
              by apply Hmark.
        -- intros name Hne. rewrite GetTaskRoleStatus_alterTaskRoleStatus by done.
           by rewrite decide_False by done.
      * rewrite bool_decide_eq_false_2 by done.
        exists p, st. rewrite setStatus_same by done. split_and!; [done..| |done].
        exists trs. split_and!; [done|lia|].
        intros j ts Hj Hle'. apply lookup_lt_Some in Hj. lia.
  - rewrite scaleUpTasks_run. simpl.
    set (tasks' := (fun i => NewTaskStatus i t) <$> seqZ 0 (rsTaskNumber rs - 0)).
    set (new := {| trName := rsName rs; trPodGracefulDeletionTimeoutSec := None;
                   trTaskStatuses := tasks' |}).
    assert (Hlen' : Z.of_nat (length tasks') = rsTaskNumber rs).
    { unfold tasks'. rewrite length_fmap, length_seqZ. lia. }
    erewrite bind_run; [|by apply run_modifyStatus].
    eexists _, _. split; [done|]. split_and!.
    + intros trs. rewrite TaskRoleStatuses_with.
      intros [Hin| ->%list_elem_of_singleton]%elem_of_app; [by apply Hsz|]. simpl. lia.
    + exists new. split_and!.
      * rewrite (GetTaskRoleStatus_append st new) by done. by rewrite decide_True by done.
      * simpl. lia.
      * simpl. intros j ts Hj Hle. apply lookup_lt_Some in Hj. lia.
    + intros name Hne. rewrite (GetTaskRoleStatus_append st new) by done.
      by rewrite decide_False by done.
Qed.

Lemma run_specScale_loop c s st (roles : list TaskRoleSpec) :
  fStatus (stF s) = Some st ->
  Int32Sized st ->
  NoDup (rsName <$> roles) ->
  (forall rs, rs ∈ roles -> 0 ≤ rsTaskNumber rs < 2147483648) ->
  exists p st',
    foldM (syncTaskRoleSpecScale c) roles false s = Some (p, setStatus s st')
    /\ Int32Sized st'
    /\ forall rs, rs ∈ roles -> RoleSynced st' rs.
Proof.
  intros Hst Hsz Hnd Hnum.
  destruct (foldM_invariant (syncTaskRoleSpecScale c)
              (fun seen (_ : bool) s' =>
                 exists st', s' = setStatus s st' /\ Int32Sized st'
                             /\ forall rs, rs ∈ seen -> RoleSynced st' rs) roles)
    with (l := roles) (done := @nil TaskRoleSpec) (acc := false) (s := s)
    as (p & s' & Hrun & st' & -> & Hsz' & Hsynced); [|done| |by exists p, st'].
  - intros seen rs rest p s0 Hsplit (st0 & -> & Hsz0 & Hseen).
    destruct (run_syncTaskRoleSpecScale c p rs (setStatus s st0) st0)
      as (p' & st' & Hrun & Hsz' & Hrs & Hother); [done|done| |].
    { apply Hnum. rewrite Hsplit. set_solver. }
    exists p', (setStatus s st'). split; [done|]. exists st'. split_and!; [done..|].
    intros rs' [Hrs'| ->%list_elem_of_singleton]%elem_of_app; [|done].
    destruct (Hseen rs' Hrs') as (trs & Hget & Hprops).
    exists trs. split; [|done]. rewrite Hother; [done|].
    intros Heq. rewrite Hsplit, fmap_app, fmap_cons in Hnd.
    apply NoDup_app in Hnd as (_ & Hdisj & _).
    apply (Hdisj (rsName rs')); [by apply list_elem_of_fmap_2|].
    rewrite Heq. set_solver.
  - exists st. rewrite setStatus_same by done. split_and!; [done..|].
    intros rs Hrs. by apply elem_of_nil in Hrs.
Qed.

(** *** The loop over the roles of the status *)

Lemma GetTaskRoleSpec_None spec name rs :
  GetTaskRoleSpec spec name = None -> rs ∈ spTaskRoles spec -> rsName rs <> name.
Proof.
  unfold GetTaskRoleSpec. destruct (list_find _ _) eqn:Hfind; [done|].
  intros _ Hin Hname. eapply list_find_None in Hfind.
  rewrite Forall_forall in Hfind. by apply (Hfind rs).
Qed.

Lemma run_syncTaskRoleStatusScale c spec p i s st trs :
  fStatus (stF s) = Some st ->
  Int32Sized st ->
  TaskRoleStatuses st !! i = Some trs ->
  exists p' st',
    syncTaskRoleStatusScale c spec p i s = Some (p', setStatus s st')
    /\ Int32Sized st'
    /\ (forall name, GetTaskRoleSpec spec name <> None ->
          GetTaskRoleStatus st' name = GetTaskRoleStatus st name)
    /\ exists trs',
         TaskRoleStatuses st' = <[i := trs']> (TaskRoleStatuses st)
         /\ trName trs' = trName trs
         /\ (GetTaskRoleSpec spec (trName trs) = None ->
             forall ts, ts ∈ trTaskStatuses trs' -> tsDeletionPending ts = true).
Proof.
  intros Hst Hsz Hi. unfold syncTaskRoleStatusScale. cbv zeta.
  rewrite (bind_run _ _ _ _ _ (run_status _ _ Hst)).
  rewrite Hi. cbn [deref]. rewrite bind_ret.
  pose proof (Hsz trs (list_elem_of_lookup_2 _ _ _ Hi)) as Hlen.
  destruct (GetTaskRoleSpec spec (trName trs)) as [rs|] eqn:Hspec.
  - exists p, st. rewrite setStatus_same by done. split_and!; [done..|].
    exists trs. split_and!; [by rewrite list_insert_id|done..].
  - rewrite int32_small by lia.
    destruct (scaleDownTasks_run (Z.of_nat (length (trTaskStatuses trs))) 0
                (trTaskStatuses trs) p) as (tasks' & p' & -> & Hlen' & Hprop); [lia|done|].
    cbn [deref]. rewrite bind_ret. simpl.
    erewrite bind_run; [|by apply run_modifyStatus].
    eexists _, _. split; [done|]. split_and!.
    + apply Int32Sized_alter; [done|lia].
    + intros name Hname. unfold GetTaskRoleStatus. rewrite TaskRoleStatuses_with.
      apply findTaskRoleStatus_alter_other with trs; [done..|].
      intros <-. done.
    + exists (trWithTaskStatuses tasks' trs). rewrite TaskRoleStatuses_with.
      split_and!; [|done|].
      * apply list_eq. intros k. destruct (decide (k = i)) as [->|Hne].
        -- rewrite list_lookup_alter_eq, Hi. simpl.
           by rewrite list_lookup_insert_eq by by eapply lookup_lt_Some.
        -- by rewrite list_lookup_alter_ne, list_lookup_insert_ne by done.
      * intros _ ts (j & Hj)%list_elem_of_lookup_1. simpl in Hj.
        destruct (Hprop j ts Hj) as (_ & _ & _ & Hmark). apply Hmark. lia.
Qed.

Lemma GetTaskRoleSpec_elem_of spec rs :
  rs ∈ spTaskRoles spec -> GetTaskRoleSpec spec (rsName rs) <> None.
Proof. intros Hrs Hnone. by apply (GetTaskRoleSpec_None _ _ rs Hnone). Qed.

Lemma run_statusScale_loop c spec s st p :
  fStatus (stF s) = Some st ->
  Int32Sized st ->
  (forall rs, rs ∈ spTaskRoles spec -> RoleSynced st rs) ->
  exists p' st',
    foldM (syncTaskRoleStatusScale c spec) (seq 0 (length (TaskRoleStatuses st))) p s
      = Some (p', setStatus s st')
    /\ Int32Sized st'
    /\ ScaleSynced spec st'.
Proof.
  intros Hst Hsz Hroles.
  set (n := length (TaskRoleStatuses st)).
  destruct (foldM_invariant (syncTaskRoleStatusScale c spec)
              (fun seen (_ : bool) s' =>
                 exists st', s' = setStatus s st' /\ Int32Sized st'
                   /\ length (TaskRoleStatuses st') = n
                   /\ (forall rs, rs ∈ spTaskRoles spec -> RoleSynced st' rs)
                   /\ forall i trs, i ∈ seen -> TaskRoleStatuses st' !! i = Some trs ->
                        GetTaskRoleSpec spec (trName trs) = None ->
                        forall ts, ts ∈ trTaskStatuses trs -> tsDeletionPending ts = true)
              (seq 0 n))
    with (l := seq 0 n) (done := @nil nat) (acc := p) (s := s)
    as (p' & s' & Hrun & st' & -> & Hsz' & Hlen & Hsynced & Hseen); [|done| |].
  - intros seen i rest p0 s0 Hsplit (st0 & -> & Hsz0 & Hlen0 & Hroles0 & Hseen0).
    assert (Hi : i ∈ seq 0 n) by (rewrite Hsplit; set_solver).
    apply elem_of_seq in Hi.
    destruct (lookup_lt_is_Some_2 (TaskRoleStatuses st0) i) as [trs Htrs]; [lia|].
    destruct (run_syncTaskRoleStatusScale c spec p0 i (setStatus s st0) st0 trs)
      as (p' & st' & Hrun & Hsz' & Hother & trs' & Hl & Hname & Hdp); [done..|].
    exists p', (setStatus s st'). split; [done|]. exists st'. split_and!; [done..| | |].
    + by rewrite Hl, length_insert.
    + intros rs Hrs. destruct (Hroles0 rs Hrs) as (x & Hget & Hprops).
      exists x. split; [|done]. rewrite Hother; [done|]. by apply GetTaskRoleSpec_elem_of.
    + intros k x Hk Hx Hnone. rewrite Hl in Hx.
      destruct (decide (k = i)) as [->|Hne].
      * rewrite list_lookup_insert_eq in Hx by lia. injection Hx as <-.
        apply Hdp. by rewrite <- Hname.
      * rewrite list_lookup_insert_ne in Hx by done.
        apply (Hseen0 k x); [set_solver|done..].
  - exists st. rewrite setStatus_same by done. split_and!; [done..|].
    intros i trs Hi. by apply elem_of_nil in Hi.
  - exists p', st'. split_and!; [done..|]. split; [done|].
    intros trs (i & Hi)%list_elem_of_lookup_1. apply (Hseen i trs); [|done].
    apply elem_of_seq. apply lookup_lt_Some in Hi. lia.
Qed.

Lemma scaleDownTasks_highest_first count lowest tasks p :
  lowest < count ->
  scaleDownTasks count lowest tasks p =
    foldl markDeletionPendingStep
      (markDeletionPendingStep (Some (tasks, p)) (count - 1))
      (reverse (seqZ lowest (count - 1 - lowest))).
Proof.
  intros Hlt. unfold scaleDownTasks.
  replace (count - lowest) with (Z.of_nat (S (Z.to_nat (count - 1 - lowest)))) by lia.
  rewrite seqZ_S, reverse_app. simpl. rewrite Z2Nat.id by lia.
  by replace (lowest + (count - 1 - lowest)) with (count - 1) by lia.
Qed.

(** C2. syncFrameworkScale on a Framework that is not completing, not
    FrameworkAttemptCompleted and not FrameworkCompleted, whose spec is well
    formed (distinct role names, task numbers of a non-negative int32) and
    whose roles hold fewer than 2^31 tasks, returns, and leaves a status in
    sync with the scale of the spec: every role the spec names has a status
    with at least taskNumber task slots; every slot of it at taskNumber or
    beyond is deletion pending; and every task of a role of the status that
    the spec does not name is deletion pending.  Nothing but the status
    changes.  A scale-down marks the highest index first and goes on
    downward. *)
Theorem syncFrameworkScale_syncs_scale c s st :
  fStatus (stF s) = Some st ->
  IsCompletingState (fsState st) = false ->
  fsState st <> FrameworkAttemptCompleted ->
  fsState st <> FrameworkCompleted ->
  SpecWellFormed (fSpec (stF s)) ->
  Int32Sized st ->
  (exists produced st',
     syncFrameworkScale c s = Some (produced, setStatus s st')
     /\ ScaleSynced (fSpec (stF s)) st'
     /\ (forall rs, rs ∈ spTaskRoles (fSpec (stF s)) ->
           exists trs,
             GetTaskRoleStatus st' (rsName rs) = Some trs
             /\ rsTaskNumber rs ≤ Z.of_nat (length (trTaskStatuses trs))
             /\ forall j ts, trTaskStatuses trs !! j = Some ts ->
                  rsTaskNumber rs ≤ Z.of_nat j -> tsDeletionPending ts = true)
     /\ (forall trs ts, trs ∈ TaskRoleStatuses st' ->
           GetTaskRoleSpec (fSpec (stF s)) (trName trs) = None ->
           ts ∈ trTaskStatuses trs -> tsDeletionPending ts = true))
  /\ (forall count lowest tasks p,
        lowest < count ->
        scaleDownTasks count lowest tasks p =
          foldl markDeletionPendingStep
            (markDeletionPendingStep (Some (tasks, p)) (count - 1))
            (reverse (seqZ lowest (count - 1 - lowest)))).
Proof.
  intros Hst Hnc Hnac Hnfc [Hnd Hnum] Hsz.
  split; [|apply scaleDownTasks_highest_first].
  destruct (run_specScale_loop c s st (spTaskRoles (fSpec (stF s))) Hst Hsz Hnd Hnum)
    as (p1 & st1 & Hrun1 & Hsz1 & Hroles1).
  destruct (run_statusScale_loop c (fSpec (stF s)) (setStatus s st1) st1 p1)
    as (p2 & st2 & Hrun2 & Hsz2 & Hsynced); [done..|].
  exists p2, st2. split_and!; [|done|apply Hsynced|].
  - unfold syncFrameworkScale.
    rewrite (bind_run _ _ _ _ _ (run_gets _ _)).
    rewrite (bind_run _ _ _ _ _ (run_status _ _ Hst)).
    rewrite Hnc, (bool_decide_eq_false_2 _ Hnac), (bool_decide_eq_false_2 _ Hnfc). simpl.
    rewrite (bind_run _ _ _ _ _ Hrun1).
    rewrite (bind_run _ _ (setStatus s st1) (setStatus s st1) st1) by done.
    exact Hrun2.
  - intros trs ts Hin Hnone Hts. by eapply (proj2 Hsynced).
Qed.

(** ** The creation timeout of a Pod *)

Lemma run_deletePod c s st name idx ts uid confirm force :
  fStatus (stF s) = Some st ->
  GetTaskStatus st name idx = Some ts ->
  let ns := fNamespace (stF s) in
  let pn := GetPodName (fName (stF s)) name (tsIndex ts) in
  let outcome :=
    deleteOutcome uid podUID podDeletionTimestamp confirm
      (kClient_Pods_Delete c ns pn (podDeleteOptions uid force) (wCluster (stW s)))
      (kClient_Pods_Get c ns pn) in
  deletePod c name idx uid confirm force s = Some (outcome.1, afterCall s outcome.2).
Proof.
  intros Hst Hts ns pn outcome. unfold deletePod, PodName_.
  rewrite (bind_run _ _ _ _ _ (run_gets _ _)).
  rewrite (bind_run (bind (gets stF) _) _ s s pn); cycle 1.
  { rewrite (bind_run _ _ _ _ _ (run_gets _ _)).
    by rewrite (bind_run _ _ _ _ _ (run_TaskStatus _ _ _ _ _ Hst Hts)). }
  cbv zeta. fold ns. unfold outcome, deleteOutcome, podDeleteOptions.
  destruct (kClient_Pods_Delete c ns pn _ (wCluster (stW s))) as [deleted r1] eqn:Hdel.
  rewrite (bind_run _ _ _ _ _ (run_call _ _ _ _ Hdel)). simpl.
  destruct deleted as [e|].
  - by destruct (IsNotFound e).
  - destruct confirm; [|done].
    destruct (kClient_Pods_Get c ns pn r1) as [got r2] eqn:Hget.
    assert (Hget' : kClient_Pods_Get c ns pn (wCluster (stW (afterCall s r1))) = (got, r2))
      by done.
    by rewrite (bind_run _ _ _ _ _ (run_call _ _ _ _ Hget')).
Qed.

Lemma GetTaskStatus_role st name idx ts :
  GetTaskStatus st name idx = Some ts -> is_Some (GetTaskRoleStatus st name).
Proof. unfold GetTaskStatus. by destruct (GetTaskRoleStatus st name). Qed.

Lemma run_TaskRoleStatus s st name trs :
  fStatus (stF s) = Some st -> GetTaskRoleStatus st name = Some trs ->
  TaskRoleStatus_ name s = Some (trs, s).
Proof.
  intros Hst Hget. unfold TaskRoleStatus_.
  rewrite (bind_run _ _ _ _ _ (run_status _ _ Hst)). by rewrite Hget.
Qed.

Lemma syncTaskState_creation_timeout_run c s st cm name idx ts uid sec e r0 :
  fStatus (stF s) = Some st ->
  GetTaskStatus st name idx = Some ts ->
  tsState ts = TaskAttemptCreationRequested ->
  tsDeletionPending ts = false ->
  taPodUID (tsAttemptStatus ts) = Some uid ->
  ObjectLocalCacheCreationTimeoutSec (cConfig c) = Some sec ->
  let ns := fNamespace (stF s) in
  let pn := GetPodName (fName (stF s)) name (tsIndex ts) in
  podLister_Get c ns pn (wCluster (stW s)) = (inl e, r0) ->
  IsNotFound e = true ->
  tsTransitionTime ts + sec - clockNow c r0 ≤ 0 ->
  let outcome :=
    deleteOutcome uid podUID podDeletionTimestamp true
      (kClient_Pods_Delete c ns pn (podDeleteOptions uid false) r0)
      (kClient_Pods_Get c ns pn) in
  syncTaskState c cm name idx s =
    match outcome.1 with
    | Some err => Some (Some err, afterCall s outcome.2)
    | None =>
        Some (None,
              enqueued (setStatus (afterCall s outcome.2)
                (alterTaskStatus name idx
                   (completeTaskAttemptOn true (Some (PodCreationTimeoutStatus c))
                      (clockNow c outcome.2)) st)))
    end.
Proof.
  intros Hst Hts Hstate Hdp Huid Hsec ns pn Hlister Hnf Htimeout outcome.
  destruct (GetTaskStatus_role _ _ _ _ Hts) as [trs Htrs].
  unfold syncTaskState.
  rewrite (bind_run _ _ _ _ _ (run_gets _ _)). cbv zeta.
  rewrite (bind_run _ _ _ _ _ (run_TaskRoleStatus _ _ _ _ Hst Htrs)).
  rewrite (bind_run _ _ _ _ _ (run_TaskStatus _ _ _ _ _ Hst Hts)).
  rewrite Hstate.
  rewrite (bool_decide_eq_false_2 (TaskAttemptCreationRequested = TaskCompleted)) by done.
  rewrite (bool_decide_eq_false_2 (TaskAttemptCreationRequested = TaskAttemptCompleted)) by done.
  red_if.
  rewrite (bind_run (getOrCleanupPod c cm name idx false) _ s (afterCall s r0) (None, None));
    cycle 1.
  { unfold getOrCleanupPod.
    rewrite (bind_run _ _ _ _ _ (run_gets _ _)).
    rewrite (bind_run _ _ _ _ _ (run_TaskStatus _ _ _ _ _ Hst Hts)). cbv zeta.
    fold ns pn. rewrite (bind_run _ _ _ _ _ (run_call _ _ _ _ Hlister)).
    by rewrite Hnf. }
  cbv iota beta.
  assert (Hst0 : fStatus (stF (afterCall s r0)) = Some st) by done.
  unfold syncTaskStatePodAbsent.
  rewrite (bind_run _ _ _ _ _ (run_TaskStatus _ _ _ _ _ Hst0 Hts)).
  rewrite Hstate, (bool_decide_eq_true_2 _ (eq_refl TaskAttemptCreationRequested)), Hdp.
  rewrite (bind_run (bind (enqueueTaskAttemptCreationTimeoutCheck c name idx true) _) _
             (afterCall s r0) (afterCall s r0)
             (Some ("Pod does not appear in the local cache within timeout " +:+
                    SecToDuration (ObjectLocalCacheCreationTimeoutSec (cConfig c)) +:+
                    ", so consider it was deleted and explicitly delete it",
                    CompletionCodePodCreationTimeout))); cycle 1.
  { assert (Hw : enqueueTaskAttemptCreationTimeoutCheck c name idx true (afterCall s r0)
                 = Some (false, afterCall s r0)).
    { unfold enqueueTaskAttemptCreationTimeoutCheck.
      rewrite (bind_run _ _ _ _ _ (run_TaskStatus _ _ _ _ _ Hst0 Hts)).
      rewrite Hstate, (bool_decide_eq_true_2 _ (eq_refl TaskAttemptCreationRequested)).
      red_if. rewrite Hsec.
      exact (run_enqueueFrameworkTimeoutCheck_timeout c (afterCall s r0) _ _ Htimeout). }
    by rewrite (bind_run _ _ _ _ _ Hw). }
  cbv iota beta. rewrite Huid. cbn [deref]. rewrite bind_ret.
  rewrite (bind_run _ _ _ _ _
             (run_deletePod c (afterCall s r0) st name idx ts uid true false Hst0 Hts)).
  change (fNamespace (stF (afterCall s r0))) with ns.
  change (GetPodName (fName (stF (afterCall s r0))) name (tsIndex ts)) with pn.
  change (wCluster (stW (afterCall s r0))) with r0. fold outcome.
  destruct outcome as [[err|] r1]; [done|].
  assert (Hst1 : fStatus (stF (afterCall (afterCall s r0) r1)) = Some st) by done.
  cbn [fst snd].
  rewrite (bind_run _ _ _ _ _
             (completeTaskAttempt_run c _ st name idx true _ ts Hst1 Hts)).
  done.
Qed.

(** C4 (amended). A task in TaskAttemptCreationRequested that is not
    deletion pending, whose Pod the local cache does not hold once the
    timeout objectLocalCacheCreationTimeoutSec has expired: the controller
    asks the remote to delete the Pod, with the PodUID as precondition,
    not forced (the request carries no grace period of zero), and confirms
    the deletion.  When the request fails with an error other than not
    found, or the confirming Get fails with an error other than not found
    or still finds the Pod, the sync returns that error and leaves the
    Framework as it is: the attempt is not completed.  Otherwise the sync
    returns without error and has completed the task attempt, forced: the
    task is in TaskAttemptCompleted, its CompletionStatus is the one of
    code PodCreationTimeout unless one was recorded before, and a sync of
    the Framework is enqueued. *)
Theorem creation_timeout_deletes_pod_then_completes
    c s st cm name idx ts uid sec e r0 :
  fStatus (stF s) = Some st ->
  GetTaskStatus st name idx = Some ts ->
  tsState ts = TaskAttemptCreationRequested ->
  tsDeletionPending ts = false ->
  taPodUID (tsAttemptStatus ts) = Some uid ->
  ObjectLocalCacheCreationTimeoutSec (cConfig c) = Some sec ->
  let ns := fNamespace (stF s) in
  let pn := GetPodName (fName (stF s)) name (tsIndex ts) in
  podLister_Get c ns pn (wCluster (stW s)) = (inl e, r0) ->
  IsNotFound e = true ->
  tsTransitionTime ts + sec - clockNow c r0 ≤ 0 ->
  let outcome :=
    deleteOutcome uid podUID podDeletionTimestamp true
      (kClient_Pods_Delete c ns pn (podDeleteOptions uid false) r0)
      (kClient_Pods_Get c ns pn) in
  doGracePeriodSeconds (podDeleteOptions uid false) = None
  /\ deletePod c name idx uid true false (afterCall s r0)
     = Some (outcome.1, afterCall s outcome.2)
  /\ (forall err,
        outcome.1 = Some err ->
        syncTaskState c cm name idx s = Some (Some err, afterCall s outcome.2)
        /\ stF (afterCall s outcome.2) = stF s)
  /\ (outcome.1 = None ->
      exists s' st' ts',
        syncTaskState c cm name idx s = Some (None, s')
        /\ fStatus (stF s') = Some st'
        /\ GetTaskStatus st' name idx = Some ts'
        /\ ts' = completeTaskAttemptOn true (Some (PodCreationTimeoutStatus c))
                   (clockNow c outcome.2) ts
        /\ tsState ts' = TaskAttemptCompleted
        /\ tsCompletionStatus ts' =
             match tsCompletionStatus ts with
             | Some old => Some old
             | None => Some (PodCreationTimeoutStatus c)
             end
        /\ csCode (tacsCompletionStatus (PodCreationTimeoutStatus c))
           = CompletionCodePodCreationTimeout
        /\ stW s' = {| wCluster := outcome.2;
                       wQueue := QueueAdd (Key (stF s)) :: wQueue (stW s) |}).
Proof.
  intros Hst Hts Hstate Hdp Huid Hsec ns pn Hlister Hnf Htimeout outcome.
  pose proof (syncTaskState_creation_timeout_run c s st cm name idx ts uid sec e r0
                Hst Hts Hstate Hdp Huid Hsec Hlister Hnf Htimeout) as Hrun.
  cbv zeta in Hrun. fold ns pn outcome in Hrun.
  split_and!.
  - done.
  - exact (run_deletePod c (afterCall s r0) st name idx ts uid true false Hst Hts).
  - intros err Herr. rewrite Herr in Hrun. by split.
  - intros Hnone. rewrite Hnone in Hrun.
    eexists _, _, _. split; [exact Hrun|]. split; [done|].
    split; [by apply GetTaskStatus_alterTaskStatus_eq|]. split; [done|].
    split; [done|]. split; [apply tsCompletionStatus_completeTaskAttemptOn|]. done.
Qed.

(** ** Access to the ConfigMap and the Pods *)

Ltac step H := rewrite (bind_run _ _ _ _ _ H).

Lemma run_deleteConfigMap c s uid confirm :
  let ns := fNamespace (stF s) in
  let outcome :=
    deleteOutcome uid cmUID cmDeletionTimestamp confirm
      (kClient_ConfigMaps_Delete c ns (ConfigMapName (stF s))
         {| doPreconditionUID := uid; doGracePeriodSeconds := None; doForeground := false |}
         (wCluster (stW s)))
      (kClient_ConfigMaps_Get c ns (ConfigMapName (stF s))) in
  deleteConfigMap c uid confirm s = Some (outcome.1, afterCall s outcome.2).
Proof.
  intros ns outcome. unfold deleteConfigMap. step (run_gets (@stF R) s). cbv zeta.
  fold ns. unfold outcome, deleteOutcome.
  destruct (kClient_ConfigMaps_Delete c ns _ _ (wCluster (stW s))) as [deleted r1] eqn:Hdel.
  step (run_call _ _ _ _ Hdel). simpl.
  destruct deleted as [e|].
  - by destruct (IsNotFound e).
  - destruct confirm; [|done].
    destruct (kClient_ConfigMaps_Get c ns (ConfigMapName (stF s)) r1) as [got r2] eqn:Hget.
    assert (Hget' : kClient_ConfigMaps_Get c ns (ConfigMapName (stF s))
                      (wCluster (stW (afterCall s r1))) = (got, r2)) by done.
    by step (run_call _ _ _ _ Hget').
Qed.

Lemma run_deleteFramework c s confirm :
  let f := stF s in
  let outcome :=
    deleteOutcome (fUID f) fUID fDeletionTimestamp confirm
      (fClient_Frameworks_Delete c (fNamespace f) (fName f)
         {| doPreconditionUID := fUID f; doGracePeriodSeconds := None; doForeground := true |}
         (wCluster (stW s)))
      (fClient_Frameworks_Get c (fNamespace f) (fName f)) in
  deleteFramework c confirm s = Some (outcome.1, afterCall s outcome.2).
Proof.
  intros f outcome. unfold deleteFramework. step (run_gets (@stF R) s).
  fold f. unfold outcome, deleteOutcome.
  destruct (fClient_Frameworks_Delete c _ _ _ (wCluster (stW s))) as [deleted r1] eqn:Hdel.
  step (run_call _ _ _ _ Hdel). simpl.
  destruct deleted as [e|].
  - by destruct (IsNotFound e).
  - destruct confirm; [|done].
    destruct (fClient_Frameworks_Get c (fNamespace f) (fName f) r1) as [got r2] eqn:Hget.
    assert (Hget' : fClient_Frameworks_Get c (fNamespace f) (fName f)
                      (wCluster (stW (afterCall s r1))) = (got, r2)) by done.
    by step (run_call _ _ _ _ Hget').
Qed.

Lemma afterCall_afterCall (s : St R) r1 r2 : afterCall (afterCall s r1) r2 = afterCall s r2.
Proof. done. Qed.

Lemma run_getOrCleanupConfigMap c (confirm : bool) s st answer r1 :
  fStatus (stF s) = Some st ->
  (if confirm then kClient_ConfigMaps_Get c else cmLister_Get c)
    (fNamespace (stF s)) (ConfigMapName (stF s)) (wCluster (stW s)) = (answer, r1) ->
  getOrCleanupConfigMap c confirm s =
    match answer with
    | inl e =>
        Some ((None, if IsNotFound e then None else Some (Err (ErrGet e))), afterCall s r1)
    | inr cm =>
        if managed (faConfigMapUID (fsAttemptStatus st)) (cmUID cm)
        then Some ((Some cm, None), afterCall s r1)
        else if IsControlledBy (cmControllerUID cm) (fUID (stF s))
        then
          let outcome :=
            deleteOutcome (cmUID cm) cmUID cmDeletionTimestamp confirm
              (kClient_ConfigMaps_Delete c (fNamespace (stF s)) (ConfigMapName (stF s))
                 {| doPreconditionUID := cmUID cm; doGracePeriodSeconds := None;
                    doForeground := false |} r1)
              (kClient_ConfigMaps_Get c (fNamespace (stF s)) (ConfigMapName (stF s))) in
          Some ((None, outcome.1), afterCall s outcome.2)
        else Some ((None, None), afterCall s r1)
    end.
Proof.
  intros Hst Hget. unfold getOrCleanupConfigMap.
  step (run_gets (@stF R) s). step (run_status _ _ Hst). cbv zeta.
  assert (Hcall : (if confirm
                   then liftW (call (kClient_ConfigMaps_Get c (fNamespace (stF s))
                                       (ConfigMapName (stF s))))
                   else liftW (call (cmLister_Get c (fNamespace (stF s))
                                       (ConfigMapName (stF s))))) s
                  = Some (answer, afterCall s r1)).
  { destruct confirm; by apply run_call. }
  step Hcall. destruct answer as [e|cm].
  { by destruct (IsNotFound e). }
  unfold managed.
  destruct (faConfigMapUID (fsAttemptStatus st)) as [uid|]; simpl.
  - destruct (bool_decide (uid = cmUID cm)); simpl; [done|].
    destruct (IsControlledBy _ _); [|done].
    by step (run_deleteConfigMap c (afterCall s r1) (cmUID cm) confirm).
  - destruct (IsControlledBy _ _); [|done].
    by step (run_deleteConfigMap c (afterCall s r1) (cmUID cm) confirm).
Qed.

Lemma managed_true recorded uid : managed recorded uid = true <-> recorded = Some uid.
Proof.
  unfold managed. destruct recorded as [u|]; [|done].
  rewrite bool_decide_eq_true. split; congruence.
Qed.

Lemma managed_false recorded uid : managed recorded uid = false <-> recorded <> Some uid.
Proof.
  rewrite <- managed_true. destruct (managed recorded uid); split; congruence.
Qed.

(** X1. getOrCleanupConfigMap, confirmed or not, on a Framework with a
    status: it returns, and changes neither the Framework nor the queue.
    A ConfigMap it returns is the one the Get answered, its UID is the
    ConfigMapUID the status records, and no error comes with it.  When the
    Get finds nothing, fails, finds the managed ConfigMap or finds one the
    Framework does not control, the cluster receives nothing but the Get.
    An unmanaged ConfigMap that the Framework controls is deleted with its
    own UID as precondition, and the error of the deletion, if any, is
    returned without a ConfigMap. *)
Theorem getOrCleanupConfigMap_returns_managed_only c (confirm : bool) s st :
  fStatus (stF s) = Some st ->
  let f := stF s in
  let answer :=
    (if confirm then kClient_ConfigMaps_Get c else cmLister_Get c)
      (fNamespace f) (ConfigMapName f) (wCluster (stW s)) in
  exists res s',
    getOrCleanupConfigMap c confirm s = Some (res, s')
    /\ stF s' = stF s /\ wQueue (stW s') = wQueue (stW s)
    /\ (forall cm, res.1 = Some cm ->
          answer.1 = inr cm
          /\ faConfigMapUID (fsAttemptStatus st) = Some (cmUID cm)
          /\ res.2 = None)
    /\ ((forall cm, answer.1 = inr cm ->
           faConfigMapUID (fsAttemptStatus st) = Some (cmUID cm)
           \/ IsControlledBy (cmControllerUID cm) (fUID f) = false) ->
        s' = afterCall s answer.2)
    /\ (forall cm, answer.1 = inr cm ->
          faConfigMapUID (fsAttemptStatus st) <> Some (cmUID cm) ->
          IsControlledBy (cmControllerUID cm) (fUID f) = true ->
          let outcome :=
            deleteOutcome (cmUID cm) cmUID cmDeletionTimestamp confirm
              (kClient_ConfigMaps_Delete c (fNamespace f) (ConfigMapName f)
                 {| doPreconditionUID := cmUID cm; doGracePeriodSeconds := None;
                    doForeground := false |} answer.2)
              (kClient_ConfigMaps_Get c (fNamespace f) (ConfigMapName f)) in
          res = (None, outcome.1) /\ s' = afterCall s outcome.2).
Proof.
  intros Hst f answer.
  destruct answer as [got r1] eqn:Hanswer.
  pose proof (run_getOrCleanupConfigMap c confirm s st got r1 Hst Hanswer) as Hrun.
  fold f in Hrun. cbn [fst snd].
  destruct got as [e|cm].
  { eexists _, _. split; [exact Hrun|]. by split_and!. }
  destruct (managed (faConfigMapUID (fsAttemptStatus st)) (cmUID cm)) eqn:Hm.
  { apply managed_true in Hm. eexists _, _. split; [exact Hrun|].
    split_and!; try done.
    - intros cm' [= <-]. done.
    - intros cm' [= <-] Hne. done. }
  apply managed_false in Hm.
  destruct (IsControlledBy (cmControllerUID cm) (fUID f)) eqn:Hctl.
  - eexists _, _. split; [exact Hrun|]. split_and!; try done.
    + intros Hsafe. destruct (Hsafe cm eq_refl) as [?|?]; congruence.
    + intros cm' [= <-] _ _. done.
  - eexists _, _. split; [exact Hrun|]. split_and!; try done.
    intros cm' [= <-] _ Hctl'. congruence.
Qed.

Lemma run_enqueueFrameworkTimeoutCheck c s startTime sec (failIfTimeout : bool) :
  let left := CurrentLeftDuration startTime sec (clockNow c (wCluster (stW s))) in
  enqueueFrameworkTimeoutCheck c startTime (Some sec) failIfTimeout s =
    if IsTimeout left && failIfTimeout then Some (false, s)
    else Some (true, enqueuedAfter s left).
Proof.
  intros left. unfold enqueueFrameworkTimeoutCheck, now.
  step (run_gets (@stF R) s). step (run_gets (fun s => clockNow c (wCluster (stW s))) s).
  unfold deref at 1. cbv iota. rewrite bind_ret. fold left.
  by destruct (IsTimeout left && failIfTimeout).
Qed.

Lemma run_handlePodGracefulDeletion c s st name idx ts trs pod :
  fStatus (stF s) = Some st ->
  GetTaskRoleStatus st name = Some trs ->
  GetTaskStatus st name idx = Some ts ->
  handlePodGracefulDeletion c name idx pod s =
    match podDeletionTimestamp pod, trPodGracefulDeletionTimeoutSec trs with
    | Some _, Some sec =>
        match GetPodDeletionStartTime pod with
        | None => None
        | Some started =>
            let left := CurrentLeftDuration started sec (clockNow c (wCluster (stW s))) in
            if IsTimeout left then
              let outcome :=
                deleteOutcome (podUID pod) podUID podDeletionTimestamp true
                  (kClient_Pods_Delete c (fNamespace (stF s))
                     (GetPodName (fName (stF s)) name (tsIndex ts))
                     (podDeleteOptions (podUID pod) true) (wCluster (stW s)))
                  (kClient_Pods_Get c (fNamespace (stF s))
                     (GetPodName (fName (stF s)) name (tsIndex ts))) in
              Some (outcome.1, afterCall s outcome.2)
            else Some (None, enqueuedAfter s left)
        end
    | _, _ => Some (None, s)
    end.
Proof.
  intros Hst Htrs Hts. unfold handlePodGracefulDeletion.
  step (run_TaskRoleStatus _ _ _ _ Hst Htrs). cbv zeta.
  destruct (podDeletionTimestamp pod) as [dt|] eqn:Hdt; [|done].
  destruct (trPodGracefulDeletionTimeoutSec trs) as [sec|] eqn:Hsec; [|done].
  unfold enqueuePodGracefulDeletionTimeoutCheck. rewrite Hdt.
  destruct (GetPodDeletionStartTime pod) as [started|]; [|done].
  pose proof (run_enqueueFrameworkTimeoutCheck c s started sec true) as Hw.
  cbv zeta in Hw. rewrite andb_true_r in Hw.
  change (enqueueFrameworkTimeoutCheck c started (Some sec) true s)
    with ((startTime <- deref (Some started) ;;
           enqueueFrameworkTimeoutCheck c startTime (Some sec) true) s) in Hw.
  cbv zeta.
  destruct (IsTimeout _); step Hw; [|done].
  exact (run_deletePod c s st name idx ts (podUID pod) true true Hst Hts).
Qed.

(** X2. handlePodGracefulDeletion on a Pod of an existing task.  When the
    Pod is not being deleted, or the role has no graceful deletion timeout,
    it returns without error and does nothing.  With a timeout that has
    not expired since the deletion of the Pod started, it sends nothing to
    the cluster and enqueues a check of the Framework for the instant of
    the expiry.  Only when the timeout has expired does it delete the Pod
    by force: the request has the UID of the Pod as precondition and a
    grace period of zero, the deletion is confirmed, and its error is the
    one returned. *)
Theorem pod_force_deleted_only_after_graceful_timeout c s st name idx ts trs pod :
  fStatus (stF s) = Some st ->
  GetTaskRoleStatus st name = Some trs ->
  GetTaskStatus st name idx = Some ts ->
  (podDeletionTimestamp pod = None \/ trPodGracefulDeletionTimeoutSec trs = None ->
   handlePodGracefulDeletion c name idx pod s = Some (None, s))
  /\ (forall sec started,
        is_Some (podDeletionTimestamp pod) ->
        trPodGracefulDeletionTimeoutSec trs = Some sec ->
        GetPodDeletionStartTime pod = Some started ->
        let left := started + sec - clockNow c (wCluster (stW s)) in
        (0 < left ->
         handlePodGracefulDeletion c name idx pod s = Some (None, enqueuedAfter s left))
        /\ (left ≤ 0 ->
            let outcome :=
              deleteOutcome (podUID pod) podUID podDeletionTimestamp true
                (kClient_Pods_Delete c (fNamespace (stF s))
                   (GetPodName (fName (stF s)) name (tsIndex ts))
                   {| doPreconditionUID := podUID pod; doGracePeriodSeconds := Some 0;
                      doForeground := false |} (wCluster (stW s)))
                (kClient_Pods_Get c (fNamespace (stF s))
                   (GetPodName (fName (stF s)) name (tsIndex ts))) in
            handlePodGracefulDeletion c name idx pod s
              = Some (outcome.1, afterCall s outcome.2))).
Proof.
  intros Hst Htrs Hts.
  pose proof (run_handlePodGracefulDeletion c s st name idx ts trs pod Hst Htrs Hts) as Hrun.
  split.
  - intros [Hdt|Hsec]; rewrite Hrun.
    + by rewrite Hdt.
    + rewrite Hsec. by destruct (podDeletionTimestamp pod).
  - intros sec started [dt Hdt] Hsec Hstarted left.
    rewrite Hdt, Hsec, Hstarted in Hrun. cbv zeta in Hrun.
    unfold IsTimeout, CurrentLeftDuration in Hrun. fold left in Hrun.
    split; intros Hleft.
    + by rewrite bool_decide_eq_false_2 in Hrun by lia.
    + by rewrite bool_decide_eq_true_2 in Hrun by lia.
Qed.

Lemma run_getOrCleanupPod_get c cm name idx (confirm : bool) s st ts answer r1 :
  fStatus (stF s) = Some st ->
  GetTaskStatus st name idx = Some ts ->
  (if confirm then kClient_Pods_Get c else podLister_Get c)
    (fNamespace (stF s)) (GetPodName (fName (stF s)) name (tsIndex ts))
    (wCluster (stW s)) = (answer, r1) ->
  getOrCleanupPod c cm name idx confirm s =
    match answer with
    | inl e =>
        Some ((None, if IsNotFound e then None else Some (Err (ErrGet e))), afterCall s r1)
    | inr pod =>
        if managed (taPodUID (tsAttemptStatus ts)) (podUID pod)
        then Some ((Some pod, None), afterCall s r1)
        else
          (controlled <- isControlledBy (podControllerUID pod) (cmUID <$> cm) ;;
           if controlled then
             graceErr <- match podDeletionTimestamp pod with
                         | Some _ => handlePodGracefulDeletion c name idx pod
                         | None => ret None
                         end ;;
             match graceErr with
             | Some e => ret (None, Some e)
             | None =>
                 err <- deletePod c name idx (podUID pod) confirm false ;;
                 ret (None, err)
             end
           else ret (None, None)) (afterCall s r1)
    end.
Proof.
  intros Hst Hts Hget. unfold getOrCleanupPod.
  step (run_gets (@stF R) s). step (run_TaskStatus _ _ _ _ _ Hst Hts). cbv zeta.
  assert (Hcall : (if confirm
                   then liftW (call (kClient_Pods_Get c (fNamespace (stF s))
                                       (GetPodName (fName (stF s)) name (tsIndex ts))))
                   else liftW (call (podLister_Get c (fNamespace (stF s))
                                       (GetPodName (fName (stF s)) name (tsIndex ts))))) s
                  = Some (answer, afterCall s r1)).
  { destruct confirm; by apply run_call. }
  step Hcall. destruct answer as [e|pod].
  { by destruct (IsNotFound e). }
  unfold managed.
  destruct (taPodUID (tsAttemptStatus ts)) as [uid|]; simpl; [|done].
  by destruct (bool_decide (uid = podUID pod)).
Qed.

Lemma run_isControlledBy controllerUID owner s :
  isControlledBy controllerUID (Some owner) s
    = Some (IsControlledBy controllerUID owner, s).
Proof. unfold isControlledBy, IsControlledBy. by destruct controllerUID. Qed.

(** X3. getOrCleanupPod, confirmed or not, on an existing task of a
    Framework attempt whose ConfigMap is [owner].  A Pod it returns is the
    one the Get answered, its UID is the PodUID the task records, no error
    comes with it, and the cluster received nothing but the Get.  When the
    Get finds nothing, fails, finds the managed Pod or finds a Pod the
    ConfigMap does not control, it returns and the cluster received
    nothing but the Get: a Pod of others is never deleted.  An unmanaged
    Pod that the ConfigMap controls and that is not being deleted yet is
    deleted, not forced, with its own UID as precondition. *)
Theorem getOrCleanupPod_returns_managed_only c owner name idx (confirm : bool) s st ts :
  fStatus (stF s) = Some st ->
  GetTaskStatus st name idx = Some ts ->
  let ns := fNamespace (stF s) in
  let pn := GetPodName (fName (stF s)) name (tsIndex ts) in
  let answer :=
    (if confirm then kClient_Pods_Get c else podLister_Get c) ns pn (wCluster (stW s)) in
  (forall res s' pod,
     getOrCleanupPod c (Some owner) name idx confirm s = Some (res, s') ->
     res.1 = Some pod ->
     answer.1 = inr pod
     /\ taPodUID (tsAttemptStatus ts) = Some (podUID pod)
     /\ res.2 = None
     /\ s' = afterCall s answer.2)
  /\ ((forall pod, answer.1 = inr pod ->
         taPodUID (tsAttemptStatus ts) = Some (podUID pod)
         \/ IsControlledBy (podControllerUID pod) (cmUID owner) = false) ->
      exists res,
        getOrCleanupPod c (Some owner) name idx confirm s = Some (res, afterCall s answer.2)
        /\ (res.2 = None \/ exists e, answer.1 = inl e /\ res = (None, Some (Err (ErrGet e)))))
  /\ (forall pod,
        answer.1 = inr pod ->
        taPodUID (tsAttemptStatus ts) <> Some (podUID pod) ->
        IsControlledBy (podControllerUID pod) (cmUID owner) = true ->
        podDeletionTimestamp pod = None ->
        let outcome :=
          deleteOutcome (podUID pod) podUID podDeletionTimestamp confirm
            (kClient_Pods_Delete c ns pn
               {| doPreconditionUID := podUID pod; doGracePeriodSeconds := None;
                  doForeground := false |} answer.2)
            (kClient_Pods_Get c ns pn) in
        getOrCleanupPod c (Some owner) name idx confirm s
          = Some ((None, outcome.1), afterCall s outcome.2)).
Proof.
  intros Hst Hts ns pn answer.
  destruct answer as [got r1] eqn:Hanswer.
  pose proof (run_getOrCleanupPod_get c (Some owner) name idx confirm s st ts got r1
                Hst Hts Hanswer) as Hrun.
  cbn [fst snd]. split_and!.
  - intros res s' pod Hres Hpod. rewrite Hrun in Hres.
    destruct got as [e|pod'].
    { injection Hres as <- <-. done. }
    destruct (managed (taPodUID (tsAttemptStatus ts)) (podUID pod')) eqn:Hm.
    { apply managed_true in Hm. injection Hres as <- <-. injection Hpod as <-. done. }
    exfalso. simpl in Hres. rewrite (bind_run _ _ _ _ _ (run_isControlledBy _ _ _)) in Hres.
    destruct (IsControlledBy _ _).
    + unfold bind in Hres.
      destruct (match podDeletionTimestamp pod' with
                | Some _ => handlePodGracefulDeletion c name idx pod'
                | None => ret None
                end (afterCall s r1)) as [[[e|] s1]|]; [by injection Hres as <- | |done].
      destruct (deletePod c name idx (podUID pod') confirm false s1) as [[err s2]|]; [|done].
      by injection Hres as <-.
    + by injection Hres as <-.
  - intros Hsafe. rewrite Hrun. destruct got as [e|pod].
    { eexists. split; [done|]. destruct (IsNotFound e); [by left|right; by exists e]. }
    destruct (managed (taPodUID (tsAttemptStatus ts)) (podUID pod)) eqn:Hm.
    { eexists. split; [done|by left]. }
    apply managed_false in Hm. destruct (Hsafe pod eq_refl) as [?|Hctl]; [done|].
    simpl. rewrite (bind_run _ _ _ _ _ (run_isControlledBy _ _ _)), Hctl.
    eexists. split; [done|by left].
  - intros pod [= ->] Hm%managed_false Hctl Hdt.
    rewrite Hrun, Hm. simpl.
    rewrite (bind_run _ _ _ _ _ (run_isControlledBy _ _ _)), Hctl, Hdt, bind_ret.
    assert (Hst1 : fStatus (stF (afterCall s r1)) = Some st) by done.
    by step (run_deletePod c (afterCall s r1) st name idx ts (podUID pod) confirm false Hst1 Hts).
Qed.

(** ** The sync of a task against its Pod *)

(** The first steps of [syncTaskState] on a task that is not in [dst]. *)
Ltac task_head Hst Htrs Hts :=
  unfold syncTaskState;
  rewrite (bind_run _ _ _ _ _ (run_gets _ _)); cbv zeta;
  rewrite (bind_run _ _ _ _ _ (run_TaskRoleStatus _ _ _ _ Hst Htrs));
  rewrite (bind_run _ _ _ _ _ (run_TaskStatus _ _ _ _ _ Hst Hts)).

Lemma run_getOrCleanupPod_not_found c cm name idx (confirm : bool) s st ts e r1 :
  fStatus (stF s) = Some st ->
  GetTaskStatus st name idx = Some ts ->
  (if confirm then kClient_Pods_Get c else podLister_Get c)
    (fNamespace (stF s)) (GetPodName (fName (stF s)) name (tsIndex ts))
    (wCluster (stW s)) = (inl e, r1) ->
  IsNotFound e = true ->
  getOrCleanupPod c cm name idx confirm s = Some ((None, None), afterCall s r1).
Proof.
  intros Hst Hts Hget Hnf.
  rewrite (run_getOrCleanupPod_get c cm name idx confirm s st ts _ _ Hst Hts Hget).
  by rewrite Hnf.
Qed.

Lemma run_getOrCleanupPod_managed c cm name idx (confirm : bool) s st ts pod r1 :
  fStatus (stF s) = Some st ->
  GetTaskStatus st name idx = Some ts ->
  (if confirm then kClient_Pods_Get c else podLister_Get c)
    (fNamespace (stF s)) (GetPodName (fName (stF s)) name (tsIndex ts))
    (wCluster (stW s)) = (inr pod, r1) ->
  taPodUID (tsAttemptStatus ts) = Some (podUID pod) ->
  getOrCleanupPod c cm name idx confirm s = Some ((Some pod, None), afterCall s r1).
Proof.
  intros Hst Hts Hget Huid.
  rewrite (run_getOrCleanupPod_get c cm name idx confirm s st ts _ _ Hst Hts Hget).
  unfold managed. by rewrite Huid, bool_decide_eq_true_2.
Qed.

(** X4. A task that has been seen with its Pod (it is in one of Preparing,
    Running, DeletionPending, DeletionRequested, Deleting) and whose Pod
    the local cache does not hold any more: the sync returns without
    error, the only call to the cluster is the Get of the Pod, and the
    task attempt is completed, forced: the task is in
    TaskAttemptCompleted, its CompletionStatus is the one recorded before
    if there is one and otherwise the one of code PodExternalDeleted, the
    other tasks are as before, and a sync of the Framework is enqueued. *)
Theorem pod_deleted_by_others_completes_task c s st cm name idx ts e r0 :
  fStatus (stF s) = Some st ->
  GetTaskStatus st name idx = Some ts ->
  tsState ts = TaskAttemptPreparing \/ tsState ts = TaskAttemptRunning
    \/ tsState ts = TaskAttemptDeletionPending
    \/ tsState ts = TaskAttemptDeletionRequested \/ tsState ts = TaskAttemptDeleting ->
  podLister_Get c (fNamespace (stF s)) (GetPodName (fName (stF s)) name (tsIndex ts))
    (wCluster (stW s)) = (inl e, r0) ->
  IsNotFound e = true ->
  let deleted := NewTaskAttemptCompletionStatus CompletionCodePodExternalDeleted
                   "Pod was deleted by others" None in
  exists ts',
    syncTaskState c cm name idx s
      = Some (None, enqueued (setStatus (afterCall s r0)
                                (alterTaskStatus name idx (fun _ => ts') st)))
    /\ GetTaskStatus (alterTaskStatus name idx (fun _ => ts') st) name idx = Some ts'
    /\ tsState ts' = TaskAttemptCompleted
    /\ tsTransitionTime ts' = clockNow c r0
    /\ tsCompletionStatus ts' =
         match tsCompletionStatus ts with
         | Some old => Some old
         | None => Some deleted
         end
    /\ csCode (tacsCompletionStatus deleted) = CompletionCodePodExternalDeleted
    /\ tsIndex ts' = tsIndex ts
    /\ tsRetryPolicyStatus ts' = tsRetryPolicyStatus ts
    /\ tsDeletionPending ts' = tsDeletionPending ts.
Proof.
  intros Hst Hts Hstate Hget Hnf deleted.
  destruct (GetTaskStatus_role _ _ _ _ Hts) as [trs Htrs].
  assert (Hst0 : fStatus (stF (afterCall s r0)) = Some st) by done.
  set (cs := match tsCompletionStatus ts with None => Some deleted | Some _ => None end).
  exists (completeTaskAttemptOn true cs (clockNow c r0) ts).
  split_and!.
  - task_head Hst Htrs Hts.
    assert (Hs : bool_decide (tsState ts = TaskCompleted) = false
                 /\ bool_decide (tsState ts = TaskAttemptCompleted) = false
                 /\ bool_decide (tsState ts = TaskAttemptCreationRequested) = false
                 /\ bool_decide (tsState ts = TaskAttemptCreationPending) = false)
      by (destruct Hstate as [-> | [-> | [-> | [-> | ->]]]]; done).
    destruct Hs as (Hs1 & Hs2 & Hs3 & Hs4). rewrite Hs1, Hs2. red_if.
    step (run_getOrCleanupPod_not_found c cm name idx false s st ts e r0 Hst Hts Hget Hnf).
    cbv iota beta. unfold syncTaskStatePodAbsent.
    step (run_TaskStatus _ _ _ _ _ Hst0 Hts). rewrite Hs3, Hs4. red_if.
    assert (Halter : alterTaskStatus name idx (fun _ => completeTaskAttemptOn true cs (clockNow c r0) ts) st
                     = alterTaskStatus name idx (completeTaskAttemptOn true cs (clockNow c r0)) st).
    { destruct (GetTaskStatus_locate _ _ _ _ Hts) as (i & Hf & Hidx & Hc).
      rewrite !(roleFoundAt_alterTaskStatus _ _ _ _ _ Hf Hidx).
      by apply alterTaskPos_ext with ts. }
    rewrite Halter. unfold cs.
    destruct (tsCompletionStatus ts) as [old|] eqn:Hold.
    + by step (completeTaskAttempt_run c _ st name idx true None ts Hst0 Hts).
    + by step (completeTaskAttempt_run c _ st name idx true (Some deleted) ts Hst0 Hts).
  - by rewrite (GetTaskStatus_alterTaskStatus_eq _ _ _ _ _ Hts).
  - done.
  - done.
  - rewrite tsCompletionStatus_completeTaskAttemptOn. unfold cs.
    by destruct (tsCompletionStatus ts).
  - done.
  - apply tsIndex_completeTaskAttemptOn.
  - unfold completeTaskAttemptOn. by destruct (tsCompletionStatus ts).
  - unfold completeTaskAttemptOn. by destruct (tsCompletionStatus ts).
Qed.

(** *** Runs on a state whose task has been replaced *)

Lemma alterTaskStatus_put st name idx g ts :
  GetTaskStatus st name idx = Some ts ->
  alterTaskStatus name idx g st = alterTaskStatus name idx (fun _ => g ts) st.
Proof.
  intros Hts. destruct (GetTaskStatus_locate _ _ _ _ Hts) as (i & Hf & Hidx & Hc).
  rewrite !(roleFoundAt_alterTaskStatus _ _ _ _ _ Hf Hidx).
  by apply alterTaskPos_ext with ts.
Qed.

Lemma alterTaskStatus_put_twice st name idx a b ts :
  GetTaskStatus st name idx = Some ts ->
  alterTaskStatus name idx (fun _ => b) (alterTaskStatus name idx (fun _ => a) st)
    = alterTaskStatus name idx (fun _ => b) st.
Proof.
  intros Hts. destruct (GetTaskStatus_locate _ _ _ _ Hts) as (i & Hf & Hidx & Hc).
  rewrite (roleFoundAt_alterTaskStatus _ _ _ _ (fun _ => a) Hf Hidx).
  rewrite (roleFoundAt_alterTaskStatus _ _ i _ (fun _ => b)) by
    (done || by apply roleFoundAt_alterTaskPos).
  rewrite (roleFoundAt_alterTaskStatus _ _ _ _ (fun _ => b) Hf Hidx).
  by rewrite alterTaskPos_compose.
Qed.

Lemma GetTaskStatus_put st name idx a ts :
  GetTaskStatus st name idx = Some ts ->
  GetTaskStatus (alterTaskStatus name idx (fun _ => a) st) name idx = Some a.
Proof. intros Hts. by rewrite (GetTaskStatus_alterTaskStatus_eq _ _ _ _ _ Hts). Qed.

Lemma putTask_same (s : St R) st name idx ts :
  fStatus (stF s) = Some st -> GetTaskStatus st name idx = Some ts ->
  putTask s st name idx ts = s.
Proof.
  intros Hst Hts. unfold putTask.
  change (fun _ : TaskStatus => ts) with (fun _ : TaskStatus => id ts).
  rewrite <- (alterTaskStatus_put st name idx id ts Hts).
  destruct (GetTaskStatus_locate _ _ _ _ Hts) as (i & Hf & Hidx & Hc).
  rewrite (roleFoundAt_alterTaskStatus _ _ _ _ _ Hf Hidx).
  by apply alterTaskPos_id_state.
Qed.

Section put.
Context (s : St R) (st : FrameworkStatus) (name : string) (idx : Z) (ts cur : TaskStatus).
Hypothesis Hts : GetTaskStatus st name idx = Some ts.

Lemma run_TaskStatus_put :
  TaskStatus_ name idx (putTask s st name idx cur)
    = Some (cur, putTask s st name idx cur).
Proof.
  apply run_TaskStatus with (alterTaskStatus name idx (fun _ => cur) st); [done|].
  by apply GetTaskStatus_put with ts.
Qed.

Lemma run_modifyTask_put g :
  modifyTask name idx g (putTask s st name idx cur)
    = Some (tt, putTask s st name idx (g cur)).
Proof.
  rewrite (run_modifyTask _ (alterTaskStatus name idx (fun _ => cur) st) name idx g cur);
    [|done|by apply GetTaskStatus_put with ts].
  unfold putTask.
  rewrite (alterTaskStatus_put (alterTaskStatus name idx (fun _ => cur) st) name idx g cur)
    by (by apply GetTaskStatus_put with ts).
  by rewrite (alterTaskStatus_put_twice _ _ _ _ _ ts).
Qed.

Lemma run_TransitionTaskState_put c dst :
  TransitionTaskState_ c name idx dst (putTask s st name idx cur)
    = Some (tt, putTask s st name idx
                  (TransitionTaskState dst (clockNow c (wCluster (stW s))) cur)).
Proof. unfold TransitionTaskState_, now. apply run_modifyTask_put. Qed.

Lemma run_completeTaskAttempt_put c force cs :
  completeTaskAttempt c name idx force cs (putTask s st name idx cur)
    = Some (tt, enqueued (putTask s st name idx
                  (completeTaskAttemptOn force cs (clockNow c (wCluster (stW s))) cur))).
Proof.
  rewrite (completeTaskAttempt_run c _ (alterTaskStatus name idx (fun _ => cur) st)
             name idx force cs cur); [|done|by apply GetTaskStatus_put with ts].
  unfold putTask.
  change (stW (setStatus s (alterTaskStatus name idx (fun _ => cur) st))) with (stW s).
  rewrite (alterTaskStatus_put (alterTaskStatus name idx (fun _ => cur) st) name idx
             (completeTaskAttemptOn force cs (clockNow c (wCluster (stW s)))) cur)
    by (by apply GetTaskStatus_put with ts).
  by rewrite (alterTaskStatus_put_twice _ _ _ _ _ ts).
Qed.
End put.

(** *** A task whose managed Pod is in the local cache *)

Lemma run_syncTaskStatePodPresent c s st name idx ts cur pod K :
  GetTaskStatus st name idx = Some ts ->
  podDeletionTimestamp pod = None ->
  tsState cur = TaskAttemptCreationRequested \/ tsState cur = TaskAttemptPreparing
    \/ tsState cur = TaskAttemptRunning ->
  let t := clockNow c (wCluster (stW s)) in
  let seen :=
    recordPodInfo pod
      (if bool_decide (tsState cur = TaskAttemptCreationRequested)
       then TransitionTaskState TaskAttemptPreparing t cur else cur) in
  syncTaskStatePodPresent c name idx pod K (putTask s st name idx cur) =
    match podPhase pod with
    | PodUnknown => K (putTask s st name idx seen)
    | PodPending =>
        K (putTask s st name idx (TransitionTaskState TaskAttemptPreparing t seen))
    | PodRunning =>
        K (putTask s st name idx (TransitionTaskState TaskAttemptRunning t seen))
    | PodSucceeded =>
        Some (None, enqueued (putTask s st name idx
                (completeTaskAttemptOn false (Some (PodSucceededStatus pod)) t seen)))
    | PodFailed =>
        Some (None, enqueued (putTask s st name idx
                (completeTaskAttemptOn false (Some (PodFailedStatus pod)) t seen)))
    | PodPhaseOther _ =>
        Some (Some (Err (ErrUnrecognizedPodPhase (podPhase pod))), putTask s st name idx seen)
    end.
Proof.
  intros Hts Hdt Hstate t seen. unfold syncTaskStatePodPresent. rewrite Hdt.
  step (run_TaskStatus_put s st name idx ts cur Hts).
  assert (Hs : bool_decide (tsState cur = TaskAttemptDeletionPending) = false
               /\ bool_decide (tsState cur = TaskAttemptDeletionRequested) = false)
    by (destruct Hstate as [-> | [-> | ->]]; done).
  destruct Hs as [Hs1 Hs2]. rewrite Hs1, bind_ret.
  step (run_TaskStatus_put s st name idx ts cur Hts). rewrite Hs2.
  assert (Hfirst : (if bool_decide (tsState cur = TaskAttemptCreationRequested)
                    then TransitionTaskState_ c name idx TaskAttemptPreparing
                    else ret tt) (putTask s st name idx cur)
                   = Some (tt, putTask s st name idx
                                 (if bool_decide (tsState cur = TaskAttemptCreationRequested)
                                  then TransitionTaskState TaskAttemptPreparing t cur else cur))).
  { destruct (bool_decide (tsState cur = TaskAttemptCreationRequested)); [|done].
    by apply run_TransitionTaskState_put with ts. }
  step Hfirst.
  rewrite (bind_run _ _ _ _ _ (run_modifyTask_put s st name idx ts _ Hts _)).
  fold (recordPodInfo pod (if bool_decide (tsState cur = TaskAttemptCreationRequested)
                           then TransitionTaskState TaskAttemptPreparing t cur else cur)).
  fold seen.
  destruct (podPhase pod) eqn:Hphase.
  - by rewrite (bind_run _ _ _ _ _ (run_TransitionTaskState_put s st name idx ts _ Hts c _)).
  - by rewrite (bind_run _ _ _ _ _ (run_TransitionTaskState_put s st name idx ts _ Hts c _)).
  - by rewrite (bind_run _ _ _ _ _ (run_completeTaskAttempt_put s st name idx ts _ Hts c _ _)).
  - by rewrite (bind_run _ _ _ _ _ (run_completeTaskAttempt_put s st name idx ts _ Hts c _ _)).
  - done.
  - done.
Qed.

Lemma syncTaskState_pod_present_run c s st cm name idx ts pod r0 :
  fStatus (stF s) = Some st ->
  GetTaskStatus st name idx = Some ts ->
  tsState ts = TaskAttemptCreationRequested \/ tsState ts = TaskAttemptPreparing
    \/ tsState ts = TaskAttemptRunning ->
  podLister_Get c (fNamespace (stF s)) (GetPodName (fName (stF s)) name (tsIndex ts))
    (wCluster (stW s)) = (inr pod, r0) ->
  taPodUID (tsAttemptStatus ts) = Some (podUID pod) ->
  podDeletionTimestamp pod = None ->
  let t := clockNow c r0 in
  let seen :=
    recordPodInfo pod
      (if bool_decide (tsState ts = TaskAttemptCreationRequested)
       then TransitionTaskState TaskAttemptPreparing t ts else ts) in
  let finish (x : TaskStatus) :=
    if tsDeletionPending ts
    then Some (None, enqueued (putTask (afterCall s r0) st name idx
                 (completeTaskAttemptOn false (Some DeleteTaskRequestedStatus) t x)))
    else Some (None, putTask (afterCall s r0) st name idx x) in
  syncTaskState c cm name idx s =
    match podPhase pod with
    | PodUnknown => finish seen
    | PodPending => finish (TransitionTaskState TaskAttemptPreparing t seen)
    | PodRunning => finish (TransitionTaskState TaskAttemptRunning t seen)
    | PodSucceeded =>
        Some (None, enqueued (putTask (afterCall s r0) st name idx
                (completeTaskAttemptOn false (Some (PodSucceededStatus pod)) t seen)))
    | PodFailed =>
        Some (None, enqueued (putTask (afterCall s r0) st name idx
                (completeTaskAttemptOn false (Some (PodFailedStatus pod)) t seen)))
    | PodPhaseOther _ =>
        Some (Some (Err (ErrUnrecognizedPodPhase (podPhase pod))),
              putTask (afterCall s r0) st name idx seen)
    end.
Proof.
  intros Hst Hts Hstate Hget Huid Hdt t seen finish.
  destruct (GetTaskStatus_role _ _ _ _ Hts) as [trs Htrs].
  assert (Hst0 : fStatus (stF (afterCall s r0)) = Some st) by done.
  task_head Hst Htrs Hts.
  assert (Hs : bool_decide (tsState ts = TaskCompleted) = false
               /\ bool_decide (tsState ts = TaskAttemptCompleted) = false)
    by (destruct Hstate as [-> | [-> | ->]]; done).
  destruct Hs as [Hs1 Hs2]. rewrite Hs1, Hs2. red_if.
  step (run_getOrCleanupPod_managed c cm name idx false s st ts pod r0 Hst Hts Hget Huid).
  cbv iota beta.
  match goal with
  | |- syncTaskStatePodPresent _ _ _ _ ?K _ = _ =>
      pose proof (run_syncTaskStatePodPresent c (afterCall s r0) st name idx ts ts pod K
                    Hts Hdt Hstate) as Hrun
  end.
  cbv zeta in Hrun. rewrite (putTask_same _ _ _ _ _ Hst0 Hts) in Hrun.
  change (clockNow c (wCluster (stW (afterCall s r0)))) with t in Hrun.
  fold seen in Hrun. rewrite Hrun. clear Hrun.
  assert (Hafter : forall x,
            tsDeletionPending x = tsDeletionPending ts ->
            tsState x = TaskAttemptPreparing \/ tsState x = TaskAttemptRunning ->
            forall K,
            (taskStatus <- TaskStatus_ name idx ;;
             if bool_decide (tsState taskStatus = TaskAttemptPreparing)
                || bool_decide (tsState taskStatus = TaskAttemptRunning)
             then
               (if tsDeletionPending taskStatus then
                  completeTaskAttempt c name idx false
                    (Some (NewTaskAttemptCompletionStatus CompletionCodeDeleteTaskRequested
                             DiagDeleteTaskRequested None))
                else ret tt) ;;
               ret None
             else K taskStatus) (putTask (afterCall s r0) st name idx x) = finish x).
  { intros x Hdp Hx K.
    step (run_TaskStatus_put (afterCall s r0) st name idx ts x Hts).
    assert (Hb : bool_decide (tsState x = TaskAttemptPreparing)
                 || bool_decide (tsState x = TaskAttemptRunning) = true)
      by (destruct Hx as [-> | ->]; done).
    rewrite Hb, Hdp. unfold finish. destruct (tsDeletionPending ts); [|done].
    by rewrite (bind_run _ _ _ _ _
                  (run_completeTaskAttempt_put (afterCall s r0) st name idx ts x Hts c _ _)). }
  assert (Hseen : tsState seen = TaskAttemptPreparing \/ tsState seen = TaskAttemptRunning).
  { unfold seen.
    destruct (bool_decide (tsState ts = TaskAttemptCreationRequested)) eqn:Hcr; [by left|].
    destruct Hstate as [Hs | [Hs | Hs]]; [|by left|by right].
    by rewrite Hs in Hcr. }
  assert (Hdps : tsDeletionPending seen = tsDeletionPending ts).
  { unfold seen. by destruct (bool_decide (tsState ts = TaskAttemptCreationRequested)). }
  destruct (podPhase pod); try done.
  - apply (Hafter (TransitionTaskState TaskAttemptPreparing t seen)); [exact Hdps|by left].
  - apply (Hafter (TransitionTaskState TaskAttemptRunning t seen)); [exact Hdps|by right].
  - by apply (Hafter seen).
Qed.

Lemma completeTaskAttemptOn_pod force cs t x :
  let x' := completeTaskAttemptOn force cs t x in
  taPodNodeName (tsAttemptStatus x') = taPodNodeName (tsAttemptStatus x)
  /\ taPodIP (tsAttemptStatus x') = taPodIP (tsAttemptStatus x)
  /\ taPodHostIP (tsAttemptStatus x') = taPodHostIP (tsAttemptStatus x)
  /\ taPodUID (tsAttemptStatus x') = taPodUID (tsAttemptStatus x)
  /\ taID (tsAttemptStatus x') = taID (tsAttemptStatus x)
  /\ tsIndex x' = tsIndex x
  /\ tsDeletionPending x' = tsDeletionPending x
  /\ tsRetryPolicyStatus x' = tsRetryPolicyStatus x.
Proof. unfold completeTaskAttemptOn. by destruct (tsCompletionStatus x). Qed.

(** X5. A task in CreationRequested, Preparing or Running that is not
    deletion pending, whose managed Pod is in the local cache and is not
    being deleted.  The sync first moves a task in CreationRequested to
    TaskAttemptPreparing, records the node and the addresses of the Pod,
    and then follows the phase of the Pod: Pending gives
    TaskAttemptPreparing, Running gives TaskAttemptRunning, Succeeded and
    Failed complete the attempt, not forced (TaskAttemptDeletionPending, a
    sync enqueued, and unless a CompletionStatus was recorded before, the
    status of code Succeeded or of the code matched for the failure).  On
    Unknown nothing more is done: the task is in TaskAttemptPreparing if
    it was in CreationRequested, and in the state it was in otherwise.  On
    any other phase the sync returns an error, with the task as on
    Unknown.  The only call to the cluster is the Get of the Pod. *)
Theorem pod_phase_drives_task_state c s st cm name idx ts pod r0 :
  fStatus (stF s) = Some st ->
  GetTaskStatus st name idx = Some ts ->
  tsState ts = TaskAttemptCreationRequested \/ tsState ts = TaskAttemptPreparing
    \/ tsState ts = TaskAttemptRunning ->
  podLister_Get c (fNamespace (stF s)) (GetPodName (fName (stF s)) name (tsIndex ts))
    (wCluster (stW s)) = (inr pod, r0) ->
  taPodUID (tsAttemptStatus ts) = Some (podUID pod) ->
  podDeletionTimestamp pod = None ->
  tsDeletionPending ts = false ->
  exists ts',
    syncTaskState c cm name idx s =
      Some (match podPhase pod with
            | PodPhaseOther _ => Some (Err (ErrUnrecognizedPodPhase (podPhase pod)))
            | _ => None
            end,
            match podPhase pod with
            | PodSucceeded | PodFailed => enqueued (putTask (afterCall s r0) st name idx ts')
            | _ => putTask (afterCall s r0) st name idx ts'
            end)
    /\ GetTaskStatus (alterTaskStatus name idx (fun _ => ts') st) name idx = Some ts'
    /\ tsState ts' =
         match podPhase pod with
         | PodPending => TaskAttemptPreparing
         | PodRunning => TaskAttemptRunning
         | PodSucceeded | PodFailed => TaskAttemptDeletionPending
         | PodUnknown | PodPhaseOther _ =>
             if bool_decide (tsState ts = TaskAttemptCreationRequested)
             then TaskAttemptPreparing else tsState ts
         end
    /\ taPodNodeName (tsAttemptStatus ts') = Some (podNodeName pod)
    /\ taPodIP (tsAttemptStatus ts') = Some (podIP pod)
    /\ taPodHostIP (tsAttemptStatus ts') = Some (podHostIP pod)
    /\ taPodUID (tsAttemptStatus ts') = Some (podUID pod)
    /\ tsCompletionStatus ts' =
         match tsCompletionStatus ts with
         | Some old => Some old
         | None =>
             match podPhase pod with
             | PodSucceeded => Some (PodSucceededStatus pod)
             | PodFailed => Some (PodFailedStatus pod)
             | _ => None
             end
         end
    /\ csCode (tacsCompletionStatus (PodSucceededStatus pod)) = CompletionCodeSucceeded
    /\ csCode (tacsCompletionStatus (PodFailedStatus pod))
       = csCode (MatchCompletionCodeInfos pod).
Proof.
  intros Hst Hts Hstate Hget Huid Hdt Hdp.
  pose proof (syncTaskState_pod_present_run c s st cm name idx ts pod r0
                Hst Hts Hstate Hget Huid Hdt) as Hrun.
  cbv zeta in Hrun. rewrite Hdp in Hrun.
  set (t := clockNow c r0) in *.
  set (first := if bool_decide (tsState ts = TaskAttemptCreationRequested)
                then TransitionTaskState TaskAttemptPreparing t ts else ts) in *.
  assert (Hfs : tsState first = if bool_decide (tsState ts = TaskAttemptCreationRequested)
                                then TaskAttemptPreparing else tsState ts)
    by (unfold first; by destruct (bool_decide _)).
  assert (Hfu : taPodUID (tsAttemptStatus first) = Some (podUID pod))
    by (unfold first; by destruct (bool_decide _)).
  assert (Hfc : tsCompletionStatus first = tsCompletionStatus ts)
    by (unfold first; by destruct (bool_decide _)).
  assert (Hplain : tsCompletionStatus first
                   = match tsCompletionStatus ts with Some old => Some old | None => None end)
    by (rewrite Hfc; by destruct (tsCompletionStatus ts)).
  assert (Hdone : forall cs,
            let x' := completeTaskAttemptOn false (Some cs) t (recordPodInfo pod first) in
            taPodNodeName (tsAttemptStatus x') = Some (podNodeName pod)
            /\ taPodIP (tsAttemptStatus x') = Some (podIP pod)
            /\ taPodHostIP (tsAttemptStatus x') = Some (podHostIP pod)
            /\ taPodUID (tsAttemptStatus x') = Some (podUID pod)
            /\ tsCompletionStatus x' =
                 match tsCompletionStatus ts with Some old => Some old | None => Some cs end).
  { intros cs x'. unfold x'.
    destruct (completeTaskAttemptOn_pod false (Some cs) t (recordPodInfo pod first))
      as (-> & -> & -> & -> & _).
    split_and!; try done.
    rewrite tsCompletionStatus_completeTaskAttemptOn.
    change (tsCompletionStatus (recordPodInfo pod first)) with (tsCompletionStatus first).
    by rewrite Hfc. }
  destruct (podPhase pod) eqn:Hphase;
    (eexists; split; [exact Hrun|]);
    (split; [by apply GetTaskStatus_put with ts|]).
  - by split_and!.
  - by split_and!.
  - destruct (Hdone (PodSucceededStatus pod)) as (? & ? & ? & ? & ?). by split_and!.
  - destruct (Hdone (PodFailedStatus pod)) as (? & ? & ? & ? & ?). by split_and!.
  - by split_and!.
  - by split_and!.
Qed.

(** X6. A task in CreationRequested, Preparing or Running that a ScaleDown
    has marked deletion pending, whose managed Pod is in the local cache,
    is not being deleted and is in phase Pending, Running or Unknown.  The
    sync completes the attempt, not forced: the task is in
    TaskAttemptDeletionPending, its CompletionStatus is the one of code
    DeleteTaskRequested unless one was recorded before, and a sync of the
    Framework is enqueued.  The Pod is not deleted in this sync: the only
    call to the cluster is the Get of the Pod. *)
Theorem scale_down_completes_task_before_deleting_pod c s st cm name idx ts pod r0 :
  fStatus (stF s) = Some st ->
  GetTaskStatus st name idx = Some ts ->
  tsState ts = TaskAttemptCreationRequested \/ tsState ts = TaskAttemptPreparing
    \/ tsState ts = TaskAttemptRunning ->
  podLister_Get c (fNamespace (stF s)) (GetPodName (fName (stF s)) name (tsIndex ts))
    (wCluster (stW s)) = (inr pod, r0) ->
  taPodUID (tsAttemptStatus ts) = Some (podUID pod) ->
  podDeletionTimestamp pod = None ->
  podPhase pod = PodPending \/ podPhase pod = PodRunning \/ podPhase pod = PodUnknown ->
  tsDeletionPending ts = true ->
  exists ts',
    syncTaskState c cm name idx s
      = Some (None, enqueued (putTask (afterCall s r0) st name idx ts'))
    /\ GetTaskStatus (alterTaskStatus name idx (fun _ => ts') st) name idx = Some ts'
    /\ tsState ts' = TaskAttemptDeletionPending
    /\ tsDeletionPending ts' = true
    /\ taPodUID (tsAttemptStatus ts') = Some (podUID pod)
    /\ tsCompletionStatus ts' =
         match tsCompletionStatus ts with
         | Some old => Some old
         | None => Some DeleteTaskRequestedStatus
         end
    /\ csCode (tacsCompletionStatus DeleteTaskRequestedStatus)
       = CompletionCodeDeleteTaskRequested.
Proof.
  intros Hst Hts Hstate Hget Huid Hdt Hphase Hdp.
  pose proof (syncTaskState_pod_present_run c s st cm name idx ts pod r0
                Hst Hts Hstate Hget Huid Hdt) as Hrun.
  cbv zeta in Hrun. rewrite Hdp in Hrun.
  set (t := clockNow c r0) in *.
  set (first := if bool_decide (tsState ts = TaskAttemptCreationRequested)
                then TransitionTaskState TaskAttemptPreparing t ts else ts) in *.
  assert (Hf : tsDeletionPending first = true
               /\ taPodUID (tsAttemptStatus first) = Some (podUID pod)
               /\ tsCompletionStatus first = tsCompletionStatus ts)
    by (unfold first; by destruct (bool_decide _)).
  destruct Hf as (Hfd & Hfu & Hfc).
  assert (Hdone : forall x,
            tsDeletionPending x = true ->
            taPodUID (tsAttemptStatus x) = Some (podUID pod) ->
            tsCompletionStatus x = tsCompletionStatus ts ->
            let x' := completeTaskAttemptOn false (Some DeleteTaskRequestedStatus) t x in
            tsState x' = TaskAttemptDeletionPending
            /\ tsDeletionPending x' = true
            /\ taPodUID (tsAttemptStatus x') = Some (podUID pod)
            /\ tsCompletionStatus x' =
                 match tsCompletionStatus ts with
                 | Some old => Some old
                 | None => Some DeleteTaskRequestedStatus
                 end
            /\ csCode (tacsCompletionStatus DeleteTaskRequestedStatus)
               = CompletionCodeDeleteTaskRequested).
  { intros x Hxd Hxu Hxc x'. unfold x'.
    destruct (completeTaskAttemptOn_pod false (Some DeleteTaskRequestedStatus) t x)
      as (_ & _ & _ & -> & _ & _ & -> & _).
    rewrite tsCompletionStatus_completeTaskAttemptOn, Hxc. by split_and!. }
  destruct Hphase as [Hp | [Hp | Hp]]; rewrite Hp in Hrun;
    (eexists; split; [exact Hrun|]);
    (split; [by apply GetTaskStatus_put with ts|]);
    by apply Hdone.
Qed.

(** X7. A task in TaskAttemptDeletionPending (its CompletionStatus is
    recorded) whose managed Pod is in the local cache and is not being
    deleted.  The sync asks the remote to delete the Pod, with the PodUID
    of the task as precondition, not forced and without confirming the
    deletion.  When the request fails with an error other than not found,
    the sync returns that error and the Framework is as before.
    Otherwise it returns without error and the task is in
    TaskAttemptDeletionRequested, everything else of it as before; no
    sync is enqueued. *)
Theorem deletion_pending_task_deletes_its_pod c s st cm name idx ts pod r0 :
  fStatus (stF s) = Some st ->
  GetTaskStatus st name idx = Some ts ->
  tsState ts = TaskAttemptDeletionPending ->
  let ns := fNamespace (stF s) in
  let pn := GetPodName (fName (stF s)) name (tsIndex ts) in
  podLister_Get c ns pn (wCluster (stW s)) = (inr pod, r0) ->
  taPodUID (tsAttemptStatus ts) = Some (podUID pod) ->
  podDeletionTimestamp pod = None ->
  let deleted :=
    kClient_Pods_Delete c ns pn
      {| doPreconditionUID := podUID pod; doGracePeriodSeconds := None;
         doForeground := false |} r0 in
  syncTaskState c cm name idx s =
    match deleted.1 with
    | Some e =>
        if IsNotFound e
        then Some (None, putTask (afterCall s deleted.2) st name idx
                     (TransitionTaskState TaskAttemptDeletionRequested
                        (clockNow c deleted.2) ts))
        else Some (Some (Err (ErrDelete e)), afterCall s deleted.2)
    | None =>
        Some (None, putTask (afterCall s deleted.2) st name idx
                (TransitionTaskState TaskAttemptDeletionRequested
                   (clockNow c deleted.2) ts))
    end.
Proof.
  intros Hst Hts Hstate ns pn Hget Huid Hdt deleted.
  destruct (GetTaskStatus_role _ _ _ _ Hts) as [trs Htrs].
  assert (Hst0 : fStatus (stF (afterCall s r0)) = Some st) by done.
  task_head Hst Htrs Hts. rewrite Hstate.
  rewrite (bool_decide_eq_false_2 (TaskAttemptDeletionPending = TaskCompleted)) by done.
  rewrite (bool_decide_eq_false_2 (TaskAttemptDeletionPending = TaskAttemptCompleted)) by done.
  red_if.
  step (run_getOrCleanupPod_managed c cm name idx false s st ts pod r0 Hst Hts Hget Huid).
  cbv iota beta. unfold syncTaskStatePodPresent. rewrite Hdt.
  step (run_TaskStatus _ _ _ _ _ Hst0 Hts). rewrite Hstate.
  rewrite (bool_decide_eq_true_2 _ (eq_refl TaskAttemptDeletionPending)).
  rewrite Huid.
  pose proof (run_deletePod c (afterCall s r0) st name idx ts (podUID pod) false false
                Hst0 Hts) as Hdel.
  cbv zeta in Hdel. unfold deleteOutcome, podDeleteOptions in Hdel.
  change (fNamespace (stF (afterCall s r0))) with ns in Hdel.
  change (GetPodName (fName (stF (afterCall s r0))) name (tsIndex ts)) with pn in Hdel.
  change (wCluster (stW (afterCall s r0))) with r0 in Hdel. fold deleted in Hdel.
  set (requested r1 := putTask (afterCall s r1) st name idx
         (TransitionTaskState TaskAttemptDeletionRequested (clockNow c r1) ts)).
  assert (Hok : forall r1,
    (TransitionTaskState_ c name idx TaskAttemptDeletionRequested ;; ret None) (afterCall s r1)
    = Some (@None Error, requested r1)).
  { intros r1.
    rewrite <- (putTask_same (afterCall s r1) st name idx ts) at 1 by done.
    by rewrite (bind_run _ _ _ _ _ (run_TransitionTaskState_put _ st name idx ts _ Hts c _)). }
  assert (Hwait : forall r1 K,
    (taskStatus <- TaskStatus_ name idx ;;
     if bool_decide (tsState taskStatus = TaskAttemptDeletionRequested) then ret None
     else K taskStatus) (requested r1) = Some (@None Error, requested r1)).
  { intros r1 K. unfold requested.
    by rewrite (bind_run _ _ _ _ _ (run_TaskStatus_put _ st name idx ts _ Hts)). }
  destruct deleted as [[e|] r1]; cbn [fst snd] in *.
  - destruct (IsNotFound e); cbn [negb] in Hdel; cbv iota in Hdel.
    + match goal with
      | |- bind ?m _ _ = _ =>
          assert (Hinner : m (afterCall s r0) = Some (None, requested r1))
      end.
      { cbn [deref]. rewrite bind_ret. step Hdel. apply Hok. }
      step Hinner. apply Hwait.
    + match goal with
      | |- bind ?m _ _ = _ =>
          assert (Hinner : m (afterCall s r0)
                           = Some (Some (Err (ErrDelete e)), afterCall s r1))
      end.
      { cbn [deref]. rewrite bind_ret. by step Hdel. }
      by step Hinner.
  - match goal with
    | |- bind ?m _ _ = _ =>
        assert (Hinner : m (afterCall s r0) = Some (None, requested r1))
    end.
    { cbn [deref]. rewrite bind_ret. step Hdel. apply Hok. }
    step Hinner. apply Hwait.
Qed.

(** ** The retry of a task *)

Lemma run_enqueueTaskRetryDelayTimeoutCheck c s st name idx ts cur delay :
  GetTaskStatus st name idx = Some ts ->
  tsState cur = TaskAttemptCompleted ->
  RetryDelaySec (tsRetryPolicyStatus cur) = Some delay ->
  let s0 := putTask s st name idx cur in
  let left := CurrentLeftDuration (tsTransitionTime cur) delay (clockNow c (wCluster (stW s))) in
  enqueueTaskRetryDelayTimeoutCheck c name idx true s0 =
    if IsTimeout left then Some (false, s0) else Some (true, enqueuedAfter s0 left).
Proof.
  intros Hts Hstate Hdelay s0 left. unfold enqueueTaskRetryDelayTimeoutCheck.
  step (run_TaskStatus_put s st name idx ts cur Hts).
  rewrite Hstate, (bool_decide_eq_true_2 _ (eq_refl TaskAttemptCompleted)). red_if.
  rewrite Hdelay, run_enqueueFrameworkTimeoutCheck. cbv zeta. fold left.
  by rewrite andb_true_r.
Qed.

Lemma run_syncTaskStateAttemptCompleted c s st name idx ts cur spec K d r delay :
  GetTaskStatus st name idx = Some ts ->
  tsState cur = TaskAttemptCompleted ->
  match spec with
  | None => d = roleDeletedDecision /\ r = wCluster (stW s)
  | Some rs =>
      exists cs,
        tsCompletionStatus cur = Some cs
        /\ RetryPolicy_ShouldRetry c (tkRetryPolicy (rsTask rs)) (tsRetryPolicyStatus cur)
             (tacsCompletionStatus cs) 0 0 (wCluster (stW s)) = (d, r)
  end ->
  scheduledRetryDelay (tsRetryPolicyStatus cur) d = Some delay ->
  let left := CurrentLeftDuration (tsTransitionTime cur) delay (clockNow c r) in
  syncTaskStateAttemptCompleted c spec name idx K (putTask s st name idx cur) =
    if tsDeletionPending cur || IsTimeout left
    then Some (None, enqueued (putTask (afterCall s r) st name idx
                 (retryTaskOn d (clockNow c r) cur)))
    else Some (None, enqueuedAfter (putTask (afterCall s r) st name idx
                 (scheduleTaskRetryOn d cur)) left).
Proof.
  intros Hts Hstate Hd Hdelay left. unfold syncTaskStateAttemptCompleted.
  step (run_TaskStatus_put s st name idx ts cur Hts).
  assert (Hdecide :
    match spec with
    | None => ret roleDeletedDecision
    | Some rs =>
        cs <- deref (tsCompletionStatus cur) ;;
        liftW (call (RetryPolicy_ShouldRetry c (tkRetryPolicy (rsTask rs))
                       (tsRetryPolicyStatus cur) (tacsCompletionStatus cs) 0 0))
    end (putTask s st name idx cur) = Some (d, putTask (afterCall s r) st name idx cur)).
  { destruct spec as [rs|].
    - destruct Hd as (cs & -> & Hcall). cbn [deref]. rewrite bind_ret.
      exact (run_call _ (putTask s st name idx cur) _ _ Hcall).
    - destruct Hd as [-> ->]. unfold ret. do 2 f_equal. by destruct s as [f [cl q]]. }
  step Hdecide. clear Hdecide.
  set (s1 := afterCall s r).
  assert (Hsched : RetryDelaySec (tsRetryPolicyStatus (scheduleTaskRetryOn d cur)) = Some delay
                   /\ tsState (scheduleTaskRetryOn d cur) = TaskAttemptCompleted
                   /\ tsDeletionPending (scheduleTaskRetryOn d cur) = tsDeletionPending cur
                   /\ tsTransitionTime (scheduleTaskRetryOn d cur) = tsTransitionTime cur).
  { unfold scheduleTaskRetryOn, scheduledRetryDelay in *.
    destruct (RetryDelaySec (tsRetryPolicyStatus cur)) eqn:Hrd; [by rewrite Hrd|].
    destruct (ShouldRetry d); [|done]. by injection Hdelay as <-. }
  destruct Hsched as (Hsd & Hss & Hsp & Hst').
  assert (Hfirst :
    match RetryDelaySec (tsRetryPolicyStatus cur) with
    | None =>
        if ShouldRetry d then
          modifyTask name idx (fun ts =>
            tsWithRetryPolicyStatus
              (rpsWithRetryDelaySec (Some (DelaySec d)) (tsRetryPolicyStatus ts)) ts)
        else TransitionTaskState_ c name idx TaskCompleted
    | Some _ => ret tt
    end (putTask s1 st name idx cur)
    = Some (tt, putTask s1 st name idx (scheduleTaskRetryOn d cur))).
  { unfold scheduleTaskRetryOn, scheduledRetryDelay in *.
    destruct (RetryDelaySec (tsRetryPolicyStatus cur)); [done|].
    destruct (ShouldRetry d); [|done].
    by rewrite (run_modifyTask_put s1 st name idx ts cur Hts). }
  step Hfirst. clear Hfirst.
  step (run_TaskStatus_put s1 st name idx ts (scheduleTaskRetryOn d cur) Hts).
  rewrite Hsd, Hsp.
  assert (Hretry :
    forall s2 : St R, s2 = putTask s1 st name idx (scheduleTaskRetryOn d cur) ->
    (modifyTask name idx (fun ts =>
          let rps := tsRetryPolicyStatus ts in
          let total := int32 (TotalRetriedCount rps + 1) in
          tsWithAttemptStatus (NewTaskAttemptStatus total)
            (tsWithRetryPolicyStatus
               {| TotalRetriedCount := total;
                  AccountableRetriedCount :=
                    if IsAccountable d
                    then int32 (AccountableRetriedCount rps + 1)
                    else AccountableRetriedCount rps;
                  RetryDelaySec := None |} ts)) ;;
      TransitionTaskState_ c name idx TaskAttemptCreationPending ;;
      enqueueFrameworkSync c ;;
      ret None) s2
    = Some (@None Error, enqueued (putTask s1 st name idx (retryTaskOn d (clockNow c r) cur)))).
  { intros s2 ->.
    rewrite (bind_run _ _ _ _ _ (run_modifyTask_put s1 st name idx ts _ Hts _)).
    rewrite (bind_run _ _ _ _ _ (run_TransitionTaskState_put s1 st name idx ts _ Hts c _)).
    rewrite (bind_run _ _ _ _ _ (run_enqueueFrameworkSync c _)).
    unfold ret. do 3 f_equal. unfold retryTaskOn, scheduleTaskRetryOn. cbv zeta.
    destruct (RetryDelaySec (tsRetryPolicyStatus cur)); [done|].
    by destruct (ShouldRetry d). }
  destruct (tsDeletionPending cur) eqn:Hdp.
  - rewrite bind_ret. cbn [orb]. cbv iota. by apply Hretry.
  - cbn [orb].
    pose proof (run_enqueueTaskRetryDelayTimeoutCheck c s1 st name idx ts
                  (scheduleTaskRetryOn d cur) delay Hts Hss Hsd) as Hcheck.
    cbv zeta in Hcheck. rewrite Hst' in Hcheck.
    change (clockNow c (wCluster (stW s1))) with (clockNow c r) in Hcheck.
    fold left in Hcheck.
    destruct (IsTimeout left).
    + step Hcheck. by apply Hretry.
    + by step Hcheck.
Qed.

Lemma syncTaskState_attempt_completed c s st cm name idx ts :
  fStatus (stF s) = Some st ->
  GetTaskStatus st name idx = Some ts ->
  tsState ts = TaskAttemptCompleted ->
  exists K,
    syncTaskState c cm name idx s
      = syncTaskStateAttemptCompleted c (GetTaskRoleSpec (fSpec (stF s)) name) name idx K
          (putTask s st name idx ts).
Proof.
  intros Hst Hts Hstate.
  destruct (GetTaskStatus_role _ _ _ _ Hts) as [trs Htrs].
  rewrite (putTask_same s st name idx ts Hst Hts).
  eexists. task_head Hst Htrs Hts. rewrite Hstate.
  rewrite (bool_decide_eq_false_2 (TaskAttemptCompleted = TaskCompleted)) by done.
  rewrite (bool_decide_eq_true_2 _ (eq_refl TaskAttemptCompleted)). red_if.
  step (run_TaskStatus _ _ _ _ _ Hst Hts). rewrite Hstate.
  rewrite (bool_decide_eq_false_2 (TaskAttemptCompleted = TaskAttemptPreparing)) by done.
  rewrite (bool_decide_eq_false_2 (TaskAttemptCompleted = TaskAttemptRunning)) by done.
  cbn [orb]. cbv iota. rewrite (bool_decide_eq_true_2 _ (eq_refl TaskAttemptCompleted)).
  reflexivity.
Qed.

(** X8. When a task in TaskAttemptCompleted is retried, that is when a
    retry is scheduled (retryDelaySec is set, or the retry decision of
    the role's retry policy says to retry) and fires (the task is
    deletion pending, or the delay has expired), the sync returns without
    error and has updated the task exactly so: totalRetriedCount is
    incremented by one (as an int32); accountableRetriedCount is
    incremented by one if the retry decision is accountable and unchanged
    if not; retryDelaySec is nil; the attempt status is a fresh one whose
    id is the new totalRetriedCount, with no Pod and no CompletionStatus;
    the state is TaskAttemptCreationPending, entered at the current time;
    and one sync of the Framework has been enqueued.  No Pod is created in
    this sync: the cluster is only asked for the retry decision. *)
Theorem task_retry_mints_new_attempt c s st cm name idx ts rs cs d r delay :
  fStatus (stF s) = Some st ->
  GetTaskStatus st name idx = Some ts ->
  tsState ts = TaskAttemptCompleted ->
  GetTaskRoleSpec (fSpec (stF s)) name = Some rs ->
  tsCompletionStatus ts = Some cs ->
  RetryPolicy_ShouldRetry c (tkRetryPolicy (rsTask rs)) (tsRetryPolicyStatus ts)
    (tacsCompletionStatus cs) 0 0 (wCluster (stW s)) = (d, r) ->
  scheduledRetryDelay (tsRetryPolicyStatus ts) d = Some delay ->
  tsDeletionPending ts = true \/ tsTransitionTime ts + delay - clockNow c r ≤ 0 ->
  exists ts',
    syncTaskState c cm name idx s
      = Some (None, enqueued (putTask (afterCall s r) st name idx ts'))
    /\ GetTaskStatus (alterTaskStatus name idx (fun _ => ts') st) name idx = Some ts'
    /\ TotalRetriedCount (tsRetryPolicyStatus ts')
         = int32 (TotalRetriedCount (tsRetryPolicyStatus ts) + 1)
    /\ AccountableRetriedCount (tsRetryPolicyStatus ts')
         = (if IsAccountable d
            then int32 (AccountableRetriedCount (tsRetryPolicyStatus ts) + 1)
            else AccountableRetriedCount (tsRetryPolicyStatus ts))
    /\ RetryDelaySec (tsRetryPolicyStatus ts') = None
    /\ tsAttemptStatus ts'
         = NewTaskAttemptStatus (TotalRetriedCount (tsRetryPolicyStatus ts'))
    /\ taID (tsAttemptStatus ts') = TotalRetriedCount (tsRetryPolicyStatus ts')
    /\ taPodUID (tsAttemptStatus ts') = None
    /\ tsCompletionStatus ts' = None
    /\ tsState ts' = TaskAttemptCreationPending
    /\ tsTransitionTime ts' = clockNow c r
    /\ tsIndex ts' = tsIndex ts
    /\ tsDeletionPending ts' = tsDeletionPending ts.
Proof.
  intros Hst Hts Hstate Hspec Hcs Hd Hdelay Hfire.
  destruct (syncTaskState_attempt_completed c s st cm name idx ts Hst Hts Hstate) as [K HK].
  rewrite Hspec in HK.
  rewrite (run_syncTaskStateAttemptCompleted c s st name idx ts ts (Some rs) K d r delay
             Hts Hstate (ex_intro _ cs (conj Hcs Hd)) Hdelay) in HK.
  assert (Hnow : tsDeletionPending ts
                 || IsTimeout (CurrentLeftDuration (tsTransitionTime ts) delay (clockNow c r))
                 = true).
  { destruct Hfire as [-> | Hle]; [done|].
    unfold IsTimeout, CurrentLeftDuration. rewrite bool_decide_eq_true_2 by lia.
    apply orb_true_r. }
  rewrite Hnow in HK.
  exists (retryTaskOn d (clockNow c r) ts). split; [exact HK|].
  split; [by apply GetTaskStatus_put with ts|]. by split_and!.
Qed.

(** X9. A task in TaskAttemptCompleted that is not deletion pending and
    whose scheduled retry has not reached its delay is not retried: the
    sync returns without error, the task stays in TaskAttemptCompleted
    with its attempt as it was, the delay of the decision is recorded as
    retryDelaySec when none was recorded, and a check of the Framework is
    enqueued for the time that is left of the delay. *)
Theorem task_retry_waits_for_delay c s st cm name idx ts rs cs d r delay :
  fStatus (stF s) = Some st ->
  GetTaskStatus st name idx = Some ts ->
  tsState ts = TaskAttemptCompleted ->
  GetTaskRoleSpec (fSpec (stF s)) name = Some rs ->
  tsCompletionStatus ts = Some cs ->
  RetryPolicy_ShouldRetry c (tkRetryPolicy (rsTask rs)) (tsRetryPolicyStatus ts)
    (tacsCompletionStatus cs) 0 0 (wCluster (stW s)) = (d, r) ->
  scheduledRetryDelay (tsRetryPolicyStatus ts) d = Some delay ->
  tsDeletionPending ts = false ->
  0 < tsTransitionTime ts + delay - clockNow c r ->
  exists ts',
    syncTaskState c cm name idx s
      = Some (None, enqueuedAfter (putTask (afterCall s r) st name idx ts')
                      (tsTransitionTime ts + delay - clockNow c r))
    /\ GetTaskStatus (alterTaskStatus name idx (fun _ => ts') st) name idx = Some ts'
    /\ tsState ts' = TaskAttemptCompleted
    /\ tsTransitionTime ts' = tsTransitionTime ts
    /\ tsAttemptStatus ts' = tsAttemptStatus ts
    /\ RetryDelaySec (tsRetryPolicyStatus ts') = Some delay
    /\ TotalRetriedCount (tsRetryPolicyStatus ts') = TotalRetriedCount (tsRetryPolicyStatus ts)
    /\ AccountableRetriedCount (tsRetryPolicyStatus ts')
       = AccountableRetriedCount (tsRetryPolicyStatus ts).
Proof.
  intros Hst Hts Hstate Hspec Hcs Hd Hdelay Hdp Hleft.
  destruct (syncTaskState_attempt_completed c s st cm name idx ts Hst Hts Hstate) as [K HK].
  rewrite Hspec in HK.
  rewrite (run_syncTaskStateAttemptCompleted c s st name idx ts ts (Some rs) K d r delay
             Hts Hstate (ex_intro _ cs (conj Hcs Hd)) Hdelay) in HK.
  rewrite Hdp in HK. cbn [orb] in HK.
  unfold IsTimeout, CurrentLeftDuration in HK.
  rewrite bool_decide_eq_false_2 in HK by lia.
  exists (scheduleTaskRetryOn d ts). split; [exact HK|].
  split; [by apply GetTaskStatus_put with ts|].
  unfold scheduleTaskRetryOn, scheduledRetryDelay in *.
  destruct (RetryDelaySec (tsRetryPolicyStatus ts)) eqn:Hrd;
    [split_and!; (done || congruence)|].
  destruct (ShouldRetry d); [|done]. injection Hdelay as <-. by split_and!.
Qed.

(** ** The creation of the Pod of a task *)

Lemma run_createPod c owner name idx s st ts :
  fStatus (stF s) = Some st ->
  GetTaskStatus st name idx = Some ts ->
  let ns := fNamespace (stF s) in
  let pod := NewPod (stF s) owner name ts in
  let created := kClient_Pods_Create c ns pod (wCluster (stW s)) in
  createPod c (Some owner) name idx s =
    match created.1 with
    | inr remotePod => Some ((Some remotePod, None), afterCall s created.2)
    | inl createErr =>
        if IsAlreadyExists createErr then
          let cached := podLister_Get c ns (podName pod) created.2 in
          Some ((None, Some (createPodError createErr cached.1 owner)), afterCall s cached.2)
        else Some ((None, Some (Err (ErrCreate createErr))), afterCall s created.2)
    end.
Proof.
  intros Hst Hts ns pod created. unfold createPod.
  rewrite (bind_run _ _ _ _ _ (run_gets _ _)).
  step (run_TaskStatus _ _ _ _ _ Hst Hts). cbn [deref]. rewrite bind_ret. cbv zeta.
  fold ns pod.
  destruct created as [[createErr|remotePod] r1] eqn:Hcreate; unfold created in Hcreate;
    step (run_call _ s _ _ Hcreate); cbn [fst snd]; [|done].
  destruct (IsAlreadyExists createErr); [|done].
  destruct (podLister_Get c ns (podName pod) r1) as [got r2] eqn:Hget.
  assert (Hget' : podLister_Get c ns (podName pod) (wCluster (stW (afterCall s r1))) = (got, r2))
    by done.
  step (run_call _ (afterCall s r1) _ _ Hget'). cbn [fst snd]. unfold createPodError.
  destruct got as [e|localPod]; [done|].
  by destruct (IsControlledBy (podControllerUID localPod) (cmUID owner)).
Qed.

(** The first steps of [syncTaskState] on a task in
    [TaskAttemptCreationPending] whose Pod the local cache does not hold. *)
Lemma syncTaskState_creation_pending c s st cm name idx ts e r0 :
  fStatus (stF s) = Some st ->
  GetTaskStatus st name idx = Some ts ->
  tsState ts = TaskAttemptCreationPending ->
  podLister_Get c (fNamespace (stF s)) (GetPodName (fName (stF s)) name (tsIndex ts))
    (wCluster (stW s)) = (inl e, r0) ->
  IsNotFound e = true ->
  syncTaskState c cm name idx s
    = syncTaskStateCreationPending c cm (GetTaskRoleSpec (fSpec (stF s)) name) name idx
        (afterCall s r0).
Proof.
  intros Hst Hts Hstate Hget Hnf.
  destruct (GetTaskStatus_role _ _ _ _ Hts) as [trs Htrs].
  assert (Hst0 : fStatus (stF (afterCall s r0)) = Some st) by done.
  task_head Hst Htrs Hts. rewrite Hstate.
  rewrite (bool_decide_eq_false_2 (TaskAttemptCreationPending = TaskCompleted)) by done.
  rewrite (bool_decide_eq_false_2 (TaskAttemptCreationPending = TaskAttemptCompleted)) by done.
  red_if.
  step (run_getOrCleanupPod_not_found c cm name idx false s st ts e r0 Hst Hts Hget Hnf).
  cbv iota beta. unfold syncTaskStatePodAbsent.
  step (run_TaskStatus _ _ _ _ _ Hst0 Hts). rewrite Hstate.
  rewrite (bool_decide_eq_false_2 (TaskAttemptCreationPending = TaskAttemptCreationRequested))
    by done.
  rewrite (bool_decide_eq_true_2 _ (eq_refl TaskAttemptCreationPending)). red_if.
  step (run_TaskStatus _ _ _ _ _ Hst0 Hts). rewrite Hstate.
  rewrite (bool_decide_eq_false_2 (TaskAttemptCreationPending = TaskAttemptPreparing)) by done.
  rewrite (bool_decide_eq_false_2 (TaskAttemptCreationPending = TaskAttemptRunning)) by done.
  cbn [orb]. cbv iota.
  rewrite (bool_decide_eq_false_2 (TaskAttemptCreationPending = TaskAttemptCompleted)) by done.
  step (run_TaskStatus _ _ _ _ _ Hst0 Hts). rewrite Hstate.
  by rewrite (bool_decide_eq_true_2 _ (eq_refl TaskAttemptCreationPending)).
Qed.

(** X10. While the FrameworkAttempt is completing, no Pod is created: on
    a task in TaskAttemptCreationPending whose Pod the local cache does
    not hold, the sync returns without error, the Framework and the queue
    are as before, and the only call to the cluster is the Get of the
    Pod in the local cache. *)
Theorem no_pod_created_while_completing c s st cm name idx ts e r0 :
  fStatus (stF s) = Some st ->
  GetTaskStatus st name idx = Some ts ->
  tsState ts = TaskAttemptCreationPending ->
  podLister_Get c (fNamespace (stF s)) (GetPodName (fName (stF s)) name (tsIndex ts))
    (wCluster (stW s)) = (inl e, r0) ->
  IsNotFound e = true ->
  IsCompletingState (fsState st) = true ->
  syncTaskState c cm name idx s = Some (None, afterCall s r0).
Proof.
  intros Hst Hts Hstate Hget Hnf Hc.
  rewrite (syncTaskState_creation_pending c s st cm name idx ts e r0) by done.
  unfold syncTaskStateCreationPending.
  assert (Hst0 : fStatus (stF (afterCall s r0)) = Some st) by done.
  step (run_IsCompleting _ _ Hst0). by rewrite Hc.
Qed.

Lemma syncTaskState_create_run c s st owner name idx ts rs e r0 :
  fStatus (stF s) = Some st ->
  GetTaskStatus st name idx = Some ts ->
  tsState ts = TaskAttemptCreationPending ->
  podLister_Get c (fNamespace (stF s)) (GetPodName (fName (stF s)) name (tsIndex ts))
    (wCluster (stW s)) = (inl e, r0) ->
  IsNotFound e = true ->
  IsCompletingState (fsState st) = false ->
  tsDeletionPending ts = false ->
  GetTaskRoleSpec (fSpec (stF s)) name = Some rs ->
  syncTaskState c (Some owner) name idx s =
    (created <- createPod c (Some owner) name idx ;;
     match created with
     | (_, Some err) =>
         match Cause err with
         | Some apiErr =>
             if IsPodSpecPermanentError apiErr then
               cleaned <- getOrCleanupPod c (Some owner) name idx true ;;
               match cleaned.2 with
               | Some e => ret (Some e)
               | None =>
                   completeTaskAttempt c name idx true
                     (Some (NewTaskAttemptCompletionStatus
                              CompletionCodePodSpecPermanentError
                              ("Failed to create Pod: " +:+ ToJson apiErr) None)) ;;
                   ret None
               end
             else ret (Some err)
         | None => ret (Some err)
         end
     | (pod, None) =>
         pod <- deref pod ;;
         modifyTask name idx (fun ts =>
           tsWithAttemptStatus
             (taWithPod (Some (podUID pod)) (Some (taID (tsAttemptStatus ts), podUID pod))
                (tsAttemptStatus ts)) ts) ;;
         TransitionTaskState_ c name idx TaskAttemptCreationRequested ;;
         enqueueTaskAttemptCreationTimeoutCheck c name idx false ;;
         ret None
     end) (afterCall s r0).
Proof.
  intros Hst Hts Hstate Hget Hnf Hc Hdp Hspec.
  rewrite (syncTaskState_creation_pending c s st (Some owner) name idx ts e r0) by done.
  unfold syncTaskStateCreationPending.
  assert (Hst0 : fStatus (stF (afterCall s r0)) = Some st) by done.
  step (run_IsCompleting _ _ Hst0). rewrite Hc.
  step (run_TaskStatus _ _ _ _ _ Hst0 Hts). by rewrite Hdp, Hspec.
Qed.

Lemma run_enqueueTaskAttemptCreationTimeoutCheck c s st name idx ts cur sec (fail : bool) :
  GetTaskStatus st name idx = Some ts ->
  tsState cur = TaskAttemptCreationRequested ->
  ObjectLocalCacheCreationTimeoutSec (cConfig c) = Some sec ->
  let s0 := putTask s st name idx cur in
  let left := CurrentLeftDuration (tsTransitionTime cur) sec (clockNow c (wCluster (stW s))) in
  enqueueTaskAttemptCreationTimeoutCheck c name idx fail s0 =
    if IsTimeout left && fail then Some (false, s0) else Some (true, enqueuedAfter s0 left).
Proof.
  intros Hts Hstate Hsec s0 left. unfold enqueueTaskAttemptCreationTimeoutCheck.
  step (run_TaskStatus_put s st name idx ts cur Hts).
  rewrite Hstate, (bool_decide_eq_true_2 _ (eq_refl TaskAttemptCreationRequested)). red_if.
  by rewrite Hsec, run_enqueueFrameworkTimeoutCheck.
Qed.

(** X11. The creation of a task attempt: a task in
    TaskAttemptCreationPending that is not deletion pending, whose role is
    in the spec, of a Framework that is not completing, and whose Pod
    neither the local cache holds nor the remote refuses.  The Pod the
    controller asks the remote to create has the name of the task and the
    ConfigMap of the attempt as controller.  The sync returns without
    error; the task records the UID of the Pod the remote answered as its
    PodUID, the pair of the attempt id and that UID as its InstanceUID,
    and is in TaskAttemptCreationRequested as of now; and a check of the
    Framework is enqueued for the end of the timeout
    objectLocalCacheCreationTimeoutSec. *)
Theorem created_pod_is_recorded c s st owner name idx ts rs e r0 remotePod r1 sec :
  fStatus (stF s) = Some st ->
  GetTaskStatus st name idx = Some ts ->
  tsState ts = TaskAttemptCreationPending ->
  podLister_Get c (fNamespace (stF s)) (GetPodName (fName (stF s)) name (tsIndex ts))
    (wCluster (stW s)) = (inl e, r0) ->
  IsNotFound e = true ->
  IsCompletingState (fsState st) = false ->
  tsDeletionPending ts = false ->
  GetTaskRoleSpec (fSpec (stF s)) name = Some rs ->
  kClient_Pods_Create c (fNamespace (stF s)) (NewPod (stF s) owner name ts) r0
    = (inr remotePod, r1) ->
  ObjectLocalCacheCreationTimeoutSec (cConfig c) = Some sec ->
  exists ts',
    syncTaskState c (Some owner) name idx s
      = Some (None, enqueuedAfter (putTask (afterCall s r1) st name idx ts')
                      (CurrentLeftDuration (tsTransitionTime ts') sec (clockNow c r1)))
    /\ GetTaskStatus (alterTaskStatus name idx (fun _ => ts') st) name idx = Some ts'
    /\ podName (NewPod (stF s) owner name ts) = GetPodName (fName (stF s)) name (tsIndex ts)
    /\ podControllerUID (NewPod (stF s) owner name ts) = Some (cmUID owner)
    /\ taPodUID (tsAttemptStatus ts') = Some (podUID remotePod)
    /\ taInstanceUID (tsAttemptStatus ts') = Some (taID (tsAttemptStatus ts), podUID remotePod)
    /\ taID (tsAttemptStatus ts') = taID (tsAttemptStatus ts)
    /\ tsState ts' = TaskAttemptCreationRequested
    /\ tsTransitionTime ts' = clockNow c r1
    /\ tsCompletionStatus ts' = tsCompletionStatus ts
    /\ tsRetryPolicyStatus ts' = tsRetryPolicyStatus ts.
Proof.
  intros Hst Hts Hstate Hget Hnf Hc Hdp Hspec Hcreate Hsec.
  exists (podCreatedOn (podUID remotePod) (clockNow c r1) ts).
  split; [|split; [by apply GetTaskStatus_put with ts|by split_and!]].
  rewrite (syncTaskState_create_run c s st owner name idx ts rs e r0) by done.
  assert (Hst0 : fStatus (stF (afterCall s r0)) = Some st) by done.
  pose proof (run_createPod c owner name idx (afterCall s r0) st ts Hst0 Hts) as Hrun.
  cbv zeta in Hrun.
  change (kClient_Pods_Create c (fNamespace (stF (afterCall s r0)))
            (NewPod (stF (afterCall s r0)) owner name ts)
            (wCluster (stW (afterCall s r0))))
    with (kClient_Pods_Create c (fNamespace (stF s)) (NewPod (stF s) owner name ts) r0)
    in Hrun.
  rewrite Hcreate in Hrun. cbn [fst snd] in Hrun. step Hrun.
  cbn [deref]. rewrite bind_ret.
  assert (Hst1 : fStatus (stF (afterCall s r1)) = Some st) by done.
  change (afterCall (afterCall s r0) r1) with (afterCall s r1).
  rewrite <- (putTask_same (afterCall s r1) st name idx ts Hst1 Hts) at 1.
  rewrite (bind_run _ _ _ _ _ (run_modifyTask_put _ st name idx ts _ Hts _)).
  rewrite (bind_run _ _ _ _ _ (run_TransitionTaskState_put _ st name idx ts _ Hts c _)).
  pose proof (run_enqueueTaskAttemptCreationTimeoutCheck c (afterCall s r1) st name idx ts
                (podCreatedOn (podUID remotePod) (clockNow c r1) ts) sec false
                Hts eq_refl Hsec) as Hcheck.
  cbv zeta in Hcheck. rewrite andb_false_r in Hcheck. by step Hcheck.
Qed.

Lemma run_createPod_refused c owner name idx s st ts createErr r1 :
  fStatus (stF s) = Some st ->
  GetTaskStatus st name idx = Some ts ->
  kClient_Pods_Create c (fNamespace (stF s)) (NewPod (stF s) owner name ts) (wCluster (stW s))
    = (inl createErr, r1) ->
  let cached :=
    podLister_Get c (fNamespace (stF s)) (GetPodName (fName (stF s)) name (tsIndex ts)) r1 in
  createPod c (Some owner) name idx s =
    if IsAlreadyExists createErr
    then Some ((None, Some (createPodError createErr cached.1 owner)), afterCall s cached.2)
    else Some ((None, Some (Err (ErrCreate createErr))), afterCall s r1).
Proof.
  intros Hst Hts Hcreate cached.
  pose proof (run_createPod c owner name idx s st ts Hst Hts) as Hrun.
  cbv zeta in Hrun. by rewrite Hcreate in Hrun.
Qed.

(** X12. When the remote refuses to create the Pod of a task with an
    error that is not a permanent error of the Pod spec, the sync returns
    an error that wraps the error of the remote and leaves the Framework
    and the queue as they are: the task stays in
    TaskAttemptCreationPending, for a later sync to try again.  The error
    reports a naming conflict exactly when the name is already taken and
    the local cache holds a Pod of that name that the ConfigMap of the
    attempt does not control. *)
Theorem refused_pod_creation_is_returned c s st owner name idx ts rs e r0 createErr r1 :
  fStatus (stF s) = Some st ->
  GetTaskStatus st name idx = Some ts ->
  tsState ts = TaskAttemptCreationPending ->
  let ns := fNamespace (stF s) in
  let pn := GetPodName (fName (stF s)) name (tsIndex ts) in
  podLister_Get c ns pn (wCluster (stW s)) = (inl e, r0) ->
  IsNotFound e = true ->
  IsCompletingState (fsState st) = false ->
  tsDeletionPending ts = false ->
  GetTaskRoleSpec (fSpec (stF s)) name = Some rs ->
  kClient_Pods_Create c ns (NewPod (stF s) owner name ts) r0 = (inl createErr, r1) ->
  IsPodSpecPermanentError createErr = false ->
  exists err s',
    syncTaskState c (Some owner) name idx s = Some (Some (Err err), s')
    /\ Cause (Err err) = Some createErr
    /\ stF s' = stF s
    /\ wQueue (stW s') = wQueue (stW s)
    /\ ((exists uid, err = ErrCreateNamingConflict createErr uid) <->
        (IsAlreadyExists createErr = true
         /\ exists localPod,
              (podLister_Get c ns pn r1).1 = inr localPod
              /\ IsControlledBy (podControllerUID localPod) (cmUID owner) = false)).
Proof.
  intros Hst Hts Hstate ns pn Hget Hnf Hc Hdp Hspec Hcreate Hperm.
  rewrite (syncTaskState_create_run c s st owner name idx ts rs e r0) by done.
  assert (Hst0 : fStatus (stF (afterCall s r0)) = Some st) by done.
  pose proof (run_createPod_refused c owner name idx (afterCall s r0) st ts createErr r1
                Hst0 Hts Hcreate) as Hrun.
  cbv zeta in Hrun.
  change (podLister_Get c (fNamespace (stF (afterCall s r0)))
            (GetPodName (fName (stF (afterCall s r0))) name (tsIndex ts)) r1)
    with (podLister_Get c ns pn r1) in Hrun.
  destruct (IsAlreadyExists createErr) eqn:Hae.
  - destruct (podLister_Get c ns pn r1) as [cached r2]. cbn [fst snd] in *.
    step Hrun. unfold createPodError.
    destruct cached as [e2|localPod].
    + cbn [Cause]. rewrite Hperm. eexists _, _. split; [done|]. split_and!; try done.
      split; [by intros [uid [=]]|]. by intros [_ (localPod & [=] & _)].
    + destruct (IsControlledBy (podControllerUID localPod) (cmUID owner)) eqn:Hctl.
      * cbn [Cause]. rewrite Hperm. eexists _, _. split; [done|]. split_and!; try done.
        split; [by intros [uid [=]]|]. intros [_ (localPod' & [= <-] & Hctl')]. congruence.
      * cbn [Cause]. rewrite Hperm. eexists _, _. split; [done|]. split_and!; try done.
        split; [|by eexists]. intros _. split; [done|]. by exists localPod.
  - step Hrun. cbn [Cause]. rewrite Hperm. eexists _, _. split; [done|].
    split_and!; try done. split; [by intros [uid [=]]|]. by intros [[=] _].
Qed.

(** X13. When the remote refuses to create the Pod of a task with a
    permanent error of the Pod spec, the controller confirms with the
    remote that no Pod of the task is left, and then completes the task
    attempt, forced: the sync returns without error, the task is in
    TaskAttemptCompleted, its CompletionStatus is the one of code
    PodSpecPermanentError unless one was recorded before, and a sync of
    the Framework is enqueued. *)
Theorem permanent_pod_spec_error_completes_task
    c s st owner name idx ts rs e r0 createErr r1 e2 r2 :
  fStatus (stF s) = Some st ->
  GetTaskStatus st name idx = Some ts ->
  tsState ts = TaskAttemptCreationPending ->
  let ns := fNamespace (stF s) in
  let pn := GetPodName (fName (stF s)) name (tsIndex ts) in
  podLister_Get c ns pn (wCluster (stW s)) = (inl e, r0) ->
  IsNotFound e = true ->
  IsCompletingState (fsState st) = false ->
  tsDeletionPending ts = false ->
  GetTaskRoleSpec (fSpec (stF s)) name = Some rs ->
  kClient_Pods_Create c ns (NewPod (stF s) owner name ts) r0 = (inl createErr, r1) ->
  IsPodSpecPermanentError createErr = true ->
  IsAlreadyExists createErr = false ->
  kClient_Pods_Get c ns pn r1 = (inl e2, r2) ->
  IsNotFound e2 = true ->
  exists ts',
    syncTaskState c (Some owner) name idx s
      = Some (None, enqueued (putTask (afterCall s r2) st name idx ts'))
    /\ GetTaskStatus (alterTaskStatus name idx (fun _ => ts') st) name idx = Some ts'
    /\ tsState ts' = TaskAttemptCompleted
    /\ tsTransitionTime ts' = clockNow c r2
    /\ tsCompletionStatus ts' =
         match tsCompletionStatus ts with
         | Some old => Some old
         | None => Some (PodSpecPermanentErrorStatus createErr)
         end
    /\ csCode (tacsCompletionStatus (PodSpecPermanentErrorStatus createErr))
       = CompletionCodePodSpecPermanentError.
Proof.
  intros Hst Hts Hstate ns pn Hget Hnf Hc Hdp Hspec Hcreate Hperm Hae Hget2 Hnf2.
  exists (completeTaskAttemptOn true (Some (PodSpecPermanentErrorStatus createErr))
            (clockNow c r2) ts).
  split; [|split; [by apply GetTaskStatus_put with ts|]].
  - rewrite (syncTaskState_create_run c s st owner name idx ts rs e r0) by done.
    assert (Hst0 : fStatus (stF (afterCall s r0)) = Some st) by done.
    pose proof (run_createPod_refused c owner name idx (afterCall s r0) st ts createErr r1
                  Hst0 Hts Hcreate) as Hrun.
    cbv zeta in Hrun. rewrite Hae in Hrun. step Hrun. cbn [Cause]. rewrite Hperm.
    assert (Hst1 : fStatus (stF (afterCall s r1)) = Some st) by done.
    change (afterCall (afterCall s r0) r1) with (afterCall s r1).
    step (run_getOrCleanupPod_not_found c (Some owner) name idx true (afterCall s r1) st ts
            e2 r2 Hst1 Hts Hget2 Hnf2).
    cbn [snd]. change (afterCall (afterCall s r1) r2) with (afterCall s r2).
    assert (Hst2 : fStatus (stF (afterCall s r2)) = Some st) by done.
    rewrite <- (putTask_same (afterCall s r2) st name idx ts Hst2 Hts) at 1.
    by rewrite (bind_run _ _ _ _ _ (run_completeTaskAttempt_put _ st name idx ts _ Hts c _ _)).
  - split_and!; try done. apply tsCompletionStatus_completeTaskAttemptOn.
Qed.

(** ** The sync of the Framework against its ConfigMap *)

(** X14. A Framework in FrameworkCompleted is kept for
    frameworkCompletedRetainSec after its completion and then deleted.
    While time is left, the sync returns without error, enqueues a check
    of the Framework for the time that is left, and asks the cluster
    nothing.  Once the time is over, the sync asks the remote to delete
    the Framework, in the foreground and with the UID of the Framework as
    precondition, confirms the deletion, and returns what the deletion
    returns; the status is not touched. *)
Theorem completed_framework_is_deleted_after_retain c s st sec :
  fStatus (stF s) = Some st ->
  fsState st = FrameworkCompleted ->
  FrameworkCompletedRetainSec (cConfig c) = Some sec ->
  let left := fsTransitionTime st + sec - clockNow c (wCluster (stW s)) in
  let ns := fNamespace (stF s) in
  let outcome :=
    deleteOutcome (fUID (stF s)) fUID fDeletionTimestamp true
      (fClient_Frameworks_Delete c ns (fName (stF s))
         {| doPreconditionUID := fUID (stF s); doGracePeriodSeconds := None;
            doForeground := true |} (wCluster (stW s)))
      (fClient_Frameworks_Get c ns (fName (stF s))) in
  syncFrameworkState c s =
    if bool_decide (0 < left)
    then Some (None, enqueuedAfter s left)
    else Some (outcome.1, afterCall s outcome.2).
Proof.
  intros Hst Hstate Hsec left ns outcome. unfold syncFrameworkState.
  step (run_status _ _ Hst).
  rewrite Hstate, (bool_decide_eq_true_2 _ (eq_refl FrameworkCompleted)).
  assert (Hcheck : enqueueFrameworkCompletedRetainTimeoutCheck c true s
                   = if bool_decide (0 < left) then Some (true, enqueuedAfter s left)
                     else Some (false, s)).
  { unfold enqueueFrameworkCompletedRetainTimeoutCheck. step (run_status _ _ Hst).
    rewrite Hstate, (bool_decide_eq_true_2 _ (eq_refl FrameworkCompleted)). red_if.
    rewrite Hsec, run_enqueueFrameworkTimeoutCheck. cbv zeta.
    unfold IsTimeout, CurrentLeftDuration. fold left. rewrite andb_true_r.
    destruct (bool_decide (0 < left)) eqn:Hl.
    - apply bool_decide_eq_true_1 in Hl. by rewrite bool_decide_eq_false_2 by lia.
    - apply bool_decide_eq_false_1 in Hl. by rewrite bool_decide_eq_true_2 by lia. }
  destruct (bool_decide (0 < left)); step Hcheck; [done|].
  exact (run_deleteFramework c s true).
Qed.

Lemma allTasks_mapTasks h st : allTasks (mapTasks h st) = h <$> allTasks st.
Proof.
  unfold allTasks, mapTasks. rewrite TaskRoleStatuses_with.
  induction (TaskRoleStatuses st) as [|trs l IH]; [done|].
  rewrite fmap_cons, !bind_cons, fmap_app, IH. done.
Qed.

Lemma forced_tasks_completed cs t st :
  Forall (fun ts => tsState ts = TaskCompleted)
    (allTasks (completeFrameworkAttemptOn true cs t st)).
Proof.
  unfold completeFrameworkAttemptOn.
  change (allTasks (TransitionFrameworkState ?a ?b ?x)) with (allTasks x).
  rewrite allTasks_mapTasks. apply Forall_fmap, Forall_forall. intros ts _. simpl.
  unfold forceCompleteTask.
  destruct (bool_decide (tsState ts = TaskCompleted)) eqn:Hs; [|done].
  by apply bool_decide_eq_true_1 in Hs.
Qed.

Lemma run_completeFrameworkAttempt c s st force cs :
  fStatus (stF s) = Some st ->
  (force = true -> WellIndexed st) ->
  completeFrameworkAttempt c force cs s = Some (tt, completedAttempt c force cs s st).
Proof. apply completeFrameworkAttempt_run. Qed.

Lemma run_getOrCleanupConfigMap_not_found c (confirm : bool) s st e r1 :
  fStatus (stF s) = Some st ->
  (if confirm then kClient_ConfigMaps_Get c else cmLister_Get c)
    (fNamespace (stF s)) (ConfigMapName (stF s)) (wCluster (stW s)) = (inl e, r1) ->
  IsNotFound e = true ->
  getOrCleanupConfigMap c confirm s = Some ((None, None), afterCall s r1).
Proof.
  intros Hst Hget Hnf. rewrite (run_getOrCleanupConfigMap c confirm s st _ _ Hst Hget).
  by rewrite Hnf.
Qed.

(** The first steps of [syncFrameworkState] on a Framework whose ConfigMap
    the local cache does not hold. *)
Lemma syncFrameworkState_cm_absent c s st e r0 :
  fStatus (stF s) = Some st ->
  fsState st <> FrameworkCompleted ->
  fsState st <> FrameworkAttemptCompleted ->
  cmLister_Get c (fNamespace (stF s)) (ConfigMapName (stF s)) (wCluster (stW s))
    = (inl e, r0) ->
  IsNotFound e = true ->
  exists K,
    syncFrameworkState c s = syncFrameworkStateConfigMapAbsent c K (afterCall s r0)
    /\ (fsState st = FrameworkAttemptCreationPending ->
        forall s1, fStatus (stF s1) = Some st ->
                   K s1 = syncFrameworkStateCreationPending c s1).
Proof.
  intros Hst Hs1 Hs2 Hget Hnf. eexists. split.
  - unfold syncFrameworkState. step (run_status _ _ Hst).
    rewrite (bool_decide_eq_false_2 _ Hs1), (bool_decide_eq_false_2 _ Hs2). red_if.
    step (run_getOrCleanupConfigMap_not_found c false s st e r0 Hst Hget Hnf).
    reflexivity.
  - intros Hcp s1 Hst1. cbv beta.
    step (run_status _ _ Hst1). rewrite (bool_decide_eq_false_2 _ Hs2).
    step (run_status _ _ Hst1). by rewrite Hcp, bool_decide_eq_true_2.
Qed.

(** X15. A Framework in one of Preparing, Running, DeletionPending,
    DeletionRequested, Deleting (its ConfigMap has been seen) whose
    ConfigMap the local cache does not hold any more: the sync returns
    without error, the only call to the cluster is the Get of the
    ConfigMap, and the FrameworkAttempt is completed, forced: the
    Framework is in FrameworkAttemptCompleted as of now, its
    CompletionStatus is the one recorded before if there is one and
    otherwise the one of code ConfigMapExternalDeleted, and every task is
    in TaskCompleted. *)
Theorem configmap_deleted_by_others_completes_attempt c s st e r0 :
  fStatus (stF s) = Some st ->
  WellIndexed st ->
  fsState st = FrameworkAttemptPreparing \/ fsState st = FrameworkAttemptRunning
    \/ fsState st = FrameworkAttemptDeletionPending
    \/ fsState st = FrameworkAttemptDeletionRequested
    \/ fsState st = FrameworkAttemptDeleting ->
  cmLister_Get c (fNamespace (stF s)) (ConfigMapName (stF s)) (wCluster (stW s))
    = (inl e, r0) ->
  IsNotFound e = true ->
  exists s' st',
    syncFrameworkState c s = Some (None, s')
    /\ fStatus (stF s') = Some st'
    /\ wCluster (stW s') = r0
    /\ fsState st' = FrameworkAttemptCompleted
    /\ fsTransitionTime st' = clockNow c r0
    /\ faCompletionStatus (fsAttemptStatus st') =
         match faCompletionStatus (fsAttemptStatus st) with
         | Some old => Some old
         | None => Some ConfigMapExternalDeletedStatus
         end
    /\ csCode (facsCompletionStatus ConfigMapExternalDeletedStatus)
       = CompletionCodeConfigMapExternalDeleted
    /\ Forall (fun ts => tsState ts = TaskCompleted) (allTasks st').
Proof.
  intros Hst Hwf Hstate Hget Hnf.
  assert (Hs : fsState st <> FrameworkCompleted /\ fsState st <> FrameworkAttemptCompleted
               /\ bool_decide (fsState st = FrameworkAttemptCreationRequested) = false
               /\ bool_decide (fsState st = FrameworkAttemptCreationPending) = false)
    by (destruct Hstate as [-> | [-> | [-> | [-> | ->]]]]; done).
  destruct Hs as (Hs1 & Hs2 & Hs3 & Hs4).
  destruct (syncFrameworkState_cm_absent c s st e r0 Hst Hs1 Hs2 Hget Hnf) as (K & -> & _).
  assert (Hst0 : fStatus (stF (afterCall s r0)) = Some st) by done.
  set (cs := match faCompletionStatus (fsAttemptStatus st) with
             | None => Some ConfigMapExternalDeletedStatus | Some _ => None end).
  exists (completedAttempt c true cs (afterCall s r0) st). eexists.
  split; [|split; [reflexivity|]].
  - unfold syncFrameworkStateConfigMapAbsent.
    rewrite (bind_run _ _ _ _ _ (run_gets _ _)). step (run_status _ _ Hst0).
    rewrite Hs3, Hs4. red_if. unfold cs.
    destruct (faCompletionStatus (fsAttemptStatus st));
      by rewrite (bind_run _ _ _ _ _
                    (run_completeFrameworkAttempt c _ st true _ Hst0 (fun _ => Hwf))).
  - split_and!.
    + unfold completedAttempt, completeFrameworkAttemptWorld. simpl.
      apply wCluster_foldl_forceCompleteWorld.
    + apply fsState_completeFrameworkAttemptOn.
    + done.
    + rewrite faCompletionStatus_completeFrameworkAttemptOn. unfold cs.
      by destruct (faCompletionStatus (fsAttemptStatus st)).
    + done.
    + apply forced_tasks_completed.
Qed.

(** X16. A Framework in FrameworkAttemptCreationRequested whose ConfigMap
    the local cache does not hold.  Unless the user asked to stop the
    Framework, the controller waits for the ConfigMap until the timeout
    objectLocalCacheCreationTimeoutSec: while time is left the sync
    returns without error, changes nothing and enqueues a check for the
    time that is left.  After the timeout, or at once on a stop request,
    it asks the remote to delete the ConfigMap, with the recorded
    ConfigMapUID as precondition, and confirms the deletion.  When the
    deletion or its confirmation fails, the sync returns that error and
    the Framework is as before.  Otherwise the sync returns without error
    and has completed the FrameworkAttempt, forced: the Framework is in
    FrameworkAttemptCompleted, the CompletionStatus is the one of code
    StopFrameworkRequested on a stop request and ConfigMapCreationTimeout
    otherwise, unless one was recorded before, and every task is in
    TaskCompleted. *)
Theorem configmap_creation_timeout_completes_attempt c s st e r0 uid sec :
  fStatus (stF s) = Some st ->
  WellIndexed st ->
  fsState st = FrameworkAttemptCreationRequested ->
  let ns := fNamespace (stF s) in
  cmLister_Get c ns (ConfigMapName (stF s)) (wCluster (stW s)) = (inl e, r0) ->
  IsNotFound e = true ->
  faConfigMapUID (fsAttemptStatus st) = Some uid ->
  ObjectLocalCacheCreationTimeoutSec (cConfig c) = Some sec ->
  let stop := bool_decide (spExecutionType (fSpec (stF s)) = ExecutionStop) in
  let left := fsTransitionTime st + sec - clockNow c r0 in
  let cs := if stop then StopFrameworkRequestedStatus else ConfigMapCreationTimeoutStatus c in
  let outcome :=
    deleteOutcome uid cmUID cmDeletionTimestamp true
      (kClient_ConfigMaps_Delete c ns (ConfigMapName (stF s))
         {| doPreconditionUID := uid; doGracePeriodSeconds := None; doForeground := false |}
         r0)
      (kClient_ConfigMaps_Get c ns (ConfigMapName (stF s))) in
  (stop = false -> 0 < left ->
   syncFrameworkState c s = Some (None, enqueuedAfter (afterCall s r0) left))
  /\ (stop = true \/ left ≤ 0 ->
      (forall err, outcome.1 = Some err ->
         syncFrameworkState c s = Some (Some err, afterCall s outcome.2))
      /\ (outcome.1 = None ->
          exists s' st',
            syncFrameworkState c s = Some (None, s')
            /\ fStatus (stF s') = Some st'
            /\ wCluster (stW s') = outcome.2
            /\ fsState st' = FrameworkAttemptCompleted
            /\ faCompletionStatus (fsAttemptStatus st') =
                 match faCompletionStatus (fsAttemptStatus st) with
                 | Some old => Some old
                 | None => Some cs
                 end
            /\ csCode (facsCompletionStatus cs) =
                 (if stop then CompletionCodeStopFrameworkRequested
                  else CompletionCodeConfigMapCreationTimeout)
            /\ Forall (fun ts => tsState ts = TaskCompleted) (allTasks st'))).
Proof.
  intros Hst Hwf Hstate ns Hget Hnf Huid Hsec stop left cs outcome.
  assert (Hs1 : fsState st <> FrameworkCompleted) by (by rewrite Hstate).
  assert (Hs2 : fsState st <> FrameworkAttemptCompleted) by (by rewrite Hstate).
  destruct (syncFrameworkState_cm_absent c s st e r0 Hst Hs1 Hs2 Hget Hnf) as (K & -> & _).
  assert (Hst0 : fStatus (stF (afterCall s r0)) = Some st) by done.
  unfold syncFrameworkStateConfigMapAbsent.
  rewrite (bind_run _ _ _ _ _ (run_gets _ _)). step (run_status _ _ Hst0).
  rewrite Hstate, (bool_decide_eq_true_2 _ (eq_refl FrameworkAttemptCreationRequested)).
  change (bool_decide (spExecutionType (fSpec (stF (afterCall s r0))) = ExecutionStop))
    with stop.
  assert (Hcheck : enqueueFrameworkAttemptCreationTimeoutCheck c true (afterCall s r0)
                   = if bool_decide (0 < left)
                     then Some (true, enqueuedAfter (afterCall s r0) left)
                     else Some (false, afterCall s r0)).
  { unfold enqueueFrameworkAttemptCreationTimeoutCheck. step (run_status _ _ Hst0).
    rewrite Hstate, (bool_decide_eq_true_2 _ (eq_refl FrameworkAttemptCreationRequested)).
    red_if. rewrite Hsec, run_enqueueFrameworkTimeoutCheck. cbv zeta.
    unfold IsTimeout, CurrentLeftDuration.
    change (clockNow c (wCluster (stW (afterCall s r0)))) with (clockNow c r0).
    fold left. rewrite andb_true_r.
    destruct (bool_decide (0 < left)) eqn:Hl.
    - apply bool_decide_eq_true_1 in Hl. by rewrite bool_decide_eq_false_2 by lia.
    - apply bool_decide_eq_false_1 in Hl. by rewrite bool_decide_eq_true_2 by lia. }
  pose proof (run_deleteConfigMap c (afterCall s r0) uid true) as Hdel.
  cbv zeta in Hdel.
  change (fNamespace (stF (afterCall s r0))) with ns in Hdel.
  change (ConfigMapName (stF (afterCall s r0))) with (ConfigMapName (stF s)) in Hdel.
  change (wCluster (stW (afterCall s r0))) with r0 in Hdel. fold outcome in Hdel.
  assert (Hdecided :
    forall diag code,
      cs = NewFrameworkAttemptCompletionStatus code diag None ->
      (match Some (diag, code) with
       | None => ret None
       | Some (diag, code) =>
           uid <- deref (faConfigMapUID (fsAttemptStatus st)) ;;
           err <- deleteConfigMap c uid true ;;
           match err with
           | Some e => ret (Some e)
           | None =>
               completeFrameworkAttempt c true
                 (Some (NewFrameworkAttemptCompletionStatus code diag None)) ;;
               ret None
           end
       end) (afterCall s r0)
      = match outcome.1 with
        | Some err => Some (Some err, afterCall s outcome.2)
        | None => Some (None, completedAttempt c true (Some cs) (afterCall s outcome.2) st)
        end).
  { intros diag code ->. cbv iota beta. rewrite Huid. cbn [deref]. rewrite bind_ret.
    step Hdel. destruct outcome as [[err|] r1]; [done|]. cbn [fst snd].
    assert (Hst1 : fStatus (stF (afterCall s r1)) = Some st) by done.
    by rewrite (bind_run _ _ _ _ _
                  (run_completeFrameworkAttempt c _ st true _ Hst1 (fun _ => Hwf))). }
  split.
  - intros Hstop Hleft. rewrite Hstop.
    assert (Hw : (waiting <- enqueueFrameworkAttemptCreationTimeoutCheck c true ;;
                  if waiting then ret None
                  else ret (Some
                    ("ConfigMap does not appear in the local cache within timeout " +:+
                       SecToDuration (ObjectLocalCacheCreationTimeoutSec (cConfig c)) +:+
                       ", so consider it was deleted and explicitly delete it",
                     CompletionCodeConfigMapCreationTimeout))) (afterCall s r0)
                 = Some (None, enqueuedAfter (afterCall s r0) left)).
    { rewrite (bool_decide_eq_true_2 _ Hleft) in Hcheck. by step Hcheck. }
    by step Hw.
  - intros Hfire.
    assert (Hrun :
      (decided <-
         (if stop then
            ret (Some (DiagStopFrameworkRequested, CompletionCodeStopFrameworkRequested))
          else
            waiting <- enqueueFrameworkAttemptCreationTimeoutCheck c true ;;
            if waiting then ret None
            else ret (Some
              ("ConfigMap does not appear in the local cache within timeout " +:+
                 SecToDuration (ObjectLocalCacheCreationTimeoutSec (cConfig c)) +:+
                 ", so consider it was deleted and explicitly delete it",
               CompletionCodeConfigMapCreationTimeout))) ;;
       match decided with
       | None => ret None
       | Some (diag, code) =>
           uid <- deref (faConfigMapUID (fsAttemptStatus st)) ;;
           err <- deleteConfigMap c uid true ;;
           match err with
           | Some e => ret (Some e)
           | None =>
               completeFrameworkAttempt c true
                 (Some (NewFrameworkAttemptCompletionStatus code diag None)) ;;
               ret None
           end
       end) (afterCall s r0)
      = match outcome.1 with
        | Some err => Some (Some err, afterCall s outcome.2)
        | None => Some (None, completedAttempt c true (Some cs) (afterCall s outcome.2) st)
        end).
    { unfold cs in *. destruct stop eqn:Hstop.
      - rewrite bind_ret. by apply Hdecided.
      - destruct Hfire as [|Hle]; [done|].
        rewrite bool_decide_eq_false_2 in Hcheck by lia.
        assert (Hw : (waiting <- enqueueFrameworkAttemptCreationTimeoutCheck c true ;;
                      if waiting then ret None
                      else ret (Some
                        ("ConfigMap does not appear in the local cache within timeout " +:+
                           SecToDuration (ObjectLocalCacheCreationTimeoutSec (cConfig c)) +:+
                           ", so consider it was deleted and explicitly delete it",
                         CompletionCodeConfigMapCreationTimeout))) (afterCall s r0)
                     = Some (Some
                        ("ConfigMap does not appear in the local cache within timeout " +:+
                           SecToDuration (ObjectLocalCacheCreationTimeoutSec (cConfig c)) +:+
                           ", so consider it was deleted and explicitly delete it",
                         CompletionCodeConfigMapCreationTimeout), afterCall s r0))
          by (by step Hcheck).
        step Hw. by apply Hdecided. }
    rewrite Hrun. split.
    + intros err Herr. by rewrite Herr.
    + intros Hnone. rewrite Hnone. eexists _, _. split; [reflexivity|].
      split; [reflexivity|]. split_and!.
      * unfold completedAttempt, completeFrameworkAttemptWorld. simpl.
        apply wCluster_foldl_forceCompleteWorld.
      * apply fsState_completeFrameworkAttemptOn.
      * apply faCompletionStatus_completeFrameworkAttemptOn.
      * unfold cs. by destruct stop.
      * apply forced_tasks_completed.
Qed.

(** ** The end of a FrameworkAttempt *)

(** The first steps of [syncFrameworkState] on a Framework in
    [FrameworkAttemptCompleted], up to the retry decision. *)
Lemma syncFrameworkState_decide c s st cs minDelay maxDelay d r :
  fStatus (stF s) = Some st ->
  fsState st = FrameworkAttemptCompleted ->
  faCompletionStatus (fsAttemptStatus st) = Some cs ->
  FrameworkMinRetryDelaySecForTransientConflictFailed (cConfig c) = Some minDelay ->
  FrameworkMaxRetryDelaySecForTransientConflictFailed (cConfig c) = Some maxDelay ->
  RetryPolicy_ShouldRetry c (spRetryPolicy (fSpec (stF s))) (fsRetryPolicyStatus st)
    (facsCompletionStatus cs) minDelay maxDelay (wCluster (stW s)) = (d, r) ->
  exists K,
    syncFrameworkState c s =
      (decided <-
         match RetryDelaySec (fsRetryPolicyStatus st) with
         | None =>
             if ShouldRetry d then
               modifyStatus (fun st =>
                 fsWithRetryPolicyStatus
                   (rpsWithRetryDelaySec (Some (DelaySec d))
                      (fsRetryPolicyStatus st)) st) ;;
               ret true
             else
               TransitionFrameworkState_ c FrameworkCompleted ;;
               enqueueFrameworkCompletedRetainTimeoutCheck c false ;;
               ret false
         | Some _ => ret true
         end ;;
       if negb decided then ret None
       else
         st <- status ;;
         match RetryDelaySec (fsRetryPolicyStatus st) with
         | Some _ =>
             waiting <-
               (if bool_decide (spExecutionType (fSpec (stF s)) = ExecutionStop)
                then ret false
                else enqueueFrameworkRetryDelayTimeoutCheck c true) ;;
             if waiting then ret None
             else
               retryFramework c d ;;
               enqueueFrameworkSync c ;;
               ret None
         | None => K
         end) (afterCall s r).
Proof.
  intros Hst Hstate Hcs Hmin Hmax Hd. eexists.
  unfold syncFrameworkState.
  rewrite (bind_run _ _ _ _ _ (run_status _ _ Hst)). rewrite Hstate. simpl.
  rewrite (bind_run _ _ _ _ _ (run_status _ _ Hst)). rewrite Hstate. simpl.
  unfold syncFrameworkStateAttemptCompleted.
  unfold bind at 1. unfold gets at 1.
  rewrite (bind_run _ _ _ _ _ (run_status _ _ Hst)). rewrite Hcs, Hmin, Hmax.
  simpl deref. rewrite !bind_ret.
  rewrite (bind_run _ _ _ _ _ (run_call _ _ _ _ Hd)).
  reflexivity.
Qed.

(** X17. A Framework in FrameworkAttemptCompleted for which no retry is
    scheduled and whose retry decision says not to retry is completed: the
    sync returns without error, the Framework is in FrameworkCompleted as
    of now with its attempt and its retry counts as they were, and a
    check of the Framework is enqueued for the end of
    frameworkCompletedRetainSec.  The cluster is only asked for the retry
    decision: nothing is created or deleted. *)
Theorem framework_completes_when_not_retried c s st cs minDelay maxDelay d r sec :
  fStatus (stF s) = Some st ->
  fsState st = FrameworkAttemptCompleted ->
  faCompletionStatus (fsAttemptStatus st) = Some cs ->
  FrameworkMinRetryDelaySecForTransientConflictFailed (cConfig c) = Some minDelay ->
  FrameworkMaxRetryDelaySecForTransientConflictFailed (cConfig c) = Some maxDelay ->
  RetryPolicy_ShouldRetry c (spRetryPolicy (fSpec (stF s))) (fsRetryPolicyStatus st)
    (facsCompletionStatus cs) minDelay maxDelay (wCluster (stW s)) = (d, r) ->
  RetryDelaySec (fsRetryPolicyStatus st) = None ->
  ShouldRetry d = false ->
  FrameworkCompletedRetainSec (cConfig c) = Some sec ->
  exists st',
    syncFrameworkState c s
      = Some (None, enqueuedAfter (setStatus (afterCall s r) st')
                      (CurrentLeftDuration (fsTransitionTime st') sec (clockNow c r)))
    /\ fsState st' = FrameworkCompleted
    /\ fsTransitionTime st' = clockNow c r
    /\ fsAttemptStatus st' = fsAttemptStatus st
    /\ fsRetryPolicyStatus st' = fsRetryPolicyStatus st.
Proof.
  intros Hst Hstate Hcs Hmin Hmax Hd Hrd Hno Hsec.
  destruct (syncFrameworkState_decide c s st cs minDelay maxDelay d r
              Hst Hstate Hcs Hmin Hmax Hd) as [K ->].
  rewrite Hrd, Hno.
  exists (TransitionFrameworkState FrameworkCompleted (clockNow c r) st).
  split; [|done].
  set (s1 := afterCall s r).
  assert (Hst1 : fStatus (stF s1) = Some st) by done.
  set (st1 := TransitionFrameworkState FrameworkCompleted (clockNow c r) st).
  assert (Hst2 : fStatus (stF (setStatus s1 st1)) = Some st1) by done.
  assert (Hdecided :
    (TransitionFrameworkState_ c FrameworkCompleted ;;
     enqueueFrameworkCompletedRetainTimeoutCheck c false ;;
     ret false) s1
    = Some (false, enqueuedAfter (setStatus s1 st1)
                     (CurrentLeftDuration (fsTransitionTime st1) sec (clockNow c r)))).
  { rewrite (bind_run _ _ _ _ _ (run_TransitionFrameworkState_ c s1 st _ Hst1)).
    assert (Hcheck : enqueueFrameworkCompletedRetainTimeoutCheck c false (setStatus s1 st1)
                     = Some (true, enqueuedAfter (setStatus s1 st1)
                          (CurrentLeftDuration (fsTransitionTime st1) sec (clockNow c r)))).
    { unfold enqueueFrameworkCompletedRetainTimeoutCheck. step (run_status _ _ Hst2).
      change (fsState st1) with FrameworkCompleted.
      rewrite (bool_decide_eq_true_2 _ (eq_refl FrameworkCompleted)). red_if.
      rewrite Hsec, run_enqueueFrameworkTimeoutCheck. cbv zeta.
      by rewrite andb_false_r. }
    by step Hcheck. }
  by step Hdecided.
Qed.

(** X18. A Framework in FrameworkAttemptCompleted whose retry is scheduled
    but has not reached its delay, and that the user did not ask to
    stop, is not retried yet: the sync returns without error, the
    Framework stays in FrameworkAttemptCompleted with its attempt and its
    retry counts as they were, the delay of the decision is recorded as
    retryDelaySec when none was recorded, and a check of the Framework is
    enqueued for the time that is left of the delay. *)
Theorem framework_retry_waits_for_delay c s st cs minDelay maxDelay d r delay :
  fStatus (stF s) = Some st ->
  fsState st = FrameworkAttemptCompleted ->
  faCompletionStatus (fsAttemptStatus st) = Some cs ->
  FrameworkMinRetryDelaySecForTransientConflictFailed (cConfig c) = Some minDelay ->
  FrameworkMaxRetryDelaySecForTransientConflictFailed (cConfig c) = Some maxDelay ->
  RetryPolicy_ShouldRetry c (spRetryPolicy (fSpec (stF s))) (fsRetryPolicyStatus st)
    (facsCompletionStatus cs) minDelay maxDelay (wCluster (stW s)) = (d, r) ->
  scheduledRetryDelay (fsRetryPolicyStatus st) d = Some delay ->
  spExecutionType (fSpec (stF s)) <> ExecutionStop ->
  0 < fsTransitionTime st + delay - clockNow c r ->
  exists st',
    syncFrameworkState c s
      = Some (None, enqueuedAfter (setStatus (afterCall s r) st')
                      (fsTransitionTime st + delay - clockNow c r))
    /\ fsState st' = FrameworkAttemptCompleted
    /\ fsTransitionTime st' = fsTransitionTime st
    /\ fsAttemptStatus st' = fsAttemptStatus st
    /\ RetryDelaySec (fsRetryPolicyStatus st') = Some delay
    /\ TotalRetriedCount (fsRetryPolicyStatus st') = TotalRetriedCount (fsRetryPolicyStatus st)
    /\ AccountableRetriedCount (fsRetryPolicyStatus st')
       = AccountableRetriedCount (fsRetryPolicyStatus st).
Proof.
  intros Hst Hstate Hcs Hmin Hmax Hd Hdelay Hgo Hleft.
  destruct (syncFrameworkState_decide c s st cs minDelay maxDelay d r
              Hst Hstate Hcs Hmin Hmax Hd) as [K ->].
  set (s1 := afterCall s r).
  assert (Hst1 : fStatus (stF s1) = Some st) by done.
  set (st2 := fsWithRetryPolicyStatus
                (rpsWithRetryDelaySec (Some delay) (fsRetryPolicyStatus st)) st).
  exists st2. split; [|by split_and!].
  assert (Hdecide :
    match RetryDelaySec (fsRetryPolicyStatus st) with
    | Some _ => ret true
    | None =>
        if ShouldRetry d then
          modifyStatus (fun st0 =>
            fsWithRetryPolicyStatus
              (rpsWithRetryDelaySec (Some (DelaySec d)) (fsRetryPolicyStatus st0)) st0) ;;
          ret true
        else
          TransitionFrameworkState_ c FrameworkCompleted ;;
          enqueueFrameworkCompletedRetainTimeoutCheck c false ;;
          ret false
    end s1 = Some (true, setStatus s1 st2)).
  { unfold scheduledRetryDelay in Hdelay. subst st2.
    destruct (RetryDelaySec (fsRetryPolicyStatus st)) as [d0|] eqn:Hrds.
    - injection Hdelay as ->. unfold ret. f_equal. f_equal.
      rewrite <- (setStatus_same s1 st Hst1) at 1. f_equal.
      destruct st as [? ? [] ?]. simpl in *. by subst.
    - destruct (ShouldRetry d); [|done]. injection Hdelay as <-.
      erewrite bind_run;
        [|exact (run_modifyStatus _ _ (fun st0 =>
            fsWithRetryPolicyStatus
              (rpsWithRetryDelaySec (Some (DelaySec d)) (fsRetryPolicyStatus st0)) st0) Hst1)].
      done. }
  step Hdecide. red_if.
  set (s2 := setStatus s1 st2).
  assert (Hst2 : fStatus (stF s2) = Some st2) by done.
  step (run_status _ _ Hst2).
  change (RetryDelaySec (fsRetryPolicyStatus st2)) with (Some delay). cbv iota.
  rewrite (bool_decide_eq_false_2 _ Hgo).
  assert (Hwait : enqueueFrameworkRetryDelayTimeoutCheck c true s2
                  = Some (true, enqueuedAfter s2 (fsTransitionTime st + delay - clockNow c r))).
  { unfold enqueueFrameworkRetryDelayTimeoutCheck. step (run_status _ _ Hst2).
    change (fsState st2) with (fsState st). rewrite Hstate.
    rewrite (bool_decide_eq_true_2 _ (eq_refl FrameworkAttemptCompleted)). red_if.
    change (RetryDelaySec (fsRetryPolicyStatus st2)) with (Some delay).
    rewrite run_enqueueFrameworkTimeoutCheck. cbv zeta.
    unfold IsTimeout, CurrentLeftDuration.
    change (clockNow c (wCluster (stW s2))) with (clockNow c r).
    change (fsTransitionTime st2) with (fsTransitionTime st).
    by rewrite bool_decide_eq_false_2 by lia. }
  by step Hwait.
Qed.

(** ** The creation of a FrameworkAttempt *)

Lemma syncFrameworkState_creation_pending c s st e r0 :
  fStatus (stF s) = Some st ->
  fsState st = FrameworkAttemptCreationPending ->
  cmLister_Get c (fNamespace (stF s)) (ConfigMapName (stF s)) (wCluster (stW s))
    = (inl e, r0) ->
  IsNotFound e = true ->
  syncFrameworkState c s = syncFrameworkStateCreationPending c (afterCall s r0).
Proof.
  intros Hst Hstate Hget Hnf.
  assert (Hs1 : fsState st <> FrameworkCompleted) by (by rewrite Hstate).
  assert (Hs2 : fsState st <> FrameworkAttemptCompleted) by (by rewrite Hstate).
  destruct (syncFrameworkState_cm_absent c s st e r0 Hst Hs1 Hs2 Hget Hnf) as (K & -> & HK).
  assert (Hst0 : fStatus (stF (afterCall s r0)) = Some st) by done.
  unfold syncFrameworkStateConfigMapAbsent.
  rewrite (bind_run _ _ _ _ _ (run_gets _ _)). step (run_status _ _ Hst0).
  rewrite Hstate.
  rewrite (bool_decide_eq_false_2
             (FrameworkAttemptCreationPending = FrameworkAttemptCreationRequested)) by done.
  rewrite (bool_decide_eq_true_2 _ (eq_refl FrameworkAttemptCreationPending)). red_if.
  by apply HK.
Qed.

(** X19. The creation of a FrameworkAttempt: a Framework in
    FrameworkAttemptCreationPending that is not being deleted and not
    asked to stop, whose ConfigMap neither the local cache holds nor the
    remote refuses.  The ConfigMap the controller asks the remote to
    create has the name derived from the Framework and the Framework as
    controller.  The sync returns without error; the status records the
    UID of the ConfigMap the remote answered as ConfigMapUID, the pair of
    the attempt id and that UID as InstanceUID, and is in
    FrameworkAttemptCreationRequested as of now; the tasks are as before;
    and a check of the Framework is enqueued for the end of the timeout
    objectLocalCacheCreationTimeoutSec. *)
Theorem created_configmap_is_recorded c s st e r0 remoteCM r1 sec :
  fStatus (stF s) = Some st ->
  fsState st = FrameworkAttemptCreationPending ->
  cmLister_Get c (fNamespace (stF s)) (ConfigMapName (stF s)) (wCluster (stW s))
    = (inl e, r0) ->
  IsNotFound e = true ->
  fDeletionTimestamp (stF s) = None ->
  spExecutionType (fSpec (stF s)) <> ExecutionStop ->
  kClient_ConfigMaps_Create c (fNamespace (stF s)) (NewConfigMap (stF s)) r0
    = (inr remoteCM, r1) ->
  ObjectLocalCacheCreationTimeoutSec (cConfig c) = Some sec ->
  exists st',
    syncFrameworkState c s
      = Some (None, enqueuedAfter (setStatus (afterCall s r1) st')
                      (CurrentLeftDuration (fsTransitionTime st') sec (clockNow c r1)))
    /\ cmName (NewConfigMap (stF s)) = ConfigMapName (stF s)
    /\ cmControllerUID (NewConfigMap (stF s)) = Some (fUID (stF s))
    /\ faConfigMapUID (fsAttemptStatus st') = Some (cmUID remoteCM)
    /\ faInstanceUID (fsAttemptStatus st') = Some (faID (fsAttemptStatus st), cmUID remoteCM)
    /\ faID (fsAttemptStatus st') = faID (fsAttemptStatus st)
    /\ fsState st' = FrameworkAttemptCreationRequested
    /\ fsTransitionTime st' = clockNow c r1
    /\ faCompletionStatus (fsAttemptStatus st') = faCompletionStatus (fsAttemptStatus st)
    /\ TaskRoleStatuses st' = TaskRoleStatuses st
    /\ fsRetryPolicyStatus st' = fsRetryPolicyStatus st.
Proof.
  intros Hst Hstate Hget Hnf Hdt Hgo Hcreate Hsec.
  exists (configMapCreatedOn (cmUID remoteCM) (clockNow c r1) st).
  split; [|by split_and!].
  rewrite (syncFrameworkState_creation_pending c s st e r0) by done.
  unfold syncFrameworkStateCreationPending.
  rewrite (bind_run _ _ _ _ _ (run_gets _ _)).
  change (fDeletionTimestamp (stF (afterCall s r0))) with (fDeletionTimestamp (stF s)).
  change (spExecutionType (fSpec (stF (afterCall s r0))))
    with (spExecutionType (fSpec (stF s))).
  rewrite Hdt, (bool_decide_eq_false_2 _ Hgo).
  assert (Hcm : createConfigMap c (afterCall s r0) = Some ((Some remoteCM, None), afterCall s r1)).
  { unfold createConfigMap. rewrite (bind_run _ _ _ _ _ (run_gets _ _)). cbv zeta.
    assert (Hcreate' : kClient_ConfigMaps_Create c (fNamespace (stF (afterCall s r0)))
                         (NewConfigMap (stF (afterCall s r0)))
                         (wCluster (stW (afterCall s r0))) = (inr remoteCM, r1)) by done.
    by step (run_call _ (afterCall s r0) _ _ Hcreate'). }
  step Hcm. cbn [deref]. rewrite bind_ret.
  assert (Hst1 : fStatus (stF (afterCall s r1)) = Some st) by done.
  rewrite (bind_run _ _ _ _ _ (run_modifyStatus _ _ _ Hst1)).
  set (st1 := fsWithAttemptStatus _ st).
  assert (Hst2 : fStatus (stF (setStatus (afterCall s r1) st1)) = Some st1) by done.
  rewrite (bind_run _ _ _ _ _ (run_TransitionFrameworkState_ c _ st1 _ Hst2)).
  set (st2 := TransitionFrameworkState _ _ st1).
  set (s2 := setStatus (setStatus (afterCall s r1) st1) st2).
  assert (Hst3 : fStatus (stF s2) = Some st2) by done.
  assert (Hcheck : enqueueFrameworkAttemptCreationTimeoutCheck c false s2
                   = Some (true, enqueuedAfter s2
                        (CurrentLeftDuration (fsTransitionTime st2) sec (clockNow c r1)))).
  { unfold enqueueFrameworkAttemptCreationTimeoutCheck. step (run_status _ _ Hst3).
    change (fsState st2) with FrameworkAttemptCreationRequested.
    rewrite (bool_decide_eq_true_2 _ (eq_refl FrameworkAttemptCreationRequested)). red_if.
    rewrite Hsec, run_enqueueFrameworkTimeoutCheck. cbv zeta. by rewrite andb_false_r. }
  by step Hcheck.
Qed.

(** X20. No ConfigMap is created for a Framework that is being deleted or
    that the user asked to stop.  On a Framework in
    FrameworkAttemptCreationPending whose ConfigMap the local cache does
    not hold: when the Framework has a DeletionTimestamp the sync returns
    without error and changes nothing; otherwise, on a stop request, the
    controller confirms with the remote that no ConfigMap of the
    Framework is left and completes the attempt, forced: the Framework is
    in FrameworkAttemptCompleted, its CompletionStatus is the one of code
    StopFrameworkRequested unless one was recorded before, and every task
    is in TaskCompleted.  In both cases the cluster is only asked to get
    the ConfigMap. *)
Theorem no_configmap_created_when_deleting_or_stopped c s st e r0 :
  fStatus (stF s) = Some st ->
  WellIndexed st ->
  fsState st = FrameworkAttemptCreationPending ->
  let ns := fNamespace (stF s) in
  cmLister_Get c ns (ConfigMapName (stF s)) (wCluster (stW s)) = (inl e, r0) ->
  IsNotFound e = true ->
  (is_Some (fDeletionTimestamp (stF s)) ->
   syncFrameworkState c s = Some (None, afterCall s r0))
  /\ (forall e1 r1,
        fDeletionTimestamp (stF s) = None ->
        spExecutionType (fSpec (stF s)) = ExecutionStop ->
        kClient_ConfigMaps_Get c ns (ConfigMapName (stF s)) r0 = (inl e1, r1) ->
        IsNotFound e1 = true ->
        exists s' st',
          syncFrameworkState c s = Some (None, s')
          /\ fStatus (stF s') = Some st'
          /\ wCluster (stW s') = r1
          /\ fsState st' = FrameworkAttemptCompleted
          /\ faCompletionStatus (fsAttemptStatus st') =
               match faCompletionStatus (fsAttemptStatus st) with
               | Some old => Some old
               | None => Some StopFrameworkRequestedStatus
               end
          /\ csCode (facsCompletionStatus StopFrameworkRequestedStatus)
             = CompletionCodeStopFrameworkRequested
          /\ Forall (fun ts => tsState ts = TaskCompleted) (allTasks st')).
Proof.
  intros Hst Hwf Hstate ns Hget Hnf.
  rewrite (syncFrameworkState_creation_pending c s st e r0) by done.
  unfold syncFrameworkStateCreationPending.
  rewrite (bind_run _ _ _ _ _ (run_gets _ _)).
  change (fDeletionTimestamp (stF (afterCall s r0))) with (fDeletionTimestamp (stF s)).
  change (spExecutionType (fSpec (stF (afterCall s r0))))
    with (spExecutionType (fSpec (stF s))).
  split.
  - by intros [t ->].
  - intros e1 r1 Hdt Hstop Hget1 Hnf1.
    rewrite Hdt, (bool_decide_eq_true_2 _ Hstop).
    assert (Hst0 : fStatus (stF (afterCall s r0)) = Some st) by done.
    step (run_getOrCleanupConfigMap_not_found c true (afterCall s r0) st e1 r1
            Hst0 Hget1 Hnf1).
    cbn [snd]. change (afterCall (afterCall s r0) r1) with (afterCall s r1).
    assert (Hst1 : fStatus (stF (afterCall s r1)) = Some st) by done.
    rewrite (bind_run _ _ _ _ _
               (run_completeFrameworkAttempt c _ st true _ Hst1 (fun _ => Hwf))).
    eexists _, _. split; [reflexivity|]. split; [reflexivity|]. split_and!.
    + unfold completedAttempt, completeFrameworkAttemptWorld. simpl.
      apply wCluster_foldl_forceCompleteWorld.
    + apply fsState_completeFrameworkAttemptOn.
    + apply faCompletionStatus_completeFrameworkAttemptOn.
    + done.
    + apply forced_tasks_completed.
Qed.

(** * The sync of the status *)

Context {HCommon : Common}.

(** ** updatePodGracefulDeletionTimeoutSec *)

Lemma trWithPodGracefulDeletionTimeoutSec_same trs :
  trWithPodGracefulDeletionTimeoutSec (trPodGracefulDeletionTimeoutSec trs) trs = trs.
Proof. by destruct trs. Qed.

Lemma withSpecTimeout_single rs trs :
  withSpecTimeout [rs] trs =
    if decide (rsName rs = trName trs)
    then trWithPodGracefulDeletionTimeoutSec
           (tkPodGracefulDeletionTimeoutSec (rsTask rs)) trs
    else trs.
Proof. unfold withSpecTimeout. simpl. by destruct (decide (rsName rs = trName trs)). Qed.

Lemma timeoutDiffers_single rs trs :
  timeoutDiffers [rs] trs =
    if decide (rsName rs = trName trs)
    then negb (bool_decide (trPodGracefulDeletionTimeoutSec trs
                            = tkPodGracefulDeletionTimeoutSec (rsTask rs)))
    else false.
Proof. unfold timeoutDiffers. simpl. by destruct (decide (rsName rs = trName trs)). Qed.

Lemma trName_withSpecTimeout l trs : trName (withSpecTimeout l trs) = trName trs.
Proof. unfold withSpecTimeout. by destruct (list_find _ l) as [[? ?]|]. Qed.

Lemma trTaskStatuses_withSpecTimeout l trs :
  trTaskStatuses (withSpecTimeout l trs) = trTaskStatuses trs.
Proof. unfold withSpecTimeout. by destruct (list_find _ l) as [[? ?]|]. Qed.

(** One round of the loop, on roles of distinct names. *)
Lemma updateTaskRoleTimeout_step (roles : list TaskRoleStatus) p rs :
  PointerHelpers ->
  NoDup (trName <$> roles) ->
  updateTaskRoleTimeout (roles, p) rs
    = (withSpecTimeout [rs] <$> roles, p || existsb (timeoutDiffers [rs]) roles).
Proof.
  intros [Heq Hcopy] Hnd. unfold updateTaskRoleTimeout. cbn [fst snd].
  destruct (findTaskRoleStatus (rsName rs) roles) as [[i x]|] eqn:Hfind.
  - destruct (findTaskRoleStatus_Some _ _ _ _ Hfind) as [Hi Hname]. cbn [fmap option_fmap option_map snd].
    assert (Hothers : forall j y, roles !! j = Some y -> j <> i -> rsName rs <> trName y).
    { intros j y Hj Hji Hn. apply Hji. eapply NoDup_lookup; [exact Hnd| |].
      - by rewrite list_lookup_fmap, Hj.
      - rewrite list_lookup_fmap, Hi. simpl. congruence. }
    assert (Hmap : withSpecTimeout [rs] <$> roles
                   = alter (trWithPodGracefulDeletionTimeoutSec
                              (tkPodGracefulDeletionTimeoutSec (rsTask rs))) i roles).
    { apply list_eq. intros j. rewrite list_lookup_fmap.
      destruct (decide (j = i)) as [->|Hji].
      - rewrite list_lookup_alter_eq, Hi. simpl. rewrite withSpecTimeout_single.
        by rewrite decide_True.
      - rewrite list_lookup_alter_ne by done.
        destruct (roles !! j) as [y|] eqn:Hj; [|done]. simpl.
        rewrite withSpecTimeout_single, decide_False; [done|]. by eapply Hothers. }
    assert (Hex : existsb (timeoutDiffers [rs]) roles
                  = negb (bool_decide (trPodGracefulDeletionTimeoutSec x
                                       = tkPodGracefulDeletionTimeoutSec (rsTask rs)))).
    { destruct (negb (bool_decide _)) eqn:Hd.
      - apply existsb_exists. exists x. split; [apply list_elem_of_In; by eapply list_elem_of_lookup_2|].
        by rewrite timeoutDiffers_single, decide_True.
      - apply not_true_is_false. intros (y & Hy%list_elem_of_In & Hdy)%existsb_exists.
        apply list_elem_of_lookup_1 in Hy as [j Hj].
        rewrite timeoutDiffers_single in Hdy.
        destruct (decide (rsName rs = trName y)) as [Hn|]; [|done].
        destruct (decide (j = i)) as [->|Hji]; [|by eapply Hothers].
        rewrite Hi in Hj. injection Hj as <-. congruence. }
    rewrite Heq, Hex, Hcopy.
    destruct (bool_decide (trPodGracefulDeletionTimeoutSec x
                           = tkPodGracefulDeletionTimeoutSec (rsTask rs))) eqn:Hsame; simpl.
    + apply bool_decide_eq_true_1 in Hsame. rewrite orb_false_r. f_equal.
      rewrite Hmap, <- Hsame. symmetry. apply list_eq. intros j.
      destruct (decide (j = i)) as [->|Hji].
      * rewrite list_lookup_alter_eq, Hi. simpl.
        by rewrite trWithPodGracefulDeletionTimeoutSec_same.
      * by rewrite list_lookup_alter_ne.
    + rewrite orb_true_r. f_equal. unfold alterTaskRoleStatus. by rewrite Hfind, Hmap.
  - cbn [fmap option_fmap option_map].
    assert (Hnone : forall y, y ∈ roles -> rsName rs <> trName y).
    { intros y Hy Hn. unfold findTaskRoleStatus in Hfind.
      eapply list_find_None in Hfind. rewrite Forall_forall in Hfind.
      by apply (Hfind y). }
    f_equal.
    + symmetry. rewrite <- (list_fmap_id roles) at 2. apply list_fmap_ext.
      intros j y Hy. rewrite withSpecTimeout_single, decide_False; [done|].
      apply Hnone. by eapply list_elem_of_lookup_2.
    + assert (Hex : existsb (timeoutDiffers [rs]) roles = false).
      { apply not_true_is_false.
        intros (y & Hy%list_elem_of_In & Hdy)%existsb_exists.
        rewrite timeoutDiffers_single, decide_False in Hdy; [done|]. by apply Hnone. }
      by rewrite Hex, orb_false_r.
Qed.

Lemma withSpecTimeout_cons rs l trs :
  rsName rs ∉ rsName <$> l ->
  withSpecTimeout l (withSpecTimeout [rs] trs) = withSpecTimeout (rs :: l) trs
  /\ timeoutDiffers [rs] trs || timeoutDiffers l (withSpecTimeout [rs] trs)
     = timeoutDiffers (rs :: l) trs.
Proof.
  intros Hnotin. rewrite withSpecTimeout_single, timeoutDiffers_single.
  unfold withSpecTimeout, timeoutDiffers. cbn [list_find].
  destruct (decide (rsName rs = trName trs)) as [Hn|Hn].
  - assert (Hnone : list_find (fun rs0 => rsName rs0 = trName trs) l = None).
    { apply list_find_None, Forall_forall. intros y Hy Hyn. apply Hnotin.
      rewrite Hn, <- Hyn. by apply list_elem_of_fmap_2. }
    cbn [trName trWithPodGracefulDeletionTimeoutSec]. rewrite Hnone.
    by rewrite orb_false_r.
  - destruct (list_find (fun rs0 => rsName rs0 = trName trs) l) as [[i y]|]; done.
Qed.

Lemma updateTaskRoleTimeout_fold l (roles : list TaskRoleStatus) p :
  PointerHelpers ->
  NoDup (rsName <$> l) ->
  NoDup (trName <$> roles) ->
  foldl updateTaskRoleTimeout (roles, p) l
    = (withSpecTimeout l <$> roles, p || existsb (timeoutDiffers l) roles).
Proof.
  intros Hptr. revert roles p. induction l as [|rs l IH]; intros roles p Hl Hroles.
  - simpl. f_equal.
    + by rewrite list_fmap_id.
    + assert (Hex : existsb (timeoutDiffers []) roles = false).
      { apply not_true_is_false. by intros (y & _ & Hdy)%existsb_exists. }
      by rewrite Hex, orb_false_r.
  - apply NoDup_cons in Hl as [Hnotin Hl]. cbn [foldl].
    rewrite (updateTaskRoleTimeout_step roles p rs Hptr Hroles).
    rewrite IH; [|done|]; cycle 1.
    { rewrite <- list_fmap_compose.
      erewrite list_fmap_ext; [exact Hroles|]. intros i x _. apply trName_withSpecTimeout. }
    f_equal.
    + rewrite <- list_fmap_compose. apply list_fmap_ext. intros i x _.
      apply (withSpecTimeout_cons rs l x Hnotin).
    + rewrite <- orb_assoc. f_equal.
      clear Hroles. induction roles as [|x roles IHr]; [done|].
      rewrite fmap_cons. cbn [existsb]. rewrite <- IHr.
      rewrite <- (proj2 (withSpecTimeout_cons rs l x Hnotin)).
      destruct (timeoutDiffers [rs] x), (timeoutDiffers l (withSpecTimeout [rs] x)),
        (existsb (timeoutDiffers [rs]) roles); done.
Qed.

Lemma run_updatePodGracefulDeletionTimeoutSec c s st :
  fStatus (stF s) = Some st ->
  updatePodGracefulDeletionTimeoutSec c s =
    if bool_decide (fsState st = FrameworkCompleted) then Some (false, s)
    else
      let r := foldl updateTaskRoleTimeout (TaskRoleStatuses st, false)
                 (spTaskRoles (fSpec (stF s))) in
      Some (r.2, setStatus s (fsWithTaskRoleStatuses r.1 st)).
Proof.
  intros Hst. unfold updatePodGracefulDeletionTimeoutSec.
  rewrite (bind_run _ _ _ _ _ (run_gets _ _)). step (run_status _ _ Hst).
  destruct (bool_decide (fsState st = FrameworkCompleted)); [done|]. cbv zeta.
  by rewrite (bind_run _ _ _ _ _ (run_modifyStatus _ _ _ Hst)).
Qed.

Lemma withSpecTimeout_fixed l trs :
  withSpecTimeout l trs = trs <-> timeoutDiffers l trs = false.
Proof.
  unfold withSpecTimeout, timeoutDiffers.
  destruct (list_find _ l) as [[i rs]|]; [|done]. split.
  - intros Heq. apply negb_false_iff, bool_decide_eq_true_2.
    by rewrite <- Heq at 1.
  - intros Hd%negb_false_iff%bool_decide_eq_true_1. rewrite <- Hd.
    apply trWithPodGracefulDeletionTimeoutSec_same.
Qed.

Lemma withSpecTimeout_idemp l trs :
  withSpecTimeout l (withSpecTimeout l trs) = withSpecTimeout l trs
  /\ timeoutDiffers l (withSpecTimeout l trs) = false.
Proof.
  assert (Hd : timeoutDiffers l (withSpecTimeout l trs) = false).
  { unfold timeoutDiffers. rewrite trName_withSpecTimeout. unfold withSpecTimeout.
    destruct (list_find _ l) as [[i rs]|]; [|done]. simpl.
    by rewrite bool_decide_eq_true_2. }
  split; [by apply withSpecTimeout_fixed|done].
Qed.

Lemma list_find_rsName (l : list TaskRoleSpec) rs :
  NoDup (rsName <$> l) -> rs ∈ l ->
  snd <$> list_find (fun x => rsName x = rsName rs) l = Some rs.
Proof.
  intros Hnd (i & Hi)%list_elem_of_lookup_1.
  destruct (list_find (fun x => rsName x = rsName rs) l) as [[j y]|] eqn:Hfind.
  - apply list_find_Some in Hfind as (Hj & Hn & _). simpl. f_equal.
    assert (j = i); [|congruence].
    eapply NoDup_lookup; [exact Hnd| |]; rewrite list_lookup_fmap.
    + by rewrite Hj.
    + rewrite Hi. simpl. by rewrite Hn.
  - eapply list_find_None in Hfind. rewrite Forall_forall in Hfind.
    exfalso. apply (Hfind rs); [by eapply list_elem_of_lookup_2|done].
Qed.

(** X21. updatePodGracefulDeletionTimeoutSec, on a Framework whose roles
    have pairwise distinct names, in the spec and in the status, with
    EqualsPtrInt64 and DeepCopyInt64 comparing and copying the numbers
    pointed to.  The call returns and changes nothing but the graceful
    deletion timeouts of the roles: the names and the tasks of the roles
    stay.  On a Framework in FrameworkCompleted nothing changes and the
    result is false.  Otherwise every role of the status that the spec
    names has afterwards the podGracefulDeletionTimeoutSec of its spec,
    the roles the spec does not name are as before, and the result is
    false exactly when the status is as before.  A second call changes
    nothing and returns false. *)
Theorem updatePodGracefulDeletionTimeoutSec_syncs_timeouts c s st :
  fStatus (stF s) = Some st ->
  PointerHelpers ->
  NoDup (rsName <$> spTaskRoles (fSpec (stF s))) ->
  NoDup (trName <$> TaskRoleStatuses st) ->
  exists changed st',
    updatePodGracefulDeletionTimeoutSec c s = Some (changed, setStatus s st')
    /\ Forall2 (fun trs trs' =>
                  trName trs' = trName trs /\ trTaskStatuses trs' = trTaskStatuses trs)
         (TaskRoleStatuses st) (TaskRoleStatuses st')
    /\ st' = fsWithTaskRoleStatuses (TaskRoleStatuses st') st
    /\ (fsState st = FrameworkCompleted -> changed = false /\ st' = st)
    /\ (fsState st <> FrameworkCompleted ->
        (forall rs trs',
           rs ∈ spTaskRoles (fSpec (stF s)) ->
           GetTaskRoleStatus st' (rsName rs) = Some trs' ->
           trPodGracefulDeletionTimeoutSec trs'
             = tkPodGracefulDeletionTimeoutSec (rsTask rs))
        /\ (forall trs,
              trs ∈ TaskRoleStatuses st ->
              GetTaskRoleSpec (fSpec (stF s)) (trName trs) = None ->
              trs ∈ TaskRoleStatuses st')
        /\ (changed = false <-> st' = st))
    /\ updatePodGracefulDeletionTimeoutSec c (setStatus s st')
       = Some (false, setStatus s st').
Proof.
  intros Hst Hptr Hspec Hroles.
  set (l := spTaskRoles (fSpec (stF s))) in *.
  pose proof (run_updatePodGracefulDeletionTimeoutSec c s st Hst) as Hrun.
  cbv zeta in Hrun. fold l in Hrun.
  rewrite (updateTaskRoleTimeout_fold l _ false Hptr Hspec Hroles) in Hrun.
  cbn [fst snd orb] in Hrun.
  destruct (bool_decide (fsState st = FrameworkCompleted)) eqn:Hstate.
  - apply bool_decide_eq_true_1 in Hstate.
    exists false, st. rewrite (setStatus_same s st Hst).
    split; [done|]. split; [by apply Forall_Forall2_diag, Forall_forall|].
    split; [by rewrite fsWithTaskRoleStatuses_same|]. split; [done|].
    split; [done|].
    rewrite (run_updatePodGracefulDeletionTimeoutSec c s st Hst).
    by rewrite (bool_decide_eq_true_2 _ Hstate).
  - apply bool_decide_eq_false_1 in Hstate.
    set (roles' := withSpecTimeout l <$> TaskRoleStatuses st) in *.
    set (st' := fsWithTaskRoleStatuses roles' st).
    assert (Hroles' : TaskRoleStatuses st' = roles') by apply TaskRoleStatuses_with.
    assert (Hnd' : NoDup (trName <$> roles')).
    { unfold roles'. rewrite <- list_fmap_compose.
      erewrite list_fmap_ext; [exact Hroles|]. intros i x _. apply trName_withSpecTimeout. }
    exists (existsb (timeoutDiffers l) (TaskRoleStatuses st)), st'.
    split; [exact Hrun|]. split_and!.
    + rewrite Hroles'. apply Forall2_fmap_diag. intros trs.
      by rewrite trName_withSpecTimeout, trTaskStatuses_withSpecTimeout.
    + by rewrite Hroles'.
    + done.
    + intros _. split_and!.
      * intros rs trs' Hrs Hget.
        destruct (GetTaskRoleStatus_elem_of _ _ _ Hget) as [Hin Hname].
        rewrite Hroles' in Hin. apply list_elem_of_fmap in Hin as (trs & -> & Hin).
        rewrite trName_withSpecTimeout in Hname. unfold withSpecTimeout.
        pose proof (list_find_rsName l rs Hspec Hrs) as Hfind. rewrite <- Hname in Hfind.
        by destruct (list_find _ l) as [[i y]|]; simplify_eq/=.
      * intros trs Hin Hnone. rewrite Hroles'.
        apply list_elem_of_fmap. exists trs. split; [|done].
        unfold withSpecTimeout. unfold GetTaskRoleSpec in Hnone. fold l in Hnone.
        by destruct (list_find _ l) as [[i y]|].
      * split.
        -- intros Hex. unfold st'.
           assert (Hid : roles' = TaskRoleStatuses st).
           { unfold roles'. rewrite <- (list_fmap_id (TaskRoleStatuses st)) at 2.
             apply list_fmap_ext. intros i x Hi. apply withSpecTimeout_fixed.
             apply not_true_is_false. intros Hd.
             assert (existsb (timeoutDiffers l) (TaskRoleStatuses st) = true); [|congruence].
             apply existsb_exists. exists x. split; [|done].
             apply list_elem_of_In. by eapply list_elem_of_lookup_2. }
           rewrite Hid. apply fsWithTaskRoleStatuses_same.
        -- intros Hsame. apply not_true_is_false.
           intros (x & Hx%list_elem_of_In & Hd)%existsb_exists.
           assert (Hfix : withSpecTimeout l x = x); [|apply withSpecTimeout_fixed in Hfix; congruence].
           apply list_elem_of_lookup_1 in Hx as [i Hi].
           assert (Hi' : roles' !! i = Some (withSpecTimeout l x))
             by (unfold roles'; by rewrite list_lookup_fmap, Hi).
           rewrite <- Hroles', Hsame, Hi in Hi'. congruence.
    + assert (Hst' : fStatus (stF (setStatus s st')) = Some st') by done.
      rewrite (run_updatePodGracefulDeletionTimeoutSec c _ st' Hst').
      change (fsState st') with (fsState st). rewrite (bool_decide_eq_false_2 _ Hstate).
      cbv zeta. change (spTaskRoles (fSpec (stF (setStatus s st')))) with l.
      rewrite Hroles', (updateTaskRoleTimeout_fold l _ false Hptr Hspec Hnd').
      cbn [fst snd orb].
      assert (Hex : existsb (timeoutDiffers l) roles' = false).
      { apply not_true_is_false. intros (x & Hx%list_elem_of_In & Hd)%existsb_exists.
        unfold roles' in Hx. apply list_elem_of_fmap in Hx as (y & -> & _).
        by rewrite (proj2 (withSpecTimeout_idemp l y)) in Hd. }
      assert (Hid : withSpecTimeout l <$> roles' = roles').
      { unfold roles'. rewrite <- list_fmap_compose. apply list_fmap_ext.
        intros i x _. apply withSpecTimeout_idemp. }
      rewrite Hex, Hid. unfold st', setStatus. simpl.
      by rewrite fsWithTaskRoleStatuses_twice.
Qed.

(** ** compactFrameworkScale *)

Lemma stalePrefix_le l : (stalePrefix l ≤ length l)%nat.
Proof. induction l as [|ts l IH]; simpl; [lia|]. destruct (stale ts); simpl; lia. Qed.

Lemma stalePrefix_below l p :
  (p < stalePrefix l)%nat -> exists ts, l !! p = Some ts /\ stale ts = true.
Proof.
  revert p. induction l as [|ts l IH]; intros p Hp; simpl in *; [lia|].
  destruct (stale ts) eqn:Hs; [|lia].
  destruct p as [|p]; [by exists ts|]. apply IH. lia.
Qed.

Lemma stalePrefix_at l ts : l !! stalePrefix l = Some ts -> stale ts = false.
Proof.
  induction l as [|x l IH]; simpl; [done|].
  destruct (stale x) eqn:Hs; simpl; [done|]. by intros [= <-].
Qed.

Lemma deleteStartStep_stopped tasks l a :
  foldl (deleteStartStep tasks) (Some (a, true)) l = Some (a, true).
Proof. induction l as [|x l IH]; [done|]. exact IH. Qed.

Lemma taskAt_reverse (tasks : list TaskStatus) (p : nat) :
  (p < length tasks)%nat ->
  taskAt tasks (Z.of_nat (length tasks) - Z.of_nat p - 1) = reverse tasks !! p.
Proof.
  intros Hp. unfold taskAt. rewrite bool_decide_eq_true_2 by lia.
  rewrite reverse_lookup by done. f_equal. lia.
Qed.

Lemma deleteStart_loop (tasks : list TaskStatus) (n p : nat) :
  (p + n ≤ length tasks)%nat ->
  (p ≤ stalePrefix (reverse tasks))%nat ->
  fst <$> foldl (deleteStartStep tasks)
            (Some (Z.of_nat (length tasks) - Z.of_nat p, false))
            (reverse (seqZ (Z.of_nat (length tasks) - Z.of_nat p - Z.of_nat n) (Z.of_nat n)))
  = Some (Z.of_nat (length tasks)
          - Z.of_nat (Nat.min (stalePrefix (reverse tasks)) (p + n))).
Proof.
  revert p. induction n as [|n IH]; intros p Hlen Hp.
  { simpl. f_equal. lia. }
  rewrite seqZ_S, reverse_app, reverse_singleton. cbn [foldl app].
  replace (Z.of_nat (length tasks) - Z.of_nat p - Z.of_nat (S n) + Z.of_nat n)
    with (Z.of_nat (length tasks) - Z.of_nat p - 1) by lia.
  destruct (reverse tasks !! p) as [ts|] eqn:Hts; cycle 1.
  { apply lookup_ge_None in Hts. rewrite length_reverse in Hts. lia. }
  assert (Hstep : deleteStartStep tasks
                    (Some (Z.of_nat (length tasks) - Z.of_nat p, false))
                    (Z.of_nat (length tasks) - Z.of_nat p - 1)
                  = if stale ts
                    then Some (Z.of_nat (length tasks) - Z.of_nat p - 1, false)
                    else Some (Z.of_nat (length tasks) - Z.of_nat p, true)).
  { unfold deleteStartStep. cbn [mbind option_bind snd].
    rewrite taskAt_reverse, Hts by lia. done. }
  rewrite Hstep. clear Hstep.
  destruct (stale ts) eqn:Hs.
  - assert (Hp' : (S p ≤ stalePrefix (reverse tasks))%nat).
    { destruct (decide (stalePrefix (reverse tasks) = p)) as [Heq|]; [|lia].
      rewrite <- Heq in Hts. apply stalePrefix_at in Hts. congruence. }
    replace (Z.of_nat (length tasks) - Z.of_nat p - 1)
      with (Z.of_nat (length tasks) - Z.of_nat (S p)) by lia.
    replace (Z.of_nat (length tasks) - Z.of_nat p - Z.of_nat (S n))
      with (Z.of_nat (length tasks) - Z.of_nat (S p) - Z.of_nat n) by lia.
    rewrite IH by (lia || done). f_equal. lia.
  - assert (Hp' : stalePrefix (reverse tasks) = p).
    { destruct (decide (p < stalePrefix (reverse tasks))%nat) as [Hlt|]; [|lia].
      apply stalePrefix_below in Hlt as (ts' & Hts' & Hs'). congruence. }
    cbn [fst]. rewrite deleteStartStep_stopped. simpl. f_equal. lia.
Qed.

Lemma run_taskIndexDeleteStart (tasks : list TaskStatus) taskCountSpec :
  0 ≤ taskCountSpec ->
  taskIndexDeleteStart (Z.of_nat (length tasks)) taskCountSpec tasks
    = Some (Z.of_nat (cutPoint taskCountSpec tasks)).
Proof.
  intros Hlo. unfold taskIndexDeleteStart, cutPoint.
  pose proof (stalePrefix_le (reverse tasks)) as Hle. rewrite length_reverse in Hle.
  destruct (decide (taskCountSpec ≤ Z.of_nat (length tasks))) as [Hin|Hout].
  - pose proof (deleteStart_loop tasks (Z.to_nat (Z.of_nat (length tasks) - taskCountSpec)) 0)
      as Hloop.
    rewrite Z2Nat.id in Hloop by lia.
    replace (Z.of_nat (length tasks) - Z.of_nat 0 - (Z.of_nat (length tasks) - taskCountSpec))
      with taskCountSpec in Hloop by lia.
    replace (Z.of_nat (length tasks) - Z.of_nat 0) with (Z.of_nat (length tasks)) in Hloop by lia.
    rewrite Hloop by lia. f_equal. lia.
  - rewrite seqZ_nil by lia. simpl. f_equal. lia.
Qed.

Lemma alter_as_insert {A} (g : A -> A) (l : list A) i x :
  l !! i = Some x -> alter g i l = <[i := g x]> l.
Proof.
  intros Hi. apply list_eq. intros j. destruct (decide (j = i)) as [->|Hne].
  - rewrite list_lookup_alter_eq, Hi, list_lookup_insert_eq; [done|].
    by eapply lookup_lt_Some.
  - by rewrite list_lookup_alter_ne, list_lookup_insert_ne.
Qed.

Lemma trWithTaskStatuses_same trs : trWithTaskStatuses (trTaskStatuses trs) trs = trs.
Proof. by destruct trs. Qed.

Lemma cutPoint_le lo tasks : (cutPoint lo tasks ≤ length tasks)%nat.
Proof. unfold cutPoint. lia. Qed.

Lemma run_compactTaskRoleStatus spec (roles : list TaskRoleStatus) i trs :
  roles !! i = Some trs ->
  Z.of_nat (length (trTaskStatuses trs)) < 2147483648 ->
  (forall rs, GetTaskRoleSpec spec (trName trs) = Some rs -> 0 ≤ rsTaskNumber rs) ->
  compactTaskRoleStatus spec (Some roles) i =
    match compactedRole spec trs with
    | Some trs' => Some (<[i := trs']> roles)
    | None =>
        last ← roles !! (length roles - 1)%nat;
        Some (take (length roles - 1) (<[i := last]> roles))
    end.
Proof.
  intros Hi Hsz Hnum. unfold compactTaskRoleStatus, compactedRole.
  cbn [mbind option_bind]. rewrite Hi. cbn [mbind option_bind].
  rewrite int32_small by lia.
  set (tasks := trTaskStatuses trs) in *.
  pose proof (cutPoint_le 0 tasks) as Hle0.
  assert (Hcut : forall lo, 0 ≤ lo ->
    (if bool_decide (Z.of_nat (cutPoint lo tasks) = Z.of_nat (length tasks))
     then Some roles
     else Some (alter (trWithTaskStatuses (take (Z.to_nat (Z.of_nat (cutPoint lo tasks))) tasks))
                  i roles))
    = Some (<[i := trWithTaskStatuses (take (cutPoint lo tasks) tasks) trs]> roles)).
  { intros lo Hlo. rewrite Nat2Z.id. case_bool_decide as Hc.
    - apply Nat2Z.inj in Hc. rewrite Hc, firstn_all.
      unfold tasks. by rewrite trWithTaskStatuses_same, list_insert_id.
    - by rewrite (alter_as_insert _ _ _ _ Hi). }
  destruct (GetTaskRoleSpec spec (trName trs)) as [rs|] eqn:Hspec.
  - rewrite run_taskIndexDeleteStart by (by apply Hnum).
    cbn [mbind option_bind]. rewrite andb_false_r. apply Hcut. by apply Hnum.
  - rewrite run_taskIndexDeleteStart by done.
    cbn [mbind option_bind]. rewrite andb_true_r.
    destruct (decide (cutPoint 0 tasks = 0%nat)) as [Hz|Hnz].
    + rewrite Hz. by rewrite !bool_decide_eq_true_2.
    + rewrite (bool_decide_eq_false_2 (Z.of_nat _ = 0)) by lia.
      rewrite (bool_decide_eq_false_2 _ Hnz). by apply Hcut.
Qed.

(** Deleting the role at the end of [l1] by moving the last role to its
    place keeps the roles before it and permutes the roles after it. *)
Lemma swap_remove_last {A} (l1 : list A) x rest :
  let cur := l1 ++ x :: rest in
  exists rest',
    (last ← cur !! (length cur - 1)%nat;
     Some (take (length cur - 1) (<[length l1 := last]> cur))) = Some (l1 ++ rest')
    /\ rest' ≡ₚ rest.
Proof.
  intros cur. destruct (decide (rest = [])) as [->|Hne].
  - exists []. split; [|done]. unfold cur.
    rewrite length_app. simpl.
    replace (length l1 + 1 - 1)%nat with (length l1 + 0)%nat by lia.
    rewrite lookup_app_r, Nat.add_0_r, Nat.sub_diag by lia. simpl.
    rewrite insert_app_r_alt, Nat.sub_diag by lia. simpl.
    by rewrite take_app_length, app_nil_r.
  - destruct (exists_last Hne) as (r0 & z & ->).
    exists (z :: r0). split; [|by rewrite Permutation_cons_append].
    unfold cur. rewrite !length_app. simpl. rewrite length_app. simpl.
    replace (length l1 + S (length r0 + 1) - 1)%nat
      with (length l1 + S (length r0))%nat by lia.
    rewrite lookup_app_r by lia.
    replace (length l1 + S (length r0) - length l1)%nat with (S (length r0)) by lia.
    simpl. rewrite lookup_app_r, Nat.sub_diag by lia. simpl.
    rewrite insert_app_r_alt, Nat.sub_diag by lia. simpl.
    rewrite take_app_ge by lia.
    replace (length l1 + S (length r0) - length l1)%nat with (S (length r0)) by lia.
    simpl. by rewrite take_app_length.
Qed.

(** Every role holds fewer than 2^31 tasks, and the task numbers of the
    spec are not negative. *)
Lemma compact_loop spec (roles0 : list TaskRoleStatus) :
  (forall trs, trs ∈ roles0 -> Z.of_nat (length (trTaskStatuses trs)) < 2147483648) ->
  (forall rs, rs ∈ spTaskRoles spec -> 0 ≤ rsTaskNumber rs) ->
  forall k rest,
    (k ≤ length roles0)%nat ->
    rest ≡ₚ omap (compactedRole spec) (drop k roles0) ->
    exists roles',
      foldl (compactTaskRoleStatus spec) (Some (take k roles0 ++ rest)) (reverse (seq 0 k))
        = Some roles'
      /\ roles' ≡ₚ omap (compactedRole spec) roles0.
Proof.
  intros Hsz Hnum. induction k as [|k IH]; intros rest Hk Hrest.
  { exists rest. split; [done|]. by rewrite drop_0 in Hrest. }
  rewrite seq_S, reverse_app. cbn [reverse_singleton]. rewrite reverse_singleton.
  cbn [app foldl Nat.add].
  destruct (lookup_lt_is_Some_2 roles0 k) as [trs Hi]; [lia|].
  assert (Htake : take (S k) roles0 = take k roles0 ++ [trs]) by (by apply take_S_r).
  assert (Hlen : length (take k roles0) = k) by (rewrite length_take; lia).
  assert (Hcur : (take (S k) roles0 ++ rest) !! k = Some trs).
  { rewrite Htake, <- (assoc_L (++)). rewrite lookup_app_r by lia.
    by rewrite Hlen, Nat.sub_diag. }
  rewrite (run_compactTaskRoleStatus spec _ k trs Hcur); cycle 1.
  { apply Hsz. by eapply list_elem_of_lookup_2. }
  { intros rs Hrs. apply Hnum. by apply (GetTaskRoleSpec_Some _ _ _ Hrs). }
  destruct (compactedRole spec trs) as [trs'|] eqn:Hc.
  - assert (Hins : <[k := trs']> (take (S k) roles0 ++ rest) = take k roles0 ++ (trs' :: rest)).
    { rewrite Htake, <- (assoc_L (++)). rewrite insert_app_r_alt by lia.
      by rewrite Hlen, Nat.sub_diag. }
    rewrite Hins. apply IH; [lia|]. rewrite (drop_S _ _ _ Hi). cbn [omap list_omap].
    rewrite Hc. by constructor.
  - rewrite Htake, <- (assoc_L (++)). cbn [app].
    destruct (swap_remove_last (take k roles0) trs rest) as (rest' & Hswap & Hperm).
    cbv zeta in Hswap. rewrite Hlen in Hswap. rewrite Hswap.
    apply IH; [lia|]. rewrite (drop_S _ _ _ Hi). cbn [omap list_omap]. rewrite Hc.
    by rewrite Hperm.
Qed.

Lemma existsb_imap_true {A} (f : nat -> A -> bool) (l : list A) :
  existsb id (imap f l) = true <-> exists j x, l !! j = Some x /\ f j x = true.
Proof.
  rewrite existsb_exists. split.
  - intros (b & Hb%list_elem_of_In & Hid).
    apply list_elem_of_lookup_1 in Hb as [j Hj]. rewrite list_lookup_imap in Hj.
    destruct (l !! j) as [x|] eqn:Hx; [|done]. simpl in Hj. injection Hj as <-.
    by exists j, x.
  - intros (j & x & Hx & Hf). exists true. split; [|done].
    apply list_elem_of_In, list_elem_of_lookup. exists j.
    rewrite list_lookup_imap, Hx. simpl. by rewrite Hf.
Qed.

Lemma existsb_eq_iff {A B} (f : A -> bool) (g : B -> bool) (l : list A) (k : list B) :
  (existsb f l = true <-> existsb g k = true) -> existsb f l = existsb g k.
Proof. destruct (existsb f l), (existsb g k); intuition congruence. Qed.

(** The loop of replacements over the first [n] tasks of a role. *)
Lemma replace_loop t (n : nat) :
  forall (cur : list TaskStatus) p,
    (n ≤ length cur)%nat ->
    foldl (replaceCompletedStep t) (Some (cur, p)) (reverse (seqZ 0 (Z.of_nat n)))
    = Some (imap (replacedTask (Z.of_nat n) t) cur,
            p || existsb id (imap (fun j ts => bool_decide (Z.of_nat j < Z.of_nat n) && stale ts)
                               cur)).
Proof.
  induction n as [|n IH]; intros cur p Hn.
  { simpl. f_equal. f_equal.
    - symmetry. apply list_eq. intros j. rewrite list_lookup_imap.
      destruct (cur !! j) as [x|]; [|done]. simpl. unfold replacedTask.
      by rewrite bool_decide_eq_false_2 by lia.
    - assert (Hex : existsb id (imap (fun j ts => bool_decide (Z.of_nat j < Z.of_nat 0)
                                                  && stale ts) cur) = false).
      { apply not_true_is_false. intros (j & x & _ & Hf)%existsb_imap_true.
        by rewrite bool_decide_eq_false_2 in Hf by lia. }
      by rewrite Hex, orb_false_r. }
  rewrite seqZ_S, reverse_app, reverse_singleton. cbn [foldl app]. rewrite Z.add_0_l.
  destruct (lookup_lt_is_Some_2 cur n) as [ts Hts]; [lia|].
  assert (Hstep : replaceCompletedStep t (Some (cur, p)) (Z.of_nat n)
                  = if stale ts
                    then Some (<[n := NewTaskStatus (Z.of_nat n) t]> cur, true)
                    else Some (cur, p)).
  { unfold replaceCompletedStep, taskAt, alterTaskAt. cbn [mbind option_bind fst snd].
    rewrite !bool_decide_eq_true_2 by lia. rewrite Nat2Z.id, Hts. cbn [mbind option_bind].
    fold (stale ts). destruct (stale ts); [|done].
    by rewrite (alter_as_insert _ _ _ _ Hts). }
  rewrite Hstep. clear Hstep.
  destruct (stale ts) eqn:Hs.
  - rewrite IH by (rewrite length_insert; lia). f_equal. f_equal.
    + apply list_eq. intros j. rewrite !list_lookup_imap.
      destruct (decide (j = n)) as [->|Hne].
      * rewrite list_lookup_insert_eq, Hts by lia. simpl. unfold replacedTask.
        rewrite bool_decide_eq_false_2 by lia.
        by rewrite bool_decide_eq_true_2, Hs by lia.
      * rewrite list_lookup_insert_ne by done.
        destruct (cur !! j) as [x|]; [|done]. simpl. unfold replacedTask.
        destruct (decide (j < n)%nat).
        -- by rewrite !bool_decide_eq_true_2 by lia.
        -- by rewrite !bool_decide_eq_false_2 by lia.
    + rewrite orb_true_l. symmetry. rewrite orb_true_iff. right.
      apply existsb_imap_true. exists n, ts. split; [done|].
      by rewrite bool_decide_eq_true_2, Hs by lia.
  - rewrite IH by lia. f_equal. f_equal.
    + apply list_eq. intros j. rewrite !list_lookup_imap.
      destruct (cur !! j) as [x|] eqn:Hx; [|done]. simpl. unfold replacedTask.
      destruct (decide (j = n)) as [->|Hne].
      * assert (x = ts) by congruence. subst x.
        by rewrite Hs, !andb_false_r.
      * destruct (decide (j < n)%nat).
        -- by rewrite !bool_decide_eq_true_2 by lia.
        -- by rewrite !bool_decide_eq_false_2 by lia.
    + f_equal. apply existsb_eq_iff. rewrite !existsb_imap_true.
      split; intros (j & x & Hx & Hf); exists j, x; (split; [done|]).
      * apply andb_true_iff in Hf as [Hj%bool_decide_eq_true_1 Hst].
        by rewrite bool_decide_eq_true_2, Hst by lia.
      * apply andb_true_iff in Hf as [Hj%bool_decide_eq_true_1 Hst].
        destruct (decide (j = n)) as [->|Hne]; [congruence|].
        by rewrite bool_decide_eq_true_2, Hst by lia.
Qed.

Lemma run_replaceTaskRoleStatus spec t (roles : list TaskRoleStatus) p i trs :
  roles !! i = Some trs ->
  Z.of_nat (length (trTaskStatuses trs)) < 2147483648 ->
  (forall rs, GetTaskRoleSpec spec (trName trs) = Some rs -> 0 ≤ rsTaskNumber rs) ->
  replaceTaskRoleStatus spec t (Some (roles, p)) i
    = Some (<[i := replacedRole spec t trs]> roles, p || replaceable spec trs).
Proof.
  intros Hi Hsz Hnum. unfold replaceTaskRoleStatus, replacedRole, replaceable.
  cbn [mbind option_bind fst snd]. rewrite Hi. cbn [mbind option_bind].
  destruct (GetTaskRoleSpec spec (trName trs)) as [rs|] eqn:Hspec; cycle 1.
  { by rewrite list_insert_id, orb_false_r. }
  rewrite int32_small by lia. specialize (Hnum rs eq_refl).
  set (tasks := trTaskStatuses trs).
  set (m := Z.to_nat (MinInt32 (Z.of_nat (length tasks)) (rsTaskNumber rs))).
  assert (Hm : MinInt32 (Z.of_nat (length tasks)) (rsTaskNumber rs) = Z.of_nat m)
    by (unfold m, MinInt32; lia).
  assert (Hml : (m ≤ length tasks)%nat) by (unfold m, MinInt32; lia).
  rewrite Hm, (replace_loop t m tasks p Hml). cbn [mbind option_bind fst snd].
  f_equal. f_equal.
  - rewrite (alter_as_insert _ _ _ _ Hi). f_equal. f_equal.
    apply list_eq. intros j. rewrite !list_lookup_imap.
    destruct (tasks !! j) as [x|] eqn:Hx; [|done]. simpl. unfold replacedTask.
    apply lookup_lt_Some in Hx. unfold MinInt32 in Hm.
    destruct (decide (Z.of_nat j < rsTaskNumber rs)).
    + by rewrite !bool_decide_eq_true_2 by lia.
    + by rewrite !bool_decide_eq_false_2 by lia.
  - f_equal. apply existsb_eq_iff. rewrite !existsb_imap_true. unfold MinInt32 in Hm.
    split; intros (j & x & Hx & Hf); exists j, x; (split; [done|]);
      apply andb_true_iff in Hf as [Hj%bool_decide_eq_true_1 Hst];
      pose proof (lookup_lt_Some _ _ _ Hx);
      by rewrite bool_decide_eq_true_2, Hst by lia.
Qed.

Lemma replace_roles_loop spec t (suf : list TaskRoleStatus) :
  (forall trs, trs ∈ suf -> Z.of_nat (length (trTaskStatuses trs)) < 2147483648) ->
  (forall rs, rs ∈ spTaskRoles spec -> 0 ≤ rsTaskNumber rs) ->
  forall pre p,
    foldl (replaceTaskRoleStatus spec t) (Some (pre ++ suf, p)) (seq (length pre) (length suf))
    = Some (pre ++ (replacedRole spec t <$> suf), p || existsb (replaceable spec) suf).
Proof.
  intros Hsz Hnum. induction suf as [|trs suf IH]; intros pre p.
  { simpl. by rewrite orb_false_r. }
  cbn [length seq foldl].
  rewrite (run_replaceTaskRoleStatus spec t _ p _ trs); cycle 1.
  { by rewrite lookup_app_r, Nat.sub_diag by lia. }
  { apply Hsz. by left. }
  { intros rs Hrs. apply Hnum. by apply (GetTaskRoleSpec_Some _ _ _ Hrs). }
  rewrite insert_app_r_alt, Nat.sub_diag by lia.
  change (<[0%nat := replacedRole spec t trs]> (trs :: suf))
    with (replacedRole spec t trs :: suf).
  assert (Hsz' : forall x, x ∈ suf -> Z.of_nat (length (trTaskStatuses x)) < 2147483648)
    by (intros; apply Hsz; by right).
  specialize (IH Hsz' (pre ++ [replacedRole spec t trs]) (p || replaceable spec trs)).
  rewrite length_app in IH. cbn [length] in IH.
  rewrite Nat.add_1_r, <- !(assoc_L (++)) in IH. cbn [app] in IH.
  rewrite IH, fmap_cons. cbn [existsb]. by rewrite orb_assoc.
Qed.

Lemma existsb_Permutation {A} (f : A -> bool) (l k : list A) :
  l ≡ₚ k -> existsb f l = existsb f k.
Proof.
  intros Hp. apply existsb_eq_iff. rewrite !existsb_exists.
  split; intros (x & Hx%list_elem_of_In & Hf); exists x; (split; [|done]);
    apply list_elem_of_In.
  - by rewrite <- Hp.
  - by rewrite Hp.
Qed.

Lemma compactedRole_Some spec trs trs' :
  compactedRole spec trs = Some trs' ->
  exists n, (n ≤ length (trTaskStatuses trs))%nat
            /\ trs' = trWithTaskStatuses (take n (trTaskStatuses trs)) trs
            /\ n = cutPoint (match GetTaskRoleSpec spec (trName trs) with
                             | None => 0
                             | Some rs => rsTaskNumber rs
                             end) (trTaskStatuses trs).
Proof.
  unfold compactedRole. destruct (GetTaskRoleSpec spec (trName trs)) as [rs|].
  - intros [= <-]. eexists. split; [apply cutPoint_le|done].
  - case_bool_decide; [done|]. intros [= <-]. eexists. split; [apply cutPoint_le|done].
Qed.

Lemma run_compactFrameworkScale c s st :
  fStatus (stF s) = Some st ->
  IsCompletingState (fsState st) = false ->
  fsState st <> FrameworkAttemptCompleted ->
  fsState st <> FrameworkCompleted ->
  (forall rs, rs ∈ spTaskRoles (fSpec (stF s)) -> 0 ≤ rsTaskNumber rs) ->
  Int32Sized st ->
  let spec := fSpec (stF s) in
  let t := clockNow c (wCluster (stW s)) in
  exists deleted,
    deleted ≡ₚ omap (compactedRole spec) (TaskRoleStatuses st)
    /\ compactFrameworkScale c s
       = Some (existsb (replaceable spec) deleted,
               setStatus s (fsWithTaskRoleStatuses (replacedRole spec t <$> deleted) st)).
Proof.
  intros Hst Hnc Hnac Hnfc Hnum Hsz spec t.
  destruct (compact_loop spec (TaskRoleStatuses st) Hsz Hnum
              (length (TaskRoleStatuses st)) []) as (deleted & Hloop & Hperm); [done| |].
  { by rewrite drop_all. }
  rewrite firstn_all, app_nil_r in Hloop.
  exists deleted. split; [done|].
  unfold compactFrameworkScale.
  rewrite (bind_run _ _ _ _ _ (run_gets _ _)). step (run_status _ _ Hst).
  rewrite Hnc, (bool_decide_eq_false_2 _ Hnac), (bool_decide_eq_false_2 _ Hnfc).
  cbn [orb]. cbv iota. fold spec. rewrite Hloop. cbn [deref]. rewrite bind_ret.
  rewrite (bind_run _ _ _ _ _ (run_modifyStatus _ _ _ Hst)).
  unfold now. rewrite (bind_run _ _ _ _ _ (run_gets _ _)).
  change (clockNow c (wCluster (stW (setStatus s (fsWithTaskRoleStatuses deleted st)))))
    with t.
  assert (Hszd : forall trs, trs ∈ deleted ->
                   Z.of_nat (length (trTaskStatuses trs)) < 2147483648).
  { intros trs' Hin. rewrite Hperm in Hin.
    apply list_elem_of_omap in Hin as (trs & Hin & Hc).
    apply compactedRole_Some in Hc as (n & Hn & -> & _). simpl.
    rewrite length_take. specialize (Hsz trs Hin). lia. }
  pose proof (replace_roles_loop spec t deleted Hszd Hnum [] false) as Hrep.
  cbn [app length orb] in Hrep. rewrite Hrep. cbn [deref]. rewrite bind_ret.
  set (st1 := fsWithTaskRoleStatuses deleted st).
  assert (Hst1 : fStatus (stF (setStatus s st1)) = Some st1) by done.
  rewrite (bind_run _ _ _ _ _ (run_modifyStatus _ _ _ Hst1)). cbn [fst snd].
  unfold ret, setStatus, st1. simpl.
  by rewrite fsWithTaskRoleStatuses_twice.
Qed.

Lemma cutPoint_stale lo (tasks : list TaskStatus) j ts :
  (cutPoint lo tasks ≤ j)%nat -> tasks !! j = Some ts -> stale ts = true.
Proof.
  intros Hj Hts. pose proof (lookup_lt_Some _ _ _ Hts) as Hlt.
  unfold cutPoint in Hj.
  destruct (stalePrefix_below (reverse tasks) (length tasks - S j)) as (ts' & Hts' & Hs).
  { lia. }
  rewrite reverse_lookup in Hts' by lia.
  replace (length tasks - S (length tasks - S j))%nat with j in Hts' by lia.
  congruence.
Qed.

(** X22. compactFrameworkScale treats the roles one by one.  On a
    Framework that is not completing, not FrameworkAttemptCompleted and not
    FrameworkCompleted, whose spec has no negative task number and whose
    roles hold fewer than 2^31 tasks, the call returns and changes nothing
    but the roles of the status.  The roles it leaves are, up to their
    order, those of the status, each one first cut at its cut point (the
    completed deletion-pending tasks at its end go, down to the task
    number of its spec, or down to nothing for a role the spec does not
    name, and such a role goes with its last task) and then, if the spec
    names it, with every completed deletion-pending task below the task
    number replaced by a new task of the same index.  The result tells
    whether a task was replaced.  On a Framework that is completing,
    FrameworkAttemptCompleted or FrameworkCompleted the call changes
    nothing and returns false. *)
Theorem compactFrameworkScale_is_rolewise c s st :
  fStatus (stF s) = Some st ->
  (forall rs, rs ∈ spTaskRoles (fSpec (stF s)) -> 0 ≤ rsTaskNumber rs) ->
  Int32Sized st ->
  let spec := fSpec (stF s) in
  let t := clockNow c (wCluster (stW s)) in
  let skipped := IsCompletingState (fsState st)
                 || bool_decide (fsState st = FrameworkAttemptCompleted)
                 || bool_decide (fsState st = FrameworkCompleted) in
  exists produced st',
    compactFrameworkScale c s = Some (produced, setStatus s st')
    /\ st' = fsWithTaskRoleStatuses (TaskRoleStatuses st') st
    /\ (skipped = true -> produced = false /\ st' = st)
    /\ (skipped = false ->
        TaskRoleStatuses st'
          ≡ₚ replacedRole spec t <$> omap (compactedRole spec) (TaskRoleStatuses st)
        /\ produced
           = existsb (replaceable spec) (omap (compactedRole spec) (TaskRoleStatuses st))).
Proof.
  intros Hst Hnum Hsz spec t skipped.
  destruct skipped eqn:Hskip.
  - exists false, st. rewrite (setStatus_same s st Hst).
    split; [|by rewrite fsWithTaskRoleStatuses_same].
    unfold compactFrameworkScale.
    rewrite (bind_run _ _ _ _ _ (run_gets _ _)). step (run_status _ _ Hst).
    unfold skipped in Hskip. by rewrite Hskip.
  - unfold skipped in Hskip.
    apply orb_false_iff in Hskip as [Hskip Hfc%bool_decide_eq_false_1].
    apply orb_false_iff in Hskip as [Hc Hac%bool_decide_eq_false_1].
    destruct (run_compactFrameworkScale c s st Hst Hc Hac Hfc Hnum Hsz)
      as (deleted & Hperm & Hrun).
    eexists _, _. split; [exact Hrun|]. rewrite TaskRoleStatuses_with.
    split; [done|]. split; [done|]. intros _. split.
    + by rewrite Hperm.
    + by apply existsb_Permutation.
Qed.

(** X23. What compactFrameworkScale keeps.  Under the conditions of X22
    on a Framework that is not completing: a task that is not both
    completed and deletion pending stays where it is, in a role of its
    name at its index; every task left is either a task of the status
    before, in a role of that name at that index, or a new task of that
    index which replaces a completed deletion-pending task below the task
    number of a role the spec names; and a role the spec names stays and
    keeps its tasks up to the task number. *)
Theorem compactFrameworkScale_keeps_live_tasks c s st :
  fStatus (stF s) = Some st ->
  IsCompletingState (fsState st) = false ->
  fsState st <> FrameworkAttemptCompleted ->
  fsState st <> FrameworkCompleted ->
  (forall rs, rs ∈ spTaskRoles (fSpec (stF s)) -> 0 ≤ rsTaskNumber rs) ->
  Int32Sized st ->
  let spec := fSpec (stF s) in
  let t := clockNow c (wCluster (stW s)) in
  exists produced st',
    compactFrameworkScale c s = Some (produced, setStatus s st')
    /\ (forall trs j ts,
          trs ∈ TaskRoleStatuses st -> trTaskStatuses trs !! j = Some ts ->
          stale ts = false ->
          exists trs', trs' ∈ TaskRoleStatuses st' /\ trName trs' = trName trs
                       /\ trTaskStatuses trs' !! j = Some ts)
    /\ (forall trs' j ts',
          trs' ∈ TaskRoleStatuses st' -> trTaskStatuses trs' !! j = Some ts' ->
          exists trs ts,
            trs ∈ TaskRoleStatuses st /\ trName trs = trName trs'
            /\ trPodGracefulDeletionTimeoutSec trs = trPodGracefulDeletionTimeoutSec trs'
            /\ trTaskStatuses trs !! j = Some ts
            /\ (ts' = ts
                \/ (stale ts = true /\ ts' = NewTaskStatus (Z.of_nat j) t
                    /\ exists rs, GetTaskRoleSpec spec (trName trs) = Some rs
                                  /\ Z.of_nat j < rsTaskNumber rs)))
    /\ (forall trs rs,
          trs ∈ TaskRoleStatuses st -> GetTaskRoleSpec spec (trName trs) = Some rs ->
          exists trs', trs' ∈ TaskRoleStatuses st' /\ trName trs' = trName trs
                       /\ (length (trTaskStatuses trs') ≤ length (trTaskStatuses trs))%nat
                       /\ Z.min (Z.of_nat (length (trTaskStatuses trs))) (rsTaskNumber rs)
                          ≤ Z.of_nat (length (trTaskStatuses trs'))).
Proof.
  intros Hst Hc Hac Hfc Hnum Hsz spec t.
  destruct (run_compactFrameworkScale c s st Hst Hc Hac Hfc Hnum Hsz)
    as (deleted & Hperm & Hrun).
  eexists _, _. split; [exact Hrun|]. rewrite TaskRoleStatuses_with. fold spec t.
  assert (Hname : forall x, trName (replacedRole spec t x) = trName x).
  { intros x. unfold replacedRole. by destruct (GetTaskRoleSpec spec (trName x)). }
  split_and!.
  - intros trs j ts Hin Hts Hlive.
    destruct (compactedRole spec trs) as [trs1|] eqn:Hcomp; cycle 1.
    { unfold compactedRole in Hcomp.
      destruct (GetTaskRoleSpec spec (trName trs)); [done|].
      case_bool_decide as Hz; [|done].
      assert (stale ts = true); [|congruence].
      apply (cutPoint_stale 0 (trTaskStatuses trs) j); [lia|done]. }
    destruct (compactedRole_Some _ _ _ Hcomp) as (n & Hn & -> & Hcut).
    assert (Hj : (j < n)%nat).
    { destruct (decide (j < n)%nat) as [|Hge]; [done|].
      assert (stale ts = true); [|congruence].
      rewrite Hcut in Hge.
      exact (cutPoint_stale _ _ j ts (proj1 (Nat.nlt_ge _ _) Hge) Hts). }
    eexists. split.
    + apply list_elem_of_fmap_2. rewrite Hperm. apply list_elem_of_omap.
      exists trs. by split.
    + split; [by rewrite Hname|].
      unfold replacedRole. cbn [trName trWithTaskStatuses].
      destruct (GetTaskRoleSpec spec (trName trs)) as [rs|]; unfold trWithTaskStatuses;
        cbn [trTaskStatuses].
      * rewrite list_lookup_imap, lookup_take_lt, Hts by done. simpl.
        unfold replacedTask. by rewrite Hlive, andb_false_r.
      * by rewrite lookup_take_lt.
  - intros trs' j ts' Hin Hts'.
    apply list_elem_of_fmap in Hin as (trs1 & -> & Hin).
    rewrite Hperm in Hin. apply list_elem_of_omap in Hin as (trs & Hin & Hcomp).
    destruct (compactedRole_Some _ _ _ Hcomp) as (n & Hn & -> & Hcut).
    unfold replacedRole in *. cbn [trName trWithTaskStatuses] in *.
    destruct (GetTaskRoleSpec spec (trName trs)) as [rs|] eqn:Hspec;
      unfold trWithTaskStatuses in *;
      cbn [trTaskStatuses trName trPodGracefulDeletionTimeoutSec] in *.
    + rewrite list_lookup_imap in Hts'.
      destruct (take n (trTaskStatuses trs) !! j) as [ts|] eqn:Hts; [|done].
      simpl in Hts'. injection Hts' as <-.
      apply lookup_take_Some in Hts as [Hts Hj].
      exists trs, ts. split_and!; try done. unfold replacedTask.
      destruct (bool_decide (Z.of_nat j < rsTaskNumber rs)) eqn:Hlt; [|by left].
      destruct (stale ts) eqn:Hs; [|by left]. right.
      apply bool_decide_eq_true_1 in Hlt. split_and!; try done. by exists rs.
    + apply lookup_take_Some in Hts' as [Hts Hj].
      exists trs, ts'. split_and!; try done. by left.
  - intros trs rs Hin Hspec.
    assert (Hcomp : compactedRole spec trs
                    = Some (trWithTaskStatuses
                              (take (cutPoint (rsTaskNumber rs) (trTaskStatuses trs))
                                 (trTaskStatuses trs)) trs)).
    { unfold compactedRole. by rewrite Hspec. }
    eexists. split.
    + apply list_elem_of_fmap_2. rewrite Hperm. apply list_elem_of_omap.
      exists trs. by split.
    + split; [by rewrite Hname|].
      unfold replacedRole. cbn [trName trWithTaskStatuses]. rewrite Hspec.
      unfold trWithTaskStatuses. cbn [trTaskStatuses]. rewrite length_imap, length_take.
      unfold cutPoint. specialize (Hnum rs (proj1 (GetTaskRoleSpec_Some _ _ _ Hspec))).
      split; lia.
Qed.

(** ** syncFrameworkStatus *)

Lemma syncFrameworkScale_returns c s st :
  fStatus (stF s) = Some st ->
  SpecWellFormed (fSpec (stF s)) ->
  Int32Sized st ->
  exists produced st',
    syncFrameworkScale c s = Some (produced, setStatus s st') /\ Int32Sized st'.
Proof.
  intros Hst [Hnd Hnum] Hsz. unfold syncFrameworkScale.
  rewrite (bind_run _ _ _ _ _ (run_gets _ _)). step (run_status _ _ Hst).
  destruct (IsCompletingState (fsState st)
            || bool_decide (fsState st = FrameworkAttemptCompleted)
            || bool_decide (fsState st = FrameworkCompleted)).
  { exists false, st. by rewrite (setStatus_same s st Hst). }
  destruct (run_specScale_loop c s st (spTaskRoles (fSpec (stF s))) Hst Hsz Hnd Hnum)
    as (p1 & st1 & Hrun1 & Hsz1 & Hroles1).
  destruct (run_statusScale_loop c (fSpec (stF s)) (setStatus s st1) st1 p1)
    as (p2 & st2 & Hrun2 & Hsz2 & Hsynced); [done..|].
  exists p2, st2. split; [|done].
  step Hrun1. rewrite (bind_run _ _ (setStatus s st1) (setStatus s st1) st1) by done.
  exact Hrun2.
Qed.

Lemma compactFrameworkScale_returns c s st :
  fStatus (stF s) = Some st ->
  (forall rs, rs ∈ spTaskRoles (fSpec (stF s)) -> 0 ≤ rsTaskNumber rs) ->
  Int32Sized st ->
  exists produced st', compactFrameworkScale c s = Some (produced, setStatus s st').
Proof.
  intros Hst Hnum Hsz.
  destruct (IsCompletingState (fsState st)
            || bool_decide (fsState st = FrameworkAttemptCompleted)
            || bool_decide (fsState st = FrameworkCompleted)) eqn:Hskip.
  - exists false, st. rewrite (setStatus_same s st Hst). unfold compactFrameworkScale.
    rewrite (bind_run _ _ _ _ _ (run_gets _ _)). step (run_status _ _ Hst).
    by rewrite Hskip.
  - apply orb_false_iff in Hskip as [Hskip Hfc%bool_decide_eq_false_1].
    apply orb_false_iff in Hskip as [Hc Hac%bool_decide_eq_false_1].
    destruct (run_compactFrameworkScale c s st Hst Hc Hac Hfc Hnum Hsz)
      as (deleted & _ & Hrun).
    by eexists _, _.
Qed.

(** X24. syncFrameworkStatus persists a change before it acts on it.  On
    a Framework without status the sync sets the initial status, enqueues
    a sync of the Framework and returns without error.  On a Framework
    with a status (well-formed spec, roles of fewer than 2^31 tasks) the
    three stages before the state machine return and change nothing but
    the status; the first of syncFrameworkScale, compactFrameworkScale
    and updatePodGracefulDeletionTimeoutSec, in this order, that reports
    a change ends the sync: the later stages and the state machine are
    not run, one sync of the Framework is enqueued and no error is
    returned.  Only when none of them reports a change does the state
    machine run, on the status they leave.  In none of the former cases
    is the cluster asked anything. *)
Theorem syncFrameworkStatus_persists_before_acting c s :
  (fStatus (stF s) = None ->
   syncFrameworkStatus c s
     = Some (None, enqueued (setStatus s (NewFrameworkStatus (stF s)
                                            (clockNow c (wCluster (stW s)))))))
  /\ (forall st,
        fStatus (stF s) = Some st ->
        SpecWellFormed (fSpec (stF s)) ->
        Int32Sized st ->
        exists scaled st1,
          syncFrameworkScale c s = Some (scaled, setStatus s st1)
          /\ if scaled then syncFrameworkStatus c s = Some (None, enqueued (setStatus s st1))
             else
               exists compacted st2,
                 compactFrameworkScale c (setStatus s st1) = Some (compacted, setStatus s st2)
                 /\ if compacted
                    then syncFrameworkStatus c s = Some (None, enqueued (setStatus s st2))
                    else
                      exists updated st3,
                        updatePodGracefulDeletionTimeoutSec c (setStatus s st2)
                          = Some (updated, setStatus s st3)
                        /\ if updated
                           then syncFrameworkStatus c s
                                = Some (None, enqueued (setStatus s st3))
                           else syncFrameworkStatus c s
                                = syncFrameworkState c (setStatus s st3)).
Proof.
  split.
  - intros Hnone. unfold syncFrameworkStatus.
    rewrite (bind_run _ _ _ _ _ (run_gets _ _)). rewrite Hnone.
    unfold now. by rewrite (bind_run _ _ _ _ _ (run_gets _ _)).
  - intros st Hst Hwf Hsz.
    destruct (syncFrameworkScale_returns c s st Hst Hwf Hsz)
      as (scaled & st1 & Hscale & Hsz1).
    exists scaled, st1. split; [done|].
    assert (Hst1 : fStatus (stF (setStatus s st1)) = Some st1) by done.
    destruct scaled.
    { unfold syncFrameworkStatus.
      rewrite (bind_run _ _ _ _ _ (run_gets _ _)). rewrite Hst. step Hscale.
      by rewrite bind_ret. }
    destruct (compactFrameworkScale_returns c (setStatus s st1) st1 Hst1)
      as (compacted & st2 & Hcompact); [by intros rs Hrs; apply (proj2 Hwf)|done|].
    change (setStatus (setStatus s st1) st2) with (setStatus s st2) in Hcompact.
    exists compacted, st2. split; [done|].
    destruct compacted.
    { unfold syncFrameworkStatus.
      rewrite (bind_run _ _ _ _ _ (run_gets _ _)). rewrite Hst. step Hscale.
      by step Hcompact. }
    assert (Hst2 : fStatus (stF (setStatus s st2)) = Some st2) by done.
    pose proof (run_updatePodGracefulDeletionTimeoutSec c (setStatus s st2) st2 Hst2)
      as Hupdate.
    assert (Hup : exists updated st3,
              updatePodGracefulDeletionTimeoutSec c (setStatus s st2)
              = Some (updated, setStatus s st3)).
    { rewrite Hupdate. destruct (bool_decide (fsState st2 = FrameworkCompleted)).
      - by exists false, st2.
      - by eexists _, _. }
    destruct Hup as (updated & st3 & Hup). exists updated, st3. split; [done|].
    unfold syncFrameworkStatus.
    rewrite (bind_run _ _ _ _ _ (run_gets _ _)). rewrite Hst. step Hscale.
    step Hcompact. cbv iota. step Hup. by destruct updated.
Qed.

(** ** The invariants compaction keeps *)

Lemma trName_compactedRole spec trs trs' :
  compactedRole spec trs = Some trs' -> trName trs' = trName trs.
Proof. intros (n & _ & -> & _)%compactedRole_Some. done. Qed.

Lemma trName_replacedRole spec t trs : trName (replacedRole spec t trs) = trName trs.
Proof. unfold replacedRole. by destruct (GetTaskRoleSpec spec (trName trs)). Qed.

Lemma NoDup_omap_names spec (roles : list TaskRoleStatus) :
  NoDup (trName <$> roles) -> NoDup (trName <$> omap (compactedRole spec) roles).
Proof.
  induction roles as [|trs roles IH]; [done|].
  rewrite fmap_cons. intros [Hnotin Hnd]%NoDup_cons. cbn [omap list_omap].
  destruct (compactedRole spec trs) as [trs'|] eqn:Hc; [|by apply IH].
  rewrite fmap_cons. apply NoDup_cons. split; [|by apply IH].
  rewrite (trName_compactedRole _ _ _ Hc). intros Hin. apply Hnotin.
  apply list_elem_of_fmap in Hin as (y & Hy & Hin).
  apply list_elem_of_omap in Hin as (x & Hx & Hcx).
  rewrite Hy, (trName_compactedRole _ _ _ Hcx). by apply list_elem_of_fmap_2.
Qed.

Lemma tsIndex_replacedTask n t j ts :
  tsIndex ts = Z.of_nat j -> tsIndex (replacedTask n t j ts) = Z.of_nat j.
Proof. intros Hidx. unfold replacedTask. by destruct (_ && _). Qed.

Lemma indexed_lookup (l : list TaskStatus) :
  tsIndex <$> l = seqZ 0 (Z.of_nat (length l)) <->
  forall j ts, l !! j = Some ts -> tsIndex ts = Z.of_nat j.
Proof.
  split.
  - intros Heq j ts Hj.
    assert (Hl : (tsIndex <$> l) !! j = Some (tsIndex ts)) by (by rewrite list_lookup_fmap, Hj).
    rewrite Heq in Hl. apply lookup_seqZ in Hl. lia.
  - intros Hall. apply list_eq. intros j. rewrite list_lookup_fmap.
    destruct (l !! j) as [ts|] eqn:Hj; simpl.
    + symmetry. apply lookup_seqZ. pose proof (lookup_lt_Some _ _ _ Hj).
      rewrite (Hall j ts Hj). lia.
    + symmetry. apply lookup_ge_None in Hj. apply lookup_seqZ_ge. lia.
Qed.

(** X25. Compaction keeps the invariants of the status.  Under the
    conditions of X22 on a Framework that is not completing, the status
    compactFrameworkScale leaves is well indexed when the status was
    (distinct role names, every task at the position of its index), its
    roles hold fewer than 2^31 tasks, and it is in sync with the scale of
    the spec when the status was (every role of the spec has at least
    taskNumber slots, and the slots beyond and the tasks of the roles the
    spec does not name are deletion pending).  Moreover no task below the
    task number of a role the spec names is left completed and deletion
    pending. *)
Theorem compactFrameworkScale_keeps_invariants c s st :
  fStatus (stF s) = Some st ->
  IsCompletingState (fsState st) = false ->
  fsState st <> FrameworkAttemptCompleted ->
  fsState st <> FrameworkCompleted ->
  SpecWellFormed (fSpec (stF s)) ->
  Int32Sized st ->
  let spec := fSpec (stF s) in
  exists produced st',
    compactFrameworkScale c s = Some (produced, setStatus s st')
    /\ Int32Sized st'
    /\ (WellIndexed st -> WellIndexed st')
    /\ (WellIndexed st -> ScaleSynced spec st -> ScaleSynced spec st')
    /\ (forall trs' rs j ts',
          trs' ∈ TaskRoleStatuses st' -> GetTaskRoleSpec spec (trName trs') = Some rs ->
          trTaskStatuses trs' !! j = Some ts' -> Z.of_nat j < rsTaskNumber rs ->
          stale ts' = false).
Proof.
  intros Hst Hc Hac Hfc [Hsnd Hsnum] Hsz spec.
  assert (Hnum : forall rs, rs ∈ spTaskRoles (fSpec (stF s)) -> 0 ≤ rsTaskNumber rs)
    by (intros rs Hrs; by apply Hsnum).
  destruct (run_compactFrameworkScale c s st Hst Hc Hac Hfc Hnum Hsz)
    as (deleted & Hperm & Hrun).
  set (t := clockNow c (wCluster (stW s))) in *. fold spec in Hperm, Hrun.
  eexists _, _. split; [exact Hrun|].
  assert (Hroles : forall trs',
            trs' ∈ replacedRole spec t <$> deleted ->
            exists trs n,
              trs ∈ TaskRoleStatuses st
              /\ compactedRole spec trs
                 = Some (trWithTaskStatuses (take n (trTaskStatuses trs)) trs)
              /\ (n ≤ length (trTaskStatuses trs))%nat
              /\ trs' = replacedRole spec t
                          (trWithTaskStatuses (take n (trTaskStatuses trs)) trs)).
  { intros trs' (trs1 & -> & Hin)%list_elem_of_fmap.
    rewrite Hperm in Hin. apply list_elem_of_omap in Hin as (trs & Hin & Hcomp).
    destruct (compactedRole_Some _ _ _ Hcomp) as (n & Hn & -> & _).
    by exists trs, n. }
  assert (Htasks : forall trs n j ts',
            trTaskStatuses (replacedRole spec t
              (trWithTaskStatuses (take n (trTaskStatuses trs)) trs)) !! j = Some ts' ->
            exists ts, trTaskStatuses trs !! j = Some ts /\ (j < n)%nat
                       /\ ts' = match GetTaskRoleSpec spec (trName trs) with
                                | Some rs => replacedTask (rsTaskNumber rs) t j ts
                                | None => ts
                                end).
  { intros trs n j ts'. unfold replacedRole. cbn [trName trWithTaskStatuses].
    destruct (GetTaskRoleSpec spec (trName trs)) as [rs|];
      unfold trWithTaskStatuses; cbn [trTaskStatuses].
    - rewrite list_lookup_imap. intros Hl.
      destruct (take n (trTaskStatuses trs) !! j) as [ts|] eqn:Hts; [|done].
      apply lookup_take_Some in Hts as [Hts Hj]. injection Hl as <-. by exists ts.
    - intros [Hts Hj]%lookup_take_Some. by exists ts'. }
  assert (Hlen : forall trs n,
            (n ≤ length (trTaskStatuses trs))%nat ->
            length (trTaskStatuses (replacedRole spec t
              (trWithTaskStatuses (take n (trTaskStatuses trs)) trs))) = n).
  { intros trs n Hn. unfold replacedRole. cbn [trName trWithTaskStatuses].
    destruct (GetTaskRoleSpec spec (trName trs));
      unfold trWithTaskStatuses; cbn [trTaskStatuses];
      rewrite ?length_imap, length_take; lia. }
  rewrite TaskRoleStatuses_with.
  assert (Hnd' : NoDup (trName <$> TaskRoleStatuses st) ->
                 NoDup (trName <$> (replacedRole spec t <$> deleted))).
  { intros Hnd. rewrite <- list_fmap_compose.
    erewrite list_fmap_ext; [|intros i x _; apply trName_replacedRole].
    rewrite Hperm. by apply NoDup_omap_names. }
  split_and!.
  - intros trs' Hin. destruct (Hroles trs' Hin) as (trs & n & Htrs & _ & Hn & ->).
    rewrite Hlen by done. specialize (Hsz trs Htrs). lia.
  - intros [Hnd Hidx]. split; rewrite TaskRoleStatuses_with; [by apply Hnd'|].
    apply Forall_forall. intros trs' Hin.
    destruct (Hroles trs' Hin) as (trs & n & Htrs & _ & Hn & ->).
    rewrite Forall_forall in Hidx. specialize (Hidx trs Htrs).
    apply indexed_lookup. intros j ts' Hts'.
    destruct (Htasks _ _ _ _ Hts') as (ts & Hts & Hj & ->).
    pose proof (proj1 (indexed_lookup _) Hidx j ts Hts) as Hi.
    destruct (GetTaskRoleSpec spec (trName trs)); [by apply tsIndex_replacedTask|done].
  - intros [Hnd Hidx] [Hin Hout].
    assert (Hnd1 : NoDup (trName <$> TaskRoleStatuses
                            (fsWithTaskRoleStatuses (replacedRole spec t <$> deleted) st))).
    { rewrite TaskRoleStatuses_with. by apply Hnd'. }
    split.
    + intros rs Hrs. destruct (Hin rs Hrs) as (trs & Hget & Hle & Htail).
      destruct (GetTaskRoleStatus_elem_of _ _ _ Hget) as [Htrs Hname].
      assert (Hspec : GetTaskRoleSpec spec (trName trs) = Some rs).
      { rewrite Hname. unfold GetTaskRoleSpec. by apply list_find_rsName. }
      set (n := cutPoint (rsTaskNumber rs) (trTaskStatuses trs)).
      assert (Hcomp : compactedRole spec trs
                      = Some (trWithTaskStatuses (take n (trTaskStatuses trs)) trs)).
      { unfold compactedRole. by rewrite Hspec. }
      assert (Hn : (n ≤ length (trTaskStatuses trs))%nat) by apply cutPoint_le.
      set (trs' := replacedRole spec t (trWithTaskStatuses (take n (trTaskStatuses trs)) trs)).
      assert (Hin' : trs' ∈ replacedRole spec t <$> deleted).
      { apply list_elem_of_fmap_2. rewrite Hperm. apply list_elem_of_omap.
        exists trs. by split. }
      exists trs'. split_and!.
      * rewrite <- Hname.
        replace (trName trs) with (trName trs') by (by unfold trs'; rewrite trName_replacedRole).
        apply GetTaskRoleStatus_NoDup; [done|]. by rewrite TaskRoleStatuses_with.
      * unfold trs'. rewrite Hlen by done. unfold n, cutPoint.
        specialize (Hnum rs Hrs). lia.
      * intros j ts' Hts' Hj.
        destruct (Htasks _ _ _ _ Hts') as (ts & Hts & _ & ->). rewrite Hspec.
        unfold replacedTask. rewrite bool_decide_eq_false_2 by lia. simpl.
        by apply (Htail j).
    + intros trs' Hin' Hnone ts' Hts'. rewrite TaskRoleStatuses_with in Hin'.
      destruct (Hroles trs' Hin') as (trs & n & Htrs & _ & Hn & ->).
      rewrite trName_replacedRole in Hnone. cbn [trName trWithTaskStatuses] in Hnone.
      apply list_elem_of_lookup_1 in Hts' as [j Hts'].
      destruct (Htasks _ _ _ _ Hts') as (ts & Hts & _ & ->). rewrite Hnone.
      apply (Hout trs Htrs Hnone). by eapply list_elem_of_lookup_2.
  - intros trs' rs j ts' Hin' Hspec Hts' Hj.
    destruct (Hroles trs' Hin') as (trs & n & Htrs & _ & Hn & ->).
    rewrite trName_replacedRole in Hspec. cbn [trName trWithTaskStatuses] in Hspec.
    destruct (Htasks _ _ _ _ Hts') as (ts & Hts & _ & ->). rewrite Hspec.
    unfold replacedTask. rewrite bool_decide_eq_true_2 by done. simpl.
    by destruct (stale ts) eqn:Hs.
Qed.

(** ** What a sync may touch *)

Lemma SameFramework_refl f : SameFramework f f.
Proof. done. Qed.

Lemma SameFramework_trans f1 f2 f3 :
  SameFramework f1 f2 -> SameFramework f2 f3 -> SameFramework f1 f3.
Proof. unfold SameFramework. congruence. Qed.

Lemma SameFramework_Key f f' : SameFramework f f' -> Key f' = Key f.
Proof.
  unfold SameFramework, withStatusPtr, Key. intros [= Hns Hname _ _ _]. by rewrite Hns, Hname.
Qed.

Lemma SameFramework_withStatus f st : SameFramework f (withStatus f st).
Proof. done. Qed.

Lemma StatusOnly_refl s : StatusOnly s s.
Proof. split; [done|]. by exists []. Qed.

Lemma StatusOnly_trans s1 s2 s3 : StatusOnly s1 s2 -> StatusOnly s2 s3 -> StatusOnly s1 s3.
Proof.
  intros [Hf1 (ops1 & Hq1 & Hk1)] [Hf2 (ops2 & Hq2 & Hk2)].
  split; [by eapply SameFramework_trans|].
  exists (ops2 ++ ops1). split; [by rewrite Hq2, Hq1, app_assoc|].
  apply Forall_app. split; [|done].
  eapply Forall_impl; [exact Hk2|]. intros op Hop. simpl in Hop.
  by rewrite Hop, (SameFramework_Key _ _ Hf1).
Qed.

Lemma KF_ret {A} (a : A) : KeepsFramework (@ret (St R) A a).
Proof. intros s a' s' [= _ <-]. apply StatusOnly_refl. Qed.

Lemma KF_panic {A} : KeepsFramework (@panic (St R) A).
Proof. by intros s a s'. Qed.

Lemma KF_gets {A} (g : St R -> A) : KeepsFramework (gets g).
Proof. intros s a s' [= _ <-]. apply StatusOnly_refl. Qed.

Lemma KF_deref {A} (o : option A) : KeepsFramework (@deref (St R) A o).
Proof. destruct o; [apply KF_ret|apply KF_panic]. Qed.

Lemma KF_bind {A B} (m : M (St R) A) (k : A -> M (St R) B) :
  KeepsFramework m -> (forall a, KeepsFramework (k a)) -> KeepsFramework (bind m k).
Proof.
  intros Hm Hk s b s' Hrun. unfold bind in Hrun.
  destruct (m s) as [[a s1]|] eqn:Hms; [|done].
  eapply StatusOnly_trans; [by eapply Hm|by eapply Hk].
Qed.

Lemma KF_call {A} (op : R -> A * R) : KeepsFramework (liftW (call op)).
Proof.
  intros s a s'. unfold liftW, call. destruct (op (wCluster (stW s))) as [a' r].
  intros [= _ <-]. split; [done|]. by exists [].
Qed.

Lemma KF_setStatus (g : St R -> FrameworkStatus) :
  KeepsFramework (modify (fun s => {| stF := withStatus (stF s) (g s); stW := stW s |})).
Proof. intros s a s' [= _ <-]. split; [done|]. by exists []. Qed.

Lemma KF_foldM {A B} (body : B -> A -> M (St R) B) l acc :
  (forall acc x, KeepsFramework (body acc x)) -> KeepsFramework (foldM body l acc).
Proof.
  intros Hbody. revert acc. induction l as [|x l IH]; intros acc; simpl.
  - apply KF_ret.
  - apply KF_bind; [apply Hbody|]. intros acc'. apply IH.
Qed.

Lemma KF_forM {A} (body : A -> M (St R) unit) l :
  (forall x, KeepsFramework (body x)) -> KeepsFramework (forM_ body l).
Proof.
  intros Hbody. induction l as [|x l IH]; simpl.
  - apply KF_ret.
  - apply KF_bind; [apply Hbody|]. intros _. apply IH.
Qed.

Lemma KF_queueAdd : KeepsFramework (f <- gets stF ;; liftW (queueAdd (R := R) (Key f))).
Proof.
  intros s a s' [= _ <-]. split; [done|]. exists [QueueAdd (Key (stF s))].
  split; [done|]. by apply Forall_singleton.
Qed.

Lemma KF_queueAddAfter {A} (left : Framework -> Z) (k : M (St R) A) :
  KeepsFramework k ->
  KeepsFramework (f <- gets stF ;; liftW (queueAddAfter (R := R) (Key f) (left f)) ;; k).
Proof.
  intros Hk s a s' Hrun.
  eapply StatusOnly_trans; [|eapply Hk; exact Hrun].
  split; [done|]. exists [QueueAddAfter (Key (stF s)) (left (stF s))].
  split; [done|]. by apply Forall_singleton.
Qed.

Create HintDb kf discriminated.
#[local] Hint Resolve KF_ret KF_panic KF_gets KF_deref KF_call KF_setStatus KF_queueAdd : kf.

Ltac kf_loop := fail.
Ltac kf_step :=
  cbv beta zeta;
  match goal with
  | |- _ => kf_loop
  | |- KeepsFramework (ret _) => apply KF_ret
  | |- KeepsFramework panic => apply KF_panic
  | |- KeepsFramework (gets _) => apply KF_gets
  | |- KeepsFramework (deref _) => apply KF_deref
  | |- KeepsFramework (liftW (call _)) => apply KF_call
  | |- KeepsFramework (bind _ _) => apply KF_bind; [|intros ?]
  | |- KeepsFramework (foldM _ _ _) => apply KF_foldM; intros ? ?
  | |- KeepsFramework (forM_ _ _) => apply KF_forM; intros ?
  | |- KeepsFramework (match ?x with _ => _ end) => destruct x
  | |- _ => solve [auto with kf]
  end.
Ltac kf := repeat kf_step.

Lemma KF_now c :
  KeepsFramework (R := R) (now c).
Proof. unfold now. kf. Qed.
#[local] Hint Resolve KF_now : kf.

Lemma KF_status  :
  KeepsFramework (R := R) status.
Proof. unfold status. kf. Qed.
#[local] Hint Resolve KF_status : kf.

Lemma KF_modifyStatus (g : FrameworkStatus -> FrameworkStatus) :
  KeepsFramework (R := R) (modifyStatus g).
Proof. unfold modifyStatus. kf. Qed.
#[local] Hint Resolve KF_modifyStatus : kf.

Lemma KF_TaskRoleStatus_ (taskRoleName : string) :
  KeepsFramework (R := R) (TaskRoleStatus_ taskRoleName).
Proof. unfold TaskRoleStatus_. kf. Qed.
#[local] Hint Resolve KF_TaskRoleStatus_ : kf.

Lemma KF_TaskStatus_ (taskRoleName : string) (taskIndex : Z) :
  KeepsFramework (R := R) (TaskStatus_ taskRoleName taskIndex).
Proof. unfold TaskStatus_. kf. Qed.
#[local] Hint Resolve KF_TaskStatus_ : kf.

Lemma KF_modifyTask (taskRoleName : string) (taskIndex : Z) (g : TaskStatus -> TaskStatus) :
  KeepsFramework (R := R) (modifyTask taskRoleName taskIndex g).
Proof. unfold modifyTask. kf. Qed.
#[local] Hint Resolve KF_modifyTask : kf.

Lemma KF_taskPos (i j : nat) :
  KeepsFramework (R := R) (taskPos i j).
Proof. unfold taskPos. kf. Qed.
#[local] Hint Resolve KF_taskPos : kf.

Lemma KF_modifyTaskPos (i j : nat) (g : TaskStatus -> TaskStatus) :
  KeepsFramework (R := R) (modifyTaskPos i j g).
Proof. unfold modifyTaskPos. kf. Qed.
#[local] Hint Resolve KF_modifyTaskPos : kf.

Lemma KF_rangeTasks (body : nat -> nat -> string -> M (St R) unit) :
  (forall i j n, KeepsFramework (body i j n)) ->
  KeepsFramework (R := R) (rangeTasks body).
Proof. intros. unfold rangeTasks. kf. Qed.
Ltac kf_loop ::=
  match goal with
  | |- KeepsFramework (rangeTasks _) => apply KF_rangeTasks; intros ? ? ?
  end.

Lemma KF_IsCompleting  :
  KeepsFramework (R := R) IsCompleting.
Proof. unfold IsCompleting. kf. Qed.
#[local] Hint Resolve KF_IsCompleting : kf.

Lemma KF_TransitionFrameworkState_ c (dstState : FrameworkState) :
  KeepsFramework (R := R) (TransitionFrameworkState_ c dstState).
Proof. unfold TransitionFrameworkState_. kf. Qed.
#[local] Hint Resolve KF_TransitionFrameworkState_ : kf.

Lemma KF_TransitionTaskState_ c (taskRoleName : string) (taskIndex : Z) (dstState : TaskState) :
  KeepsFramework (R := R) (TransitionTaskState_ c taskRoleName taskIndex dstState).
Proof. unfold TransitionTaskState_. kf. Qed.
#[local] Hint Resolve KF_TransitionTaskState_ : kf.

Lemma KF_enqueueFrameworkTimeoutCheck c (startTime : Time) (timeoutSec : option Z) (failIfTimeout : bool) :
  KeepsFramework (R := R) (enqueueFrameworkTimeoutCheck c startTime timeoutSec failIfTimeout).
Proof.
  intros s a s' Hrun. unfold enqueueFrameworkTimeoutCheck, bind, gets, now in Hrun.
  destruct timeoutSec as [sec|]; simpl in Hrun; [|done].
  destruct (IsTimeout _ && failIfTimeout); injection Hrun as <- <-.
  - apply StatusOnly_refl.
  - split; [done|]. eexists [_]. split; [done|]. by apply Forall_singleton.
Qed.
#[local] Hint Resolve KF_enqueueFrameworkTimeoutCheck : kf.

Lemma KF_enqueueFrameworkCompletedRetainTimeoutCheck c (failIfTimeout : bool) :
  KeepsFramework (R := R) (enqueueFrameworkCompletedRetainTimeoutCheck c failIfTimeout).
Proof. unfold enqueueFrameworkCompletedRetainTimeoutCheck. kf. Qed.
#[local] Hint Resolve KF_enqueueFrameworkCompletedRetainTimeoutCheck : kf.

Lemma KF_enqueueFrameworkAttemptCreationTimeoutCheck c (failIfTimeout : bool) :
  KeepsFramework (R := R) (enqueueFrameworkAttemptCreationTimeoutCheck c failIfTimeout).
Proof. unfold enqueueFrameworkAttemptCreationTimeoutCheck. kf. Qed.
#[local] Hint Resolve KF_enqueueFrameworkAttemptCreationTimeoutCheck : kf.

Lemma KF_enqueueTaskAttemptCreationTimeoutCheck c (taskRoleName : string) (taskIndex : Z) (failIfTimeout : bool) :
  KeepsFramework (R := R) (enqueueTaskAttemptCreationTimeoutCheck c taskRoleName taskIndex failIfTimeout).
Proof. unfold enqueueTaskAttemptCreationTimeoutCheck. kf. Qed.
#[local] Hint Resolve KF_enqueueTaskAttemptCreationTimeoutCheck : kf.

Lemma KF_enqueueFrameworkRetryDelayTimeoutCheck c (failIfTimeout : bool) :
  KeepsFramework (R := R) (enqueueFrameworkRetryDelayTimeoutCheck c failIfTimeout).
Proof. unfold enqueueFrameworkRetryDelayTimeoutCheck. kf. Qed.
#[local] Hint Resolve KF_enqueueFrameworkRetryDelayTimeoutCheck : kf.

Lemma KF_enqueueTaskRetryDelayTimeoutCheck c (taskRoleName : string) (taskIndex : Z) (failIfTimeout : bool) :
  KeepsFramework (R := R) (enqueueTaskRetryDelayTimeoutCheck c taskRoleName taskIndex failIfTimeout).
Proof. unfold enqueueTaskRetryDelayTimeoutCheck. kf. Qed.
#[local] Hint Resolve KF_enqueueTaskRetryDelayTimeoutCheck : kf.

Lemma KF_enqueuePodGracefulDeletionTimeoutCheck c (timeoutSec : option Z) (failIfTimeout : bool) (pod : Pod) :
  KeepsFramework (R := R) (enqueuePodGracefulDeletionTimeoutCheck c timeoutSec failIfTimeout pod).
Proof. unfold enqueuePodGracefulDeletionTimeoutCheck. kf. Qed.
#[local] Hint Resolve KF_enqueuePodGracefulDeletionTimeoutCheck : kf.

Lemma KF_enqueueFrameworkSync c :
  KeepsFramework (R := R) (enqueueFrameworkSync c).
Proof. unfold enqueueFrameworkSync. apply KF_queueAdd. Qed.
#[local] Hint Resolve KF_enqueueFrameworkSync : kf.

Lemma KF_syncTaskRoleSpecScale c (producedNewPendingTask : bool) (taskRoleSpec : TaskRoleSpec) :
  KeepsFramework (R := R) (syncTaskRoleSpecScale c producedNewPendingTask taskRoleSpec).
Proof. unfold syncTaskRoleSpecScale. kf. Qed.
#[local] Hint Resolve KF_syncTaskRoleSpecScale : kf.

Lemma KF_syncTaskRoleStatusScale c (spec : FrameworkSpec) (producedNewPendingTask : bool) (i : nat) :
  KeepsFramework (R := R) (syncTaskRoleStatusScale c spec producedNewPendingTask i).
Proof. unfold syncTaskRoleStatusScale. kf. Qed.
#[local] Hint Resolve KF_syncTaskRoleStatusScale : kf.

Lemma KF_syncFrameworkScale c :
  KeepsFramework (R := R) (syncFrameworkScale c).
Proof. unfold syncFrameworkScale. kf. Qed.
#[local] Hint Resolve KF_syncFrameworkScale : kf.

Lemma KF_completeTaskAttempt c (taskRoleName : string) (taskIndex : Z) (force : bool) (completionStatus : option TaskAttemptCompletionStatus) :
  KeepsFramework (R := R) (completeTaskAttempt c taskRoleName taskIndex force completionStatus).
Proof. unfold completeTaskAttempt. kf. Qed.
#[local] Hint Resolve KF_completeTaskAttempt : kf.

Lemma KF_completeFrameworkAttempt c (force : bool) (completionStatus : option FrameworkAttemptCompletionStatus) :
  KeepsFramework (R := R) (completeFrameworkAttempt c force completionStatus).
Proof. unfold completeFrameworkAttempt. kf. Qed.
#[local] Hint Resolve KF_completeFrameworkAttempt : kf.

Lemma KF_syncTaskRoleTrigger (taskRoleStatus : TaskRoleStatus) (taskRoleName : string) (selector : TaskStatusSelector) (minTaskCount : Z) (newStatus : TaskStatus -> string -> Z -> Z -> FrameworkAttemptCompletionStatus) (first : FirstTrigger) :
  KeepsFramework (R := R) (syncTaskRoleTrigger taskRoleStatus taskRoleName selector minTaskCount newStatus first).
Proof. unfold syncTaskRoleTrigger. kf. Qed.
#[local] Hint Resolve KF_syncTaskRoleTrigger : kf.

Lemma KF_syncTaskRoleCompletionPolicy (st : FrameworkStatus) (first : FirstTrigger) (taskRoleSpec : TaskRoleSpec) :
  KeepsFramework (R := R) (syncTaskRoleCompletionPolicy st first taskRoleSpec).
Proof. unfold syncTaskRoleCompletionPolicy. kf. Qed.
#[local] Hint Resolve KF_syncTaskRoleCompletionPolicy : kf.

Lemma KF_syncTaskRoleLastCompleted (st : FrameworkStatus) (last : LastCompleted) (taskRoleSpec : TaskRoleSpec) :
  KeepsFramework (R := R) (syncTaskRoleLastCompleted st last taskRoleSpec).
Proof. unfold syncTaskRoleLastCompleted. kf. Qed.
#[local] Hint Resolve KF_syncTaskRoleLastCompleted : kf.

Lemma KF_syncFrameworkAttemptCompletionPolicy c :
  KeepsFramework (R := R) (syncFrameworkAttemptCompletionPolicy c).
Proof. unfold syncFrameworkAttemptCompletionPolicy. kf. Qed.
#[local] Hint Resolve KF_syncFrameworkAttemptCompletionPolicy : kf.

Lemma KF_deleteFramework c (confirm : bool) :
  KeepsFramework (R := R) (deleteFramework c confirm).
Proof. unfold deleteFramework. kf. Qed.
#[local] Hint Resolve KF_deleteFramework : kf.

Lemma KF_deleteConfigMap c (cmUID_ : UID) (confirm : bool) :
  KeepsFramework (R := R) (deleteConfigMap c cmUID_ confirm).
Proof. unfold deleteConfigMap. kf. Qed.
#[local] Hint Resolve KF_deleteConfigMap : kf.

Lemma KF_PodName_ (taskRoleName : string) (taskIndex : Z) :
  KeepsFramework (R := R) (PodName_ taskRoleName taskIndex).
Proof. unfold PodName_. kf. Qed.
#[local] Hint Resolve KF_PodName_ : kf.

Lemma KF_deletePod c (taskRoleName : string) (taskIndex : Z) (podUID_ : UID) (confirm force : bool) :
  KeepsFramework (R := R) (deletePod c taskRoleName taskIndex podUID_ confirm force).
Proof. unfold deletePod. kf. Qed.
#[local] Hint Resolve KF_deletePod : kf.

Lemma KF_isControlledBy (controllerUID : option UID) (ownerUID : option UID) :
  KeepsFramework (R := R) (isControlledBy controllerUID ownerUID).
Proof. unfold isControlledBy. kf. Qed.
#[local] Hint Resolve KF_isControlledBy : kf.

Lemma KF_getOrCleanupConfigMap c (confirm : bool) :
  KeepsFramework (R := R) (getOrCleanupConfigMap c confirm).
Proof. unfold getOrCleanupConfigMap. kf. Qed.
#[local] Hint Resolve KF_getOrCleanupConfigMap : kf.

Lemma KF_createConfigMap c :
  KeepsFramework (R := R) (createConfigMap c).
Proof. unfold createConfigMap. kf. Qed.
#[local] Hint Resolve KF_createConfigMap : kf.

Lemma KF_handlePodGracefulDeletion c (taskRoleName : string) (taskIndex : Z) (pod : Pod) :
  KeepsFramework (R := R) (handlePodGracefulDeletion c taskRoleName taskIndex pod).
Proof. unfold handlePodGracefulDeletion. kf. Qed.
#[local] Hint Resolve KF_handlePodGracefulDeletion : kf.

Lemma KF_getOrCleanupPod c (cm : option ConfigMap) (taskRoleName : string) (taskIndex : Z) (confirm : bool) :
  KeepsFramework (R := R) (getOrCleanupPod c cm taskRoleName taskIndex confirm).
Proof. unfold getOrCleanupPod. kf. Qed.
#[local] Hint Resolve KF_getOrCleanupPod : kf.

Lemma KF_createPod c (cm : option ConfigMap) (taskRoleName : string) (taskIndex : Z) :
  KeepsFramework (R := R) (createPod c cm taskRoleName taskIndex).
Proof. unfold createPod. kf. Qed.
#[local] Hint Resolve KF_createPod : kf.

Lemma KF_syncTaskStatePodAbsent c (taskRoleName : string) (taskIndex : Z) (continue : M (St R) (option Error)) :
  KeepsFramework continue ->
  KeepsFramework (R := R) (syncTaskStatePodAbsent c taskRoleName taskIndex continue).
Proof. intros. unfold syncTaskStatePodAbsent. kf. Qed.
#[local] Hint Resolve KF_syncTaskStatePodAbsent : kf.

Lemma KF_syncTaskStatePodPresent c (taskRoleName : string) (taskIndex : Z) (pod : Pod) (continue : M (St R) (option Error)) :
  KeepsFramework continue ->
  KeepsFramework (R := R) (syncTaskStatePodPresent c taskRoleName taskIndex pod continue).
Proof. intros. unfold syncTaskStatePodPresent. kf. Qed.
#[local] Hint Resolve KF_syncTaskStatePodPresent : kf.

Lemma KF_syncTaskStateAttemptCompleted c (taskRoleSpec : option TaskRoleSpec) (taskRoleName : string) (taskIndex : Z) (continue : M (St R) (option Error)) :
  KeepsFramework continue ->
  KeepsFramework (R := R) (syncTaskStateAttemptCompleted c taskRoleSpec taskRoleName taskIndex continue).
Proof. intros. unfold syncTaskStateAttemptCompleted. kf. Qed.
#[local] Hint Resolve KF_syncTaskStateAttemptCompleted : kf.

Ltac kf_loop ::=
  match goal with
  | |- KeepsFramework (rangeTasks _) => apply KF_rangeTasks; intros ? ? ?
  | |- KeepsFramework (syncTaskStatePodAbsent _ _ _ _) => apply KF_syncTaskStatePodAbsent
  | |- KeepsFramework (syncTaskStatePodPresent _ _ _ _ _) => apply KF_syncTaskStatePodPresent
  | |- KeepsFramework (syncTaskStateAttemptCompleted _ _ _ _ _) =>
      apply KF_syncTaskStateAttemptCompleted
  end.

Lemma KF_syncTaskStateCreationPending c (cm : option ConfigMap) (taskRoleSpec : option TaskRoleSpec) (taskRoleName : string) (taskIndex : Z) :
  KeepsFramework (R := R) (syncTaskStateCreationPending c cm taskRoleSpec taskRoleName taskIndex).
Proof. unfold syncTaskStateCreationPending. kf. Qed.
#[local] Hint Resolve KF_syncTaskStateCreationPending : kf.

Lemma KF_syncTaskStateCompleted c (taskRoleSpec : option TaskRoleSpec) (taskRoleName : string) (taskIndex : Z) :
  KeepsFramework (R := R) (syncTaskStateCompleted c taskRoleSpec taskRoleName taskIndex).
Proof. unfold syncTaskStateCompleted. kf. Qed.
#[local] Hint Resolve KF_syncTaskStateCompleted : kf.

Lemma KF_syncTaskState c (cm : option ConfigMap) (taskRoleName : string) (taskIndex : Z) :
  KeepsFramework (R := R) (syncTaskState c cm taskRoleName taskIndex).
Proof. unfold syncTaskState. kf. Qed.
#[local] Hint Resolve KF_syncTaskState : kf.

Lemma KF_syncTaskRoleStatuses c (cm : option ConfigMap) :
  KeepsFramework (R := R) (syncTaskRoleStatuses c cm).
Proof. unfold syncTaskRoleStatuses. kf. Qed.
#[local] Hint Resolve KF_syncTaskRoleStatuses : kf.

Lemma KF_syncFrameworkStateStopRequested c :
  KeepsFramework (R := R) (syncFrameworkStateStopRequested c).
Proof. unfold syncFrameworkStateStopRequested. kf. Qed.
#[local] Hint Resolve KF_syncFrameworkStateStopRequested : kf.

Lemma KF_syncFrameworkStateTasks c (cm : option ConfigMap) :
  KeepsFramework (R := R) (syncFrameworkStateTasks c cm).
Proof. unfold syncFrameworkStateTasks. kf. Qed.
#[local] Hint Resolve KF_syncFrameworkStateTasks : kf.

Lemma KF_syncFrameworkStateCreationPending c :
  KeepsFramework (R := R) (syncFrameworkStateCreationPending c).
Proof. unfold syncFrameworkStateCreationPending. kf. Qed.
#[local] Hint Resolve KF_syncFrameworkStateCreationPending : kf.

Lemma KF_retryFramework c (retryDecision : RetryDecision) :
  KeepsFramework (R := R) (retryFramework c retryDecision).
Proof. unfold retryFramework. kf. Qed.
#[local] Hint Resolve KF_retryFramework : kf.

Lemma KF_syncFrameworkStateAttemptCompleted c (continue : M (St R) (option Error)) :
  KeepsFramework continue ->
  KeepsFramework (R := R) (syncFrameworkStateAttemptCompleted c continue).
Proof. intros. unfold syncFrameworkStateAttemptCompleted. kf. Qed.
#[local] Hint Resolve KF_syncFrameworkStateAttemptCompleted : kf.

Lemma KF_syncFrameworkStateConfigMapAbsent c (continue : M (St R) (option Error)) :
  KeepsFramework continue ->
  KeepsFramework (R := R) (syncFrameworkStateConfigMapAbsent c continue).
Proof. intros. unfold syncFrameworkStateConfigMapAbsent. kf. Qed.
#[local] Hint Resolve KF_syncFrameworkStateConfigMapAbsent : kf.

Lemma KF_syncFrameworkStateConfigMapPresent c (cm : ConfigMap) (continue : M (St R) (option Error)) :
  KeepsFramework continue ->
  KeepsFramework (R := R) (syncFrameworkStateConfigMapPresent c cm continue).
Proof. intros. unfold syncFrameworkStateConfigMapPresent. kf. Qed.
#[local] Hint Resolve KF_syncFrameworkStateConfigMapPresent : kf.

Ltac kf_loop ::=
  match goal with
  | |- KeepsFramework (rangeTasks _) => apply KF_rangeTasks; intros ? ? ?
  | |- KeepsFramework (syncFrameworkStateAttemptCompleted _ _) =>
      apply KF_syncFrameworkStateAttemptCompleted
  | |- KeepsFramework (syncFrameworkStateConfigMapAbsent _ _) =>
      apply KF_syncFrameworkStateConfigMapAbsent
  | |- KeepsFramework (syncFrameworkStateConfigMapPresent _ _ _) =>
      apply KF_syncFrameworkStateConfigMapPresent
  end.

Lemma KF_syncFrameworkState c :
  KeepsFramework (R := R) (syncFrameworkState c).
Proof. unfold syncFrameworkState. kf. Qed.
#[local] Hint Resolve KF_syncFrameworkState : kf.

Lemma KF_compactFrameworkScale c :
  KeepsFramework (R := R) (compactFrameworkScale c).
Proof. unfold compactFrameworkScale. kf. Qed.
#[local] Hint Resolve KF_compactFrameworkScale : kf.

Lemma KF_updatePodGracefulDeletionTimeoutSec c :
  KeepsFramework (R := R) (updatePodGracefulDeletionTimeoutSec c).
Proof. unfold updatePodGracefulDeletionTimeoutSec. kf. Qed.
#[local] Hint Resolve KF_updatePodGracefulDeletionTimeoutSec : kf.

Lemma KF_syncFrameworkStatus c :
  KeepsFramework (R := R) (syncFrameworkStatus c).
Proof. unfold syncFrameworkStatus. kf. Qed.
#[local] Hint Resolve KF_syncFrameworkStatus : kf.

(** X26. A sync of the status of a Framework that returns has changed
    nothing of the Framework but its status: the namespace, the name, the
    UID, the deletion timestamp and the spec are as before.  And what it
    has enqueued, at once or for later, is the key of this Framework: the
    queue is the one before with operations on that key put in front. *)
Theorem syncFrameworkStatus_changes_status_only c s err s' :
  syncFrameworkStatus c s = Some (err, s') ->
  fNamespace (stF s') = fNamespace (stF s)
  /\ fName (stF s') = fName (stF s)
  /\ fUID (stF s') = fUID (stF s)
  /\ fDeletionTimestamp (stF s') = fDeletionTimestamp (stF s)
  /\ fSpec (stF s') = fSpec (stF s)
  /\ exists ops, wQueue (stW s') = ops ++ wQueue (stW s)
                 /\ Forall (fun op => queueKey op = Key (stF s)) ops.
Proof.
  intros Hrun. destruct (KF_syncFrameworkStatus c s err s' Hrun) as [Hsame Hq].
  unfold SameFramework, withStatusPtr in Hsame. by injection Hsame as -> -> -> -> ->.
Qed.

(** ** The expected status and the remote *)

Context {HPersistence : Persistence}.
Implicit Type k : PersistenceClients R.

Lemma RetryOnConflict_returns steps (fn : bool -> M (World R) (option UpdateFailure))
    tried last w :
  (forall tried w, exists err w', fn tried w = Some (err, w') /\ wQueue w' = wQueue w) ->
  exists err w', RetryOnConflict steps fn tried last w = Some (err, w')
                 /\ wQueue w' = wQueue w.
Proof.
  intros Hfn. revert tried last w. induction steps as [|n IH]; intros tried last w; simpl.
  - by eexists _, _.
  - unfold bind. destruct (Hfn tried w) as (err & w1 & -> & Hq).
    destruct err as [e|]; [|by eexists _, _].
    destruct (isConflictFailure e); [|by eexists _, _].
    destruct (IH true (Some e) w1) as (err' & w' & -> & Hq').
    eexists _, _. split; [done|]. by rewrite Hq', Hq.
Qed.

Lemma call_returns {A} (op : R -> A * R) (w : World R) :
  call op w = Some ((op (wCluster w)).1,
                    {| wCluster := (op (wCluster w)).2; wQueue := wQueue w |}).
Proof. unfold call. by destruct (op (wCluster w)). Qed.

Lemma updateRemoteFrameworkStatusOnce_returns k f tried w :
  exists err w', updateRemoteFrameworkStatusOnce k f tried w = Some (err, w')
                 /\ wQueue w' = wQueue w.
Proof.
  unfold updateRemoteFrameworkStatusOnce. destruct tried; simpl.
  - unfold bind. rewrite call_returns.
    destruct (fLister_Get k _ _ _).1 as [getErr|localF].
    + destruct (IsNotFound getErr); by eexists _, _.
    + destruct (bool_decide _); simpl; [|by eexists _, _].
      rewrite call_returns. by eexists _, _.
  - unfold bind. rewrite call_returns. by eexists _, _.
Qed.

(** updateRemoteFrameworkStatus always returns, and leaves the queue as it
    is. *)
Lemma updateRemoteFrameworkStatus_returns k f w :
  exists err w', updateRemoteFrameworkStatus k f w = Some (err, w')
                 /\ wQueue w' = wQueue w.
Proof.
  apply RetryOnConflict_returns. intros. apply updateRemoteFrameworkStatusOnce_returns.
Qed.

Lemma compressFramework_run k f (u : Ctl R) f' u' :
  (forall f, SameFramework f (Compress f).1) ->
  compressFramework k f u = Some (f', u') -> u' = u /\ SameFramework f f'.
Proof.
  intros HC. unfold compressFramework, bind.
  destruct (LargeFrameworkCompression k) as [[|]|]; simpl; [| |done].
  - intros [= <- <-]. split; [done|apply HC].
  - by intros [= <- <-].
Qed.

Lemma liftC_updateRemoteFrameworkStatus k f (u : Ctl R) :
  exists err w', liftC (updateRemoteFrameworkStatus k f) u
                 = Some (err, {| ctlW := w'; fExpectedStatusInfos := fExpectedStatusInfos u |})
                 /\ updateRemoteFrameworkStatus k f (ctlW u) = Some (err, w')
                 /\ wQueue w' = wQueue (ctlW u).
Proof.
  destruct (updateRemoteFrameworkStatus_returns k f (ctlW u)) as (err & w' & Hrun & Hq).
  exists err, w'. unfold liftC. by rewrite Hrun.
Qed.

Lemma SameFramework_UID f f' : SameFramework f f' -> fUID f' = fUID f.
Proof. unfold SameFramework, withStatusPtr. by intros [= _ _ -> _ _]. Qed.

Lemma SameFramework_withStatusPtr f st : SameFramework f (withStatusPtr f st).
Proof. done. Qed.

(** What the first part of syncFramework leaves: the queue and the expected
    infos of the other Frameworks as they were, and an expected info of the
    Framework, of its UID, that is synced with the remote unless the update
    failed. *)
Lemma syncFrameworkExpected_run k localF (u : Ctl R) res u' :
  (forall f, SameFramework f (Compress f).1) ->
  syncFrameworkExpected k localF u = Some (res, u') ->
  wQueue (ctlW u') = wQueue (ctlW u)
  /\ (forall key', key' <> Key localF ->
        fExpectedStatusInfos u' !! key' = fExpectedStatusInfos u !! key')
  /\ exists info,
       fExpectedStatusInfos u' !! Key localF = Some info
       /\ esUID info = fUID localF
       /\ match res with
          | inl f => SameFramework localF f /\ esRemoteSynced info = true
          | inr _ => esRemoteSynced info = false
          end.
Proof.
  intros HC. unfold syncFrameworkExpected, getExpectedFrameworkStatusInfo.
  unfold bind at 1. unfold gets at 1.
  assert (Hfirst : forall res u',
            (updateExpectedFrameworkStatusInfo (Key localF) (fStatus localF) (fUID localF) true ;;
             ret (inl localF : Framework + SyncFailure)) u = Some (res, u') ->
            wQueue (ctlW u') = wQueue (ctlW u)
            /\ (forall key', key' <> Key localF ->
                  fExpectedStatusInfos u' !! key' = fExpectedStatusInfos u !! key')
            /\ exists info,
                 fExpectedStatusInfos u' !! Key localF = Some info
                 /\ esUID info = fUID localF
                 /\ match res with
                    | inl f => SameFramework localF f /\ esRemoteSynced info = true
                    | inr _ => esRemoteSynced info = false
                    end).
  { intros res0 u0 [= <- <-]. simpl. split; [done|]. split.
    - intros key' Hne. by rewrite lookup_insert_ne.
    - eexists. by rewrite lookup_insert_eq. }
  destruct (fExpectedStatusInfos u !! Key localF) as [expected|] eqn:Hexp; [|apply Hfirst].
  destruct (bool_decide (esUID expected = fUID localF)) eqn:Huid; simpl; [|apply Hfirst].
  apply bool_decide_eq_true in Huid.
  destruct (esRemoteSynced expected) eqn:Hsynced; simpl.
  - intros [= <- <-]. split; [done|]. split; [done|].
    exists expected. by rewrite Hexp.
  - unfold bind.
    destruct (compressFramework k (withStatusPtr localF (esStatus expected)) u)
      as [[f u1]|] eqn:Hcomp; [|done].
    apply compressFramework_run in Hcomp as [-> Hsame]; [|done].
    destruct (liftC_updateRemoteFrameworkStatus k f u) as (err & w' & -> & _ & Hq).
    assert (HK : Key f = Key localF).
    { rewrite (SameFramework_Key _ _ Hsame). done. }
    assert (HU : fUID f = fUID localF).
    { rewrite (SameFramework_UID _ _ Hsame). done. }
    unfold updateExpectedFrameworkStatusInfo, modify. rewrite HK, HU.
    destruct err as [e|]; intros [= <- <-]; simpl.
    + split; [done|]. split; [intros key' Hne; by rewrite lookup_insert_ne|].
      eexists. by rewrite lookup_insert_eq.
    + split; [done|]. split; [intros key' Hne; by rewrite lookup_insert_ne|].
      eexists. rewrite lookup_insert_eq. split; [done|]. split; [done|].
      split; [|done]. eapply SameFramework_trans; [|exact Hsame]. done.
Qed.

Lemma NewSyncAggregate_None errs :
  NewSyncAggregate errs = None -> Forall (fun e => e = None) errs.
Proof.
  unfold NewSyncAggregate. induction errs as [|[e|] errs IH]; simpl; [done|done|].
  intros H. constructor; [done|]. by apply IH.
Qed.

(** What the second part of syncFramework leaves, on a Framework whose
    expected info is of its UID and synced: the queue with operations on
    the key of the Framework put in front, the expected infos of the other
    Frameworks as they were, and an expected info of the Framework, of its
    UID, that is synced with the remote if no error is returned. *)
Lemma syncFrameworkPersist_run k c f (u : Ctl R) err u' info :
  (forall f, SameFramework f (Compress f).1) ->
  (forall f, SameFramework f (Decompress f).1) ->
  fExpectedStatusInfos u !! Key f = Some info ->
  esUID info = fUID f ->
  esRemoteSynced info = true ->
  syncFrameworkPersist k c f u = Some (err, u') ->
  (exists ops, wQueue (ctlW u') = ops ++ wQueue (ctlW u)
               /\ Forall (fun op => queueKey op = Key f) ops)
  /\ (forall key', key' <> Key f ->
        fExpectedStatusInfos u' !! key' = fExpectedStatusInfos u !! key')
  /\ exists info',
       fExpectedStatusInfos u' !! Key f = Some info'
       /\ esUID info' = fUID f
       /\ (err = None -> esRemoteSynced info' = true).
Proof.
  intros HC HD Hinfo Huid Hsynced.
  unfold syncFrameworkPersist, decompressFramework.
  pose proof (HD f) as Hd. destruct (Decompress f) as [fd derr]. simpl in Hd |- *.
  destruct derr as [e|]; simpl.
  { intros [= <- <-]. split; [by exists []|]. split; [done|]. by exists info. }
  unfold bind, onFramework.
  destruct (syncFrameworkStatus c {| stF := fd; stW := ctlW u |}) as [[syncErr s1]|] eqn:Hs;
    [|done].
  destruct (KF_syncFrameworkStatus c _ _ _ Hs) as [Hsame (ops & Hq & Hops)].
  simpl in Hsame, Hq, Hops.
  assert (Hsame1 : SameFramework f (stF s1)) by (by eapply SameFramework_trans).
  assert (Hops' : Forall (fun op => queueKey op = Key f) ops).
  { eapply Forall_impl; [exact Hops|]. intros op Hop. simpl in Hop.
    by rewrite Hop, (SameFramework_Key _ _ Hd). }
  simpl. destruct (bool_decide (fStatus fd = fStatus (stF s1))) eqn:Hchanged; simpl.
  - intros [= <- <-]. simpl. split; [by exists ops|]. split; [done|].
    by exists info.
  - match goal with
    | |- context [compressFramework k (stF s1) ?u0] =>
        destruct (compressFramework k (stF s1) u0) as [[fc u1]|] eqn:Hcomp; [|done];
        apply compressFramework_run in Hcomp as [-> Hsamec]; [|done]
    end.
    match goal with
    | |- context [liftC (updateRemoteFrameworkStatus k fc) ?u0] =>
        destruct (liftC_updateRemoteFrameworkStatus k fc u0) as (updateErr & w' & -> & _ & Hq')
    end.
    simpl in Hq'.
    assert (Hsame2 : SameFramework f fc) by (by eapply SameFramework_trans).
    unfold updateExpectedFrameworkStatusInfo, modify.
    rewrite (SameFramework_Key _ _ Hsame2), (SameFramework_UID _ _ Hsame2).
    intros [= <- <-]. simpl.
    split; [exists ops; by rewrite Hq', Hq|].
    split; [intros key' Hne; by rewrite lookup_insert_ne|].
    eexists. rewrite lookup_insert_eq. split; [done|]. split; [done|]. simpl.
    intros Hnil. apply NewSyncAggregate_None in Hnil.
    apply Forall_cons in Hnil as [_ Hnil]. apply Forall_cons in Hnil as [Hnil _].
    by destruct updateErr.
Qed.

(** X27. What a sync of a key leaves in the expected status store.  With
    Compress and Decompress changing the status of a Framework only: when
    the local cache does not hold the Framework, the sync returns without
    error and has deleted the expected info of the key, or returns the
    error of the cache and leaves the store as it is; the queue is not
    touched.  When the local cache holds the Framework and the sync
    returns, the store holds an expected info of the key of the Framework,
    with the UID of the Framework, and this info is synced with the remote
    whenever the sync returned no error: a status the remote is not known
    to hold always comes with an error.  The expected infos of the other
    keys are as before, and the queue got operations on the key of the
    Framework only. *)
Theorem syncFramework_nil_means_remote_synced k c key (u : Ctl R) err u' :
  (forall f, SameFramework f (Compress f).1) ->
  (forall f, SameFramework f (Decompress f).1) ->
  syncFramework k c key u = Some (err, u') ->
  let got := fLister_Get k (SplitFrameworkKey key).1 (SplitFrameworkKey key).2
               (wCluster (ctlW u)) in
  match got.1 with
  | inl getErr =>
      ctlW u' = {| wCluster := got.2; wQueue := wQueue (ctlW u) |}
      /\ if IsNotFound getErr
         then err = None
              /\ fExpectedStatusInfos u' = delete key (fExpectedStatusInfos u)
         else err = Some (SyncErr (FailGet getErr))
              /\ fExpectedStatusInfos u' = fExpectedStatusInfos u
  | inr localF =>
      (exists info,
         fExpectedStatusInfos u' !! Key localF = Some info
         /\ esUID info = fUID localF
         /\ (err = None -> esRemoteSynced info = true))
      /\ (forall key', key' <> Key localF ->
            fExpectedStatusInfos u' !! key' = fExpectedStatusInfos u !! key')
      /\ exists ops, wQueue (ctlW u') = ops ++ wQueue (ctlW u)
                     /\ Forall (fun op => queueKey op = Key localF) ops
  end.
Proof.
  intros HC HD. unfold syncFramework.
  destruct (SplitFrameworkKey key) as [ns name]. simpl.
  unfold bind at 1. unfold liftC. rewrite call_returns.
  destruct (fLister_Get k ns name (wCluster (ctlW u))) as [[getErr|localF] r]; simpl.
  - destruct (IsNotFound getErr); by intros [= <- <-].
  - unfold bind.
    match goal with
    | |- context [syncFrameworkExpected k localF ?u0] =>
        destruct (syncFrameworkExpected k localF u0) as [[res u1]|] eqn:Hexp; [|done];
        apply syncFrameworkExpected_run in Hexp as (Hq & Hframe & info & Hinfo & Huid & Hres);
        [|done]
    end.
    simpl in Hq, Hframe.
    destruct res as [f|e].
    + destruct Hres as [Hsame Hsynced]. intros Hrun.
      eapply syncFrameworkPersist_run in Hrun as (Hq' & Hframe' & info' & Hinfo' & Huid' & Hnil);
        [|done|done| | |done].
      * rewrite (SameFramework_Key _ _ Hsame) in *.
        rewrite (SameFramework_UID _ _ Hsame) in *.
        split; [by exists info'|]. split.
        -- intros key' Hne. by rewrite Hframe', Hframe.
        -- destruct Hq' as (ops & Hq' & Hops). exists ops. by rewrite Hq', Hq.
      * by rewrite (SameFramework_Key _ _ Hsame).
      * by rewrite (SameFramework_UID _ _ Hsame).
    + intros [= <- <-]. split; [exists info; by split_and!|].
      split; [done|]. exists []. by rewrite Hq.
Qed.

Lemma SameFramework_eq f f' : SameFramework f f' -> f' = withStatusPtr f (fStatus f').
Proof.
  unfold SameFramework, withStatusPtr. destruct f, f'; simpl. by intros [= -> -> -> -> ->].
Qed.

(** The first part of syncFramework on a Framework whose expected info is
    known: the status of the Framework is the expected one. *)
Lemma syncFrameworkExpected_known k localF (u : Ctl R) expected :
  fExpectedStatusInfos u !! Key localF = Some expected ->
  esUID expected = fUID localF ->
  syncFrameworkExpected k localF u
  = (let f := withStatusPtr localF (esStatus expected) in
     if negb (esRemoteSynced expected) then
       f <- compressFramework k f ;;
       updateErr <- liftC (updateRemoteFrameworkStatus k f) ;;
       updateExpectedFrameworkStatusInfo (Key f) (fStatus f) (fUID f) (isNil updateErr) ;;
       match updateErr with
       | Some e => ret (inr (FailUpdate e))
       | None => ret (inl f)
       end
     else ret (inl f)) u.
Proof.
  intros Hexp Huid. unfold syncFrameworkExpected, getExpectedFrameworkStatusInfo.
  unfold bind at 1. unfold gets. rewrite Hexp.
  by rewrite (bool_decide_eq_true_2 _ Huid).
Qed.

Lemma syncFrameworkExpected_status k localF st0 (u : Ctl R) expected :
  fExpectedStatusInfos u !! Key localF = Some expected ->
  esUID expected = fUID localF ->
  syncFrameworkExpected k (withStatusPtr localF st0) u = syncFrameworkExpected k localF u.
Proof.
  intros Hexp Huid.
  rewrite (syncFrameworkExpected_known k localF u expected Hexp Huid).
  by rewrite (syncFrameworkExpected_known k (withStatusPtr localF st0) u expected Hexp Huid).
Qed.

Lemma syncFramework_found k c key (u : Ctl R) localF r :
  fLister_Get k (SplitFrameworkKey key).1 (SplitFrameworkKey key).2 (wCluster (ctlW u))
    = (inr localF, r) ->
  syncFramework k c key u
  = (prepared <- syncFrameworkExpected k localF ;;
     match prepared with
     | inr e => ret (Some (SyncErr e))
     | inl f => syncFrameworkPersist k c f
     end) {| ctlW := worldOf r (wQueue (ctlW u));
             fExpectedStatusInfos := fExpectedStatusInfos u |}.
Proof.
  intros Hget. unfold syncFramework.
  destruct (SplitFrameworkKey key) as [ns name]. simpl in Hget.
  unfold bind at 1. unfold liftC. by rewrite call_returns, Hget.
Qed.

Lemma bind_same_run {S A B} (m1 m2 : M S A) (K : A -> M S B) (x : S) :
  m1 x = m2 x -> bind m1 K x = bind m2 K x.
Proof. unfold bind. by intros ->. Qed.

(** X28. The status of the local cache is not the one that is synced.
    Once the store holds an expected info of the UID of the Framework, the
    status the local cache holds for the Framework has no influence on
    the sync of its key: on two states that differ in that status only,
    syncFramework gives the same result, the same world and the same
    store.  If the info is synced with the remote, the sync is the second
    part of syncFramework on the Framework of the cache with the expected
    status in place of its own. *)
Theorem syncFramework_ignores_cached_status k c key (u1 u2 : Ctl R)
    localF1 localF2 r expected :
  let ns := (SplitFrameworkKey key).1 in
  let name := (SplitFrameworkKey key).2 in
  fLister_Get k ns name (wCluster (ctlW u1)) = (inr localF1, r) ->
  fLister_Get k ns name (wCluster (ctlW u2)) = (inr localF2, r) ->
  wQueue (ctlW u1) = wQueue (ctlW u2) ->
  fExpectedStatusInfos u1 = fExpectedStatusInfos u2 ->
  SameFramework localF1 localF2 ->
  fExpectedStatusInfos u1 !! Key localF1 = Some expected ->
  esUID expected = fUID localF1 ->
  syncFramework k c key u1 = syncFramework k c key u2
  /\ (esRemoteSynced expected = true ->
      syncFramework k c key u1
      = syncFrameworkPersist k c (withStatusPtr localF1 (esStatus expected))
          {| ctlW := worldOf r (wQueue (ctlW u1));
             fExpectedStatusInfos := fExpectedStatusInfos u1 |}).
Proof.
  intros ns name Hget1 Hget2 Hq Hstore Hsame Hexp Huid.
  rewrite (syncFramework_found k c key u1 localF1 r Hget1).
  rewrite (syncFramework_found k c key u2 localF2 r Hget2).
  rewrite <- Hq, <- Hstore. rewrite (SameFramework_eq _ _ Hsame).
  split.
  - apply bind_same_run. symmetry. by apply (syncFrameworkExpected_status _ _ _ _ expected).
  - intros Hsynced.
    erewrite bind_same_run; [|by apply (syncFrameworkExpected_known _ _ _ expected)].
    rewrite Hsynced. simpl. unfold bind. done.
Qed.

(** One run of the function updateRemoteFrameworkStatus retries: it asks
    the remote for one update at most, of the status and the UID of [f],
    and the record of the updates does not change what it does. *)
Lemma updateRemoteFrameworkStatusOnce_recorded k f tried r sent q :
  exists err r' new,
    updateRemoteFrameworkStatusOnce (recording k) f tried (worldOf (r, sent) q)
      = Some (err, worldOf (r', new ++ sent) q)
    /\ updateRemoteFrameworkStatusOnce k f tried (worldOf r q) = Some (err, worldOf r' q)
    /\ (length new ≤ 1)%nat
    /\ Forall (fun sentF => fStatus sentF = fStatus f /\ fUID sentF = fUID f) new
    /\ (err = None -> new <> []).
Proof.
  unfold updateRemoteFrameworkStatusOnce. destruct tried; simpl.
  - unfold bind. rewrite !call_returns. simpl.
    destruct (fLister_Get k (fNamespace f) (fName f) r) as [[getErr|localF] r1]; simpl.
    + destruct (IsNotFound getErr);
        (eexists _, r1, []; split_and!; [done|done|simpl; lia|constructor|done]).
    + destruct (bool_decide (fUID f = fUID localF)) eqn:Huid; simpl.
      * apply bool_decide_eq_true in Huid. rewrite !call_returns. simpl.
        eexists _, _, [_]. split; [done|]. split; [done|]. split; [done|].
        split; [|done]. by apply Forall_singleton.
      * eexists _, r1, []. split_and!; [done|done|simpl; lia|constructor|done].
  - unfold bind. rewrite !call_returns. simpl.
    eexists _, _, [_]. split; [done|]. split; [done|]. split; [done|].
    split; [|done]. by apply Forall_singleton.
Qed.

Lemma RetryOnConflict_recorded k f steps tried last r sent q :
  exists err r' new,
    RetryOnConflict steps (updateRemoteFrameworkStatusOnce (recording k) f) tried last
      (worldOf (r, sent) q)
      = Some (err, worldOf (r', new ++ sent) q)
    /\ RetryOnConflict steps (updateRemoteFrameworkStatusOnce k f) tried last (worldOf r q)
       = Some (err, worldOf r' q)
    /\ (length new ≤ steps)%nat
    /\ Forall (fun sentF => fStatus sentF = fStatus f /\ fUID sentF = fUID f) new
    /\ (err = None -> last <> None \/ steps <> O -> new <> [])
    /\ (steps = O -> err = last).
Proof.
  revert tried last r sent. induction steps as [|n IH]; intros tried last r sent; simpl.
  - exists last, r, []. split_and!; try done. intros -> [H|H]; done.
  - unfold bind.
    destruct (updateRemoteFrameworkStatusOnce_recorded k f tried r sent q)
      as (err & r1 & new & -> & -> & Hlen & Hsent & Hnil).
    destruct err as [e|].
    + destruct (isConflictFailure e).
      * destruct (IH true (Some e) r1 (new ++ sent))
          as (err' & r' & new' & Hrun & -> & Hlen' & Hsent' & Hnil' & _).
        exists err', r', (new' ++ new). rewrite Hrun, app_assoc.
        split_and!; try done.
        -- rewrite length_app. lia.
        -- by apply Forall_app.
        -- intros -> _ Happ. apply app_eq_nil in Happ as [Hn' Hn].
           assert (Hl : Some e <> None \/ n <> O) by (by left).
           by apply (Hnil' eq_refl Hl).
      * exists (Some e), r1, new. split_and!; try done. lia.
    + exists None, r1, new. split_and!; try done; [lia|]. intros _ _. by apply Hnil.
Qed.

(** X29. updateRemoteFrameworkStatus of a Framework [f] always returns and
    does not touch the queue.  On a cluster that records the updates, the
    record does not change what it does, and the updates it asked the
    remote for are at most as many as the steps of the retry, and each of
    them is of an object with the UID of [f] and the status of [f]: a
    conflict is resolved on the object of the local cache only if that is
    the object of the same UID, and the status written is never another
    one.  It returns without error only after an update. *)
Theorem updateRemoteFrameworkStatus_writes_status_of_same_object k f r q :
  exists err r' sent,
    updateRemoteFrameworkStatus (recording k) f (worldOf (r, []) q)
      = Some (err, worldOf (r', sent) q)
    /\ updateRemoteFrameworkStatus k f (worldOf r q) = Some (err, worldOf r' q)
    /\ (length sent ≤ DefaultRetrySteps k)%nat
    /\ Forall (fun sentF => fStatus sentF = fStatus f /\ fUID sentF = fUID f) sent
    /\ (err = None -> DefaultRetrySteps k <> O -> sent <> []).
Proof.
  unfold updateRemoteFrameworkStatus.
  destruct (RetryOnConflict_recorded k f (DefaultRetrySteps k) false None r [] q)
    as (err & r' & new & Hrun & Hplain & Hlen & Hsent & Hnil & _).
  exists err, r', new. rewrite app_nil_r in Hrun.
  split; [exact Hrun|]. split; [exact Hplain|]. split; [done|]. split; [done|].
  intros He Hsteps. apply Hnil; [done|by right].
Qed.

Lemma syncFrameworkExpected_synced k localF (u : Ctl R) :
  remoteOutdated (fExpectedStatusInfos u) localF = false ->
  exists info,
    syncFrameworkExpected k localF u
      = Some (inl (workingCopy (fExpectedStatusInfos u) localF),
              {| ctlW := ctlW u;
                 fExpectedStatusInfos := <[Key localF := info]> (fExpectedStatusInfos u) |})
    /\ esStatus info = fStatus (workingCopy (fExpectedStatusInfos u) localF)
    /\ esUID info = fUID localF
    /\ esRemoteSynced info = true.
Proof.
  unfold remoteOutdated, workingCopy, syncFrameworkExpected, getExpectedFrameworkStatusInfo.
  unfold bind at 1. unfold gets.
  destruct (fExpectedStatusInfos u !! Key localF) as [expected|] eqn:Hexp.
  - destruct (bool_decide (esUID expected = fUID localF)) eqn:Huid; simpl.
    + intros Hsynced. apply negb_false_iff in Hsynced. rewrite Hsynced. simpl.
      exists expected. rewrite insert_id by done. apply bool_decide_eq_true in Huid.
      destruct u. done.
    + intros _. by eexists.
  - intros _. by eexists.
Qed.

(** X30. The expected status is the status the sync left.  For a Framework
    of the local cache whose expected status, if the store holds one of
    its UID, is synced with the remote, without compression and with a
    Decompress that leaves the working copy as it is: when the sync of the
    status returns, syncFramework returns, and the store then holds for
    the Framework the status the sync left, with the UID of the Framework,
    whether the sync returned an error or not.  If the sync left the
    status as it was, the remote is not asked anything and the info is
    synced; if it changed the status, the remote is asked to update it and
    the info is synced exactly when that update succeeded.  No error is
    returned exactly when neither the sync nor the update failed. *)
Theorem syncFramework_records_status_the_sync_left k c key (u : Ctl R)
    localF r syncErr s1 :
  let store := fExpectedStatusInfos u in
  let f0 := workingCopy store localF in
  fLister_Get k (SplitFrameworkKey key).1 (SplitFrameworkKey key).2 (wCluster (ctlW u))
    = (inr localF, r) ->
  remoteOutdated store localF = false ->
  LargeFrameworkCompression k = Some false ->
  Decompress f0 = (f0, None) ->
  syncFrameworkStatus c {| stF := f0; stW := worldOf r (wQueue (ctlW u)) |}
    = Some (syncErr, s1) ->
  exists err u' info,
    syncFramework k c key u = Some (err, u')
    /\ fExpectedStatusInfos u' = <[Key localF := info]> store
    /\ esStatus info = fStatus (stF s1)
    /\ esUID info = fUID localF
    /\ (fStatus (stF s1) = fStatus f0 ->
        ctlW u' = stW s1 /\ esRemoteSynced info = true /\ (err = None <-> syncErr = None))
    /\ (fStatus (stF s1) <> fStatus f0 ->
        exists updateErr,
          updateRemoteFrameworkStatus k (stF s1) (stW s1) = Some (updateErr, ctlW u')
          /\ esRemoteSynced info = isNil updateErr
          /\ (err = None <-> syncErr = None /\ updateErr = None)).
Proof.
  intros store f0 Hget Hsynced Hcompress Hdecompress Hsync. subst store.
  rewrite (syncFramework_found k c key u localF r Hget).
  unfold bind at 1.
  match goal with
  | |- context [syncFrameworkExpected k localF ?u0] =>
      destruct (syncFrameworkExpected_synced k localF u0 Hsynced)
        as (info & -> & Hst & Huid & Hflag)
  end.
  simpl. fold f0.
  unfold syncFrameworkPersist, decompressFramework. rewrite Hdecompress. simpl.
  unfold bind at 1. unfold onFramework. simpl.
  simpl in Hst. fold f0 in Hst.
  rewrite Hsync. simpl.
  destruct (KF_syncFrameworkStatus c _ _ _ Hsync) as [Hsame _]. simpl in Hsame.
  assert (HK : Key (stF s1) = Key localF).
  { rewrite (SameFramework_Key _ _ Hsame). unfold f0, workingCopy.
    destruct (fExpectedStatusInfos u !! Key localF) as [e|]; [|done]. by destruct (bool_decide _). }
  assert (HU : fUID (stF s1) = fUID localF).
  { rewrite (SameFramework_UID _ _ Hsame). unfold f0, workingCopy.
    destruct (fExpectedStatusInfos u !! Key localF) as [e|]; [|done]. by destruct (bool_decide _). }
  destruct (bool_decide (fStatus f0 = fStatus (stF s1))) eqn:Hsame_status; simpl.
  - apply bool_decide_eq_true in Hsame_status.
    eexists _, _, info. split; [done|]. simpl. split; [done|].
    split; [by rewrite Hst|]. split; [done|]. split.
    + intros _. split; [done|]. split; [done|].
      unfold NewSyncAggregate. by destruct syncErr.
    + intros Hne. by destruct Hne.
  - apply bool_decide_eq_false in Hsame_status.
    unfold bind, compressFramework. rewrite Hcompress. simpl.
    match goal with
    | |- context [liftC (updateRemoteFrameworkStatus k (stF s1)) ?u0] =>
        destruct (liftC_updateRemoteFrameworkStatus k (stF s1) u0)
          as (updateErr & w' & -> & Hupdate & _)
    end.
    simpl in Hupdate. simpl. rewrite HK, HU.
    eexists _, _, _. split; [done|]. simpl.
    split; [by rewrite insert_insert_eq|]. simpl.
    split; [done|]. split; [done|]. split.
    + intros Heq. by destruct Hsame_status.
    + intros _. exists updateErr. split; [done|]. split; [done|].
      unfold NewSyncAggregate. destruct syncErr, updateErr; simpl;
        (split; [done|by intros [? ?]]).
Qed.

End Proofs.

(** * Examples on the small cluster *)

#[local] Existing Instance ecCI.

(** C9, example: a status-only update of a running Framework is not
    enqueued. *)
Lemma updateFrameworkObj_same_spec_no_enqueue_witness :
  updateFrameworkObj ecController
    (exFramework (exSpec ExecutionStart [exTaskRoleSpec "worker" 1 1 1]) None)
    (exFramework (exSpec ExecutionStart [exTaskRoleSpec "worker" 1 1 1])
       (Some (exStatus FrameworkAttemptRunning None None [])))
    (exWorld 0)
  = Some (tt, exWorld 0).
Proof. apply updateFrameworkObj_same_spec_no_enqueue; reflexivity. Defined.

(** C10, example: a Pod, a ConfigMap and a Framework the cluster does not
    know any more are deleted with success, and a deletion the cluster
    refuses is an error. *)
Lemma delete_not_found_is_success_witness :
  deletePod ecController "worker" 0 "pod-w-0" true false (exRequestedState (Some ecNotFound))
    = Some (None,
            afterCall (exRequestedState (Some ecNotFound))
              (ecRequest (ReqPodsDelete "default" "job-worker-0"
                            (podDeleteOptions "pod-w-0" false))
                 (wCluster (stW (exRequestedState (Some ecNotFound))))))
  /\ deleteConfigMap ecController "cm-uid" true (exRequestedState (Some ecNotFound))
     = Some (None,
             afterCall (exRequestedState (Some ecNotFound))
               (ecRequest (ReqConfigMapsDelete "default" "job-attempt"
                             {| doPreconditionUID := "cm-uid";
                                doGracePeriodSeconds := None; doForeground := false |})
                  (wCluster (stW (exRequestedState (Some ecNotFound))))))
  /\ deleteFramework ecController true (exRequestedState (Some ecRefused))
     = Some (Some (Err (ErrDelete ecRefused)),
             afterCall (exRequestedState (Some ecRefused))
               (ecRequest (ReqFrameworksDelete "default" "job"
                             {| doPreconditionUID := "f-uid";
                                doGracePeriodSeconds := None; doForeground := true |})
                  (wCluster (stW (exRequestedState (Some ecRefused)))))).
Proof.
  split; [|split].
  - exact (proj1 (proj2 (proj2 (proj2 (proj2
             (delete_not_found_is_success ecController true
                (exRequestedState (Some ecNotFound)))))))
             exRequestedStatus "worker" 0 exRequestedTask "pod-w-0" false ecNotFound _
             eq_refl eq_refl eq_refl).
  - exact (proj1 (proj2 (proj2
             (delete_not_found_is_success ecController true
                (exRequestedState (Some ecNotFound)))))
             "cm-uid" ecNotFound _ eq_refl).
  - exact (proj1 (delete_not_found_is_success ecController true
                    (exRequestedState (Some ecRefused)))
             ecRefused _ eq_refl).
Defined.

(** C3, example: the parameter server succeeded; completing its attempt
    again, with the status of a creation timeout, keeps the status it has.
    The attempt of the Framework has no status yet and gets the one it is
    completed with. *)
Lemma CompletionStatus_is_write_once_witness :
  (exists s' st' ts',
     completeTaskAttempt ecController "ps" 0 true
       (Some (exCompletionStatus CompletionCodePodCreationTimeout)) exPolicyState
       = Some (tt, s')
     /\ fStatus (stF s') = Some st'
     /\ GetTaskStatus st' "ps" 0 = Some ts'
     /\ tsCompletionStatus ts' = exSucceeded)
  /\ (exists s' st',
        completeFrameworkAttempt ecController true (Some exAttemptCompletion) exPolicyState
          = Some (tt, s')
        /\ fStatus (stF s') = Some st'
        /\ faCompletionStatus (fsAttemptStatus st') = Some exAttemptCompletion).
Proof.
  split.
  - exact (proj1 (CompletionStatus_is_write_once ecController exPolicyState
                    exPolicyStatus eq_refl)
             "ps" 0 true (Some (exCompletionStatus CompletionCodePodCreationTimeout))
             exPsTask eq_refl).
  - exact (proj2 (CompletionStatus_is_write_once ecController exPolicyState
                    exPolicyStatus eq_refl)
             true (Some exAttemptCompletion)
             (fun _ => bool_decide_unpack (WellIndexed exPolicyStatus) I)).
Defined.

(** C5, example: the forced completion of the attempt of the stopped
    Framework gives its running worker the default completion status. *)
Lemma completeFrameworkAttempt_cascades_default_witness :
  exists s' st',
    completeFrameworkAttempt ecController true None exStopState = Some (tt, s')
    /\ fStatus (stF s') = Some st'
    /\ Forall2 (fun trs trs' =>
          trName trs' = trName trs /\
          Forall2 (fun ts ts' =>
              tsIndex ts' = tsIndex ts /\
              tsCompletionStatus ts' =
                match tsCompletionStatus ts with
                | Some old => Some old
                | None => Some DefaultTaskAttemptCompletionStatus
                end)
            (trTaskStatuses trs) (trTaskStatuses trs'))
        (TaskRoleStatuses exStopStatus) (TaskRoleStatuses st').
Proof.
  exact (proj2 (completeFrameworkAttempt_cascades_default ecController exStopState
                  exStopStatus true None eq_refl
                  (fun _ => bool_decide_unpack (WellIndexed exStopStatus) I))).
Defined.

(** C6, example: the failed attempt 0 is retried at once (the example
    policy retries without delay) and the attempt 1 is minted. *)
Lemma retry_mints_new_attempt_witness :
  exists s' st',
    syncFrameworkState ecController
      (exState (exSpec ExecutionStart exRoles) (exAttemptCompletedStatus None) 10)
      = Some (None, s')
    /\ fStatus (stF s') = Some st'
    /\ TotalRetriedCount (fsRetryPolicyStatus st') = 1
    /\ AccountableRetriedCount (fsRetryPolicyStatus st') = 1
    /\ RetryDelaySec (fsRetryPolicyStatus st') = None
    /\ faID (fsAttemptStatus st') = 1
    /\ fsState st' = FrameworkAttemptCreationPending.
Proof.
  pose (s := exState (exSpec ExecutionStart exRoles) (exAttemptCompletedStatus None) 10).
  pose (st := exAttemptCompletedStatus None).
  pose (d := ecShouldRetry exRetryPolicy (fsRetryPolicyStatus st)).
  pose (r := wCluster (stW s)).
  assert (H1 : fStatus (stF s) = Some st) by reflexivity.
  assert (H2 : fsState st = FrameworkAttemptCompleted) by reflexivity.
  assert (H3 : faCompletionStatus (fsAttemptStatus st) = Some exAttemptCompletion)
    by reflexivity.
  assert (H4 : FrameworkMinRetryDelaySecForTransientConflictFailed (cConfig ecController)
               = Some 60) by reflexivity.
  assert (H5 : FrameworkMaxRetryDelaySecForTransientConflictFailed (cConfig ecController)
               = Some 900) by reflexivity.
  assert (H6 : RetryPolicy_ShouldRetry ecController (spRetryPolicy (fSpec (stF s)))
                 (fsRetryPolicyStatus st) (facsCompletionStatus exAttemptCompletion)
                 60 900 (wCluster (stW s)) = (d, r)) by reflexivity.
  assert (H7 : scheduledRetryDelay (fsRetryPolicyStatus st) d = Some 0) by reflexivity.
  assert (H8 : fsTransitionTime st + 0 - clockNow ecController r ≤ 0) by (by vm_compute).
  destruct (retry_mints_new_attempt ecController s st exAttemptCompletion 60 900 d r 0
              H1 H2 H3 H4 H5 H6 H7 (or_intror H8))
    as (s' & st' & Hrun & Hst & Htotal & _ & Hacc & Hdelay & _ & Hid & _ & Hstate & _).
  exists s', st'. split; [exact Hrun|]. split; [exact Hst|].
  rewrite Hid, Htotal, Hacc, Hdelay, Hstate. vm_compute. by split_and!.
Defined.

(** C7, example: the running Framework the user asked to stop has its
    attempt completed, not forced, with the status of code
    StopFrameworkRequested, and the sync of the Framework goes on with its
    tasks; and a Framework whose retry was scheduled for an hour later is
    retried at once when the user asks to stop it. *)
Lemma stop_completes_attempt_and_skips_retry_delay_witness :
  (exists s1 st1,
     syncFrameworkStateStopRequested ecController exStopState = Some (tt, s1)
     /\ fStatus (stF s1) = Some st1
     /\ fsState st1 = FrameworkAttemptDeletionPending
     /\ (csCode ∘ facsCompletionStatus <$> faCompletionStatus (fsAttemptStatus st1))
        = Some CompletionCodeStopFrameworkRequested)
  /\ syncFrameworkState ecController exStopState
     = syncFrameworkStateTasks ecController (Some exConfigMap) exStopState
  /\ exists s',
       syncFrameworkState ecController
         (exState (exSpec ExecutionStop exRoles) (exAttemptCompletedStatus (Some 3600)) 10)
         = Some (None, s')
       /\ (fsState <$> fStatus (stF s')) = Some FrameworkAttemptCreationPending
       /\ wQueue (stW s') = [QueueAdd "default/job"].
Proof.
  pose (s := exStopState).
  assert (H1 : fStatus (stF s) = Some exStopStatus) by reflexivity.
  assert (H2 : spExecutionType (fSpec (stF s)) = ExecutionStop) by reflexivity.
  pose proof (stop_completes_attempt_and_skips_retry_delay ecController s exStopStatus H1 H2)
    as (Hstop & Hsync & _ & _).
  pose (s2 := exState (exSpec ExecutionStop exRoles) (exAttemptCompletedStatus (Some 3600)) 10).
  pose (st2 := exAttemptCompletedStatus (Some 3600)).
  assert (H3 : fStatus (stF s2) = Some st2) by reflexivity.
  assert (H4 : spExecutionType (fSpec (stF s2)) = ExecutionStop) by reflexivity.
  pose proof (stop_completes_attempt_and_skips_retry_delay ecController s2 st2 H3 H4)
    as (_ & _ & _ & _ & Hretry).
  split_and!.
  - destruct Hstop as (_ & s1 & st1 & _ & Hrun & Hst & Hstate & Hcs & _);
      [right; reflexivity|].
    exists s1, st1. split; [exact Hrun|]. split; [exact Hst|]. split; [exact Hstate|].
    rewrite Hcs. reflexivity.
  - assert (H5 : cmLister_Get ecController (fNamespace (stF s)) (ConfigMapName (stF s))
                   (wCluster (stW s)) = (inr exConfigMap, wCluster (stW s)))
      by reflexivity.
    exact (Hsync exConfigMap (wCluster (stW s)) (or_intror eq_refl) H5 eq_refl eq_refl).
  - pose (d := ecShouldRetry exRetryPolicy (fsRetryPolicyStatus st2)).
    assert (H6 : RetryPolicy_ShouldRetry ecController (spRetryPolicy (fSpec (stF s2)))
                   (fsRetryPolicyStatus st2) (facsCompletionStatus exAttemptCompletion)
                   60 900 (wCluster (stW s2)) = (d, wCluster (stW s2))) by reflexivity.
    eexists. split; [|split]; cycle 1.
    3: exact (Hretry exAttemptCompletion 60 900 d (wCluster (stW s2)) 3600
                eq_refl eq_refl eq_refl eq_refl eq_refl H6).
    all: reflexivity.
Defined.

(** C7, counterexample: the user asked to stop a Framework whose attempt
    failed and is in FrameworkAttemptDeletionRequested, one of the states
    the claim lists, with its ConfigMap still in the local cache.  The
    attempt is completing; the stop request and the whole sync leave the
    Framework as it is: the attempt is not completed with
    StopFrameworkRequested, its CompletionStatus is the one of the
    failure. *)
Lemma stop_on_deletion_requested_counterexample :
  spExecutionType (fSpec (stF exStopDeletingState)) = ExecutionStop
  /\ fStatus (stF exStopDeletingState) = Some exStopDeletingStatus
  /\ fsState exStopDeletingStatus = FrameworkAttemptDeletionRequested
  /\ IsCompletingState (fsState exStopDeletingStatus) = true
  /\ syncFrameworkStateStopRequested ecController exStopDeletingState
     = Some (tt, exStopDeletingState)
  /\ syncFrameworkState ecController exStopDeletingState
     = Some (None, exStopDeletingState)
  /\ (csCode ∘ facsCompletionStatus
        <$> faCompletionStatus (fsAttemptStatus exStopDeletingStatus))
     = Some (CompletionCodePodFailed 1)
  /\ CompletionCodePodFailed 1 <> CompletionCodeStopFrameworkRequested.
Proof. split_and!; [reflexivity..|by vm_compute|by vm_compute|reflexivity|discriminate]. Qed.

(** *** The example statuses meet the assumptions *)

Lemma exPolicyStatus_Int32Sized : Int32Sized exPolicyStatus.
Proof.
  intros trs Hin. repeat (apply elem_of_cons in Hin as [->|Hin]); [by vm_compute..|].
  by apply elem_of_nil in Hin.
Qed.

Lemma exPolicyStatus_CompletedHaveTime : CompletedHaveTime exPolicyStatus.
Proof.
  intros trs ts Hin Hts _.
  repeat (apply elem_of_cons in Hin as [->|Hin]); [| |by apply elem_of_nil in Hin];
    repeat (apply elem_of_cons in Hts as [->|Hts]); try (by eexists);
    by apply elem_of_nil in Hts.
Qed.

(** C1, example: the first failed worker completed at the instant 3, the
    parameter server succeeded at the instant 2; the parameter server is
    the earliest candidate, and the attempt is completed with the status
    built from it. *)
Lemma completion_policy_picks_earliest_trigger_witness :
  candidates exPolicyStatus (exSpec ExecutionStart exRoles)
    = [(exTask 1 TaskCompleted (Some 3) false (Some "pod-w-1") exFailed,
        ecCompletionStatus
          (Some (exTask 1 TaskCompleted (Some 3) false (Some "pod-w-1") exFailed)));
       (exPsTask, ecCompletionStatus (Some exPsTask))]
  /\ foldM (syncTaskRoleCompletionPolicy exPolicyStatus) exRoles (None, None) exPolicyState
     = Some ((Some 2, Some (ecCompletionStatus (Some exPsTask))), exPolicyState)
  /\ exists s' st',
       syncFrameworkAttemptCompletionPolicy ecController exPolicyState = Some (true, s')
       /\ fStatus (stF s') = Some st'
       /\ faCompletionStatus (fsAttemptStatus st') = Some (ecCompletionStatus (Some exPsTask)).
Proof.
  pose (s := exPolicyState).
  assert (H1 : fStatus (stF s) = Some exPolicyStatus) by reflexivity.
  assert (H2 : IsCompletingState (fsState exPolicyStatus) = false) by reflexivity.
  pose proof (completion_policy_picks_earliest_trigger ecController s exPolicyStatus H1 H2
                exPolicyStatus_Int32Sized exPolicyStatus_CompletedHaveTime)
    as (_ & _ & Hloop & _ & Hrun).
  assert (Hcands : candidates exPolicyStatus (exSpec ExecutionStart exRoles)
    = [(exTask 1 TaskCompleted (Some 3) false (Some "pod-w-1") exFailed,
        ecCompletionStatus
          (Some (exTask 1 TaskCompleted (Some 3) false (Some "pod-w-1") exFailed)));
       (exPsTask, ecCompletionStatus (Some exPsTask))]) by (vm_compute; reflexivity).
  split; [exact Hcands|]. split.
  - etrans; [exact Hloop|]. vm_compute. reflexivity.
  - destruct Hrun as (trigger & cs & t & _ & Hfirst & _ & _ & Hsync & Hcs);
      [intros Hnil; discriminate (eq_trans (eq_sym Hcands) Hnil)|].
    assert (Hcs' : cs = ecCompletionStatus (Some exPsTask)).
    { vm_compute in Hfirst. injection Hfirst as _ <-. vm_compute. reflexivity. }
    eexists _, _. split; [exact Hsync|]. split; [reflexivity|].
    rewrite Hcs by reflexivity. by rewrite Hcs'.
Defined.

Lemma exRoles_SpecWellFormed : SpecWellFormed (exSpec ExecutionStart exRoles).
Proof.
  split; [by apply (bool_decide_unpack _)|].
  intros rs Hin. repeat (apply elem_of_cons in Hin as [->|Hin]); [by vm_compute..|].
  by apply elem_of_nil in Hin.
Qed.

Lemma exUnscaledStatus_Int32Sized : Int32Sized exUnscaledStatus.
Proof.
  intros trs Hin. repeat (apply elem_of_cons in Hin as [->|Hin]); [by vm_compute..|].
  by apply elem_of_nil in Hin.
Qed.

(** C2, example: of three workers for the two of the spec the third is
    marked; the parameter server the status lacks is added; the task of
    the role the spec does not name is marked. *)
Lemma syncFrameworkScale_syncs_scale_witness :
  exists st',
    syncFrameworkScale ecController exUnscaledState
      = Some (true, setStatus exUnscaledState st')
    /\ ScaleSynced (exSpec ExecutionStart exRoles) st'
    /\ (fun trs => (trName trs, tsDeletionPending <$> trTaskStatuses trs))
         <$> TaskRoleStatuses st'
       = [("worker", [false; false; true]); ("old", [true]); ("ps", [false])].
Proof.
  pose (s := exUnscaledState).
  assert (H1 : fStatus (stF s) = Some exUnscaledStatus) by reflexivity.
  assert (H2 : IsCompletingState (fsState exUnscaledStatus) = false) by reflexivity.
  assert (H3 : fsState exUnscaledStatus <> FrameworkAttemptCompleted) by discriminate.
  assert (H4 : fsState exUnscaledStatus <> FrameworkCompleted) by discriminate.
  pose proof (syncFrameworkScale_syncs_scale ecController s exUnscaledStatus H1 H2 H3 H4
                exRoles_SpecWellFormed exUnscaledStatus_Int32Sized)
    as [(produced & st' & Hrun & Hsynced & _) _].
  pose proof Hrun as Hc. vm_compute in Hc. injection Hc as Hp Hst'.
  subst produced st'.
  eexists. split; [exact Hrun|]. split; [exact Hsynced|].
  vm_compute. reflexivity.
Defined.

(** C4, example: the Pod of the worker, requested at the instant 0, is not
    in the local cache at the instant 1000.  The cluster accepts the
    deletion and does not know the Pod any more: the attempt is completed
    with the status of code PodCreationTimeout. *)
Lemma creation_timeout_deletes_pod_then_completes_witness :
  exists s' st' ts',
    syncTaskState ecController None "worker" 0 (exRequestedState None) = Some (None, s')
    /\ fStatus (stF s') = Some st'
    /\ GetTaskStatus st' "worker" 0 = Some ts'
    /\ tsState ts' = TaskAttemptCompleted
    /\ (csCode ∘ tacsCompletionStatus <$> tsCompletionStatus ts')
       = Some CompletionCodePodCreationTimeout
    /\ ecLog (wCluster (stW s'))
       = [ReqPodsGet "default" "job-worker-0";
          ReqPodsDelete "default" "job-worker-0" (podDeleteOptions "pod-w-0" false)].
Proof.
  pose (s := exRequestedState None).
  assert (H1 : fStatus (stF s) = Some exRequestedStatus) by reflexivity.
  assert (H2 : GetTaskStatus exRequestedStatus "worker" 0 = Some exRequestedTask)
    by reflexivity.
  assert (H3 : tsState exRequestedTask = TaskAttemptCreationRequested) by reflexivity.
  assert (H4 : tsDeletionPending exRequestedTask = false) by reflexivity.
  assert (H5 : taPodUID (tsAttemptStatus exRequestedTask) = Some "pod-w-0") by reflexivity.
  assert (H6 : ObjectLocalCacheCreationTimeoutSec (cConfig ecController) = Some 300)
    by reflexivity.
  assert (H7 : podLister_Get ecController (fNamespace (stF s))
                 (GetPodName (fName (stF s)) "worker" (tsIndex exRequestedTask))
                 (wCluster (stW s)) = (inl ecNotFound, wCluster (stW s))) by reflexivity.
  assert (H8 : IsNotFound ecNotFound = true) by reflexivity.
  assert (H9 : tsTransitionTime exRequestedTask + 300
               - clockNow ecController (wCluster (stW s)) ≤ 0) by (by vm_compute).
  pose proof (creation_timeout_deletes_pod_then_completes ecController s exRequestedStatus
                None "worker" 0 exRequestedTask "pod-w-0" 300 ecNotFound (wCluster (stW s))
                H1 H2 H3 H4 H5 H6 H7 H8 H9) as (_ & _ & _ & Hdone).
  destruct Hdone as (s' & st' & ts' & Hrun & Hst & Hts & Hts' & Hstate & Hcs & _ & Hw);
    [by vm_compute|].
  exists s', st', ts'. split; [exact Hrun|]. split; [exact Hst|]. split; [exact Hts|].
  split; [exact Hstate|]. split; [by rewrite Hcs|].
  rewrite Hw. vm_compute. reflexivity.
Defined.

(** C4, counterexample: the specification has the Pod force-deleted, best
    effort, and the attempt completed.  In the same state (the task in
    TaskAttemptCreationRequested, not deletion pending, its Pod not in the
    local cache, the timeout of 300 seconds expired), on a cluster that
    refuses the deletion, the sync returns the error of the deletion; the
    task is still in TaskAttemptCreationRequested and has no
    CompletionStatus; and the one request the cluster received is a
    deletion without a grace period of zero, which is no forced deletion. *)
Lemma creation_timeout_delete_refused_counterexample :
  exists s',
    syncTaskState ecController None "worker" 0 (exRequestedState (Some ecRefused))
      = Some (Some (Err (ErrDelete ecRefused)), s')
    /\ fStatus (stF s') = Some exRequestedStatus
    /\ GetTaskStatus exRequestedStatus "worker" 0 = Some exRequestedTask
    /\ tsState exRequestedTask = TaskAttemptCreationRequested
    /\ tsDeletionPending exRequestedTask = false
    /\ podLister_Get ecController "default" "job-worker-0"
         (wCluster (stW (exRequestedState (Some ecRefused))))
       = (inl ecNotFound, wCluster (stW (exRequestedState (Some ecRefused))))
    /\ ObjectLocalCacheCreationTimeoutSec (cConfig ecController) = Some 300
    /\ tsTransitionTime exRequestedTask + 300
       < clockNow ecController (wCluster (stW (exRequestedState (Some ecRefused))))
    /\ tsCompletionStatus exRequestedTask = None
    /\ ecLog (wCluster (stW s'))
       = [ReqPodsDelete "default" "job-worker-0"
            {| doPreconditionUID := "pod-w-0"; doGracePeriodSeconds := None;
               doForeground := false |}].
Proof. eexists. split_and!; [vm_compute; reflexivity|reflexivity..]. Qed.

Lemma exPlainRoles_SpecWellFormed : SpecWellFormed (exSpec ExecutionStart exPlainRoles).
Proof.
  split; [by apply (bool_decide_unpack _)|].
  intros rs Hin. repeat (apply elem_of_cons in Hin as [->|Hin]); [by vm_compute..|].
  by apply elem_of_nil in Hin.
Qed.

Lemma exAllCompletedStatus_Int32Sized : Int32Sized exAllCompletedStatus.
Proof.
  intros trs Hin. repeat (apply elem_of_cons in Hin as [->|Hin]); [by vm_compute..|].
  by apply elem_of_nil in Hin.
Qed.

Lemma exAllCompletedStatus_CompletedHaveTime : CompletedHaveTime exAllCompletedStatus.
Proof.
  intros trs ts Hin Hts _.
  repeat (apply elem_of_cons in Hin as [->|Hin]); [| | |by apply elem_of_nil in Hin];
    repeat (apply elem_of_cons in Hts as [->|Hts]); try (by eexists);
    by apply elem_of_nil in Hts.
Qed.

Lemma exAllCompletedStatus_ScaleSynced :
  ScaleSynced (exSpec ExecutionStart exPlainRoles) exAllCompletedStatus.
Proof.
  split.
  - intros rs Hin.
    repeat (apply elem_of_cons in Hin as [->|Hin]); [| | |by apply elem_of_nil in Hin];
      (eexists; split; [reflexivity|]; split; [by vm_compute|]).
    + intros [|[|[|j]]] ts Hj Hle; simpl in Hj, Hle; try lia; [|done].
      by injection Hj as <-.
    + intros [|j] ts Hj Hle; simpl in Hj, Hle; [lia|done].
    + intros j ts Hj. done.
  - intros trs Hin Hnone.
    repeat (apply elem_of_cons in Hin as [->|Hin]); [by vm_compute in Hnone..|].
    by apply elem_of_nil in Hin.
Qed.

(** C8, example: no role has a threshold and all three tasks of the spec
    are completed (the third worker is beyond the scale and does not
    count); the attempt is completed, not forced, with the status built
    from the second worker, which completed last. *)
Lemma all_completed_triggers_latest_task_witness :
  exists s' st',
    syncFrameworkAttemptCompletionPolicy ecController exAllCompletedState = Some (true, s')
    /\ fStatus (stF s') = Some st'
    /\ fsState st' = FrameworkAttemptDeletionPending
    /\ faCompletionStatus (fsAttemptStatus st') = Some (ecCompletionStatus (Some exLastTask))
    /\ LatestOf exAllCompletedStatus exPlainRoles (Some exLastTask, "worker").
Proof.
  pose (s := exAllCompletedState).
  assert (H1 : fStatus (stF s) = Some exAllCompletedStatus) by reflexivity.
  assert (H2 : foldr Z.add 0 (rsTaskNumber <$> spTaskRoles (fSpec (stF s))) < 2147483648)
    by (by vm_compute).
  assert (H3 : NoDup (trName <$> TaskRoleStatuses exAllCompletedStatus))
    by (by apply (bool_decide_unpack _)).
  assert (H4 : candidates exAllCompletedStatus (fSpec (stF s)) = [])
    by (vm_compute; reflexivity).
  assert (H5 : GetFrameworkTaskCountStatus exAllCompletedStatus completedTaskSelector
               >= GetTotalTaskCountSpec (fSpec (stF s))) by (by vm_compute).
  destruct (all_completed_triggers_latest_task ecController s exAllCompletedStatus H1
              exPlainRoles_SpecWellFormed H2 H3 exAllCompletedStatus_ScaleSynced
              exAllCompletedStatus_Int32Sized exAllCompletedStatus_CompletedHaveTime H4 H5)
    as (last & s' & st' & Hloop & Hlatest & _ & Hrun & Hst & Hstate & _ & Hcs & _).
  assert (Hlast : last = (Some exLastTask, "worker")).
  { vm_compute in Hloop. by injection Hloop as <-. }
  subst last.
  exists s', st'. split; [exact Hrun|]. split; [exact Hst|]. split; [exact Hstate|].
  split; [|exact Hlatest]. rewrite Hcs. reflexivity.
Defined.

(** * Examples on the scripted cluster *)

#[local] Existing Instance scCommon.

(** X1, example: the local cache still holds the ConfigMap of an earlier
    attempt of the Framework; it is deleted with its own UID as
    precondition and is not returned. *)
Lemma getOrCleanupConfigMap_returns_managed_only_witness :
  getOrCleanupConfigMap scController false
    (scState (exWorkerFramework FrameworkAttemptRunning exRequestedTask)
       (scCluster 10 None (Some exStaleConfigMap)))
  = Some ((None, None),
          scState (exWorkerFramework FrameworkAttemptRunning exRequestedTask)
            (scRequest (ReqConfigMapsDelete "default" "job-attempt"
                          {| doPreconditionUID := "cm-old"; doGracePeriodSeconds := None;
                             doForeground := false |})
               (scCluster 10 None (Some exStaleConfigMap)))).
Proof.
  pose (s := scState (exWorkerFramework FrameworkAttemptRunning exRequestedTask)
               (scCluster 10 None (Some exStaleConfigMap))).
  assert (H1 : fStatus (stF s)
               = Some (exWorkerStatus FrameworkAttemptRunning exRequestedTask))
    by reflexivity.
  destruct (getOrCleanupConfigMap_returns_managed_only scController false s _ H1)
    as (res & s' & Hrun & _ & _ & _ & _ & Hdel).
  assert (H2 : faConfigMapUID
                 (fsAttemptStatus (exWorkerStatus FrameworkAttemptRunning exRequestedTask))
               <> Some (cmUID exStaleConfigMap)) by discriminate.
  pose proof (Hdel exStaleConfigMap eq_refl H2 eq_refl) as Hd.
  cbv zeta in Hd. destruct Hd as [-> ->].
  exact Hrun.
Defined.

(** X2, example: the role allows 30 seconds and the deletion of the Pod
    started at the instant 0.  At the instant 10 a check is enqueued for
    the 20 seconds that are left; at the instant 100 the Pod is deleted by
    force and the deletion is confirmed. *)
Lemma pod_force_deleted_only_after_graceful_timeout_witness :
  handlePodGracefulDeletion scController "worker" 0 (exPod "pod-w-0" PodRunning (Some 0))
    (exGracefulState 10)
  = Some (None, enqueuedAfter (exGracefulState 10) 20)
  /\ handlePodGracefulDeletion scController "worker" 0 (exPod "pod-w-0" PodRunning (Some 0))
       (exGracefulState 100)
     = Some (None,
             scState (stF (exGracefulState 100))
               (scRequest (ReqPodsGet "default" "job-worker-0")
                  (scRequest (ReqPodsDelete "default" "job-worker-0"
                                (podDeleteOptions "pod-w-0" true))
                     (scCluster 100 None None)))).
Proof.
  pose (pod := exPod "pod-w-0" PodRunning (Some 0)).
  pose (trs := trWithPodGracefulDeletionTimeoutSec (Some 30) (exRole "worker" [exRunningTask])).
  assert (Hd : is_Some (podDeletionTimestamp pod)) by (by eexists).
  assert (Hsec : trPodGracefulDeletionTimeoutSec trs = Some 30) by reflexivity.
  assert (Hstart : GetPodDeletionStartTime pod = Some 0) by reflexivity.
  assert (Hearly : 0 < 0 + 30 - 10) by lia.
  assert (Hlate : 0 + 30 - 100 ≤ 0) by lia.
  split.
  - assert (H1 : fStatus (stF (exGracefulState 10)) = Some (exGracefulStatus exRunningTask))
      by reflexivity.
    assert (H2 : GetTaskRoleStatus (exGracefulStatus exRunningTask) "worker" = Some trs)
      by reflexivity.
    assert (H3 : GetTaskStatus (exGracefulStatus exRunningTask) "worker" 0
                 = Some exRunningTask) by reflexivity.
    pose proof (proj2 (pod_force_deleted_only_after_graceful_timeout scController
                         (exGracefulState 10) _ "worker" 0 exRunningTask trs pod H1 H2 H3)
                  30 0 Hd Hsec Hstart) as Hx.
    cbv zeta in Hx. exact (proj1 Hx Hearly).
  - assert (H1 : fStatus (stF (exGracefulState 100)) = Some (exGracefulStatus exRunningTask))
      by reflexivity.
    assert (H2 : GetTaskRoleStatus (exGracefulStatus exRunningTask) "worker" = Some trs)
      by reflexivity.
    assert (H3 : GetTaskStatus (exGracefulStatus exRunningTask) "worker" 0
                 = Some exRunningTask) by reflexivity.
    pose proof (proj2 (pod_force_deleted_only_after_graceful_timeout scController
                         (exGracefulState 100) _ "worker" 0 exRunningTask trs pod H1 H2 H3)
                  30 0 Hd Hsec Hstart) as Hx.
    cbv zeta in Hx. exact (proj2 Hx Hlate).
Defined.

(** X3, example: the local cache holds a Pod of the name of the first
    worker that the ConfigMap of the attempt controls and that is not the
    one the task records; it is deleted with its own UID as precondition
    and is not returned. *)
Lemma getOrCleanupPod_returns_managed_only_witness :
  getOrCleanupPod scController (Some exConfigMap) "worker" 0 false
    (scState (exWorkerFramework FrameworkAttemptRunning exRunningTask)
       (scCluster 10 (Some (exPod "pod-old" PodRunning None)) None))
  = Some ((None, None),
          scState (exWorkerFramework FrameworkAttemptRunning exRunningTask)
            (scRequest (ReqPodsDelete "default" "job-worker-0"
                          (podDeleteOptions "pod-old" false))
               (scCluster 10 (Some (exPod "pod-old" PodRunning None)) None))).
Proof.
  pose (s := scState (exWorkerFramework FrameworkAttemptRunning exRunningTask)
               (scCluster 10 (Some (exPod "pod-old" PodRunning None)) None)).
  assert (H1 : fStatus (stF s) = Some (exWorkerStatus FrameworkAttemptRunning exRunningTask))
    by reflexivity.
  assert (H2 : GetTaskStatus (exWorkerStatus FrameworkAttemptRunning exRunningTask) "worker" 0
               = Some exRunningTask) by reflexivity.
  pose proof (getOrCleanupPod_returns_managed_only scController exConfigMap "worker" 0
                false s _ exRunningTask H1 H2) as Hx.
  cbv zeta in Hx. destruct Hx as (_ & _ & Hdel).
  assert (H3 : taPodUID (tsAttemptStatus exRunningTask)
               <> Some (podUID (exPod "pod-old" PodRunning None))) by discriminate.
  exact (Hdel (exPod "pod-old" PodRunning None) eq_refl H3 eq_refl eq_refl).
Defined.

(** X4, example: the Pod of a running worker is not in the local cache any
    more; the attempt is completed with the status of code
    PodExternalDeleted. *)
Lemma pod_deleted_by_others_completes_task_witness :
  exists ts',
    syncTaskState scController (Some exConfigMap) "worker" 0
      (exTaskState FrameworkAttemptRunning exRunningTask (scCluster 10 None None))
    = Some (None,
            enqueued (putTask (exTaskState FrameworkAttemptRunning exRunningTask
                                 (scCluster 10 None None))
                        (exWorkerStatus FrameworkAttemptRunning exRunningTask)
                        "worker" 0 ts'))
    /\ tsState ts' = TaskAttemptCompleted
    /\ (csCode ∘ tacsCompletionStatus) <$> tsCompletionStatus ts'
       = Some CompletionCodePodExternalDeleted.
Proof.
  pose (s := exTaskState FrameworkAttemptRunning exRunningTask (scCluster 10 None None)).
  assert (H1 : fStatus (stF s) = Some (exWorkerStatus FrameworkAttemptRunning exRunningTask))
    by reflexivity.
  assert (H2 : GetTaskStatus (exWorkerStatus FrameworkAttemptRunning exRunningTask) "worker" 0
               = Some exRunningTask) by reflexivity.
  assert (H3 : tsState exRunningTask = TaskAttemptPreparing
               \/ tsState exRunningTask = TaskAttemptRunning
               \/ tsState exRunningTask = TaskAttemptDeletionPending
               \/ tsState exRunningTask = TaskAttemptDeletionRequested
               \/ tsState exRunningTask = TaskAttemptDeleting) by (right; left; reflexivity).
  assert (H4 : podLister_Get scController (fNamespace (stF s))
                 (GetPodName (fName (stF s)) "worker" (tsIndex exRunningTask))
                 (wCluster (stW s)) = (inl ecNotFound, scCluster 10 None None))
    by reflexivity.
  assert (H5 : IsNotFound ecNotFound = true) by reflexivity.
  pose proof (pod_deleted_by_others_completes_task scController s _ (Some exConfigMap)
                "worker" 0 exRunningTask ecNotFound _ H1 H2 H3 H4 H5) as Hx.
  cbv zeta in Hx. destruct Hx as (ts' & Hrun & _ & Hstate & _ & Hcs & _).
  exists ts'. split; [exact Hrun|]. split; [exact Hstate|].
  rewrite Hcs. reflexivity.
Defined.

(** X5, example: the Pod of a worker in creation requested is in the local
    cache.  If it has succeeded, the task records the node and the
    addresses and its attempt is completed, not forced, with the status of
    code Succeeded.  If its phase is Unknown, the task is moved to
    TaskAttemptPreparing and nothing is enqueued. *)
Lemma pod_phase_drives_task_state_witness :
  (exists ts',
     syncTaskState scController (Some exConfigMap) "worker" 0
       (exTaskState FrameworkAttemptRunning exRequestedTask
          (scCluster 10 (Some (exPod "pod-w-0" PodSucceeded None)) None))
     = Some (None,
             enqueued (putTask (exTaskState FrameworkAttemptRunning exRequestedTask
                                  (scCluster 10 (Some (exPod "pod-w-0" PodSucceeded None)) None))
                         (exWorkerStatus FrameworkAttemptRunning exRequestedTask)
                         "worker" 0 ts'))
     /\ tsState ts' = TaskAttemptDeletionPending
     /\ taPodNodeName (tsAttemptStatus ts') = Some "node-1"
     /\ (csCode ∘ tacsCompletionStatus) <$> tsCompletionStatus ts'
        = Some CompletionCodeSucceeded)
  /\ (exists ts',
        syncTaskState scController (Some exConfigMap) "worker" 0
          (exTaskState FrameworkAttemptRunning exRequestedTask
             (scCluster 10 (Some (exPod "pod-w-0" PodUnknown None)) None))
        = Some (None,
                putTask (exTaskState FrameworkAttemptRunning exRequestedTask
                           (scCluster 10 (Some (exPod "pod-w-0" PodUnknown None)) None))
                  (exWorkerStatus FrameworkAttemptRunning exRequestedTask)
                  "worker" 0 ts')
        /\ tsState exRequestedTask = TaskAttemptCreationRequested
        /\ tsState ts' = TaskAttemptPreparing
        /\ tsCompletionStatus ts' = None).
Proof.
  assert (H2 : GetTaskStatus (exWorkerStatus FrameworkAttemptRunning exRequestedTask)
                 "worker" 0 = Some exRequestedTask) by reflexivity.
  assert (H3 : tsState exRequestedTask = TaskAttemptCreationRequested
               \/ tsState exRequestedTask = TaskAttemptPreparing
               \/ tsState exRequestedTask = TaskAttemptRunning) by (left; reflexivity).
  assert (H7 : tsDeletionPending exRequestedTask = false) by reflexivity.
  split.
  - pose (pod := exPod "pod-w-0" PodSucceeded None).
    pose (s := exTaskState FrameworkAttemptRunning exRequestedTask
                 (scCluster 10 (Some pod) None)).
    assert (H1 : fStatus (stF s)
                 = Some (exWorkerStatus FrameworkAttemptRunning exRequestedTask))
      by reflexivity.
    assert (H4 : podLister_Get scController (fNamespace (stF s))
                   (GetPodName (fName (stF s)) "worker" (tsIndex exRequestedTask))
                   (wCluster (stW s)) = (inr pod, scCluster 10 (Some pod) None))
      by reflexivity.
    assert (H5 : taPodUID (tsAttemptStatus exRequestedTask) = Some (podUID pod))
      by reflexivity.
    assert (H6 : podDeletionTimestamp pod = None) by reflexivity.
    destruct (pod_phase_drives_task_state scController s _ (Some exConfigMap)
                "worker" 0 exRequestedTask pod _ H1 H2 H3 H4 H5 H6 H7)
      as (ts' & Hrun & _ & Hstate & Hnode & _ & _ & _ & Hcs & _).
    exists ts'. split; [exact Hrun|]. split; [exact Hstate|]. split; [exact Hnode|].
    rewrite Hcs. reflexivity.
  - pose (pod := exPod "pod-w-0" PodUnknown None).
    pose (s := exTaskState FrameworkAttemptRunning exRequestedTask
                 (scCluster 10 (Some pod) None)).
    assert (H1 : fStatus (stF s)
                 = Some (exWorkerStatus FrameworkAttemptRunning exRequestedTask))
      by reflexivity.
    assert (H4 : podLister_Get scController (fNamespace (stF s))
                   (GetPodName (fName (stF s)) "worker" (tsIndex exRequestedTask))
                   (wCluster (stW s)) = (inr pod, scCluster 10 (Some pod) None))
      by reflexivity.
    assert (H5 : taPodUID (tsAttemptStatus exRequestedTask) = Some (podUID pod))
      by reflexivity.
    assert (H6 : podDeletionTimestamp pod = None) by reflexivity.
    destruct (pod_phase_drives_task_state scController s _ (Some exConfigMap)
                "worker" 0 exRequestedTask pod _ H1 H2 H3 H4 H5 H6 H7)
      as (ts' & Hrun & _ & Hstate & _ & _ & _ & _ & Hcs & _).
    exists ts'. split; [exact Hrun|]. split; [reflexivity|]. split; [exact Hstate|].
    rewrite Hcs. reflexivity.
Defined.

(** X6, example: a running worker that a ScaleDown marked deletion
    pending, its Pod running in the local cache; the attempt is completed,
    not forced, with the status of code DeleteTaskRequested. *)
Lemma scale_down_completes_task_before_deleting_pod_witness :
  exists ts',
    syncTaskState scController (Some exConfigMap) "worker" 0
      (exTaskState FrameworkAttemptRunning
         (exTask 0 TaskAttemptRunning None true (Some "pod-w-0") None)
         (scCluster 10 (Some (exPod "pod-w-0" PodRunning None)) None))
    = Some (None,
            enqueued (putTask (exTaskState FrameworkAttemptRunning
                                 (exTask 0 TaskAttemptRunning None true (Some "pod-w-0") None)
                                 (scCluster 10 (Some (exPod "pod-w-0" PodRunning None)) None))
                        (exWorkerStatus FrameworkAttemptRunning
                           (exTask 0 TaskAttemptRunning None true (Some "pod-w-0") None))
                        "worker" 0 ts'))
    /\ tsState ts' = TaskAttemptDeletionPending
    /\ (csCode ∘ tacsCompletionStatus) <$> tsCompletionStatus ts'
       = Some CompletionCodeDeleteTaskRequested.
Proof.
  pose (pod := exPod "pod-w-0" PodRunning None).
  pose (ts := exTask 0 TaskAttemptRunning None true (Some "pod-w-0") None).
  pose (s := exTaskState FrameworkAttemptRunning ts (scCluster 10 (Some pod) None)).
  assert (H1 : fStatus (stF s) = Some (exWorkerStatus FrameworkAttemptRunning ts))
    by reflexivity.
  assert (H2 : GetTaskStatus (exWorkerStatus FrameworkAttemptRunning ts) "worker" 0 = Some ts)
    by reflexivity.
  assert (H3 : tsState ts = TaskAttemptCreationRequested
               \/ tsState ts = TaskAttemptPreparing
               \/ tsState ts = TaskAttemptRunning) by (right; right; reflexivity).
  assert (H4 : podLister_Get scController (fNamespace (stF s))
                 (GetPodName (fName (stF s)) "worker" (tsIndex ts))
                 (wCluster (stW s)) = (inr pod, scCluster 10 (Some pod) None))
    by reflexivity.
  assert (H5 : taPodUID (tsAttemptStatus ts) = Some (podUID pod)) by reflexivity.
  assert (H6 : podDeletionTimestamp pod = None) by reflexivity.
  assert (H7 : podPhase pod = PodPending \/ podPhase pod = PodRunning
               \/ podPhase pod = PodUnknown) by (right; left; reflexivity).
  assert (H8 : tsDeletionPending ts = true) by reflexivity.
  destruct (scale_down_completes_task_before_deleting_pod scController s _
              (Some exConfigMap) "worker" 0 ts pod _ H1 H2 H3 H4 H5 H6 H7 H8)
    as (ts' & Hrun & _ & Hstate & _ & _ & Hcs & _).
  exists ts'. split; [exact Hrun|]. split; [exact Hstate|].
  rewrite Hcs. reflexivity.
Defined.

(** X7, example: a worker in deletion pending whose Pod is in the local
    cache; the remote is asked to delete the Pod and the task is in
    TaskAttemptDeletionRequested. *)
Lemma deletion_pending_task_deletes_its_pod_witness :
  syncTaskState scController (Some exConfigMap) "worker" 0
    (exTaskState FrameworkAttemptRunning
       (exTask 0 TaskAttemptDeletionPending None false (Some "pod-w-0") exSucceeded)
       (scCluster 10 (Some (exPod "pod-w-0" PodSucceeded None)) None))
  = Some (None,
          scState
            (exWorkerFramework FrameworkAttemptRunning
               (TransitionTaskState TaskAttemptDeletionRequested 10
                  (exTask 0 TaskAttemptDeletionPending None false (Some "pod-w-0")
                     exSucceeded)))
            (scRequest (ReqPodsDelete "default" "job-worker-0"
                          (podDeleteOptions "pod-w-0" false))
               (scCluster 10 (Some (exPod "pod-w-0" PodSucceeded None)) None))).
Proof.
  pose (pod := exPod "pod-w-0" PodSucceeded None).
  pose (ts := exTask 0 TaskAttemptDeletionPending None false (Some "pod-w-0") exSucceeded).
  pose (s := exTaskState FrameworkAttemptRunning ts (scCluster 10 (Some pod) None)).
  assert (H1 : fStatus (stF s) = Some (exWorkerStatus FrameworkAttemptRunning ts))
    by reflexivity.
  assert (H2 : GetTaskStatus (exWorkerStatus FrameworkAttemptRunning ts) "worker" 0 = Some ts)
    by reflexivity.
  assert (H3 : tsState ts = TaskAttemptDeletionPending) by reflexivity.
  assert (H4 : podLister_Get scController (fNamespace (stF s))
                 (GetPodName (fName (stF s)) "worker" (tsIndex ts))
                 (wCluster (stW s)) = (inr pod, scCluster 10 (Some pod) None))
    by reflexivity.
  assert (H5 : taPodUID (tsAttemptStatus ts) = Some (podUID pod)) by reflexivity.
  assert (H6 : podDeletionTimestamp pod = None) by reflexivity.
  pose proof (deletion_pending_task_deletes_its_pod scController s _ (Some exConfigMap)
                "worker" 0 ts pod _ H1 H2 H3 H4 H5 H6) as Hx.
  cbv zeta in Hx. etrans; [exact Hx|reflexivity].
Defined.

(** X8, example: the attempt of the worker completed at the instant 0 and
    the decision is to retry at once; at the instant 10 the task has a new
    attempt of id 1 in creation pending. *)
Lemma task_retry_mints_new_attempt_witness :
  exists ts',
    syncTaskState scController (Some exConfigMap) "worker" 0 (exRetryState 0)
    = Some (None,
            enqueued (putTask (exRetryState 0)
                        (exWorkerStatus FrameworkAttemptRunning (exCompletedTask false))
                        "worker" 0 ts'))
    /\ tsState ts' = TaskAttemptCreationPending
    /\ TotalRetriedCount (tsRetryPolicyStatus ts') = 1
    /\ AccountableRetriedCount (tsRetryPolicyStatus ts') = 1
    /\ tsAttemptStatus ts' = NewTaskAttemptStatus 1.
Proof.
  pose (ts := exCompletedTask false).
  pose (s := exRetryState 0).
  assert (H1 : fStatus (stF s) = Some (exWorkerStatus FrameworkAttemptRunning ts))
    by reflexivity.
  assert (H2 : GetTaskStatus (exWorkerStatus FrameworkAttemptRunning ts) "worker" 0 = Some ts)
    by reflexivity.
  assert (H3 : tsState ts = TaskAttemptCompleted) by reflexivity.
  assert (H4 : GetTaskRoleSpec (fSpec (stF s)) "worker" = Some (exTaskRoleSpec "worker" 2 1 0))
    by reflexivity.
  assert (H5 : tsCompletionStatus ts
               = Some (exCompletionStatus (CompletionCodePodFailed 1))) by reflexivity.
  assert (H6 : RetryPolicy_ShouldRetry scController
                 (tkRetryPolicy (rsTask (exTaskRoleSpec "worker" 2 1 0)))
                 (tsRetryPolicyStatus ts)
                 (tacsCompletionStatus (exCompletionStatus (CompletionCodePodFailed 1)))
                 0 0 (wCluster (stW s))
               = (scRetryAfter 0, wCluster (stW s))) by reflexivity.
  assert (H7 : scheduledRetryDelay (tsRetryPolicyStatus ts) (scRetryAfter 0) = Some 0)
    by reflexivity.
  assert (H8 : tsDeletionPending ts = true
               \/ tsTransitionTime ts + 0 - clockNow scController (wCluster (stW s)) ≤ 0)
    by (right; vm_compute; discriminate).
  destruct (task_retry_mints_new_attempt scController s _ (Some exConfigMap) "worker" 0
              ts _ _ _ _ 0 H1 H2 H3 H4 H5 H6 H7 H8)
    as (ts' & Hrun & _ & Htotal & Hacc & _ & Hattempt & _ & _ & _ & Hstate & _).
  exists ts'. split; [exact Hrun|]. split; [exact Hstate|].
  split; [exact Htotal|]. split; [exact Hacc|].
  rewrite Hattempt, Htotal. reflexivity.
Defined.

(** X9, example: the decision is to retry after 60 seconds; at the instant
    10 the task stays completed, records the delay, and a check is
    enqueued for the 50 seconds that are left. *)
Lemma task_retry_waits_for_delay_witness :
  exists ts',
    syncTaskState scController (Some exConfigMap) "worker" 0 (exRetryState 60)
    = Some (None,
            enqueuedAfter (putTask (exRetryState 60)
                             (exWorkerStatus FrameworkAttemptRunning (exCompletedTask false))
                             "worker" 0 ts') 50)
    /\ tsState ts' = TaskAttemptCompleted
    /\ RetryDelaySec (tsRetryPolicyStatus ts') = Some 60.
Proof.
  pose (ts := exCompletedTask false).
  pose (s := exRetryState 60).
  assert (H1 : fStatus (stF s) = Some (exWorkerStatus FrameworkAttemptRunning ts))
    by reflexivity.
  assert (H2 : GetTaskStatus (exWorkerStatus FrameworkAttemptRunning ts) "worker" 0 = Some ts)
    by reflexivity.
  assert (H3 : tsState ts = TaskAttemptCompleted) by reflexivity.
  assert (H4 : GetTaskRoleSpec (fSpec (stF s)) "worker" = Some (exTaskRoleSpec "worker" 2 1 0))
    by reflexivity.
  assert (H5 : tsCompletionStatus ts
               = Some (exCompletionStatus (CompletionCodePodFailed 1))) by reflexivity.
  assert (H6 : RetryPolicy_ShouldRetry scController
                 (tkRetryPolicy (rsTask (exTaskRoleSpec "worker" 2 1 0)))
                 (tsRetryPolicyStatus ts)
                 (tacsCompletionStatus (exCompletionStatus (CompletionCodePodFailed 1)))
                 0 0 (wCluster (stW s))
               = (scRetryAfter 60, wCluster (stW s))) by reflexivity.
  assert (H7 : scheduledRetryDelay (tsRetryPolicyStatus ts) (scRetryAfter 60) = Some 60)
    by reflexivity.
  assert (H8 : tsDeletionPending ts = false) by reflexivity.
  assert (H9 : 0 < tsTransitionTime ts + 60 - clockNow scController (wCluster (stW s)))
    by reflexivity.
  destruct (task_retry_waits_for_delay scController s _ (Some exConfigMap) "worker" 0
              ts _ _ _ _ 60 H1 H2 H3 H4 H5 H6 H7 H8 H9)
    as (ts' & Hrun & _ & Hstate & _ & _ & Hdelay & _).
  exists ts'. split; [exact Hrun|]. split; [exact Hstate|exact Hdelay].
Defined.

(** X10, example: the attempt of the Framework is in deletion pending; the
    Pod of the worker in creation pending is not created. *)
Lemma no_pod_created_while_completing_witness :
  syncTaskState scController (Some exConfigMap) "worker" 0
    (exTaskState FrameworkAttemptDeletionPending exPendingTask
       (scCreating (inr "pod-new") (inl ecRefused) (scCluster 10 None None)))
  = Some (None,
          exTaskState FrameworkAttemptDeletionPending exPendingTask
            (scCreating (inr "pod-new") (inl ecRefused) (scCluster 10 None None))).
Proof.
  pose (s := exTaskState FrameworkAttemptDeletionPending exPendingTask
               (scCreating (inr "pod-new") (inl ecRefused) (scCluster 10 None None))).
  assert (H1 : fStatus (stF s)
               = Some (exWorkerStatus FrameworkAttemptDeletionPending exPendingTask))
    by reflexivity.
  assert (H2 : GetTaskStatus (exWorkerStatus FrameworkAttemptDeletionPending exPendingTask)
                 "worker" 0 = Some exPendingTask) by reflexivity.
  assert (H3 : tsState exPendingTask = TaskAttemptCreationPending) by reflexivity.
  assert (H4 : podLister_Get scController (fNamespace (stF s))
                 (GetPodName (fName (stF s)) "worker" (tsIndex exPendingTask))
                 (wCluster (stW s)) = (inl ecNotFound, wCluster (stW s)))
    by reflexivity.
  assert (H5 : IsNotFound ecNotFound = true) by reflexivity.
  assert (H6 : IsCompletingState
                 (fsState (exWorkerStatus FrameworkAttemptDeletionPending exPendingTask))
               = true) by reflexivity.
  exact (no_pod_created_while_completing scController s _ (Some exConfigMap) "worker" 0
           exPendingTask ecNotFound _ H1 H2 H3 H4 H5 H6).
Defined.

(** X11, example: the remote creates the Pod of the worker with the UID
    pod-new; the task records it and is in creation requested, and a check
    is enqueued for the 300 seconds of the timeout. *)
Lemma created_pod_is_recorded_witness :
  exists ts',
    syncTaskState scController (Some exConfigMap) "worker" 0
      (exTaskState FrameworkAttemptRunning exPendingTask
         (scCreating (inr "pod-new") (inl ecRefused) (scCluster 10 None None)))
    = Some (None,
            enqueuedAfter
              (putTask
                 (exTaskState FrameworkAttemptRunning exPendingTask
                    (scRequest (ReqCreate "default" "job-worker-0")
                       (scCreating (inr "pod-new") (inl ecRefused) (scCluster 10 None None))))
                 (exWorkerStatus FrameworkAttemptRunning exPendingTask) "worker" 0 ts')
              300)
    /\ tsState ts' = TaskAttemptCreationRequested
    /\ taPodUID (tsAttemptStatus ts') = Some "pod-new"
    /\ taInstanceUID (tsAttemptStatus ts') = Some (0, "pod-new").
Proof.
  pose (r := scCreating (inr "pod-new") (inl ecRefused) (scCluster 10 None None)).
  pose (s := exTaskState FrameworkAttemptRunning exPendingTask r).
  pose (st := exWorkerStatus FrameworkAttemptRunning exPendingTask).
  assert (H1 : fStatus (stF s) = Some st) by reflexivity.
  assert (H2 : GetTaskStatus st "worker" 0 = Some exPendingTask) by reflexivity.
  assert (H3 : tsState exPendingTask = TaskAttemptCreationPending) by reflexivity.
  assert (H4 : podLister_Get scController (fNamespace (stF s))
                 (GetPodName (fName (stF s)) "worker" (tsIndex exPendingTask))
                 (wCluster (stW s)) = (inl ecNotFound, r)) by reflexivity.
  assert (H5 : IsNotFound ecNotFound = true) by reflexivity.
  assert (H6 : IsCompletingState (fsState st) = false) by reflexivity.
  assert (H7 : tsDeletionPending exPendingTask = false) by reflexivity.
  assert (H8 : GetTaskRoleSpec (fSpec (stF s)) "worker" = Some (exTaskRoleSpec "worker" 2 1 0))
    by reflexivity.
  assert (H9 : kClient_Pods_Create scController (fNamespace (stF s))
                 (NewPod (stF s) exConfigMap "worker" exPendingTask) r
               = (inr (scPodWithUID "pod-new" (NewPod (stF s) exConfigMap "worker" exPendingTask)),
                  scRequest (ReqCreate "default" "job-worker-0") r)) by reflexivity.
  assert (H10 : ObjectLocalCacheCreationTimeoutSec (cConfig scController) = Some 300)
    by reflexivity.
  destruct (created_pod_is_recorded scController s st exConfigMap "worker" 0 exPendingTask
              _ _ _ _ _ 300 H1 H2 H3 H4 H5 H6 H7 H8 H9 H10)
    as (ts' & Hrun & _ & _ & _ & Huid & Hinst & _ & Hstate & Htime & _).
  exists ts'. split; [|split; [exact Hstate|split; [exact Huid|exact Hinst]]].
  etrans; [exact Hrun|]. rewrite Htime. reflexivity.
Defined.

(** X12, example: the remote refuses to create the Pod of the worker; the
    sync returns the error of the creation and the task stays in creation
    pending. *)
Lemma refused_pod_creation_is_returned_witness :
  syncTaskState scController (Some exConfigMap) "worker" 0
    (exTaskState FrameworkAttemptRunning exPendingTask (scCluster 10 None None))
  = Some (Some (Err (ErrCreate ecRefused)),
          exTaskState FrameworkAttemptRunning exPendingTask
            (scRequest (ReqCreate "default" "job-worker-0") (scCluster 10 None None))).
Proof.
  pose (r := scCluster 10 None None).
  pose (s := exTaskState FrameworkAttemptRunning exPendingTask r).
  pose (st := exWorkerStatus FrameworkAttemptRunning exPendingTask).
  assert (H1 : fStatus (stF s) = Some st) by reflexivity.
  assert (H2 : GetTaskStatus st "worker" 0 = Some exPendingTask) by reflexivity.
  assert (H3 : tsState exPendingTask = TaskAttemptCreationPending) by reflexivity.
  assert (H4 : podLister_Get scController (fNamespace (stF s))
                 (GetPodName (fName (stF s)) "worker" (tsIndex exPendingTask))
                 (wCluster (stW s)) = (inl ecNotFound, r)) by reflexivity.
  assert (H5 : IsNotFound ecNotFound = true) by reflexivity.
  assert (H6 : IsCompletingState (fsState st) = false) by reflexivity.
  assert (H7 : tsDeletionPending exPendingTask = false) by reflexivity.
  assert (H8 : GetTaskRoleSpec (fSpec (stF s)) "worker" = Some (exTaskRoleSpec "worker" 2 1 0))
    by reflexivity.
  assert (H9 : kClient_Pods_Create scController (fNamespace (stF s))
                 (NewPod (stF s) exConfigMap "worker" exPendingTask) r
               = (inl ecRefused, scRequest (ReqCreate "default" "job-worker-0") r))
    by reflexivity.
  assert (H10 : IsPodSpecPermanentError ecRefused = false) by reflexivity.
  pose proof (refused_pod_creation_is_returned scController s st exConfigMap "worker" 0
                exPendingTask _ _ _ _ _ H1 H2 H3 H4 H5 H6 H7 H8 H9 H10) as Hx.
  cbv zeta in Hx. destruct Hx as (err & s' & Hrun & _).
  pose proof Hrun as Hc. vm_compute in Hc. injection Hc as <- <-.
  exact Hrun.
Defined.

(** X13, example: the remote rejects the spec of the Pod of the worker for
    good and does not know the Pod; the attempt is completed with the
    status of code PodSpecPermanentError. *)
Lemma permanent_pod_spec_error_completes_task_witness :
  exists ts',
    syncTaskState (HCI := scCI) scController (Some exConfigMap) "worker" 0
      (exTaskState FrameworkAttemptRunning exPendingTask
         (scCreating (inl scInvalid) (inl ecRefused) (scCluster 10 None None)))
    = Some (None,
            enqueued
              (putTask
                 (exTaskState FrameworkAttemptRunning exPendingTask
                    (scRequest (ReqPodsGet "default" "job-worker-0")
                       (scRequest (ReqCreate "default" "job-worker-0")
                          (scCreating (inl scInvalid) (inl ecRefused)
                             (scCluster 10 None None)))))
                 (exWorkerStatus FrameworkAttemptRunning exPendingTask) "worker" 0 ts'))
    /\ tsState ts' = TaskAttemptCompleted
    /\ (csCode ∘ tacsCompletionStatus) <$> tsCompletionStatus ts'
       = Some CompletionCodePodSpecPermanentError.
Proof.
  pose (r := scCreating (inl scInvalid) (inl ecRefused) (scCluster 10 None None)).
  pose (s := exTaskState FrameworkAttemptRunning exPendingTask r).
  pose (st := exWorkerStatus FrameworkAttemptRunning exPendingTask).
  assert (H1 : fStatus (stF s) = Some st) by reflexivity.
  assert (H2 : GetTaskStatus st "worker" 0 = Some exPendingTask) by reflexivity.
  assert (H3 : tsState exPendingTask = TaskAttemptCreationPending) by reflexivity.
  assert (H4 : podLister_Get scController (fNamespace (stF s))
                 (GetPodName (fName (stF s)) "worker" (tsIndex exPendingTask))
                 (wCluster (stW s)) = (inl ecNotFound, r)) by reflexivity.
  assert (H5 : IsNotFound ecNotFound = true) by reflexivity.
  assert (H6 : IsCompletingState (fsState st) = false) by reflexivity.
  assert (H7 : tsDeletionPending exPendingTask = false) by reflexivity.
  assert (H8 : GetTaskRoleSpec (fSpec (stF s)) "worker" = Some (exTaskRoleSpec "worker" 2 1 0))
    by reflexivity.
  assert (H9 : kClient_Pods_Create scController (fNamespace (stF s))
                 (NewPod (stF s) exConfigMap "worker" exPendingTask) r
               = (inl scInvalid, scRequest (ReqCreate "default" "job-worker-0") r))
    by reflexivity.
  assert (H10 : IsPodSpecPermanentError (CI := scCI) scInvalid = true) by reflexivity.
  assert (H11 : IsAlreadyExists scInvalid = false) by reflexivity.
  assert (H12 : kClient_Pods_Get scController (fNamespace (stF s))
                  (GetPodName (fName (stF s)) "worker" (tsIndex exPendingTask))
                  (scRequest (ReqCreate "default" "job-worker-0") r)
                = (inl ecNotFound,
                   scRequest (ReqPodsGet "default" "job-worker-0")
                     (scRequest (ReqCreate "default" "job-worker-0") r))) by reflexivity.
  pose proof (permanent_pod_spec_error_completes_task (HCI := scCI) scController s st
                exConfigMap "worker" 0 exPendingTask _ _ _ _ _ _ _
                H1 H2 H3 H4 H5 H6 H7 H8 H9 H10 H11 H12 H5) as Hx.
  cbv zeta in Hx. destruct Hx as (ts' & Hrun & _ & Hstate & _ & Hcs & _).
  exists ts'. split; [exact Hrun|]. split; [exact Hstate|].
  rewrite Hcs. reflexivity.
Defined.

(** X14, example: the Framework completed at the instant 0 and is retained
    for 2592000 seconds.  At the instant 10 a check is enqueued for the
    time that is left; at the instant 3000000 the Framework is deleted in
    the foreground and the deletion is confirmed. *)
Lemma completed_framework_is_deleted_after_retain_witness :
  syncFrameworkState scController
    (exFrameworkState ExecutionStart exCompletedStatus (scCluster 10 None None))
  = Some (None,
          enqueuedAfter
            (exFrameworkState ExecutionStart exCompletedStatus (scCluster 10 None None))
            2591990)
  /\ syncFrameworkState scController
       (exFrameworkState ExecutionStart exCompletedStatus (scCluster 3000000 None None))
     = Some (None,
             exFrameworkState ExecutionStart exCompletedStatus
               (scRequest (ReqFrameworksGet "default" "job")
                  (scRequest (ReqFrameworksDelete "default" "job"
                                {| doPreconditionUID := "f-uid";
                                   doGracePeriodSeconds := None; doForeground := true |})
                     (scCluster 3000000 None None)))).
Proof.
  assert (H2 : fsState exCompletedStatus = FrameworkCompleted) by reflexivity.
  assert (H3 : FrameworkCompletedRetainSec (cConfig scController) = Some 2592000)
    by reflexivity.
  split.
  - pose (s := exFrameworkState ExecutionStart exCompletedStatus (scCluster 10 None None)).
    assert (H1 : fStatus (stF s) = Some exCompletedStatus) by reflexivity.
    pose proof (completed_framework_is_deleted_after_retain scController s _ 2592000
                  H1 H2 H3) as Hx.
    cbv zeta in Hx. etrans; [exact Hx|reflexivity].
  - pose (s := exFrameworkState ExecutionStart exCompletedStatus
                 (scCluster 3000000 None None)).
    assert (H1 : fStatus (stF s) = Some exCompletedStatus) by reflexivity.
    pose proof (completed_framework_is_deleted_after_retain scController s _ 2592000
                  H1 H2 H3) as Hx.
    cbv zeta in Hx. etrans; [exact Hx|reflexivity].
Defined.

(** X15, example: the ConfigMap of a running Framework is not in the local
    cache any more; the attempt is completed with the status of code
    ConfigMapExternalDeleted and the worker is completed with it. *)
Lemma configmap_deleted_by_others_completes_attempt_witness :
  exists s' st',
    syncFrameworkState scController
      (exFrameworkState ExecutionStart
         (exWorkerStatus FrameworkAttemptRunning exRunningTask) (scCluster 10 None None))
    = Some (None, s')
    /\ fStatus (stF s') = Some st'
    /\ fsState st' = FrameworkAttemptCompleted
    /\ (csCode ∘ facsCompletionStatus) <$> faCompletionStatus (fsAttemptStatus st')
       = Some CompletionCodeConfigMapExternalDeleted
    /\ Forall (fun ts => tsState ts = TaskCompleted) (allTasks st').
Proof.
  pose (st := exWorkerStatus FrameworkAttemptRunning exRunningTask).
  pose (s := exFrameworkState ExecutionStart st (scCluster 10 None None)).
  assert (H1 : fStatus (stF s) = Some st) by reflexivity.
  assert (H2 : WellIndexed st) by exact (bool_decide_unpack (WellIndexed st) I).
  assert (H3 : fsState st = FrameworkAttemptPreparing \/ fsState st = FrameworkAttemptRunning
               \/ fsState st = FrameworkAttemptDeletionPending
               \/ fsState st = FrameworkAttemptDeletionRequested
               \/ fsState st = FrameworkAttemptDeleting) by (right; left; reflexivity).
  assert (H4 : cmLister_Get scController (fNamespace (stF s)) (ConfigMapName (stF s))
                 (wCluster (stW s)) = (inl ecNotFound, wCluster (stW s))) by reflexivity.
  assert (H5 : IsNotFound ecNotFound = true) by reflexivity.
  destruct (configmap_deleted_by_others_completes_attempt scController s st _ _
              H1 H2 H3 H4 H5)
    as (s' & st' & Hrun & Hst' & _ & Hstate & _ & Hcs & _ & Htasks).
  exists s', st'. split; [exact Hrun|]. split; [exact Hst'|]. split; [exact Hstate|].
  split; [|exact Htasks]. rewrite Hcs. reflexivity.
Defined.

(** X16, example: the ConfigMap of the attempt was requested at the instant
    0 and is not in the local cache at the instant 1000, past the timeout
    of 300 seconds; it is deleted, the deletion is confirmed, and the
    attempt is completed with the status of code ConfigMapCreationTimeout. *)
Lemma configmap_creation_timeout_completes_attempt_witness :
  exists s' st',
    syncFrameworkState scController
      (exFrameworkState ExecutionStart
         (exWorkerStatus FrameworkAttemptCreationRequested exPendingTask)
         (scCluster 1000 None None))
    = Some (None, s')
    /\ fStatus (stF s') = Some st'
    /\ scLog (wCluster (stW s'))
       = [ReqConfigMapsGet "default" "job-attempt";
          ReqConfigMapsDelete "default" "job-attempt"
            {| doPreconditionUID := "cm-uid"; doGracePeriodSeconds := None;
               doForeground := false |}]
    /\ fsState st' = FrameworkAttemptCompleted
    /\ (csCode ∘ facsCompletionStatus) <$> faCompletionStatus (fsAttemptStatus st')
       = Some CompletionCodeConfigMapCreationTimeout.
Proof.
  pose (st := exWorkerStatus FrameworkAttemptCreationRequested exPendingTask).
  pose (s := exFrameworkState ExecutionStart st (scCluster 1000 None None)).
  assert (H1 : fStatus (stF s) = Some st) by reflexivity.
  assert (H2 : WellIndexed st) by exact (bool_decide_unpack (WellIndexed st) I).
  assert (H3 : fsState st = FrameworkAttemptCreationRequested) by reflexivity.
  assert (H4 : cmLister_Get scController (fNamespace (stF s)) (ConfigMapName (stF s))
                 (wCluster (stW s)) = (inl ecNotFound, wCluster (stW s))) by reflexivity.
  assert (H5 : IsNotFound ecNotFound = true) by reflexivity.
  assert (H6 : faConfigMapUID (fsAttemptStatus st) = Some "cm-uid") by reflexivity.
  assert (H7 : ObjectLocalCacheCreationTimeoutSec (cConfig scController) = Some 300)
    by reflexivity.
  pose proof (configmap_creation_timeout_completes_attempt scController s st _ _ _ 300
                H1 H2 H3 H4 H5 H6 H7) as Hx.
  cbv zeta in Hx. destruct Hx as [_ Hx].
  assert (H8 : bool_decide (spExecutionType (fSpec (stF s)) = ExecutionStop) = true
               \/ fsTransitionTime st + 300 - clockNow scController (wCluster (stW s)) ≤ 0)
    by (right; vm_compute; discriminate).
  destruct (proj2 (Hx H8) eq_refl)
    as (s' & st' & Hrun & Hst' & Hr & Hstate & Hcs & _).
  exists s', st'. split; [exact Hrun|]. split; [exact Hst'|].
  split; [rewrite Hr; reflexivity|]. split; [exact Hstate|].
  rewrite Hcs. reflexivity.
Defined.

(** X17, example: the attempt failed and the decision is not to retry; the
    Framework is completed as of now and a check is enqueued for the
    2592000 seconds it is retained. *)
Lemma framework_completes_when_not_retried_witness :
  exists st',
    syncFrameworkState scController
      (exFrameworkState ExecutionStart (exAttemptCompletedStatus None)
         (scCluster 10 None None))
    = Some (None,
            enqueuedAfter
              (setStatus
                 (exFrameworkState ExecutionStart (exAttemptCompletedStatus None)
                    (scCluster 10 None None)) st')
              2592000)
    /\ fsState st' = FrameworkCompleted
    /\ fsTransitionTime st' = 10.
Proof.
  pose (st := exAttemptCompletedStatus None).
  pose (s := exFrameworkState ExecutionStart st (scCluster 10 None None)).
  assert (H1 : fStatus (stF s) = Some st) by reflexivity.
  assert (H2 : fsState st = FrameworkAttemptCompleted) by reflexivity.
  assert (H3 : faCompletionStatus (fsAttemptStatus st) = Some exAttemptCompletion)
    by reflexivity.
  assert (H4 : FrameworkMinRetryDelaySecForTransientConflictFailed (cConfig scController)
               = Some 60) by reflexivity.
  assert (H5 : FrameworkMaxRetryDelaySecForTransientConflictFailed (cConfig scController)
               = Some 900) by reflexivity.
  assert (H6 : RetryPolicy_ShouldRetry scController (spRetryPolicy (fSpec (stF s)))
                 (fsRetryPolicyStatus st) (facsCompletionStatus exAttemptCompletion)
                 60 900 (wCluster (stW s)) = (scNoRetry, wCluster (stW s))) by reflexivity.
  assert (H7 : RetryDelaySec (fsRetryPolicyStatus st) = None) by reflexivity.
  assert (H8 : ShouldRetry scNoRetry = false) by reflexivity.
  assert (H9 : FrameworkCompletedRetainSec (cConfig scController) = Some 2592000)
    by reflexivity.
  destruct (framework_completes_when_not_retried scController s st _ _ _ _ _ 2592000
              H1 H2 H3 H4 H5 H6 H7 H8 H9)
    as (st' & Hrun & Hstate & Htime & _).
  exists st'. split; [|split; [exact Hstate|exact Htime]].
  etrans; [exact Hrun|]. rewrite Htime. reflexivity.
Defined.

(** X18, example: the attempt failed and the decision is to retry after
    60 seconds; at the instant 10 the Framework stays in attempt completed,
    records the delay, and a check is enqueued for the 50 seconds that are
    left. *)
Lemma framework_retry_waits_for_delay_witness :
  exists st',
    syncFrameworkState scController
      (exFrameworkState ExecutionStart (exAttemptCompletedStatus None)
         (scRetrying (scRetryAfter 60) (scCluster 10 None None)))
    = Some (None,
            enqueuedAfter
              (setStatus
                 (exFrameworkState ExecutionStart (exAttemptCompletedStatus None)
                    (scRetrying (scRetryAfter 60) (scCluster 10 None None))) st')
              50)
    /\ fsState st' = FrameworkAttemptCompleted
    /\ RetryDelaySec (fsRetryPolicyStatus st') = Some 60.
Proof.
  pose (st := exAttemptCompletedStatus None).
  pose (s := exFrameworkState ExecutionStart st
               (scRetrying (scRetryAfter 60) (scCluster 10 None None))).
  assert (H1 : fStatus (stF s) = Some st) by reflexivity.
  assert (H2 : fsState st = FrameworkAttemptCompleted) by reflexivity.
  assert (H3 : faCompletionStatus (fsAttemptStatus st) = Some exAttemptCompletion)
    by reflexivity.
  assert (H4 : FrameworkMinRetryDelaySecForTransientConflictFailed (cConfig scController)
               = Some 60) by reflexivity.
  assert (H5 : FrameworkMaxRetryDelaySecForTransientConflictFailed (cConfig scController)
               = Some 900) by reflexivity.
  assert (H6 : RetryPolicy_ShouldRetry scController (spRetryPolicy (fSpec (stF s)))
                 (fsRetryPolicyStatus st) (facsCompletionStatus exAttemptCompletion)
                 60 900 (wCluster (stW s)) = (scRetryAfter 60, wCluster (stW s)))
    by reflexivity.
  assert (H7 : scheduledRetryDelay (fsRetryPolicyStatus st) (scRetryAfter 60) = Some 60)
    by reflexivity.
  assert (H8 : spExecutionType (fSpec (stF s)) <> ExecutionStop) by discriminate.
  assert (H9 : 0 < fsTransitionTime st + 60 - clockNow scController (wCluster (stW s)))
    by reflexivity.
  destruct (framework_retry_waits_for_delay scController s st _ _ _ _ _ 60
              H1 H2 H3 H4 H5 H6 H7 H8 H9)
    as (st' & Hrun & Hstate & _ & _ & Hdelay & _).
  exists st'. split; [exact Hrun|]. split; [exact Hstate|exact Hdelay].
Defined.

(** X19, example: the remote creates the ConfigMap of the attempt with the
    UID cm-new; the status records it and is in creation requested, and a
    check is enqueued for the 300 seconds of the timeout. *)
Lemma created_configmap_is_recorded_witness :
  exists st',
    syncFrameworkState scController
      (exFrameworkState ExecutionStart exCreationPendingStatus
         (scCreating (inl ecRefused) (inr "cm-new") (scCluster 10 None None)))
    = Some (None,
            enqueuedAfter
              (setStatus
                 (exFrameworkState ExecutionStart exCreationPendingStatus
                    (scRequest (ReqCreate "default" "job-attempt")
                       (scCreating (inl ecRefused) (inr "cm-new") (scCluster 10 None None))))
                 st')
              300)
    /\ fsState st' = FrameworkAttemptCreationRequested
    /\ faConfigMapUID (fsAttemptStatus st') = Some "cm-new"
    /\ faInstanceUID (fsAttemptStatus st') = Some (0, "cm-new").
Proof.
  pose (st := exCreationPendingStatus).
  pose (r := scCreating (inl ecRefused) (inr "cm-new") (scCluster 10 None None)).
  pose (s := exFrameworkState ExecutionStart st r).
  assert (H1 : fStatus (stF s) = Some st) by reflexivity.
  assert (H2 : fsState st = FrameworkAttemptCreationPending) by reflexivity.
  assert (H3 : cmLister_Get scController (fNamespace (stF s)) (ConfigMapName (stF s))
                 (wCluster (stW s)) = (inl ecNotFound, r)) by reflexivity.
  assert (H4 : IsNotFound ecNotFound = true) by reflexivity.
  assert (H5 : fDeletionTimestamp (stF s) = None) by reflexivity.
  assert (H6 : spExecutionType (fSpec (stF s)) <> ExecutionStop) by discriminate.
  assert (H7 : kClient_ConfigMaps_Create scController (fNamespace (stF s))
                 (NewConfigMap (stF s)) r
               = (inr (scConfigMapWithUID "cm-new" (NewConfigMap (stF s))),
                  scRequest (ReqCreate "default" "job-attempt") r)) by reflexivity.
  assert (H8 : ObjectLocalCacheCreationTimeoutSec (cConfig scController) = Some 300)
    by reflexivity.
  destruct (created_configmap_is_recorded scController s st _ _ _ _ 300
              H1 H2 H3 H4 H5 H6 H7 H8)
    as (st' & Hrun & _ & _ & Huid & Hinst & _ & Hstate & Htime & _).
  exists st'. split; [|split; [exact Hstate|split; [exact Huid|exact Hinst]]].
  etrans; [exact Hrun|]. rewrite Htime. reflexivity.
Defined.

(** X20, example: no ConfigMap is created for the Framework the user is
    deleting, although the remote would create it; and for the Framework
    the user stopped, the attempt is completed with the status of code
    StopFrameworkRequested after the remote confirmed that there is no
    ConfigMap. *)
Lemma no_configmap_created_when_deleting_or_stopped_witness :
  syncFrameworkState scController
    (scState exDeletingFramework
       (scCreating (inl ecRefused) (inr "cm-new") (scCluster 10 None None)))
  = Some (None,
          scState exDeletingFramework
            (scCreating (inl ecRefused) (inr "cm-new") (scCluster 10 None None)))
  /\ exists s' st',
       syncFrameworkState scController
         (exFrameworkState ExecutionStop exCreationPendingStatus
            (scCreating (inl ecRefused) (inr "cm-new") (scCluster 10 None None)))
       = Some (None, s')
       /\ fStatus (stF s') = Some st'
       /\ scLog (wCluster (stW s')) = [ReqConfigMapsGet "default" "job-attempt"]
       /\ fsState st' = FrameworkAttemptCompleted
       /\ (csCode ∘ facsCompletionStatus) <$> faCompletionStatus (fsAttemptStatus st')
          = Some CompletionCodeStopFrameworkRequested.
Proof.
  pose (st := exCreationPendingStatus).
  pose (r := scCreating (inl ecRefused) (inr "cm-new") (scCluster 10 None None)).
  assert (H2 : WellIndexed st) by exact (bool_decide_unpack (WellIndexed st) I).
  assert (H3 : fsState st = FrameworkAttemptCreationPending) by reflexivity.
  assert (H5 : IsNotFound ecNotFound = true) by reflexivity.
  split.
  - pose (s := scState exDeletingFramework r).
    assert (H1 : fStatus (stF s) = Some st) by reflexivity.
    assert (H4 : cmLister_Get scController (fNamespace (stF s)) (ConfigMapName (stF s))
                   (wCluster (stW s)) = (inl ecNotFound, r)) by reflexivity.
    pose proof (no_configmap_created_when_deleting_or_stopped scController s st _ _
                  H1 H2 H3 H4 H5) as Hx.
    cbv zeta in Hx. apply (proj1 Hx). by eexists.
  - pose (s := exFrameworkState ExecutionStop st r).
    assert (H1 : fStatus (stF s) = Some st) by reflexivity.
    assert (H4 : cmLister_Get scController (fNamespace (stF s)) (ConfigMapName (stF s))
                   (wCluster (stW s)) = (inl ecNotFound, r)) by reflexivity.
    pose proof (no_configmap_created_when_deleting_or_stopped scController s st _ _
                  H1 H2 H3 H4 H5) as Hx.
    cbv zeta in Hx. destruct Hx as [_ Hx].
    assert (H6 : kClient_ConfigMaps_Get scController (fNamespace (stF s))
                   (ConfigMapName (stF s)) r
                 = (inl ecNotFound, scRequest (ReqConfigMapsGet "default" "job-attempt") r))
      by reflexivity.
    destruct (Hx _ _ eq_refl eq_refl H6 H5)
      as (s' & st' & Hrun & Hst' & Hr & Hstate & Hcs & _).
    exists s', st'. split; [exact Hrun|]. split; [exact Hst'|].
    split; [rewrite Hr; reflexivity|]. split; [exact Hstate|].
    rewrite Hcs. reflexivity.
Defined.

Lemma scCommon_PointerHelpers : PointerHelpers.
Proof. by split. Qed.

(** X21, example: the spec gives the workers 30 seconds; the status, which
    records no timeout, gets the one of the workers, the role the spec does
    not name keeps what it has, and a second update changes nothing. *)
Lemma updatePodGracefulDeletionTimeoutSec_syncs_timeouts_witness :
  exists st',
    updatePodGracefulDeletionTimeoutSec scController exTimeoutState
      = Some (true, setStatus exTimeoutState st')
    /\ (fun trs => (trName trs, trPodGracefulDeletionTimeoutSec trs))
         <$> TaskRoleStatuses st'
       = [("worker", Some 30); ("old", None)]
    /\ updatePodGracefulDeletionTimeoutSec scController (setStatus exTimeoutState st')
       = Some (false, setStatus exTimeoutState st').
Proof.
  pose (s := exTimeoutState).
  assert (H1 : fStatus (stF s) = Some exUnscaledStatus) by reflexivity.
  assert (H2 : NoDup (rsName <$> spTaskRoles (fSpec (stF s))))
    by exact (bool_decide_unpack (NoDup (rsName <$> spTaskRoles (fSpec (stF s)))) I).
  assert (H3 : NoDup (trName <$> TaskRoleStatuses exUnscaledStatus))
    by exact (bool_decide_unpack (NoDup (trName <$> TaskRoleStatuses exUnscaledStatus)) I).
  destruct (updatePodGracefulDeletionTimeoutSec_syncs_timeouts scController s _
              H1 scCommon_PointerHelpers H2 H3)
    as (changed & st' & Hrun & _ & _ & _ & _ & Hagain).
  pose proof Hrun as Hc. vm_compute in Hc. injection Hc as Hst' Hch.
  subst changed st'.
  eexists. split; [exact Hrun|]. split; [vm_compute; reflexivity|exact Hagain].
Defined.

Lemma exCompactStatus_Int32Sized : Int32Sized exCompactStatus.
Proof.
  intros trs Hin. repeat (apply elem_of_cons in Hin as [->|Hin]); [by vm_compute..|].
  by apply elem_of_nil in Hin.
Qed.

(** X22, example: the role the spec does not name is deleted with its only
    task; of the workers the third is deleted and the first is replaced by
    a new task in creation pending; a new task was produced. *)
Lemma compactFrameworkScale_is_rolewise_witness :
  exists st',
    compactFrameworkScale scController exCompactState
      = Some (true, setStatus exCompactState st')
    /\ (fun trs => (trName trs, tsState <$> trTaskStatuses trs)) <$> TaskRoleStatuses st'
       = [("worker", [TaskAttemptCreationPending; TaskAttemptRunning])].
Proof.
  pose (s := exCompactState).
  assert (H1 : fStatus (stF s) = Some exCompactStatus) by reflexivity.
  assert (H2 : forall rs, rs ∈ spTaskRoles (fSpec (stF s)) -> 0 ≤ rsTaskNumber rs).
  { intros rs Hin. apply (proj2 exRoles_SpecWellFormed rs Hin). }
  pose proof (compactFrameworkScale_is_rolewise scController s _ H1 H2
                exCompactStatus_Int32Sized) as Hx.
  cbv zeta in Hx. destruct Hx as (produced & st' & Hrun & _).
  pose proof Hrun as Hc. vm_compute in Hc. injection Hc as Hst' Hp.
  subst produced st'.
  eexists. split; [exact Hrun|]. vm_compute. reflexivity.
Defined.

(** X23, example: the running worker is kept, at its position in its
    role. *)
Lemma compactFrameworkScale_keeps_live_tasks_witness :
  exists produced st' trs',
    compactFrameworkScale scController exCompactState
      = Some (produced, setStatus exCompactState st')
    /\ trs' ∈ TaskRoleStatuses st'
    /\ trName trs' = "worker"
    /\ trTaskStatuses trs' !! 1%nat
       = Some (exTask 1 TaskAttemptRunning None false (Some "pod-w-1") None).
Proof.
  pose (s := exCompactState).
  pose (live := exTask 1 TaskAttemptRunning None false (Some "pod-w-1") None).
  pose (workers := exRole "worker" [exStaleTask 0; live; exStaleTask 2]).
  assert (H1 : fStatus (stF s) = Some exCompactStatus) by reflexivity.
  assert (H2 : IsCompletingState (fsState exCompactStatus) = false) by reflexivity.
  assert (H3 : fsState exCompactStatus <> FrameworkAttemptCompleted) by discriminate.
  assert (H4 : fsState exCompactStatus <> FrameworkCompleted) by discriminate.
  assert (H5 : forall rs, rs ∈ spTaskRoles (fSpec (stF s)) -> 0 ≤ rsTaskNumber rs).
  { intros rs Hin. apply (proj2 exRoles_SpecWellFormed rs Hin). }
  pose proof (compactFrameworkScale_keeps_live_tasks scController s _ H1 H2 H3 H4 H5
                exCompactStatus_Int32Sized) as Hx.
  cbv zeta in Hx. destruct Hx as (produced & st' & Hrun & Hkept & _).
  assert (H6 : workers ∈ TaskRoleStatuses exCompactStatus) by (apply elem_of_cons; left; reflexivity).
  assert (H7 : trTaskStatuses workers !! 1%nat = Some live) by reflexivity.
  assert (H8 : stale live = false) by reflexivity.
  destruct (Hkept workers 1%nat live H6 H7 H8) as (trs' & Hin & Hname & Hlive).
  exists produced, st', trs'. split; [exact Hrun|]. split; [exact Hin|].
  split; [exact Hname|exact Hlive].
Defined.

(** X24, example: a Framework without a status gets the status it starts
    with and is enqueued; nothing else is done in this sync. *)
Lemma syncFrameworkStatus_persists_before_acting_witness :
  syncFrameworkStatus scController
    (scState (exFramework (exSpec ExecutionStart exRoles) None) (scCluster 10 None None))
  = Some (None,
          enqueued
            (setStatus
               (scState (exFramework (exSpec ExecutionStart exRoles) None)
                  (scCluster 10 None None))
               (NewFrameworkStatus (exFramework (exSpec ExecutionStart exRoles) None) 10))).
Proof.
  exact (proj1 (syncFrameworkStatus_persists_before_acting scController
                  (scState (exFramework (exSpec ExecutionStart exRoles) None)
                     (scCluster 10 None None))) eq_refl).
Defined.

(** X25, example: the compacted status has distinct role names and every
    task at the position of its index, and none of the tasks it keeps
    within the task number is completed and deletion pending. *)
Lemma compactFrameworkScale_keeps_invariants_witness :
  exists produced st',
    compactFrameworkScale scController exCompactState
      = Some (produced, setStatus exCompactState st')
    /\ Int32Sized st'
    /\ WellIndexed st'
    /\ (forall trs' rs j ts',
          trs' ∈ TaskRoleStatuses st' ->
          GetTaskRoleSpec (exSpec ExecutionStart exRoles) (trName trs') = Some rs ->
          trTaskStatuses trs' !! j = Some ts' -> Z.of_nat j < rsTaskNumber rs ->
          stale ts' = false).
Proof.
  pose (s := exCompactState).
  assert (H1 : fStatus (stF s) = Some exCompactStatus) by reflexivity.
  assert (H2 : IsCompletingState (fsState exCompactStatus) = false) by reflexivity.
  assert (H3 : fsState exCompactStatus <> FrameworkAttemptCompleted) by discriminate.
  assert (H4 : fsState exCompactStatus <> FrameworkCompleted) by discriminate.
  pose proof (compactFrameworkScale_keeps_invariants scController s _ H1 H2 H3 H4
                exRoles_SpecWellFormed exCompactStatus_Int32Sized) as Hx.
  cbv zeta in Hx. destruct Hx as (produced & st' & Hrun & Hsized & Hidx & _ & Hlive).
  assert (H5 : WellIndexed exCompactStatus)
    by exact (bool_decide_unpack (WellIndexed exCompactStatus) I).
  exists produced, st'. split; [exact Hrun|]. split; [exact Hsized|].
  split; [exact (Hidx H5)|exact Hlive].
Defined.

(** * Examples on the cluster with the Frameworks *)

#[local] Existing Instance pcPersistence.

(** X26, example: the sync of a running Framework whose status lacks a
    worker and the parameter server returns; the spec and the UID are as
    before and the queue holds the key of the Framework only. *)
Lemma syncFrameworkStatus_changes_status_only_witness :
  exists err s',
    syncFrameworkStatus scController
      (exTaskState FrameworkAttemptRunning exRunningTask (scCluster 10 None None))
    = Some (err, s')
    /\ fSpec (stF s') = exSpec ExecutionStart exRoles
    /\ fUID (stF s') = "f-uid"
    /\ wQueue (stW s') <> []
    /\ Forall (fun op => queueKey op = "default/job") (wQueue (stW s')).
Proof.
  pose (s := exTaskState FrameworkAttemptRunning exRunningTask (scCluster 10 None None)).
  assert (Hrun : exists err s', syncFrameworkStatus scController s = Some (err, s'))
    by (vm_compute; eauto).
  destruct Hrun as (err & s' & Hrun).
  destruct (syncFrameworkStatus_changes_status_only scController s err s' Hrun)
    as (_ & _ & Huid & _ & Hspec & ops & Hq & Hops).
  exists err, s'. split; [exact Hrun|]. split; [exact Hspec|]. split; [exact Huid|].
  split.
  - pose proof Hrun as Hc. vm_compute in Hc. injection Hc as _ <-. discriminate.
  - rewrite Hq. change (wQueue (stW s)) with (@nil QueueOp). rewrite app_nil_r. exact Hops.
Defined.

Lemma pcPersistence_Compress f : SameFramework f (Compress f).1.
Proof. done. Qed.

Lemma pcPersistence_Decompress f : SameFramework f (Decompress f).1.
Proof. done. Qed.

(** X27, example: a Framework without status that the controller sees for
    the first time; the sync of its key returns without error and the
    store holds for it an expected info of its UID that is synced with
    the remote. *)
Lemma syncFramework_nil_means_remote_synced_witness :
  exists u' info,
    syncFramework pcClients pcController "default/job"
      (pcState 10 [exNewFramework] [] ∅)
    = Some (None, u')
    /\ fExpectedStatusInfos u' !! "default/job" = Some info
    /\ esUID info = "f-uid"
    /\ esRemoteSynced info = true.
Proof.
  pose (u := pcState 10 [exNewFramework] [] ∅).
  assert (Hrun : exists u', syncFramework pcClients pcController "default/job" u
                            = Some (None, u')) by (vm_compute; eauto).
  destruct Hrun as (u' & Hrun).
  pose proof (syncFramework_nil_means_remote_synced pcClients pcController "default/job"
                u None u' pcPersistence_Compress pcPersistence_Decompress Hrun) as Hx.
  cbv zeta in Hx.
  destruct Hx as ((info & Hinfo & Huid & Hsynced) & _).
  exists u', info. split; [exact Hrun|]. split; [exact Hinfo|]. split; [exact Huid|].
  exact (Hsynced eq_refl).
Defined.

(** X28, example: the store expects the running worker; whether the local
    cache holds the Framework with that status or with an outdated one,
    in which the Pod of the worker is only requested, the sync of the key
    is the same. *)
Lemma syncFramework_ignores_cached_status_witness :
  syncFramework pcClients pcController "default/job"
    (pcState 10 [exCachedFramework exRunningTask; exCachedFramework exRunningTask] []
       {["default/job" := exExpected true]})
  = syncFramework pcClients pcController "default/job"
      (pcState 10 [exCachedFramework exRequestedTask; exCachedFramework exRunningTask] []
         {["default/job" := exExpected true]}).
Proof.
  pose (store := {["default/job" := exExpected true]}
                 : gmap string ExpectedFrameworkStatusInfo).
  pose (u1 := pcState 10 [exCachedFramework exRunningTask; exCachedFramework exRunningTask]
                [] store).
  pose (u2 := pcState 10 [exCachedFramework exRequestedTask; exCachedFramework exRunningTask]
                [] store).
  pose (r := wCluster (ctlW (pcState 10 [exCachedFramework exRunningTask] [] store))).
  assert (H1 : fLister_Get pcClients (SplitFrameworkKey "default/job").1
                 (SplitFrameworkKey "default/job").2 (wCluster (ctlW u1))
               = (inr (exCachedFramework exRunningTask), r)) by reflexivity.
  assert (H2 : fLister_Get pcClients (SplitFrameworkKey "default/job").1
                 (SplitFrameworkKey "default/job").2 (wCluster (ctlW u2))
               = (inr (exCachedFramework exRequestedTask), r)) by reflexivity.
  assert (H3 : wQueue (ctlW u1) = wQueue (ctlW u2)) by reflexivity.
  assert (H4 : fExpectedStatusInfos u1 = fExpectedStatusInfos u2) by reflexivity.
  assert (H5 : SameFramework (exCachedFramework exRunningTask)
                 (exCachedFramework exRequestedTask)) by reflexivity.
  assert (H6 : fExpectedStatusInfos u1 !! Key (exCachedFramework exRunningTask)
               = Some (exExpected true)) by (by vm_compute).
  assert (H7 : esUID (exExpected true) = fUID (exCachedFramework exRunningTask))
    by reflexivity.
  exact (proj1 (syncFramework_ignores_cached_status pcClients pcController "default/job"
                  u1 u2 _ _ r (exExpected true) H1 H2 H3 H4 H5 H6 H7)).
Defined.

(** X30, example: the sync of the Framework without status gives it the
    status a Framework starts with; the remote is asked to update the
    Framework with that status, and the store holds it as the expected
    status, synced. *)
Lemma syncFramework_records_status_the_sync_left_witness :
  exists u' info,
    syncFramework pcClients pcController "default/job"
      (pcState 10 [exNewFramework] [] ∅)
    = Some (None, u')
    /\ fExpectedStatusInfos u' = {["default/job" := info]}
    /\ esStatus info = Some (NewFrameworkStatus exNewFramework 10)
    /\ esRemoteSynced info = true
    /\ pcUpdated (wCluster (ctlW u'))
       = [withStatus exNewFramework (NewFrameworkStatus exNewFramework 10)].
Proof.
  pose (u := pcState 10 [exNewFramework] [] ∅).
  pose (r := wCluster (ctlW u)).
  assert (H1 : fLister_Get pcClients (SplitFrameworkKey "default/job").1
                 (SplitFrameworkKey "default/job").2 (wCluster (ctlW u))
               = (inr exNewFramework, r)) by reflexivity.
  assert (H2 : remoteOutdated (fExpectedStatusInfos u) exNewFramework = false)
    by reflexivity.
  assert (H3 : LargeFrameworkCompression pcClients = Some false) by reflexivity.
  assert (H4 : Decompress (workingCopy (fExpectedStatusInfos u) exNewFramework)
               = (workingCopy (fExpectedStatusInfos u) exNewFramework, None))
    by reflexivity.
  assert (H5 : exists syncErr s1,
            syncFrameworkStatus pcController
              {| stF := workingCopy (fExpectedStatusInfos u) exNewFramework;
                 stW := worldOf r (wQueue (ctlW u)) |} = Some (syncErr, s1))
    by (vm_compute; eauto).
  destruct H5 as (syncErr & s1 & H5).
  pose proof (syncFramework_records_status_the_sync_left pcClients pcController
                "default/job" u exNewFramework r syncErr s1 H1 H2 H3 H4 H5) as Hx.
  cbv zeta in Hx.
  destruct Hx as (err & u' & info & Hrun & Hstore & Hstatus & _ & _ & Hchanged).
  pose proof H5 as Hc. vm_compute in Hc. injection Hc as <- <-.
  assert (Hne : fStatus (stF {| stF := withStatus exNewFramework
                                         (NewFrameworkStatus exNewFramework 10);
                                stW := worldOf r [QueueAdd "default/job"] |})
                <> fStatus (workingCopy (fExpectedStatusInfos u) exNewFramework))
    by discriminate.
  destruct (Hchanged Hne) as (updateErr & _ & Hflag & _).
  pose proof Hrun as Hc. vm_compute in Hc. injection Hc as Hu He.
  subst err u'.
  assert (Hnil : updateErr = None).
  { destruct updateErr; [|done]. apply (f_equal (lookup "default/job")) in Hstore.
    vm_compute in Hstore. injection Hstore as <-. discriminate. }
  subst updateErr.
  eexists _, info. split; [exact Hrun|]. split; [exact Hstore|].
  split; [exact Hstatus|]. split; [exact Hflag|].
  vm_compute. reflexivity.
Defined.
